(** * The 3MF reader and writer of libslic3r (src/libslic3r/Format/3mf.cpp)

    A shallow embedding of the importer ([_3MF_Importer]) and of the
    exporter ([_3MF_Exporter]), and the properties of the format
    description that can be settled on it.

    Conventions of the embedding.
    - [int] and [unsigned int] values are integers in [Z]; a conversion to
      [unsigned int] is written [to_unsigned] (reduction modulo 2^32), one
      to [size_t] is [to_size_t].
    - A [const char*] is the [string] of the characters before its
      terminator, so [strcmp(a, b) == 0] is equality of strings.
    - [std::map<int, V>] is [gmap Z V]; [std::map::insert], which keeps an
      existing entry, is [map_insert_new]; loops over a map visit the keys
      in increasing order ([map_in_order]).
    - [std::vector] is [list]; [operator[]] outside the bounds has no
      defined behaviour and is the outcome [Undefined].
    - Code that raises or returns is in the monad [M]: a call returns a
      value, or raises a C++ exception, or has no defined behaviour, and
      the state of the object reached so far is kept in the first two.
    - Binary floating point, Eigen, the scene model of [Model.hpp], the
      print configuration, expat and miniz are not part of the file under
      study: their operations are the fields of the class [Externals].
      [Exact.externals] is an instance over the rationals on which the
      embedding can be run. *)

From Stdlib Require Import Ascii QArith Qcanon.
From stdpp Require Import gmap strings list sorting numbers pretty.

Open Scope string_scope.
Open Scope list_scope.
Open Scope Z_scope.

(** ** The C library and boost string functions used by the file *)

Definition is_space (c : ascii) : bool :=
  match c with
  | " "%char | "009"%char | "010"%char | "011"%char | "012"%char | "013"%char => true
  | _ => false
  end.

Definition digit_value (c : ascii) : option Z :=
  let n := Z.of_N (Ascii.N_of_ascii c) in
  if (48 <=? n) && (n <=? 57) then Some (n - 48) else None.

Fixpoint skip_spaces (s : string) : string :=
  match s with
  | String c s' => if is_space c then skip_spaces s' else s
  | EmptyString => s
  end.

Fixpoint digits_value (acc : Z) (s : string) : Z :=
  match s with
  | String c s' =>
      match digit_value c with
      | Some d => digits_value (10 * acc + d) s'
      | None => acc
      end
  | EmptyString => acc
  end.

(** [::atoi]: leading white space, an optional sign, then the longest run
    of decimal digits; 0 when there is none.  The C function is undefined
    when the value does not fit [int]; the embedding keeps the number. *)
Definition atoi (s : string) : Z :=
  match skip_spaces s with
  | String "-"%char s' => - digits_value 0 s'
  | String "+"%char s' => digits_value 0 s'
  | s' => digits_value 0 s'
  end.

Definition to_unsigned (z : Z) : Z := z mod 2 ^ 32.
Definition to_size_t (z : Z) : Z := z mod 2 ^ 64.
Definition to_int (z : Z) : Z := (z + 2 ^ 31) mod 2 ^ 32 - 2 ^ 31.

Definition push_front_char (c : ascii) (tokens : list string) : list string :=
  match tokens with
  | t :: ts => String c t :: ts
  | [] => [String c ""]
  end.

(** [boost::split(result, input, is_any_of(sep), token_compress_off)]:
    n separators give n + 1 tokens, empty ones included. *)
Fixpoint split_compress_off (sep : ascii) (input : string) : list string :=
  match input with
  | EmptyString => [""]
  | String c s' =>
      if Ascii.eqb c sep then "" :: split_compress_off sep s'
      else push_front_char c (split_compress_off sep s')
  end.

(** The same with [token_compress_on]: a run of adjacent separators counts
    as one; a run at either end still leaves an empty token there. *)
Fixpoint split_compress_on_from (sep : ascii) (in_run : bool) (input : string)
  : list string :=
  match input with
  | EmptyString => [""]
  | String c s' =>
      if Ascii.eqb c sep then
        if in_run then split_compress_on_from sep true s'
        else "" :: split_compress_on_from sep true s'
      else push_front_char c (split_compress_on_from sep false s')
  end.

Definition split_compress_on (sep : ascii) (input : string) : list string :=
  split_compress_on_from sep false input.

Definition to_lower_char (c : ascii) : ascii :=
  let n := Ascii.N_of_ascii c in
  if ((65 <=? n) && (n <=? 90))%N then Ascii.ascii_of_N (n + 32) else c.

Fixpoint to_lower (s : string) : string :=
  match s with
  | String c s' => String (to_lower_char c) (to_lower s')
  | EmptyString => EmptyString
  end.

Definition iequals (a b : string) : bool := String.eqb (to_lower a) (to_lower b).

Definition istarts_with (input test : string) : bool :=
  String.prefix (to_lower test) (to_lower input).

Definition iends_with (input test : string) : bool :=
  String.prefix (String.rev (to_lower test)) (String.rev (to_lower input)).

(** [std::replace(name.begin(), name.end(), '\\', '/')] *)
Fixpoint replace_backslashes (s : string) : string :=
  match s with
  | String c s' =>
      String (if Ascii.eqb c "\"%char then "/"%char else c) (replace_backslashes s')
  | EmptyString => EmptyString
  end.

(** [std::string::pop_back] when [back() == '\n'] *)
Fixpoint drop_final_newline (s : string) : string :=
  match s with
  | String c EmptyString => if Ascii.eqb c "010"%char then "" else s
  | String c s' => String c (drop_final_newline s')
  | EmptyString => EmptyString
  end.

(** ** What the file takes from outside *)

Class Externals := {
  (** the C++ types [float] and [double] with the operations used here *)
  float : Type;
  double : Type;
  float_lit : Q -> float;          (* a literal such as [25.4f] *)
  double_lit : Q -> double;
  fmul : float -> float -> float;
  to_float : double -> float;      (* [(float)x], [cast<float>()] *)
  to_double : float -> double;     (* [cast<double>()] *)
  atof : string -> double;         (* [::atof] *)
  double_is_zero : double -> bool;
  (** Eigen: products and inverses of [Transform3d] *)
  matrix_mul : list (list double) -> list (list double) -> list (list double);
  matrix_inverse : list (list double) -> list (list double);
  matrix_apply : list (list double) -> double * double * double -> double * double * double;
  (** [Slic3r::Geometry::Transformation] *)
  Transformation : Type;
  Transformation_default : Transformation;
  Transformation_of_matrix : list (list double) -> Transformation;
  Transformation_set_from_string : Transformation -> string -> Transformation;
  Transformation_get_matrix : Transformation -> list (list double);
  Transformation_get_scaling_factor : Transformation -> double * double * double;
  (** [DynamicPrintConfig] *)
  DynamicPrintConfig : Type;
  DynamicPrintConfig_default : DynamicPrintConfig;
  set_deserialize : DynamicPrintConfig -> string -> string -> DynamicPrintConfig;
  config_keys : DynamicPrintConfig -> list string;
  opt_serialize : DynamicPrintConfig -> string -> string;
  load_from_gcode_string : DynamicPrintConfig -> string -> DynamicPrintConfig;
  (** [ModelVolumeType] *)
  ModelVolumeType : Type;
  MODEL_PART : ModelVolumeType;
  PARAMETER_MODIFIER : ModelVolumeType;
  type_from_string : string -> ModelVolumeType;
  type_to_string : ModelVolumeType -> string;
  is_modifier_type : ModelVolumeType -> bool;
  (** per-object data whose content the file only copies or prints *)
  t_layer_config_ranges : Type;
  layer_config_ranges_default : t_layer_config_ranges;
  layer_config_ranges_empty : t_layer_config_ranges -> bool;
  layer_config_ranges_to_xml : Z -> t_layer_config_ranges -> string;
  SupportPoint : Type;
  SupportPoint_to_string : SupportPoint -> string;
  support_points_format_version : Z;
  PointsStatus : Type;
  PointsStatus_default : PointsStatus;
  UserModified : PointsStatus;
  (** [TriangleMesh::repair], as what it does to the facets of the mesh *)
  repair : list (list (float * float * float)) -> list (list (float * float * float));
  (** text taken from macros, the translation catalogue, expat and boost *)
  SLIC3R_APP_NAME : string;
  translate : string -> string;
  XML_error_text : string -> string;
  XML_buffer_error_text : string -> string;
  path_stem : string -> string;
  xml_escape : string -> string;
  header_slic3r_generated : string;
  (** [stream << x] for a [float] and a [double] on a stream of the given
      precision, and [sprintf] with [%f] *)
  float_to_string : nat -> float -> string;
  double_to_string : nat -> double -> string;
  sprintf_f : double -> string;
}.

Section Helpers.
Context `{Externals}.

Definition Transform3d : Type := list (list double).
Definition Vec3f : Type := (float * float * float)%type.
Definition Vec3d : Type := (double * double * double)%type.

Definition d0 : double := double_lit 0.
Definition d1 : double := double_lit 1.

(** The precision of a stream, the number of significant digits it prints:
    6 when none is set, and [std::numeric_limits<float>::max_digits10], 9,
    on the stream of the .model file, as the comment at the head of
    [_add_model_file_to_archive] has it. *)
Definition default_precision : nat := 6.
Definition max_digits10 : nat := 9.

(** [Transform3d::Identity()] *)
Definition Identity : Transform3d :=
  [ [d1; d0; d0; d0]; [d0; d1; d0; d0]; [d0; d0; d1; d0]; [d0; d0; d0; d1] ].

(** [m(r, c)] read and [m(r, c) = x] *)
Definition coeff (m : Transform3d) (r c : nat) : option double :=
  row ← m !! r; row !! c.

Definition set_coeff (m : Transform3d) (r c : nat) (x : double) : Transform3d :=
  alter (fun row => <[c := x]> row) r m.

(** [Vec3d::all()]: no coefficient is zero *)
Definition all_nonzero (v : Vec3d) : bool :=
  let '(x, y, z) := v in
  negb (double_is_zero x) && negb (double_is_zero y) && negb (double_is_zero z).

(** *** Attributes: the array [key0, value0, key1, value1, ...] *)

Fixpoint find_attribute (attributes : list string) (attribute_key : string)
  : option string :=
  match attributes with
  | k :: v :: rest =>
      if String.eqb k attribute_key then Some v else find_attribute rest attribute_key
  | _ => None
  end.

Definition get_attribute_value_charptr (attributes : list string) (attribute_key : string)
  : option string :=
  let attributes_size := length attributes in
  if (attributes_size =? 0)%nat || negb (attributes_size mod 2 =? 0)%nat then None
  else find_attribute attributes attribute_key.

Definition get_attribute_value_string (attributes : list string) (attribute_key : string)
  : string :=
  match get_attribute_value_charptr attributes attribute_key with
  | Some text => text
  | None => ""
  end.

Definition get_attribute_value_float (attributes : list string) (attribute_key : string)
  : float :=
  match get_attribute_value_charptr attributes attribute_key with
  | Some text => to_float (atof text)
  | None => float_lit 0
  end.

Definition get_attribute_value_int (attributes : list string) (attribute_key : string) : Z :=
  match get_attribute_value_charptr attributes attribute_key with
  | Some text => atoi text
  | None => 0
  end.

Definition get_attribute_value_bool (attributes : list string) (attribute_key : string)
  : bool :=
  match get_attribute_value_charptr attributes attribute_key with
  | Some text => negb (atoi text =? 0)
  | None => true
  end.

(** *** Matrices of the 3MF specification *)

(** The two nested loops of [get_transform_from_3mf_specs_string]: columns
    0..3 outside, rows 0..2 inside, [i] counting the elements consumed. *)
Definition fill_column (mat_elements_str : list string) (c : nat)
    (acc : nat * Transform3d) : nat * Transform3d :=
  foldl (fun '(i, ret) r =>
           (S i, set_coeff ret r c (atof (default "" (mat_elements_str !! i)))))
        acc [0; 1; 2]%nat.

Definition fill_transform (mat_elements_str : list string) (ret : Transform3d)
  : Transform3d :=
  snd (foldl (fun acc c => fill_column mat_elements_str c acc) (0%nat, ret)
             [0; 1; 2; 3]%nat).

Definition get_transform_from_3mf_specs_string (mat_str : string) : Transform3d :=
  let ret := Identity in
  if String.eqb mat_str "" then ret
  else
    let mat_elements_str := split_compress_on " "%char mat_str in
    let size := length mat_elements_str in
    if negb (size =? 12)%nat then ret
    else fill_transform mat_elements_str ret.

Definition get_unit_factor (unit : string) : float :=
  if String.eqb unit "micron" then float_lit 0.001
  else if String.eqb unit "centimeter" then float_lit 10
  else if String.eqb unit "inch" then float_lit 25.4
  else if String.eqb unit "foot" then float_lit 304.8
  else if String.eqb unit "meter" then float_lit 1000
  else float_lit 1.

Definition VALID_OBJECT_TYPES : list string := ["model"].

Definition is_valid_object_type (type : string) : bool :=
  if String.eqb type "" then true
  else existsb (fun valid => String.eqb type valid) VALID_OBJECT_TYPES.

End Helpers.

(** ** Exceptions, outcomes and the monad of the two classes *)

Inductive exception : Type :=
| version_error (what_arg : string)
| runtime_error (what_arg : string)
| other_exception (what_arg : string).

Definition what (e : exception) : string :=
  match e with
  | version_error w | runtime_error w | other_exception w => w
  end.

(** [catch (const version_error&)] selects exactly the first constructor;
    [catch (std::exception&)] selects all three. *)
Definition is_version_error (e : exception) : bool :=
  match e with version_error _ => true | _ => false end.

Inductive outcome (S A : Type) : Type :=
| Returns (a : A) (s : S)
| Throws (e : exception) (s : S)
| Undefined.
Arguments Returns {S A} a s.
Arguments Throws {S A} e s.
Arguments Undefined {S A}.

Definition M (S A : Type) : Type := S -> outcome S A.

Definition ret {S A} (a : A) : M S A := fun s => Returns a s.

Definition bind {S A B} (m : M S A) (k : A -> M S B) : M S B :=
  fun s =>
    match m s with
    | Returns a s' => k a s'
    | Throws e s' => Throws e s'
    | Undefined => Undefined
    end.

Definition throw {S A} (e : exception) : M S A := fun s => Throws e s.
Definition undefined {S A} : M S A := fun _ => Undefined.
Definition get {S} : M S S := fun s => Returns s s.
Definition gets {S A} (f : S -> A) : M S A := fun s => Returns (f s) s.
Definition modify {S} (f : S -> S) : M S unit := fun s => Returns tt (f s).

(** [try { m } catch (...) { handler }] *)
Definition try_catch {S A} (m : M S A) (handler : exception -> M S A) : M S A :=
  fun s =>
    match m s with
    | Throws e s' => handler e s'
    | r => r
    end.

Declare Scope monad_scope.
Delimit Scope monad_scope with monad.
Notation "x <- m ;; k" := (bind m (fun x => k))
  (at level 100, m at next level, right associativity) : monad_scope.
Notation "m ;; k" := (bind m (fun _ => k))
  (at level 100, right associativity) : monad_scope.
Open Scope monad_scope.

(** A [for] loop whose body may [return false] from the enclosing function:
    the body answers [true] to go on. *)
Fixpoint for_each {S A} (body : A -> M S bool) (l : list A) : M S bool :=
  match l with
  | [] => ret true
  | x :: l' => ok <- body x ;; if ok then for_each body l' else ret false
  end.

(** A [for] loop that always runs to the end. *)
Fixpoint for_all {S A} (body : A -> M S unit) (l : list A) : M S unit :=
  match l with
  | [] => ret tt
  | x :: l' => body x ;; for_all body l'
  end.

(** *** std::map<int, V> *)

Definition map_insert_new {V} (k : Z) (v : V) (m : gmap Z V) : gmap Z V :=
  match m !! k with
  | Some _ => m
  | None => <[k := v]> m
  end.

Definition map_in_order {V} (m : gmap Z V) : list (Z * V) :=
  omap (fun k => pair k <$> m !! k) (merge_sort Z.le (map fst (map_to_list m))).

(** ** The structures of the importer *)

Module Component.
Section Def.
Context `{Externals}.
#[projections(primitive)]
Record t := mk { object_id : Z; transform : Transform3d }.
(** [explicit Component(int object_id)] *)
Definition of_id (object_id : Z) : t := mk object_id Identity.
End Def.
End Component.

Module Geometry.
Section Def.
Context `{Externals}.
#[projections(primitive)]
Record t := mk { vertices : list float; triangles : list Z }.
Definition empty (g : t) : bool :=
  bool_decide (length (vertices g) = 0%nat) || bool_decide (length (triangles g) = 0%nat).
Definition reset : t := mk [] [].
End Def.
End Geometry.

Module Metadata.
#[projections(primitive)]
Record t := mk { key : string; value : string }.
End Metadata.

Module VolumeMetadata.
#[projections(primitive)]
Record t := mk {
  first_triangle_id : Z;
  last_triangle_id : Z;
  metadata : list Metadata.t }.
(** [VolumeMetadata(unsigned int, unsigned int)] *)
Definition make (first_triangle_id last_triangle_id : Z) : t :=
  mk first_triangle_id last_triangle_id [].
End VolumeMetadata.

Module ObjectMetadata.
#[projections(primitive)]
Record t := mk { metadata : list Metadata.t; volumes : list VolumeMetadata.t }.
Definition default : t := mk [] [].
End ObjectMetadata.

Module CurrentConfig.
#[projections(primitive)]
Record t := mk { object_id : Z; volume_id : Z }.
End CurrentConfig.

(** ** The scene model (Model.hpp)

    The importer and the exporter reach the scene through a few methods of
    [Model], [ModelObject], [ModelVolume] and [ModelInstance].  A pointer
    to a [ModelObject] is the address the object was given when it was
    created; a pointer to a [ModelInstance] is the address of its object
    and its position in the list of instances; [None] is [nullptr]. *)

Module ModelInstance.
Section Def.
Context `{Externals}.
#[projections(primitive)]
Record t := mk { printable : bool; transformation : Transformation }.
Definition default : t := mk true Transformation_default.
End Def.
End ModelInstance.

Module TriangleMesh.
Section Def.
Context `{Externals}.
(** [stl]: the facets, three vertices each, and [stats.number_of_facets];
    [its]: the indexed triangle set, present once the vertices are
    shared. *)
#[projections(primitive)]
Record t := mk {
  facet_start : list (list Vec3f);
  number_of_facets : Z;
  original_num_facets : Z;
  repaired : bool;
  has_shared_vertices : bool;
  its_vertices : list Vec3f;
  its_indices : list (list Z) }.
End Def.
End TriangleMesh.

Module Source.
Section Def.
Context `{Externals}.
#[projections(primitive)]
Record t := mk {
  input_file : string;
  object_idx : Z;
  volume_idx : Z;
  mesh_offset : Vec3d }.
Definition default : t := mk "" (-1) (-1) (d0, d0, d0).
End Def.
End Source.

Module ModelVolume.
Section Def.
Context `{Externals}.
#[projections(primitive)]
Record t := mk {
  name : string;
  mesh : TriangleMesh.t;
  type : ModelVolumeType;
  transformation : Transformation;
  source : Source.t;
  config : DynamicPrintConfig }.
Definition get_matrix (v : t) : Transform3d :=
  Transformation_get_matrix (transformation v).
Definition is_modifier (v : t) : bool := is_modifier_type (type v).
End Def.
End ModelVolume.

Module ModelObject.
Section Def.
Context `{Externals}.
#[projections(primitive)]
Record t := mk {
  address : nat;
  name : string;
  instances : list (option ModelInstance.t);
  volumes : list (option ModelVolume.t);
  config : DynamicPrintConfig;
  layer_height_profile : list double;
  layer_config_ranges : t_layer_config_ranges;
  sla_support_points : list SupportPoint;
  sla_points_status : PointsStatus }.

Definition with_name (v : string) '(mk a n i vs c p r s st) := mk a v i vs c p r s st.
Definition with_instances v '(mk a n i vs c p r s st) := mk a n v vs c p r s st.
Definition with_volumes v '(mk a n i vs c p r s st) := mk a n i v c p r s st.
Definition with_config v '(mk a n i vs c p r s st) := mk a n i vs v p r s st.
Definition with_layer_height_profile v '(mk a n i vs c p r s st) :=
  mk a n i vs c v r s st.
Definition with_layer_config_ranges v '(mk a n i vs c p r s st) :=
  mk a n i vs c p v s st.
Definition with_sla_support_points v '(mk a n i vs c p r s st) :=
  mk a n i vs c p r v st.
Definition with_sla_points_status v '(mk a n i vs c p r s st) :=
  mk a n i vs c p r s v.

(** Modelled from the spec: [ModelObject::add_instance] of Model.cpp,
    which is not in the file; a new instance is placed after the
    existing ones and a pointer to it is returned. *)
Definition add_instance (o : t) : t * option (nat * nat) :=
  (with_instances (instances o ++ [Some ModelInstance.default]) o,
   Some (address o, length (instances o))).

(** [instance->printable = printable] on the instance at position [k] *)
Definition set_printable (k : nat) (printable : bool) (o : t) : t :=
  with_instances
    (alter (fmap (fun i => ModelInstance.mk printable (ModelInstance.transformation i)))
           k (instances o)) o.

(** Modelled from the spec: [ModelObject::add_volume(TriangleMesh&&)] of
    Model.cpp; the mesh is stored as the mesh of a new volume placed
    after the existing ones. *)
Definition new_volume (mesh : TriangleMesh.t) : ModelVolume.t :=
  ModelVolume.mk "" mesh MODEL_PART Transformation_default Source.default
                 DynamicPrintConfig_default.
End Def.
End ModelObject.

Module Model.
Section Def.
Context `{Externals}.
(** [objects], and the address the next object created will receive *)
#[projections(primitive)]
Record t := mk { objects : list (option ModelObject.t); next_address : nat }.

Definition has_address (a : nat) (o : option ModelObject.t) : bool :=
  match o with
  | Some o => bool_decide (ModelObject.address o = a)
  | None => false
  end.

(** Modelled from the spec: [Model::add_object()] of Model.cpp; a fresh,
    empty object is placed after the existing ones. *)
Definition add_object (m : t) : t * option nat :=
  let o := ModelObject.mk (next_address m) "" [] [] DynamicPrintConfig_default []
                          layer_config_ranges_default [] PointsStatus_default in
  (mk (objects m ++ [Some o]) (S (next_address m)), Some (next_address m)).

(** Modelled from the spec: [Model::delete_object] of
    Model.cpp; the first entry of [objects] equal to the pointer is
    erased, and nothing happens when there is none. *)
Fixpoint erase_first (a : nat) (l : list (option ModelObject.t))
  : list (option ModelObject.t) :=
  match l with
  | [] => []
  | o :: l' => if has_address a o then l' else o :: erase_first a l'
  end.

Definition delete_object (object : option nat) (m : t) : t :=
  match object with
  | Some a => mk (erase_first a (objects m)) (next_address m)
  | None => m
  end.

(** the object a pointer designates, with its position in [objects] *)
Definition find_object (a : nat) (m : t) : option (nat * ModelObject.t) :=
  match list_find (has_address a) (objects m) with
  | Some (i, Some o) => Some (i, o)
  | _ => None
  end.

Definition set_object (i : nat) (o : ModelObject.t) (m : t) : t :=
  mk (<[i := Some o]> (objects m)) (next_address m).

Definition alter_object (f : ModelObject.t -> ModelObject.t) (i : nat) (m : t) : t :=
  mk (alter (fmap f) i (objects m)) (next_address m).
End Def.
End Model.

Module CurrentObject.
Section Def.
Context `{Externals}.
#[projections(primitive)]
Record t := mk {
  id : Z;
  model_object_idx : Z;
  geometry : Geometry.t;
  object : option nat;
  components : list Component.t }.
Definition reset : t := mk (-1) (-1) Geometry.reset None [].
End Def.
End CurrentObject.

Module Instance.
Section Def.
Context `{Externals}.
#[projections(primitive)]
Record t := mk { instance : option (nat * nat); transform : Transform3d }.
End Def.
End Instance.

(** ** The archive as the importer sees it

    expat and miniz are outside the file.  An entry of the archive carries
    what they deliver for it: the result of [mz_zip_reader_file_stat], the
    name and the uncompressed size, the bytes, whether miniz extracts them
    without error, and, for an XML part, the calls expat makes on the
    handlers and whether the text is well formed up to its end. *)

Inductive xml_event : Type :=
| start_element (name : string) (attributes : list string)
| end_element (name : string)
| characters (s : string).

Module ZipEntry.
#[projections(primitive)]
Record t := mk {
  stat_ok : bool;
  m_filename : string;
  m_uncomp_size : Z;
  data : string;
  extract_ok : bool;
  xml : list xml_event;
  xml_well_formed : bool }.
End ZipEntry.

Module ZipFile.
#[projections(primitive)]
Record t := mk { filename : string; open_ok : bool; entries : list ZipEntry.t }.
End ZipFile.

(** ** Constants of the file *)

Definition VERSION_3MF : Z := 2.
Definition SLIC3RPE_3MF_VERSION : string := "slic3rpe:Version3mf".

Definition MODEL_FOLDER : string := "3D/".
Definition MODEL_EXTENSION : string := ".model".
Definition MODEL_FILE : string := "3D/3dmodel.model".
Definition CONTENT_TYPES_FILE : string := "[Content_Types].xml".
Definition RELATIONSHIPS_FILE : string := "_rels/.rels".
Definition THUMBNAIL_FILE : string := "Metadata/thumbnail.png".
Definition PRINT_CONFIG_FILE : string := "Metadata/Slic3r_PE.config".
Definition MODEL_CONFIG_FILE : string := "Metadata/Slic3r_PE_model.config".
Definition LAYER_HEIGHTS_PROFILE_FILE : string :=
  "Metadata/Slic3r_PE_layer_heights_profile.txt".
Definition LAYER_CONFIG_RANGES_FILE : string :=
  "Metadata/Prusa_Slicer_layer_config_ranges.xml".
Definition SLA_SUPPORT_POINTS_FILE : string :=
  "Metadata/Slic3r_PE_sla_support_points.txt".

Definition MODEL_TAG : string := "model".
Definition RESOURCES_TAG : string := "resources".
Definition OBJECT_TAG : string := "object".
Definition MESH_TAG : string := "mesh".
Definition VERTICES_TAG : string := "vertices".
Definition VERTEX_TAG : string := "vertex".
Definition TRIANGLES_TAG : string := "triangles".
Definition TRIANGLE_TAG : string := "triangle".
Definition COMPONENTS_TAG : string := "components".
Definition COMPONENT_TAG : string := "component".
Definition BUILD_TAG : string := "build".
Definition ITEM_TAG : string := "item".
Definition METADATA_TAG : string := "metadata".
Definition CONFIG_TAG : string := "config".
Definition VOLUME_TAG : string := "volume".

Definition UNIT_ATTR : string := "unit".
Definition NAME_ATTR : string := "name".
Definition TYPE_ATTR : string := "type".
Definition ID_ATTR : string := "id".
Definition X_ATTR : string := "x".
Definition Y_ATTR : string := "y".
Definition Z_ATTR : string := "z".
Definition V1_ATTR : string := "v1".
Definition V2_ATTR : string := "v2".
Definition V3_ATTR : string := "v3".
Definition OBJECTID_ATTR : string := "objectid".
Definition TRANSFORM_ATTR : string := "transform".
Definition PRINTABLE_ATTR : string := "printable".
Definition KEY_ATTR : string := "key".
Definition VALUE_ATTR : string := "value".
Definition FIRST_TRIANGLE_ID_ATTR : string := "firstid".
Definition LAST_TRIANGLE_ID_ATTR : string := "lastid".

Definition OBJECT_TYPE : string := "object".
Definition VOLUME_TYPE : string := "volume".

Definition NAME_KEY : string := "name".
Definition MODIFIER_KEY : string := "modifier".
Definition VOLUME_TYPE_KEY : string := "volume_type".
Definition MATRIX_KEY : string := "matrix".
Definition SOURCE_FILE_KEY : string := "source_file".
Definition SOURCE_OBJECT_ID_KEY : string := "source_object_id".
Definition SOURCE_VOLUME_ID_KEY : string := "source_volume_id".
Definition SOURCE_OFFSET_X_KEY : string := "source_offset_x".
Definition SOURCE_OFFSET_Y_KEY : string := "source_offset_y".
Definition SOURCE_OFFSET_Z_KEY : string := "source_offset_z".

(** ** The importer *)

Module _3MF_Importer.
Section Def.
Context `{Externals}.

(** The members of the class, [m_errors] of its base class, and [config],
    the configuration of the caller that [load_model_from_file] receives
    by reference.  [m_model] is the scene of the caller, reached through
    the pointer of that name.  [m_xml_parser] is not kept: the handlers
    run only while a parser exists. *)
#[projections(primitive)]
Record t := mk {
  m_version : Z;
  m_check_version : bool;
  m_model : Model.t;
  m_unit_factor : float;
  m_curr_object : CurrentObject.t;
  m_objects : gmap Z Z;
  m_objects_aliases : gmap Z (list Component.t);
  m_instances : list Instance.t;
  m_geometries : gmap Z Geometry.t;
  m_curr_config : CurrentConfig.t;
  m_objects_metadata : gmap Z ObjectMetadata.t;
  m_layer_heights_profiles : gmap Z (list double);
  m_layer_config_ranges : gmap Z t_layer_config_ranges;
  m_sla_support_points : gmap Z (list SupportPoint);
  m_curr_metadata_name : string;
  m_curr_characters : string;
  m_name : string;
  m_errors : list string;
  config : DynamicPrintConfig }.

Definition set_m_version (v : Z) '(mk a0 a1 a2 a3 a4 a5 a6 a7 a8 a9 a10 a11 a12 a13 a14 a15 a16 a17 a18) : t :=
  mk v a1 a2 a3 a4 a5 a6 a7 a8 a9 a10 a11 a12 a13 a14 a15 a16 a17 a18.
Definition set_m_check_version (v : bool) '(mk a0 a1 a2 a3 a4 a5 a6 a7 a8 a9 a10 a11 a12 a13 a14 a15 a16 a17 a18) : t :=
  mk a0 v a2 a3 a4 a5 a6 a7 a8 a9 a10 a11 a12 a13 a14 a15 a16 a17 a18.
Definition set_m_model (v : Model.t) '(mk a0 a1 a2 a3 a4 a5 a6 a7 a8 a9 a10 a11 a12 a13 a14 a15 a16 a17 a18) : t :=
  mk a0 a1 v a3 a4 a5 a6 a7 a8 a9 a10 a11 a12 a13 a14 a15 a16 a17 a18.
Definition set_m_unit_factor (v : float) '(mk a0 a1 a2 a3 a4 a5 a6 a7 a8 a9 a10 a11 a12 a13 a14 a15 a16 a17 a18) : t :=
  mk a0 a1 a2 v a4 a5 a6 a7 a8 a9 a10 a11 a12 a13 a14 a15 a16 a17 a18.
Definition set_m_curr_object (v : CurrentObject.t) '(mk a0 a1 a2 a3 a4 a5 a6 a7 a8 a9 a10 a11 a12 a13 a14 a15 a16 a17 a18) : t :=
  mk a0 a1 a2 a3 v a5 a6 a7 a8 a9 a10 a11 a12 a13 a14 a15 a16 a17 a18.
Definition set_m_objects (v : gmap Z Z) '(mk a0 a1 a2 a3 a4 a5 a6 a7 a8 a9 a10 a11 a12 a13 a14 a15 a16 a17 a18) : t :=
  mk a0 a1 a2 a3 a4 v a6 a7 a8 a9 a10 a11 a12 a13 a14 a15 a16 a17 a18.
Definition set_m_objects_aliases (v : gmap Z (list Component.t)) '(mk a0 a1 a2 a3 a4 a5 a6 a7 a8 a9 a10 a11 a12 a13 a14 a15 a16 a17 a18) : t :=
  mk a0 a1 a2 a3 a4 a5 v a7 a8 a9 a10 a11 a12 a13 a14 a15 a16 a17 a18.
Definition set_m_instances (v : list Instance.t) '(mk a0 a1 a2 a3 a4 a5 a6 a7 a8 a9 a10 a11 a12 a13 a14 a15 a16 a17 a18) : t :=
  mk a0 a1 a2 a3 a4 a5 a6 v a8 a9 a10 a11 a12 a13 a14 a15 a16 a17 a18.
Definition set_m_geometries (v : gmap Z Geometry.t) '(mk a0 a1 a2 a3 a4 a5 a6 a7 a8 a9 a10 a11 a12 a13 a14 a15 a16 a17 a18) : t :=
  mk a0 a1 a2 a3 a4 a5 a6 a7 v a9 a10 a11 a12 a13 a14 a15 a16 a17 a18.
Definition set_m_curr_config (v : CurrentConfig.t) '(mk a0 a1 a2 a3 a4 a5 a6 a7 a8 a9 a10 a11 a12 a13 a14 a15 a16 a17 a18) : t :=
  mk a0 a1 a2 a3 a4 a5 a6 a7 a8 v a10 a11 a12 a13 a14 a15 a16 a17 a18.
Definition set_m_objects_metadata (v : gmap Z ObjectMetadata.t) '(mk a0 a1 a2 a3 a4 a5 a6 a7 a8 a9 a10 a11 a12 a13 a14 a15 a16 a17 a18) : t :=
  mk a0 a1 a2 a3 a4 a5 a6 a7 a8 a9 v a11 a12 a13 a14 a15 a16 a17 a18.
Definition set_m_layer_heights_profiles (v : gmap Z (list double)) '(mk a0 a1 a2 a3 a4 a5 a6 a7 a8 a9 a10 a11 a12 a13 a14 a15 a16 a17 a18) : t :=
  mk a0 a1 a2 a3 a4 a5 a6 a7 a8 a9 a10 v a12 a13 a14 a15 a16 a17 a18.
Definition set_m_layer_config_ranges (v : gmap Z t_layer_config_ranges) '(mk a0 a1 a2 a3 a4 a5 a6 a7 a8 a9 a10 a11 a12 a13 a14 a15 a16 a17 a18) : t :=
  mk a0 a1 a2 a3 a4 a5 a6 a7 a8 a9 a10 a11 v a13 a14 a15 a16 a17 a18.
Definition set_m_sla_support_points (v : gmap Z (list SupportPoint)) '(mk a0 a1 a2 a3 a4 a5 a6 a7 a8 a9 a10 a11 a12 a13 a14 a15 a16 a17 a18) : t :=
  mk a0 a1 a2 a3 a4 a5 a6 a7 a8 a9 a10 a11 a12 v a14 a15 a16 a17 a18.
Definition set_m_curr_metadata_name (v : string) '(mk a0 a1 a2 a3 a4 a5 a6 a7 a8 a9 a10 a11 a12 a13 a14 a15 a16 a17 a18) : t :=
  mk a0 a1 a2 a3 a4 a5 a6 a7 a8 a9 a10 a11 a12 a13 v a15 a16 a17 a18.
Definition set_m_curr_characters (v : string) '(mk a0 a1 a2 a3 a4 a5 a6 a7 a8 a9 a10 a11 a12 a13 a14 a15 a16 a17 a18) : t :=
  mk a0 a1 a2 a3 a4 a5 a6 a7 a8 a9 a10 a11 a12 a13 a14 v a16 a17 a18.
Definition set_m_name (v : string) '(mk a0 a1 a2 a3 a4 a5 a6 a7 a8 a9 a10 a11 a12 a13 a14 a15 a16 a17 a18) : t :=
  mk a0 a1 a2 a3 a4 a5 a6 a7 a8 a9 a10 a11 a12 a13 a14 a15 v a17 a18.
Definition set_m_errors (v : list string) '(mk a0 a1 a2 a3 a4 a5 a6 a7 a8 a9 a10 a11 a12 a13 a14 a15 a16 a17 a18) : t :=
  mk a0 a1 a2 a3 a4 a5 a6 a7 a8 a9 a10 a11 a12 a13 a14 a15 a16 v a18.
Definition set_config (v : DynamicPrintConfig) '(mk a0 a1 a2 a3 a4 a5 a6 a7 a8 a9 a10 a11 a12 a13 a14 a15 a16 a17 a18) : t :=
  mk a0 a1 a2 a3 a4 a5 a6 a7 a8 a9 a10 a11 a12 a13 a14 a15 a16 a17 v.

(** [_3MF_Base::add_error] and [clear_errors] *)
Definition add_error (error : string) : M t unit :=
  modify (fun st => set_m_errors (m_errors st ++ [error]) st).
Definition clear_errors : M t unit := modify (set_m_errors []).

(** *** Access to the scene through pointers *)

(** [m_model->objects[idx]]: an index outside the vector has no defined
    behaviour; the entry read may be [nullptr]. *)
Definition objects_at (idx : Z) : M t (option ModelObject.t) :=
  st <- get ;;
  if idx <? 0 then undefined
  else match Model.objects (m_model st) !! Z.to_nat idx with
       | Some o => ret o
       | None => undefined
       end.

(** writing through a pointer to an object: the pointer must designate an
    object that is still in the scene *)
Definition update_object (object : option nat) (f : ModelObject.t -> ModelObject.t)
  : M t unit :=
  st <- get ;;
  match object with
  | None => undefined
  | Some a =>
      match Model.find_object a (m_model st) with
      | Some (i, o) => modify (set_m_model (Model.set_object i (f o) (m_model st)))
      | None => undefined
      end
  end.

(** reading and writing through a pointer to an instance *)
Definition instance_at (instance : nat * nat) : M t ModelInstance.t :=
  st <- get ;;
  match Model.find_object (fst instance) (m_model st) with
  | Some (i, o) =>
      match ModelObject.instances o !! snd instance with
      | Some (Some inst) => ret inst
      | _ => undefined
      end
  | None => undefined
  end.

Definition update_instance (instance : nat * nat)
    (f : ModelInstance.t -> ModelInstance.t) : M t unit :=
  inst <- instance_at instance ;;
  update_object (Some (fst instance))
    (fun o => ModelObject.with_instances
                (<[snd instance := Some (f inst)]> (ModelObject.instances o)) o).

(** *** Handlers of the .model file *)

Definition _handle_start_model (attributes : list string) : M t bool :=
  modify (set_m_unit_factor
            (get_unit_factor (get_attribute_value_string attributes UNIT_ATTR))) ;;
  ret true.

(** [_apply_transform] *)
Definition _apply_transform (instance : nat * nat) (transform : Transform3d)
  : M t unit :=
  let t := Transformation_of_matrix transform in
  if negb (all_nonzero (Transformation_get_scaling_factor t)) then ret tt
  else update_instance instance
         (fun i => ModelInstance.mk (ModelInstance.printable i) t).

Definition _handle_end_model : M t bool :=
  st <- get ;;
  (* deletes all non-built or non-instanced objects *)
  for_all (fun object : Z * Z =>
             model_object <- objects_at (snd object) ;;
             match model_object with
             | Some o =>
                 if bool_decide (length (ModelObject.instances o) = 0%nat) then
                   modify (fun st => set_m_model
                             (Model.delete_object (Some (ModelObject.address o))
                                                  (m_model st)) st)
                 else ret tt
             | None => ret tt
             end)
          (map_in_order (m_objects st)) ;;
  (* applies instances' matrices *)
  for_all (fun instance : Instance.t =>
             match Instance.instance instance with
             | Some i =>
                 (* [instance.instance->get_object()] reads through the
                    pointer; the object of a live instance is not null *)
                 instance_at i ;;
                 _apply_transform i (Instance.transform instance)
             | None => ret tt
             end)
          (m_instances st) ;;
  ret true.

Definition _handle_start_resources (attributes : list string) : M t bool := ret true.
Definition _handle_end_resources : M t bool := ret true.

Definition _handle_start_object (attributes : list string) : M t bool :=
  (* reset current data *)
  modify (set_m_curr_object CurrentObject.reset) ;;
  if is_valid_object_type (get_attribute_value_string attributes TYPE_ATTR) then
    st <- get ;;
    let model_object_idx := to_int (Z.of_nat (length (Model.objects (m_model st)))) in
    let '(model, object) := Model.add_object (m_model st) in
    modify (set_m_model model) ;;
    modify (set_m_curr_object
              (CurrentObject.mk (-1) model_object_idx Geometry.reset object [])) ;;
    match object with
    | None => add_error "Unable to create object" ;; ret false
    | Some _ =>
        let name := get_attribute_value_string attributes NAME_ATTR in
        let name :=
          if String.eqb name "" then
            m_name st +:+ "_" +:+ pretty (Z.of_nat (length (Model.objects model)))
          else name in
        (* [m_curr_object.object->name = ...], the object just added, which
           [add_object] placed after the [objects.size()] there were *)
        modify (fun st' => set_m_model
                  (Model.alter_object (ModelObject.with_name name)
                     (length (Model.objects (m_model st))) (m_model st')) st') ;;
        modify (fun st =>
                  let c := m_curr_object st in
                  set_m_curr_object
                    (CurrentObject.mk (get_attribute_value_int attributes ID_ATTR)
                       (CurrentObject.model_object_idx c) (CurrentObject.geometry c)
                       (CurrentObject.object c) (CurrentObject.components c)) st) ;;
        ret true
    end
  else ret true.

Definition _handle_end_object : M t bool :=
  st <- get ;;
  let curr := m_curr_object st in
  match CurrentObject.object curr with
  | Some _ =>
      if Geometry.empty (CurrentObject.geometry curr) then
        (* no geometry defined: remove the object from the model *)
        modify (fun st => set_m_model
                  (Model.delete_object (CurrentObject.object curr) (m_model st)) st) ;;
        if bool_decide (length (CurrentObject.components curr) = 0%nat) then
          (* no components defined -> invalid object, delete it *)
          modify (fun st => set_m_objects (delete (CurrentObject.id curr) (m_objects st)) st) ;;
          modify (fun st => set_m_objects_aliases
                    (delete (CurrentObject.id curr) (m_objects_aliases st)) st) ;;
          ret true
        else
          (* adds components to aliases *)
          modify (fun st => set_m_objects_aliases
                    (map_insert_new (CurrentObject.id curr)
                       (CurrentObject.components curr) (m_objects_aliases st)) st) ;;
          ret true
      else
        (* geometry defined, store it for later use; the geometry is
           moved out of the current object *)
        modify (fun st => set_m_geometries
                  (map_insert_new (CurrentObject.id curr)
                     (CurrentObject.geometry curr) (m_geometries st)) st) ;;
        modify (set_m_curr_object
                  (CurrentObject.mk (CurrentObject.id curr)
                     (CurrentObject.model_object_idx curr) Geometry.reset
                     (CurrentObject.object curr) (CurrentObject.components curr))) ;;
        (* stores the object for later use *)
        match m_objects st !! CurrentObject.id curr with
        | None =>
            modify (fun st => set_m_objects
                      (map_insert_new (CurrentObject.id curr)
                         (CurrentObject.model_object_idx curr) (m_objects st)) st) ;;
            modify (fun st => set_m_objects_aliases
                      (map_insert_new (CurrentObject.id curr)
                         [Component.of_id (CurrentObject.id curr)]
                         (m_objects_aliases st)) st) ;;
            ret true
        | Some _ =>
            add_error "Found object with duplicate id" ;; ret false
        end
  | None => ret true
  end.

Definition modify_geometry (f : Geometry.t -> Geometry.t) : M t unit :=
  modify (fun st =>
            let c := m_curr_object st in
            set_m_curr_object
              (CurrentObject.mk (CurrentObject.id c) (CurrentObject.model_object_idx c)
                 (f (CurrentObject.geometry c)) (CurrentObject.object c)
                 (CurrentObject.components c)) st).

Definition modify_components (f : list Component.t -> list Component.t) : M t unit :=
  modify (fun st =>
            let c := m_curr_object st in
            set_m_curr_object
              (CurrentObject.mk (CurrentObject.id c) (CurrentObject.model_object_idx c)
                 (CurrentObject.geometry c) (CurrentObject.object c)
                 (f (CurrentObject.components c))) st).

Definition _handle_start_mesh (attributes : list string) : M t bool :=
  modify_geometry (fun _ => Geometry.reset) ;; ret true.
Definition _handle_end_mesh : M t bool := ret true.

Definition _handle_start_vertices (attributes : list string) : M t bool :=
  modify_geometry (fun g => Geometry.mk [] (Geometry.triangles g)) ;; ret true.
Definition _handle_end_vertices : M t bool := ret true.

Definition _handle_start_vertex (attributes : list string) : M t bool :=
  (* appends the vertex coordinates; missing values are set equal to ZERO *)
  st <- get ;;
  modify_geometry (fun g =>
    Geometry.mk
      (Geometry.vertices g ++
         [fmul (m_unit_factor st) (get_attribute_value_float attributes X_ATTR);
          fmul (m_unit_factor st) (get_attribute_value_float attributes Y_ATTR);
          fmul (m_unit_factor st) (get_attribute_value_float attributes Z_ATTR)])
      (Geometry.triangles g)) ;;
  ret true.
Definition _handle_end_vertex : M t bool := ret true.

Definition _handle_start_triangles (attributes : list string) : M t bool :=
  modify_geometry (fun g => Geometry.mk (Geometry.vertices g) []) ;; ret true.
Definition _handle_end_triangles : M t bool := ret true.

Definition _handle_start_triangle (attributes : list string) : M t bool :=
  (* appends the triangle's vertices indices; missing values are ZERO *)
  modify_geometry (fun g =>
    Geometry.mk (Geometry.vertices g)
      (Geometry.triangles g ++
         [to_unsigned (get_attribute_value_int attributes V1_ATTR);
          to_unsigned (get_attribute_value_int attributes V2_ATTR);
          to_unsigned (get_attribute_value_int attributes V3_ATTR)])) ;;
  ret true.
Definition _handle_end_triangle : M t bool := ret true.

Definition _handle_start_components (attributes : list string) : M t bool :=
  modify_components (fun _ => []) ;; ret true.
Definition _handle_end_components : M t bool := ret true.

Definition _handle_start_component (attributes : list string) : M t bool :=
  let object_id := get_attribute_value_int attributes OBJECTID_ATTR in
  let transform :=
    get_transform_from_3mf_specs_string
      (get_attribute_value_string attributes TRANSFORM_ATTR) in
  st <- get ;;
  match m_objects st !! object_id, m_objects_aliases st !! object_id with
  | None, None =>
      add_error "Found component with invalid object id" ;; ret false
  | _, _ =>
      modify_components (fun l => (l ++ [Component.mk object_id transform])%list) ;;
      ret true
  end.
Definition _handle_end_component : M t bool := ret true.

Definition _handle_start_build (attributes : list string) : M t bool := ret true.
Definition _handle_end_build : M t bool := ret true.

Definition MAX_RECURSIONS : Z := 10.

(** [_create_object_instance] calls itself with [recur_counter + 1] and
    stops when [recur_counter > MAX_RECURSIONS]: the recursion is on the
    number of levels left, [MAX_RECURSIONS + 1 - recur_counter], which is
    zero exactly when the test of the source succeeds.
    [_create_object_instance_unfold] below gives the equation of the
    source. *)
Fixpoint create_object_instance_levels (levels_left : nat) (object_id : Z)
    (transform : Transform3d) (printable : bool) : M t bool :=
  match levels_left with
  | O =>
      (* escape from circular aliasing *)
      add_error "Too many recursions" ;; ret false
  | S levels_left' =>
      st <- get ;;
      match m_objects_aliases st !! object_id with
      | None => add_error "Found item with invalid object id" ;; ret false
      | Some aliases =>
          if bool_decide (length aliases = 1%nat)
             && bool_decide (Component.object_id <$> aliases !! 0%nat = Some object_id)
          then
            (* aliasing to itself *)
            match m_objects st !! object_id with
            | None => add_error "Found invalid object" ;; ret false
            | Some idx =>
                if idx =? -1 then add_error "Found invalid object" ;; ret false
                else
                  model_object <- objects_at idx ;;
                  match model_object with
                  | None => undefined
                  | Some o =>
                      let '(o', instance) := ModelObject.add_instance o in
                      modify (fun st => set_m_model
                                (Model.set_object (Z.to_nat idx) o' (m_model st)) st) ;;
                      match instance with
                      | None => add_error "Unable to add object instance" ;; ret false
                      | Some i =>
                          (* [instance->printable = printable] *)
                          modify (fun st => set_m_model
                                    (Model.set_object (Z.to_nat idx)
                                       (ModelObject.set_printable (snd i) printable o')
                                       (m_model st)) st) ;;
                          modify (fun st => set_m_instances
                                    (m_instances st ++ [Instance.mk instance transform])%list
                                    st) ;;
                          ret true
                      end
                  end
            end
          else
            (* recursively process nested components *)
            for_each (fun component : Component.t =>
                        create_object_instance_levels levels_left'
                          (Component.object_id component)
                          (matrix_mul transform (Component.transform component))
                          printable)
                     aliases
      end
  end.

Definition _create_object_instance (object_id : Z) (transform : Transform3d)
    (printable : bool) (recur_counter : Z) : M t bool :=
  create_object_instance_levels (Z.to_nat (MAX_RECURSIONS + 1 - recur_counter))
    object_id transform printable.

Definition _handle_start_item (attributes : list string) : M t bool :=
  let object_id := get_attribute_value_int attributes OBJECTID_ATTR in
  let transform :=
    get_transform_from_3mf_specs_string
      (get_attribute_value_string attributes TRANSFORM_ATTR) in
  let printable := get_attribute_value_bool attributes PRINTABLE_ATTR in
  _create_object_instance object_id transform printable 1.
Definition _handle_end_item : M t bool := ret true.

Definition _handle_start_metadata (attributes : list string) : M t bool :=
  modify (set_m_curr_characters "") ;;
  let name := get_attribute_value_string attributes NAME_ATTR in
  (if String.eqb name "" then ret tt else modify (set_m_curr_metadata_name name)) ;;
  ret true.

Definition version_error_message : string :=
  translate ("The selected 3mf file has been saved with a newer version of "
             +:+ SLIC3R_APP_NAME +:+ " and is not compatible.").

Definition _handle_end_metadata : M t bool :=
  st <- get ;;
  if String.eqb (m_curr_metadata_name st) SLIC3RPE_3MF_VERSION then
    let version := to_unsigned (atoi (m_curr_characters st)) in
    modify (set_m_version version) ;;
    if m_check_version st && (VERSION_3MF <? version) then
      throw (version_error version_error_message)
    else ret true
  else ret true.

Definition _handle_model_xml_characters (s : string) : M t unit :=
  modify (fun st => set_m_curr_characters (m_curr_characters st +:+ s) st).

(** *** Dispatch on the name of the element

    The value returned is [res]; the source stops the parser when it is
    [false]. *)
Definition _handle_start_model_xml_element (name : string) (attributes : list string)
  : M t bool :=
  if String.eqb MODEL_TAG name then _handle_start_model attributes
  else if String.eqb RESOURCES_TAG name then _handle_start_resources attributes
  else if String.eqb OBJECT_TAG name then _handle_start_object attributes
  else if String.eqb MESH_TAG name then _handle_start_mesh attributes
  else if String.eqb VERTICES_TAG name then _handle_start_vertices attributes
  else if String.eqb VERTEX_TAG name then _handle_start_vertex attributes
  else if String.eqb TRIANGLES_TAG name then _handle_start_triangles attributes
  else if String.eqb TRIANGLE_TAG name then _handle_start_triangle attributes
  else if String.eqb COMPONENTS_TAG name then _handle_start_components attributes
  else if String.eqb COMPONENT_TAG name then _handle_start_component attributes
  else if String.eqb BUILD_TAG name then _handle_start_build attributes
  else if String.eqb ITEM_TAG name then _handle_start_item attributes
  else if String.eqb METADATA_TAG name then _handle_start_metadata attributes
  else ret true.

Definition _handle_end_model_xml_element (name : string) : M t bool :=
  if String.eqb MODEL_TAG name then _handle_end_model
  else if String.eqb RESOURCES_TAG name then _handle_end_resources
  else if String.eqb OBJECT_TAG name then _handle_end_object
  else if String.eqb MESH_TAG name then _handle_end_mesh
  else if String.eqb VERTICES_TAG name then _handle_end_vertices
  else if String.eqb VERTEX_TAG name then _handle_end_vertex
  else if String.eqb TRIANGLES_TAG name then _handle_end_triangles
  else if String.eqb TRIANGLE_TAG name then _handle_end_triangle
  else if String.eqb COMPONENTS_TAG name then _handle_end_components
  else if String.eqb COMPONENT_TAG name then _handle_end_component
  else if String.eqb BUILD_TAG name then _handle_end_build
  else if String.eqb ITEM_TAG name then _handle_end_item
  else if String.eqb METADATA_TAG name then _handle_end_metadata
  else ret true.

Definition model_xml_event (e : xml_event) : M t bool :=
  match e with
  | start_element name attributes => _handle_start_model_xml_element name attributes
  | end_element name => _handle_end_model_xml_element name
  | characters s => _handle_model_xml_characters s ;; ret true
  end.

(** [XML_Parse] over the whole part: expat calls the handlers in document
    order; once a handler has stopped the parser no further handler of
    this file changes the state (the end handlers of [component] and
    [item], the only elements whose start handler can fail, do nothing),
    and [XML_Parse] reports a failure.  It also fails on text that is not
    well formed. *)
Definition XML_Parse (handler : xml_event -> M t bool) (entry : ZipEntry.t)
  : M t bool :=
  ok <- for_each handler (ZipEntry.xml entry) ;;
  ret (ok && ZipEntry.xml_well_formed entry).

Definition _extract_model_from_archive (stat : ZipEntry.t) : M t bool :=
  if ZipEntry.m_uncomp_size stat =? 0 then
    add_error "Found invalid size" ;; ret false
  else
    (* [XML_ParserCreate] is taken to succeed *)
    res <- try_catch
             (parsed <- XML_Parse model_xml_event stat ;;
              if parsed then ret (Some (ZipEntry.extract_ok stat))
              else throw (runtime_error (XML_error_text (ZipEntry.m_filename stat))))
             (fun e =>
                if is_version_error e then
                  (* rethrow the exception *)
                  throw (runtime_error (what e))
                else add_error (what e) ;; ret None) ;;
    match res with
    | None => ret false
    | Some false =>
        add_error "Error while extracting model data from zip archive" ;; ret false
    | Some true => ret true
    end.

(** *** Handlers of the model config file *)

Definition _handle_start_config (attributes : list string) : M t bool := ret true.
Definition _handle_end_config : M t bool := ret true.

Definition _handle_start_config_object (attributes : list string) : M t bool :=
  let object_id := get_attribute_value_int attributes ID_ATTR in
  st <- get ;;
  match m_objects_metadata st !! object_id with
  | Some _ => add_error "Found duplicated object id" ;; ret false
  | None =>
      modify (fun st => set_m_objects_metadata
                (map_insert_new object_id ObjectMetadata.default
                                (m_objects_metadata st)) st) ;;
      modify (fun st => set_m_curr_config
                (CurrentConfig.mk object_id
                   (CurrentConfig.volume_id (m_curr_config st))) st) ;;
      ret true
  end.
Definition _handle_end_config_object : M t bool := ret true.

Definition _handle_start_config_volume (attributes : list string) : M t bool :=
  st <- get ;;
  let object_id := CurrentConfig.object_id (m_curr_config st) in
  match m_objects_metadata st !! object_id with
  | None => add_error "Cannot assign volume to a valid object" ;; ret false
  | Some object =>
      modify (fun st => set_m_curr_config
                (CurrentConfig.mk (CurrentConfig.object_id (m_curr_config st))
                   (to_int (Z.of_nat (length (ObjectMetadata.volumes object))))) st) ;;
      let first_triangle_id :=
        to_unsigned (get_attribute_value_int attributes FIRST_TRIANGLE_ID_ATTR) in
      let last_triangle_id :=
        to_unsigned (get_attribute_value_int attributes LAST_TRIANGLE_ID_ATTR) in
      modify (fun st => set_m_objects_metadata
                (<[object_id :=
                     ObjectMetadata.mk (ObjectMetadata.metadata object)
                       (ObjectMetadata.volumes object ++
                          [VolumeMetadata.make first_triangle_id last_triangle_id])%list]>
                   (m_objects_metadata st)) st) ;;
      ret true
  end.
Definition _handle_end_config_volume : M t bool := ret true.

Definition _handle_start_config_metadata (attributes : list string) : M t bool :=
  st <- get ;;
  let object_id := CurrentConfig.object_id (m_curr_config st) in
  match m_objects_metadata st !! object_id with
  | None => add_error "Cannot assign metadata to valid object id" ;; ret false
  | Some object =>
      let type := get_attribute_value_string attributes TYPE_ATTR in
      let key := get_attribute_value_string attributes KEY_ATTR in
      let value := get_attribute_value_string attributes VALUE_ATTR in
      if String.eqb type OBJECT_TYPE then
        modify (fun st => set_m_objects_metadata
                  (<[object_id :=
                       ObjectMetadata.mk
                         (ObjectMetadata.metadata object ++ [Metadata.mk key value])%list
                         (ObjectMetadata.volumes object)]>
                     (m_objects_metadata st)) st) ;;
        ret true
      else if String.eqb type VOLUME_TYPE then
        let volume_id := to_size_t (CurrentConfig.volume_id (m_curr_config st)) in
        (if volume_id <? Z.of_nat (length (ObjectMetadata.volumes object)) then
           modify (fun st => set_m_objects_metadata
                     (<[object_id :=
                          ObjectMetadata.mk (ObjectMetadata.metadata object)
                            (alter (fun v =>
                                      VolumeMetadata.mk
                                        (VolumeMetadata.first_triangle_id v)
                                        (VolumeMetadata.last_triangle_id v)
                                        (VolumeMetadata.metadata v
                                           ++ [Metadata.mk key value])%list)
                                   (Z.to_nat volume_id)
                                   (ObjectMetadata.volumes object))]>
                        (m_objects_metadata st)) st)
         else ret tt) ;;
        ret true
      else
        add_error "Found invalid metadata type" ;; ret false
  end.
Definition _handle_end_config_metadata : M t bool := ret true.

Definition _handle_start_config_xml_element (name : string) (attributes : list string)
  : M t bool :=
  if String.eqb CONFIG_TAG name then _handle_start_config attributes
  else if String.eqb OBJECT_TAG name then _handle_start_config_object attributes
  else if String.eqb VOLUME_TAG name then _handle_start_config_volume attributes
  else if String.eqb METADATA_TAG name then _handle_start_config_metadata attributes
  else ret true.

Definition _handle_end_config_xml_element (name : string) : M t bool :=
  if String.eqb CONFIG_TAG name then _handle_end_config
  else if String.eqb OBJECT_TAG name then _handle_end_config_object
  else if String.eqb VOLUME_TAG name then _handle_end_config_volume
  else if String.eqb METADATA_TAG name then _handle_end_config_metadata
  else ret true.

(** no character handler is installed for this part *)
Definition config_xml_event (e : xml_event) : M t bool :=
  match e with
  | start_element name attributes => _handle_start_config_xml_element name attributes
  | end_element name => _handle_end_config_xml_element name
  | characters _ => ret true
  end.

Definition _extract_model_config_from_archive (stat : ZipEntry.t) : M t bool :=
  if ZipEntry.m_uncomp_size stat =? 0 then
    add_error "Found invalid size" ;; ret false
  else if negb (ZipEntry.extract_ok stat) then
    (* [XML_ParserCreate] and [XML_GetBuffer] are taken to succeed *)
    add_error "Error while reading config data to buffer" ;; ret false
  else
    parsed <- XML_Parse config_xml_event stat ;;
    if parsed then ret true
    else add_error (XML_buffer_error_text (ZipEntry.m_filename stat)) ;; ret false.

(** *** The text parts *)

Definition _extract_print_config_from_archive (stat : ZipEntry.t) : M t unit :=
  if 0 <? ZipEntry.m_uncomp_size stat then
    if negb (ZipEntry.extract_ok stat) then
      add_error "Error while reading config data to buffer"
    else
      modify (fun st => set_config (load_from_gcode_string (config st) (ZipEntry.data stat)) st)
  else ret tt.

(** One line of the layer heights profile file; the body of the loop over
    [objects], each [continue] being the end of the function. *)
Definition layer_heights_profile_line (object : string) : M t unit :=
  let object_data := split_compress_off "|"%char object in
  if negb (length object_data =? 2)%nat then
    add_error "Error while reading object data"
  else
    let object_data_id :=
      split_compress_off "="%char (default "" (object_data !! 0%nat)) in
    if negb (length object_data_id =? 2)%nat then
      add_error "Error while reading object id"
    else
      let object_id := atoi (default "" (object_data_id !! 1%nat)) in
      if object_id =? 0 then add_error "Found invalid object id"
      else
        st <- get ;;
        match m_layer_heights_profiles st !! object_id with
        | Some _ => add_error "Found duplicated layer heights profile"
        | None =>
            let object_data_profile :=
              split_compress_off ";"%char (default "" (object_data !! 1%nat)) in
            if (length object_data_profile <=? 4)%nat
               || negb (length object_data_profile mod 2 =? 0)%nat
            then add_error "Found invalid layer heights profile"
            else
              let profile := map atof object_data_profile in
              modify (fun st => set_m_layer_heights_profiles
                        (map_insert_new object_id profile
                                        (m_layer_heights_profiles st)) st)
        end.

Definition _extract_layer_heights_profile_config_from_archive (stat : ZipEntry.t)
  : M t unit :=
  if 0 <? ZipEntry.m_uncomp_size stat then
    if negb (ZipEntry.extract_ok stat) then
      add_error "Error while reading layer heights profile data to buffer"
    else
      let buffer := drop_final_newline (ZipEntry.data stat) in
      let objects := split_compress_off "010"%char buffer in
      for_all layer_heights_profile_line objects
  else ret tt.

(** *** Volumes *)

Definition to_float3 (v : Vec3d) : Vec3f :=
  let '(x, y, z) := v in (to_float x, to_float y, to_float z).
Definition to_double3 (v : Vec3f) : Vec3d :=
  let '(x, y, z) := v in (to_double x, to_double y, to_double z).

(** The body of the loop on [v]: the vertex of index [geometry.triangles
    [index]], moved by [inv_matrix] when the version is above 1.  Every
    index is computed on [unsigned int]; a read outside a vector gives
    [None]. *)
Definition read_vertex (version : Z) (geometry : Geometry.t) (inv_matrix : Transform3d)
    (index : Z) : option Vec3f :=
  t ← Geometry.triangles geometry !! Z.to_nat index;
  let tri_id := to_unsigned (t * 3) in
  x ← Geometry.vertices geometry !! Z.to_nat (to_unsigned (tri_id + 0));
  y ← Geometry.vertices geometry !! Z.to_nat (to_unsigned (tri_id + 1));
  z ← Geometry.vertices geometry !! Z.to_nat (to_unsigned (tri_id + 2));
  let vertex : Vec3f := (x, y, z) in
  Some (if 1 <? version
        then to_float3 (matrix_apply inv_matrix (to_double3 vertex))
        else vertex).

(** The loop on [i]: the facets [0 .. triangles_count - 1] of the volume *)
Definition read_facets (version : Z) (geometry : Geometry.t) (inv_matrix : Transform3d)
    (src_start_id triangles_count : Z) : option (list (list Vec3f)) :=
  mapM (fun i =>
          let ii := to_unsigned (i * 3) in
          mapM (fun v => read_vertex version geometry inv_matrix
                           (to_unsigned (src_start_id + ii + v)))
               [0; 1; 2])
       (seqZ 0 triangles_count).

(** the first [matrix] entry of the metadata of the volume, if any *)
Definition volume_transformation (version : Z) (metadata : list Metadata.t)
  : Transformation :=
  if 1 <? version then
    match list_find (fun m => String.eqb (Metadata.key m) MATRIX_KEY) metadata with
    | Some (_, m) => Transformation_set_from_string Transformation_default (Metadata.value m)
    | None => Transformation_default
    end
  else Transformation_default.

(** the chain of tests on the key of one metadata of a volume *)
Definition apply_volume_metadata (volume : ModelVolume.t) (metadata : Metadata.t)
  : ModelVolume.t :=
  let '(ModelVolume.mk name mesh type transformation source config) := volume in
  let '(Source.mk input_file object_idx volume_idx mesh_offset) := source in
  let '(ox, oy, oz) := mesh_offset in
  let key := Metadata.key metadata in
  let value := Metadata.value metadata in
  if String.eqb key NAME_KEY then
    ModelVolume.mk value mesh type transformation source config
  else if String.eqb key MODIFIER_KEY && String.eqb value "1" then
    ModelVolume.mk name mesh PARAMETER_MODIFIER transformation source config
  else if String.eqb key VOLUME_TYPE_KEY then
    ModelVolume.mk name mesh (type_from_string value) transformation source config
  else if String.eqb key SOURCE_FILE_KEY then
    ModelVolume.mk name mesh type transformation
      (Source.mk value object_idx volume_idx mesh_offset) config
  else if String.eqb key SOURCE_OBJECT_ID_KEY then
    ModelVolume.mk name mesh type transformation
      (Source.mk input_file (atoi value) volume_idx mesh_offset) config
  else if String.eqb key SOURCE_VOLUME_ID_KEY then
    ModelVolume.mk name mesh type transformation
      (Source.mk input_file object_idx (atoi value) mesh_offset) config
  else if String.eqb key SOURCE_OFFSET_X_KEY then
    ModelVolume.mk name mesh type transformation
      (Source.mk input_file object_idx volume_idx (atof value, oy, oz)) config
  else if String.eqb key SOURCE_OFFSET_Y_KEY then
    ModelVolume.mk name mesh type transformation
      (Source.mk input_file object_idx volume_idx (ox, atof value, oz)) config
  else if String.eqb key SOURCE_OFFSET_Z_KEY then
    ModelVolume.mk name mesh type transformation
      (Source.mk input_file object_idx volume_idx (ox, oy, atof value)) config
  else
    ModelVolume.mk name mesh type transformation source
      (set_deserialize config key value).

(** The body of the loop of [_generate_volumes] on one [volume_data]; the
    object is the one the reference parameter designates, given and
    returned.  The answer [false] is the [return false] of the source.
    [stl_get_size] and [calculate_convex_hull] compute data that the
    file never reads and are left out. *)
Definition generate_volume (geometry : Geometry.t) (geo_tri_count : Z)
    (object : ModelObject.t) (volume_data : VolumeMetadata.t)
  : M t (bool * ModelObject.t) :=
  let first_triangle_id := VolumeMetadata.first_triangle_id volume_data in
  let last_triangle_id := VolumeMetadata.last_triangle_id volume_data in
  if (geo_tri_count <=? first_triangle_id) || (geo_tri_count <=? last_triangle_id)
     || (last_triangle_id <? first_triangle_id)
  then add_error "Found invalid triangle id" ;; ret (false, object)
  else
    st <- get ;;
    let transform :=
      volume_transformation (m_version st) (VolumeMetadata.metadata volume_data) in
    let inv_matrix := matrix_inverse (Transformation_get_matrix transform) in
    (* splits volume out of imported geometry *)
    let triangles_count := to_unsigned (last_triangle_id - first_triangle_id + 1) in
    let src_start_id := to_unsigned (first_triangle_id * 3) in
    match read_facets (m_version st) geometry inv_matrix src_start_id triangles_count with
    | None => undefined
    | Some facets =>
        let repaired := repair facets in
        let triangle_mesh :=
          TriangleMesh.mk repaired (Z.of_nat (length repaired))
                          (to_int (to_unsigned triangles_count)) true false [] [] in
        let volume := ModelObject.new_volume triangle_mesh in
        (* apply the volume matrix taken from the metadata, if present *)
        let volume :=
          if 1 <? m_version st then
            ModelVolume.mk (ModelVolume.name volume) (ModelVolume.mesh volume)
              (ModelVolume.type volume) transform (ModelVolume.source volume)
              (ModelVolume.config volume)
          else volume in
        (* apply the remaining volume's metadata *)
        let volume :=
          foldl apply_volume_metadata volume (VolumeMetadata.metadata volume_data) in
        ret (true,
             ModelObject.with_volumes (ModelObject.volumes object ++ [Some volume])%list
                                      object)
    end.

Fixpoint generate_volumes_loop (geometry : Geometry.t) (geo_tri_count : Z)
    (object : ModelObject.t) (volumes : list VolumeMetadata.t)
  : M t (bool * ModelObject.t) :=
  match volumes with
  | [] => ret (true, object)
  | volume_data :: rest =>
      r <- generate_volume geometry geo_tri_count object volume_data ;;
      if fst r then generate_volumes_loop geometry geo_tri_count (snd r) rest
      else ret (false, snd r)
  end.

Definition _generate_volumes (object : ModelObject.t) (geometry : Geometry.t)
    (volumes : list VolumeMetadata.t) : M t (bool * ModelObject.t) :=
  if negb (bool_decide (length (ModelObject.volumes object) = 0%nat)) then
    add_error "Found invalid volumes count" ;; ret (false, object)
  else
    let geo_tri_count :=
      to_unsigned (Z.of_nat (length (Geometry.triangles geometry))) / 3 in
    generate_volumes_loop geometry geo_tri_count object volumes.

(** *** Loading *)

(** The layer config ranges are read through boost::property_tree and the
    SLA support points hold data of SLACommon.hpp; neither bears on the
    properties below.  The two functions that extract them, and
    [Model::adjust_min_z], are left open: what follows holds whatever
    they do. *)
Variable _extract_layer_config_ranges_from_archive : ZipEntry.t -> M t unit.
Variable _extract_sla_support_points_from_archive : ZipEntry.t -> M t unit.
Variable adjust_min_z : Model.t -> Model.t.

(** the body of the first loop of [_load_model_from_file]; [false] is
    [return false] *)
Definition load_model_entry (stat : ZipEntry.t) : M t bool :=
  if ZipEntry.stat_ok stat then
    let name := replace_backslashes (ZipEntry.m_filename stat) in
    if istarts_with name MODEL_FOLDER && iends_with name MODEL_EXTENSION then
      try_catch
        ((* valid model name -> extract model *)
         ok <- _extract_model_from_archive stat ;;
         if ok then ret true
         else add_error "Archive does not contain a valid model" ;; ret false)
        (fun e =>
           (* ensure the zip archive is closed and rethrow the exception *)
           throw (runtime_error (what e)))
    else ret true
  else ret true.

(** the body of the second loop *)
Definition load_other_entry (stat : ZipEntry.t) : M t bool :=
  if ZipEntry.stat_ok stat then
    let name := replace_backslashes (ZipEntry.m_filename stat) in
    (if iequals name LAYER_HEIGHTS_PROFILE_FILE
     then _extract_layer_heights_profile_config_from_archive stat
     else ret tt) ;;
    if iequals name LAYER_CONFIG_RANGES_FILE then
      _extract_layer_config_ranges_from_archive stat ;; ret true
    else if iequals name SLA_SUPPORT_POINTS_FILE then
      _extract_sla_support_points_from_archive stat ;; ret true
    else if iequals name PRINT_CONFIG_FILE then
      _extract_print_config_from_archive stat ;; ret true
    else if iequals name MODEL_CONFIG_FILE then
      ok <- _extract_model_config_from_archive stat ;;
      if ok then ret true
      else add_error "Archive does not contain a valid model config" ;; ret false
    else ret true
  else ret true.

(** the object's name and config data of the model config file *)
Definition apply_object_metadata (o : ModelObject.t) (metadata : Metadata.t)
  : ModelObject.t :=
  if String.eqb (Metadata.key metadata) "name" then
    ModelObject.with_name (Metadata.value metadata) o
  else
    ModelObject.with_config
      (set_deserialize (ModelObject.config o) (Metadata.key metadata)
                       (Metadata.value metadata)) o.

(** the body of the third loop, over [m_objects] *)
Definition load_object (object : Z * Z) : M t bool :=
  model_object <- objects_at (snd object) ;;
  st <- get ;;
  match m_geometries st !! fst object with
  | None => add_error "Unable to find object geometry" ;; ret false
  | Some obj_geometry =>
      match model_object with
      | None => undefined
      | Some o =>
          (* the three maps are indexed by a 1 based model object index *)
          let o :=
            match m_layer_heights_profiles st !! (snd object + 1) with
            | Some profile => ModelObject.with_layer_height_profile profile o
            | None => o
            end in
          let o :=
            match m_layer_config_ranges st !! (snd object + 1) with
            | Some ranges => ModelObject.with_layer_config_ranges ranges o
            | None => o
            end in
          let o :=
            match m_sla_support_points st !! (snd object + 1) with
            | Some points =>
                if negb (bool_decide (length points = 0%nat)) then
                  ModelObject.with_sla_points_status UserModified
                    (ModelObject.with_sla_support_points points o)
                else o
            | None => o
            end in
          let '(o, volumes) :=
            match m_objects_metadata st !! fst object with
            | Some obj_metadata =>
                (* config data has been found: apply object's name and
                   config data, select object's detected volumes *)
                (foldl apply_object_metadata o (ObjectMetadata.metadata obj_metadata),
                 ObjectMetadata.volumes obj_metadata)
            | None =>
                (* add the entire geometry as the single volume *)
                (o, [VolumeMetadata.make (to_unsigned 0)
                       (to_unsigned
                          (to_int (Z.of_nat (length (Geometry.triangles obj_geometry)))
                             ÷ 3 - 1))])
            end in
          r <- _generate_volumes o obj_geometry volumes ;;
          modify (fun st => set_m_model
                    (Model.set_object (Z.to_nat (snd object)) (snd r) (m_model st)) st) ;;
          ret (fst r)
      end
  end.

Definition _load_model_from_file (filename : ZipFile.t) : M t bool :=
  if negb (ZipFile.open_ok filename) then
    add_error "Unable to open the file" ;; ret false
  else
    modify (set_m_name (path_stem (ZipFile.filename filename))) ;;
    (* we first loop the entries to read from the archive the .model file
       only, in order to extract the version from it *)
    ok <- for_each load_model_entry (ZipFile.entries filename) ;;
    if negb ok then ret false
    else
      (* we then loop again the entries to read other files *)
      ok <- for_each load_other_entry (ZipFile.entries filename) ;;
      if negb ok then ret false
      else
        st <- get ;;
        ok <- for_each load_object (map_in_order (m_objects st)) ;;
        if negb ok then ret false
        else
          (* fixes the min z of the model if negative *)
          modify (fun st => set_m_model (adjust_min_z (m_model st)) st) ;;
          ret true.

Definition load_model_from_file (filename : ZipFile.t) (check_version : bool)
  : M t bool :=
  modify (set_m_version 0) ;;
  modify (set_m_check_version check_version) ;;
  modify (set_m_unit_factor (float_lit 1)) ;;
  modify (set_m_curr_object CurrentObject.reset) ;;
  modify (set_m_objects ∅) ;;
  modify (set_m_objects_aliases ∅) ;;
  modify (set_m_instances []) ;;
  modify (set_m_geometries ∅) ;;
  modify (set_m_curr_config (CurrentConfig.mk (-1) (-1))) ;;
  modify (set_m_objects_metadata ∅) ;;
  modify (set_m_layer_heights_profiles ∅) ;;
  modify (set_m_layer_config_ranges ∅) ;;
  modify (set_m_sla_support_points ∅) ;;
  modify (set_m_curr_metadata_name "") ;;
  modify (set_m_curr_characters "") ;;
  clear_errors ;;
  _load_model_from_file filename.

(** The importer that [load_3mf] constructs, with the scene and the
    configuration that [load_model_from_file] is given. *)
Definition constructed (model : Model.t) (config : DynamicPrintConfig) : t :=
  mk 0 false model (float_lit 1) CurrentObject.reset ∅ ∅ [] ∅
     (CurrentConfig.mk (-1) (-1)) ∅ ∅ ∅ ∅ "" "" "" [] config.

(** [load_3mf]: [false] at once on a null pointer, no importer being
    made; otherwise the outcome of [load_model_from_file], the importer
    giving the scene, the configuration and the errors that [log_errors]
    prints. *)
Definition load_3mf (path : option ZipFile.t) (config : option DynamicPrintConfig)
    (model : option Model.t) (check_version : bool) : outcome (option t) bool :=
  match path, config, model with
  | Some path, Some config, Some model =>
      match load_model_from_file path check_version (constructed model config) with
      | Returns res importer => Returns res (Some importer)
      | Throws e importer => Throws e (Some importer)
      | Undefined => Undefined
      end
  | _, _, _ => Returns false None
  end.

End Def.
End _3MF_Importer.

(** ** The exporter *)

Module BuildItem.
Section Def.
Context `{Externals}.
#[projections(primitive)]
Record t := mk { id : Z; transform : Transform3d; printable : bool }.
End Def.
End BuildItem.

Module Offsets.
#[projections(primitive)]
Record t := mk {
  first_vertex_id : Z;
  first_triangle_id : Z;
  last_triangle_id : Z }.
(** [Offsets(unsigned int first_vertex_id)] *)
Definition make (first_vertex_id : Z) : t :=
  mk first_vertex_id (to_unsigned (-1)) (to_unsigned (-1)).
End Offsets.

Module ObjectData.
Section Def.
Context `{Externals}.
(** [volumes_offsets] is keyed by the volume, here by its position in
    [object->volumes] *)
#[projections(primitive)]
Record t := mk { object : ModelObject.t; volumes_offsets : gmap nat Offsets.t }.
End Def.
End ObjectData.

Module ThumbnailData.
(** [is_valid()], and whether the PNG encoder of miniz returns data *)
#[projections(primitive)]
Record t := mk { is_valid : bool; png_encodes : bool }.
End ThumbnailData.

Module OutputFile.
(** The file to write, with what miniz answers for it: whether
    [open_zip_writer] succeeds, whether [mz_zip_writer_add_mem] succeeds
    for the part of a given name, whether
    [mz_zip_writer_finalize_archive] succeeds. *)
#[projections(primitive)]
Record t := mk {
  filename : string;
  open_ok : bool;
  add_ok : string -> bool;
  finalize_ok : bool }.
End OutputFile.

Inductive part : Type :=
| xml_part (document : list xml_event)
| text_part (text : string)
| png_part.

Module _3MF_Exporter.
Section Def.
Context `{Externals}.

(** the compile-time switch of the file *)
Variable ENABLE_THUMBNAIL_GENERATOR : bool.

(** [m_errors] of the base class; [stream], [build_items] and
    [objects_data], locals that the functions below pass by reference;
    the parts added to the archive so far, and whether the output file
    is on the disk. *)
#[projections(primitive)]
Record t := mk {
  m_errors : list string;
  stream : list xml_event;
  build_items : list BuildItem.t;
  objects_data : gmap Z ObjectData.t;
  archive : list (string * part);
  file_on_disk : bool }.

Definition set_m_errors v '(mk a b c d e f) := mk v b c d e f.
Definition set_stream v '(mk a b c d e f) := mk a v c d e f.
Definition set_build_items v '(mk a b c d e f) := mk a b v d e f.
Definition set_objects_data v '(mk a b c d e f) := mk a b c v e f.
Definition set_archive v '(mk a b c d e f) := mk a b c d v f.
Definition set_file_on_disk v '(mk a b c d e f) := mk a b c d e v.

Definition add_error (error : string) : M t unit :=
  modify (fun st => set_m_errors (m_errors st ++ [error])%list st).
Definition clear_errors : M t unit := modify (set_m_errors []).

(** [stream << ...], one element at a time *)
Definition emit (events : list xml_event) : M t unit :=
  modify (fun st => set_stream (stream st ++ events)%list st).

Definition mz_zip_writer_add_mem (out : OutputFile.t) (name : string) (content : part)
  : M t bool :=
  if OutputFile.add_ok out name then
    modify (fun st => set_archive (archive st ++ [(name, content)])%list st) ;; ret true
  else ret false.

(** [close_zip_writer(&archive); boost::filesystem::remove(filename);] *)
Definition close_and_remove : M t unit := modify (set_file_on_disk false).

Definition _add_content_types_file_to_archive (out : OutputFile.t) : M t bool :=
  let document :=
    [start_element "Types"
       ["xmlns"; "http://schemas.openxmlformats.org/package/2006/content-types"];
     start_element "Default"
       ["Extension"; "rels";
        "ContentType"; "application/vnd.openxmlformats-package.relationships+xml"];
     end_element "Default";
     start_element "Default"
       ["Extension"; "model";
        "ContentType"; "application/vnd.ms-package.3dmanufacturing-3dmodel+xml"];
     end_element "Default"]
    ++ (if ENABLE_THUMBNAIL_GENERATOR
        then [start_element "Default" ["Extension"; "png"; "ContentType"; "image/png"];
              end_element "Default"]
        else [])
    ++ [end_element "Types"] in
  ok <- mz_zip_writer_add_mem out CONTENT_TYPES_FILE (xml_part document) ;;
  if ok then ret true
  else add_error "Unable to add content types file to archive" ;; ret false.

Definition _add_thumbnail_file_to_archive (out : OutputFile.t)
    (thumbnail_data : ThumbnailData.t) : M t bool :=
  res <- (if ThumbnailData.png_encodes thumbnail_data
          then mz_zip_writer_add_mem out THUMBNAIL_FILE png_part
          else ret false) ;;
  (if negb res then add_error "Unable to add thumbnail file to archive" else ret tt) ;;
  ret res.

Definition _add_relationships_file_to_archive (out : OutputFile.t) : M t bool :=
  let document :=
    [start_element "Relationships"
       ["xmlns"; "http://schemas.openxmlformats.org/package/2006/relationships"];
     start_element "Relationship"
       ["Target"; "/" +:+ MODEL_FILE; "Id"; "rel-1";
        "Type"; "http://schemas.microsoft.com/3dmanufacturing/2013/01/3dmodel"];
     end_element "Relationship"]
    ++ (if ENABLE_THUMBNAIL_GENERATOR
        then [start_element "Relationship"
                ["Target"; "/" +:+ THUMBNAIL_FILE; "Id"; "rel-2";
                 "Type";
                 "http://schemas.openxmlformats.org/package/2006/relationships/metadata/thumbnail"];
              end_element "Relationship"]
        else [])
    ++ [end_element "Relationships"] in
  ok <- mz_zip_writer_add_mem out RELATIONSHIPS_FILE (xml_part document) ;;
  if ok then ret true
  else add_error "Unable to add relationships file to archive" ;; ret false.

(** [volumes_offsets] of the entry [curr_id] of [objects_data] *)
Definition offsets_of (curr_id : Z) (st : t) : gmap nat Offsets.t :=
  match objects_data st !! curr_id with
  | Some d => ObjectData.volumes_offsets d
  | None => ∅
  end.

Definition modify_offsets (curr_id : Z) (f : gmap nat Offsets.t -> gmap nat Offsets.t)
  : M t unit :=
  modify (fun st =>
    set_objects_data
      (alter (fun d => ObjectData.mk (ObjectData.object d) (f (ObjectData.volumes_offsets d)))
             curr_id (objects_data st)) st).

(** the first loop of [_add_mesh_to_object_stream], over the volumes with
    their positions; [vertices_count] is given and returned *)
Fixpoint add_mesh_vertices (curr_id : Z) (vertices_count : Z)
    (volumes : list (nat * option ModelVolume.t)) : M t (bool * Z) :=
  match volumes with
  | [] => ret (true, vertices_count)
  | (_, None) :: rest => add_mesh_vertices curr_id vertices_count rest
  | (k, Some volume) :: rest =>
      let mesh := ModelVolume.mesh volume in
      if negb (TriangleMesh.repaired mesh) then
        throw (runtime_error "store_3mf() requires repair()")
      else if negb (TriangleMesh.has_shared_vertices mesh) then
        throw (runtime_error "store_3mf() requires shared vertices")
      else
        modify_offsets curr_id (fun m =>
          match m !! k with
          | Some _ => m
          | None => <[k := Offsets.make vertices_count]> m
          end) ;;
        if bool_decide (length (TriangleMesh.its_vertices mesh) = 0%nat) then
          add_error "Found invalid mesh" ;; ret (false, vertices_count)
        else
          let vertices_count :=
            to_unsigned
              (vertices_count
               + to_int (Z.of_nat (length (TriangleMesh.its_vertices mesh)))) in
          let matrix := ModelVolume.get_matrix volume in
          emit (flat_map
                  (fun vertex : Vec3f =>
                     let '(x, y, z) :=
                       _3MF_Importer.to_float3
                         (matrix_apply matrix (_3MF_Importer.to_double3 vertex)) in
                     [start_element VERTEX_TAG
                        ["x"; float_to_string max_digits10 x;
                         "y"; float_to_string max_digits10 y;
                         "z"; float_to_string max_digits10 z];
                      end_element VERTEX_TAG])
                  (TriangleMesh.its_vertices mesh)) ;;
          add_mesh_vertices curr_id vertices_count rest
  end.

(** the second loop, [triangles_count] given and returned *)
Fixpoint add_mesh_triangles (curr_id : Z) (triangles_count : Z)
    (volumes : list (nat * option ModelVolume.t)) : M t unit :=
  match volumes with
  | [] => ret tt
  | (_, None) :: rest => add_mesh_triangles curr_id triangles_count rest
  | (k, Some volume) :: rest =>
      let mesh := ModelVolume.mesh volume in
      st <- get ;;
      let first_vertex_id :=
        match offsets_of curr_id st !! k with
        | Some o => Offsets.first_vertex_id o
        | None => 0
        end in
      (* updates triangle offsets *)
      let first_triangle_id := triangles_count in
      let triangles_count :=
        to_unsigned
          (triangles_count + to_int (Z.of_nat (length (TriangleMesh.its_indices mesh)))) in
      modify_offsets curr_id
        (alter (fun o => Offsets.mk (Offsets.first_vertex_id o) first_triangle_id
                                    (to_unsigned (triangles_count - 1))) k) ;;
      emit (flat_map
              (fun triangle : list Z =>
                 [start_element TRIANGLE_TAG
                    (flat_map (fun j : nat =>
                                 ["v" +:+ pretty (Z.of_nat j + 1);
                                  pretty (to_unsigned (default 0 (triangle !! j)
                                                       + first_vertex_id))])
                              [0; 1; 2]%nat);
                  end_element TRIANGLE_TAG])
              (TriangleMesh.its_indices mesh)) ;;
      add_mesh_triangles curr_id triangles_count rest
  end.

Definition _add_mesh_to_object_stream (object : ModelObject.t) (curr_id : Z)
  : M t bool :=
  emit [start_element MESH_TAG []; start_element VERTICES_TAG []] ;;
  let volumes := imap pair (ModelObject.volumes object) in
  r <- add_mesh_vertices curr_id 0 volumes ;;
  if negb (fst r) then ret false
  else
    emit [end_element VERTICES_TAG; start_element TRIANGLES_TAG []] ;;
    add_mesh_triangles curr_id 0 volumes ;;
    emit [end_element TRIANGLES_TAG; end_element MESH_TAG] ;;
    ret true.

(** the loop of [_add_object_to_model_stream] over the instances; [id] is
    given and returned.  The [assert]s are those of a release build. *)
Fixpoint add_object_instances (object : ModelObject.t) (curr_id : Z)
    (object_id id : Z) (instances : list (option ModelInstance.t)) : M t (bool * Z) :=
  match instances with
  | [] => ret (true, id)
  | None :: rest => add_object_instances object curr_id object_id id rest
  | Some instance :: rest =>
      let instance_id := to_unsigned (object_id + id) in
      emit [start_element OBJECT_TAG ["id"; pretty instance_id; "type"; "model"]] ;;
      ok <- (if id =? 0 then
               ok <- _add_mesh_to_object_stream object curr_id ;;
               if ok then ret true
               else add_error "Unable to add mesh to archive" ;; ret false
             else
               emit [start_element COMPONENTS_TAG [];
                     start_element COMPONENT_TAG ["objectid"; pretty object_id];
                     end_element COMPONENT_TAG;
                     end_element COMPONENTS_TAG] ;;
               ret true) ;;
      if negb ok then ret (false, id)
      else
        let t := Transformation_get_matrix (ModelInstance.transformation instance) in
        modify (fun st => set_build_items
                  (build_items st
                   ++ [BuildItem.mk instance_id t (ModelInstance.printable instance)])%list
                  st) ;;
        emit [end_element OBJECT_TAG] ;;
        add_object_instances object curr_id object_id (to_unsigned (id + 1)) rest
  end.

(** [object_id] is the reference parameter, given and returned *)
Definition _add_object_to_model_stream (object_id : Z) (object : ModelObject.t)
    (curr_id : Z) : M t (bool * Z) :=
  r <- add_object_instances object curr_id object_id 0 (ModelObject.instances object) ;;
  if negb (fst r) then ret (false, object_id)
  else ret (true, to_unsigned (object_id + snd r)).

Definition transform_attribute (transform : Transform3d) : string :=
  foldl (fun acc c =>
           foldl (fun acc r =>
                    acc +:+ match coeff transform r c with
                            | Some x => double_to_string max_digits10 x
                            | None => ""
                            end
                        +:+ (if negb (r =? 2)%nat || negb (c =? 3)%nat then " " else ""))
                 acc [0; 1; 2]%nat)
        "" [0; 1; 2; 3]%nat.

Definition _add_build_to_model_stream : M t bool :=
  st <- get ;;
  if bool_decide (length (build_items st) = 0%nat) then
    add_error "No build item found" ;; ret false
  else
    emit [start_element BUILD_TAG []] ;;
    emit (flat_map
            (fun item : BuildItem.t =>
               [start_element ITEM_TAG
                  [OBJECTID_ATTR; pretty (BuildItem.id item);
                   TRANSFORM_ATTR; transform_attribute (BuildItem.transform item);
                   PRINTABLE_ATTR; if BuildItem.printable item then "1" else "0"];
                end_element ITEM_TAG])
            (build_items st)) ;;
    emit [end_element BUILD_TAG] ;;
    ret true.

(** the loop of [_add_model_file_to_archive] over [model.objects] *)
Fixpoint add_model_objects (object_id : Z) (objects : list (option ModelObject.t))
  : M t bool :=
  match objects with
  | [] => ret true
  | None :: rest => add_model_objects object_id rest
  | Some obj :: rest =>
      let curr_id := object_id in
      modify (fun st => set_objects_data
                (map_insert_new (to_int curr_id) (ObjectData.mk obj ∅)
                                (objects_data st)) st) ;;
      r <- _add_object_to_model_stream object_id obj (to_int curr_id) ;;
      if negb (fst r) then add_error "Unable to add object to archive" ;; ret false
      else add_model_objects (snd r) rest
  end.

(** The stream of this part is the one whose precision is set, by
    [stream << std::setprecision(std::numeric_limits<float>::max_digits10)]:
    the vertices and the transforms of the build items, which the
    functions above print on it, have [max_digits10] digits. *)
Definition _add_model_file_to_archive (out : OutputFile.t) (model : Model.t)
  : M t bool :=
  modify (set_stream []) ;;
  modify (set_build_items []) ;;
  emit [start_element MODEL_TAG
          ["unit"; "millimeter"; "xml:lang"; "en-US";
           "xmlns"; "http://schemas.microsoft.com/3dmanufacturing/core/2015/02";
           "xmlns:slic3rpe"; "http://schemas.slic3r.org/3mf/2017/06"];
        start_element METADATA_TAG ["name"; SLIC3RPE_3MF_VERSION];
        characters (pretty VERSION_3MF);
        end_element METADATA_TAG;
        start_element RESOURCES_TAG []] ;;
  ok <- add_model_objects 1 (Model.objects model) ;;
  if negb ok then ret false
  else
    emit [end_element RESOURCES_TAG] ;;
    ok <- _add_build_to_model_stream ;;
    if negb ok then add_error "Unable to add build to archive" ;; ret false
    else
      emit [end_element MODEL_TAG] ;;
      st <- get ;;
      ok <- mz_zip_writer_add_mem out MODEL_FILE (xml_part (stream st)) ;;
      if ok then ret true
      else add_error "Unable to add model file to archive" ;; ret false.

(** [model.objects] with the 1 based count of each entry; the loops of
    the three functions below read through every pointer, so that a null
    entry has no defined behaviour *)
Definition counted_objects (model : Model.t) : option (list (Z * ModelObject.t)) :=
  mapM (fun '(k, o) => pair (to_unsigned (Z.of_nat k + 1)) <$> o)
       (imap pair (Model.objects model)).

Definition join (sep : string) (l : list string) : string :=
  match l with
  | [] => ""
  | x :: l' => foldl (fun acc y => acc +:+ sep +:+ y) x l'
  end.

Definition _add_layer_height_profile_file_to_archive (out : OutputFile.t)
    (model : Model.t) : M t bool :=
  match counted_objects model with
  | None => undefined
  | Some objects =>
      let text :=
        foldl (fun text '(count, object) =>
                 let layer_height_profile := ModelObject.layer_height_profile object in
                 if (4 <=? length layer_height_profile)%nat
                    && (length layer_height_profile mod 2 =? 0)%nat
                 then
                   text +:+ "object_id=" +:+ pretty (to_int count) +:+ "|"
                        (* a single semicolon separated list *)
                        +:+ join ";" (map sprintf_f layer_height_profile)
                        +:+ String "010"%char ""
                 else text)
              "" objects in
      if negb (String.eqb text "") then
        ok <- mz_zip_writer_add_mem out LAYER_HEIGHTS_PROFILE_FILE (text_part text) ;;
        if ok then ret true
        else add_error "Unable to add layer heights profile file to archive" ;; ret false
      else ret true
  end.

Definition _add_layer_config_ranges_file_to_archive (out : OutputFile.t)
    (model : Model.t) : M t bool :=
  match counted_objects model with
  | None => undefined
  | Some objects =>
      let with_ranges :=
        filter (fun '(_, object) =>
                  layer_config_ranges_empty (ModelObject.layer_config_ranges object) = false)
               objects in
      (* the tree is not empty, and so is the text written from it *)
      if negb (bool_decide (length with_ranges = 0%nat)) then
        let text :=
          foldl (fun text '(object_cnt, object) =>
                   text +:+ layer_config_ranges_to_xml object_cnt
                              (ModelObject.layer_config_ranges object))
                "" with_ranges in
        ok <- mz_zip_writer_add_mem out LAYER_CONFIG_RANGES_FILE (text_part text) ;;
        if ok then ret true
        else add_error "Unable to add layer heights profile file to archive" ;; ret false
      else ret true
  end.

Definition _add_sla_support_points_file_to_archive (out : OutputFile.t)
    (model : Model.t) : M t bool :=
  match counted_objects model with
  | None => undefined
  | Some objects =>
      let text :=
        foldl (fun text '(count, object) =>
                 let sla_support_points := ModelObject.sla_support_points object in
                 if negb (bool_decide (length sla_support_points = 0%nat)) then
                   text +:+ "object_id=" +:+ pretty (to_int count) +:+ "|"
                        +:+ join " " (map SupportPoint_to_string sla_support_points)
                        +:+ String "010"%char ""
                 else text)
              "" objects in
      if negb (String.eqb text "") then
        (* adds version header at the beginning *)
        let text :=
          "support_points_format_version=" +:+ pretty support_points_format_version
            +:+ String "010"%char "" +:+ text in
        ok <- mz_zip_writer_add_mem out SLA_SUPPORT_POINTS_FILE (text_part text) ;;
        if ok then ret true
        else add_error "Unable to add sla support points file to archive" ;; ret false
      else ret true
  end.

Definition _add_print_config_file_to_archive (out : OutputFile.t)
    (config : DynamicPrintConfig) : M t bool :=
  let text :=
    foldl (fun text key =>
             if negb (String.eqb key "compatible_printers") then
               text +:+ "; " +:+ key +:+ " = " +:+ opt_serialize config key
                    +:+ String "010"%char ""
             else text)
          ("; " +:+ header_slic3r_generated +:+ String "010"%char (String "010"%char ""))
          (config_keys config) in
  if negb (String.eqb text "") then
    ok <- mz_zip_writer_add_mem out PRINT_CONFIG_FILE (text_part text) ;;
    if ok then ret true
    else add_error "Unable to add print config file to archive" ;; ret false
  else ret true.

Definition metadata_element (type key value : string) : list xml_event :=
  [start_element METADATA_TAG [TYPE_ATTR; type; KEY_ATTR; key; VALUE_ATTR; value];
   end_element METADATA_TAG].

(** The stream of the model config file is a new [std::stringstream] on
    which no precision is set: the matrix of a volume and the offsets of
    its source are printed with the [default_precision]. *)
Definition matrix_attribute (matrix : Transform3d) : string :=
  foldl (fun acc r =>
           foldl (fun acc c =>
                    acc +:+ match coeff matrix r c with
                            | Some x => double_to_string default_precision x
                            | None => ""
                            end
                        +:+ (if negb (r =? 3)%nat || negb (c =? 3)%nat then " " else ""))
                 acc [0; 1; 2; 3]%nat)
        "" [0; 1; 2; 3]%nat.

Definition volume_config_elements (offsets : gmap nat Offsets.t)
    (entry : nat * option ModelVolume.t) : list xml_event :=
  match entry with
  | (k, Some volume) =>
      match offsets !! k with
      | Some it =>
          (* stores volume's offsets *)
          [start_element VOLUME_TAG
             [FIRST_TRIANGLE_ID_ATTR; pretty (Offsets.first_triangle_id it);
              LAST_TRIANGLE_ID_ATTR; pretty (Offsets.last_triangle_id it)]]
          (* stores volume's name *)
          ++ (if negb (String.eqb (ModelVolume.name volume) "")
              then metadata_element VOLUME_TYPE NAME_KEY (xml_escape (ModelVolume.name volume))
              else [])
          (* stores volume's modifier field (legacy) *)
          ++ (if ModelVolume.is_modifier volume
              then metadata_element VOLUME_TYPE MODIFIER_KEY "1"
              else [])
          (* stores volume's type (overrides the modifier field above) *)
          ++ metadata_element VOLUME_TYPE VOLUME_TYPE_KEY
               (type_to_string (ModelVolume.type volume))
          (* stores volume's local matrix *)
          ++ metadata_element VOLUME_TYPE MATRIX_KEY
               (matrix_attribute (ModelVolume.get_matrix volume))
          (* stores volume's source data *)
          ++ (let source := ModelVolume.source volume in
              let '(ox, oy, oz) := Source.mesh_offset source in
              if negb (String.eqb (Source.input_file source) "") then
                metadata_element VOLUME_TYPE SOURCE_FILE_KEY
                  (xml_escape (Source.input_file source))
                ++ metadata_element VOLUME_TYPE SOURCE_OBJECT_ID_KEY
                     (pretty (Source.object_idx source))
                ++ metadata_element VOLUME_TYPE SOURCE_VOLUME_ID_KEY
                     (pretty (Source.volume_idx source))
                ++ metadata_element VOLUME_TYPE SOURCE_OFFSET_X_KEY
                     (double_to_string default_precision ox)
                ++ metadata_element VOLUME_TYPE SOURCE_OFFSET_Y_KEY
                     (double_to_string default_precision oy)
                ++ metadata_element VOLUME_TYPE SOURCE_OFFSET_Z_KEY
                     (double_to_string default_precision oz)
              else [])
          (* stores volume's config data *)
          ++ flat_map (fun key =>
                         metadata_element VOLUME_TYPE key
                           (opt_serialize (ModelVolume.config volume) key))
                      (config_keys (ModelVolume.config volume))
          ++ [end_element VOLUME_TAG]
      | None => []
      end
  | (_, None) => []
  end.

Definition object_config_elements (obj_metadata : Z * ObjectData.t) : list xml_event :=
  let obj := ObjectData.object (snd obj_metadata) in
  [start_element OBJECT_TAG [ID_ATTR; pretty (fst obj_metadata)]]
  (* stores object's name *)
  ++ (if negb (String.eqb (ModelObject.name obj) "")
      then metadata_element OBJECT_TYPE "name" (xml_escape (ModelObject.name obj))
      else [])
  (* stores object's config data *)
  ++ flat_map (fun key =>
                 metadata_element OBJECT_TYPE key
                   (opt_serialize (ModelObject.config obj) key))
              (config_keys (ModelObject.config obj))
  ++ flat_map (volume_config_elements (ObjectData.volumes_offsets (snd obj_metadata)))
              (imap pair (ModelObject.volumes obj))
  ++ [end_element OBJECT_TAG].

Definition _add_model_config_file_to_archive (out : OutputFile.t) (model : Model.t)
  : M t bool :=
  st <- get ;;
  let document :=
    [start_element CONFIG_TAG []]
    ++ flat_map object_config_elements (map_in_order (objects_data st))
    ++ [end_element CONFIG_TAG] in
  ok <- mz_zip_writer_add_mem out MODEL_CONFIG_FILE (xml_part document) ;;
  if ok then ret true
  else add_error "Unable to add model config file to archive" ;; ret false.

(** [if (!step) { close_zip_writer; remove(filename); return false; }]
    followed by the rest of the function *)
Definition or_remove (step : M t bool) (rest : M t bool) : M t bool :=
  ok <- step ;;
  if ok then rest else close_and_remove ;; ret false.

Definition _save_model_to_file (filename : OutputFile.t) (model : Model.t)
    (config : option DynamicPrintConfig) (thumbnail_data : option ThumbnailData.t)
  : M t bool :=
  if negb (OutputFile.open_ok filename) then
    add_error "Unable to open the file" ;; ret false
  else
    (* the writer has created the file *)
    modify (set_file_on_disk true) ;;
    modify (set_objects_data ∅) ;;
    or_remove (_add_content_types_file_to_archive filename)
   (or_remove (match thumbnail_data with
               | Some data =>
                   if ENABLE_THUMBNAIL_GENERATOR && ThumbnailData.is_valid data
                   then _add_thumbnail_file_to_archive filename data
                   else ret true
               | None => ret true
               end)
   (or_remove (_add_relationships_file_to_archive filename)
   (or_remove (_add_model_file_to_archive filename model)
   (or_remove (_add_layer_height_profile_file_to_archive filename model)
   (or_remove (_add_layer_config_ranges_file_to_archive filename model)
   (or_remove (_add_sla_support_points_file_to_archive filename model)
   (or_remove (match config with
               | Some config => _add_print_config_file_to_archive filename config
               | None => ret true
               end)
   (or_remove (_add_model_config_file_to_archive filename model)
   (if negb (OutputFile.finalize_ok filename) then
      close_and_remove ;;
      add_error "Unable to finalize the archive" ;;
      ret false
    else ret true))))))))).

Definition save_model_to_file (filename : OutputFile.t) (model : Model.t)
    (config : option DynamicPrintConfig) (thumbnail_data : option ThumbnailData.t)
  : M t bool :=
  clear_errors ;;
  _save_model_to_file filename model config thumbnail_data.

(** the exporter that [store_3mf] constructs; [on_disk] tells whether a
    file of that name exists before the call *)
Definition constructed (on_disk : bool) : t := mk [] [] [] ∅ [] on_disk.

(** [store_3mf]: [false] at once on a null pointer, nothing being
    touched; otherwise the outcome of [save_model_to_file] ([log_errors]
    prints the errors and changes nothing). *)
Definition store_3mf (path : option OutputFile.t) (model : option Model.t)
    (config : option DynamicPrintConfig) (thumbnail_data : option ThumbnailData.t)
    (on_disk : bool) : outcome t bool :=
  match path, model with
  | Some path, Some model =>
      save_model_to_file path model config thumbnail_data (constructed on_disk)
  | _, _ => Returns false (constructed on_disk)
  end.

End Def.
End _3MF_Exporter.

(** ** An instance of the externals over the rationals

    [float] and [double] are both the rationals with exact operations, a
    [Transformation] is its matrix, a configuration is the list of the
    keys set with their values.  Decimal texts are read exactly, and
    printed as the formats say: a stream keeps the significant digits of
    its precision, [%f] six digits after the point.  The instance serves
    to run the embedding on concrete archives and scenes. *)

Module Exact.

Definition scalar : Type := Qc.

Fixpoint fraction_value (acc : Z) (scale : positive) (s : string) : Z * positive :=
  match s with
  | String c s' =>
      match digit_value c with
      | Some d => fraction_value (10 * acc + d) (10 * scale) s'
      | None => (acc, scale)
      end
  | EmptyString => (acc, scale)
  end.

Fixpoint skip_digits (s : string) : string :=
  match s with
  | String c s' => match digit_value c with Some _ => skip_digits s' | None => s end
  | EmptyString => s
  end.

(** the power of ten that an exponent part [e<n>], [e+<n>] or [e-<n>]
    stands for, when the text starts with one *)
Definition exponent_part (s : string) : option Qc :=
  match s with
  | String c s' =>
      if Ascii.eqb c "e" || Ascii.eqb c "E" then
        match s' with
        | String "-"%char s'' => Some (Q2Qc (1 # Z.to_pos (10 ^ digits_value 0 s'')))
        | String "+"%char s'' => Some (Q2Qc (inject_Z (10 ^ digits_value 0 s'')))
        | _ => Some (Q2Qc (inject_Z (10 ^ digits_value 0 s')))
        end
      else None
  | EmptyString => None
  end.

Definition with_exponent (mantissa : Qc) (s : string) : Qc :=
  match exponent_part s with
  | Some factor => (mantissa * factor)%Qc
  | None => mantissa
  end.

Definition unsigned_decimal (s : string) : Qc :=
  let whole := digits_value 0 s in
  match skip_digits s with
  | String "."%char s' =>
      let '(num, den) := fraction_value 0 1 s' in
      with_exponent (Q2Qc (inject_Z whole + (num # den))%Q) (skip_digits s')
  | s' => with_exponent (Q2Qc (inject_Z whole)) s'
  end.

Definition read_decimal (s : string) : Qc :=
  match skip_spaces s with
  | String "-"%char s' => (- unsigned_decimal s')%Qc
  | String "+"%char s' => unsigned_decimal s'
  | s' => unsigned_decimal s'
  end.

Definition pad6 (s : string) : string :=
  String.string_of_list_ascii (replicate (6 - String.length s) "0"%char) +:+ s.

Definition whole_part (q : Q) : Z := Qnum q / Z.pos (Qden q).

(** the nearest integer, the even one of the two when they are as near *)
Definition nearest (q : Q) : Z :=
  let below := whole_part q in
  match ((q - inject_Z below) ?= 1 # 2)%Q with
  | Lt => below
  | Gt => below + 1
  | Eq => if Z.even below then below else below + 1
  end.

Definition magnitude (q : Qc) : Q := (Z.abs (Qnum q) # Qden q)%Q.

(** [%f]: six digits after the point, the nearest to the number *)
Definition fixed6 (q : Qc) : string :=
  let n := nearest (magnitude q * 1000000)%Q in
  (if bool_decide (q < 0)%Qc then "-" else "")
    +:+ pretty (n / 1000000) +:+ "." +:+ pad6 (pretty (n mod 1000000)).

(** *** [stream << x]: the format [%g] with the precision of the stream *)

Definition digits (n : Z) : Z := Z.of_nat (String.length (pretty n)).

(** the place of the leading digit of a positive rational: the [e] with
    [10 ^ e <= q < 10 ^ (e + 1)] *)
Definition leading_place (q : Q) : Z :=
  let whole := whole_part q in
  if 0 <? whole then digits whole - 1
  else
    let n := Qnum q in
    let d := Z.pos (Qden q) in
    let k := digits d - digits n in
    if d <=? n * 10 ^ k then - k else - (k + 1).

Definition times_ten_to (e : Z) (q : Q) : Q :=
  if 0 <=? e then (q * inject_Z (10 ^ e))%Q else (q / inject_Z (10 ^ (- e)))%Q.

Fixpoint strip_zeros (s : string) : string :=
  match s with
  | EmptyString => EmptyString
  | String c s' =>
      match strip_zeros s' with
      | EmptyString => if Ascii.eqb c "0" then EmptyString else String c EmptyString
      | t => String c t
      end
  end.

Definition with_fraction (whole fraction : string) : string :=
  match strip_zeros fraction with
  | EmptyString => whole
  | f => whole +:+ "." +:+ f
  end.

Definition zeros (n : nat) : string := String.string_of_list_ascii (replicate n "0"%char).

(** [precision] significant digits, without the zeros at the end: in
    fixed notation when the leading digit is at most four places after
    the point and within the digits printed, with an exponent of two
    digits at least otherwise *)
Definition general (precision : nat) (q : Qc) : string :=
  let p := Z.of_nat (Nat.max precision 1) in
  let a := magnitude q in
  if bool_decide (q = 0)%Qc then "0"
  else
    let e := leading_place a in
    let m := nearest (times_ten_to (p - 1 - e) a) in
    let '(m, e) := if 10 ^ p <=? m then (10 ^ (p - 1), e + 1) else (m, e) in
    let text := pretty m in
    (if bool_decide (q < 0)%Qc then "-" else "")
      +:+ (if (-4 <=? e) && (e <? p) then
             if 0 <=? e then
               with_fraction (String.substring 0 (Z.to_nat (e + 1)) text)
                 (String.substring (Z.to_nat (e + 1)) (String.length text) text)
             else with_fraction "0" (zeros (Z.to_nat (- e - 1)) +:+ text)
           else
             with_fraction (String.substring 0 1 text)
               (String.substring 1 (String.length text) text)
               +:+ "e" +:+ (if e <? 0 then "-" else "+")
               +:+ (if Z.abs e <? 10 then "0" else "") +:+ pretty (Z.abs e)).

Definition matrix : Type := list (list Qc).

Definition at_ (m : matrix) (r c : nat) : Qc :=
  default 0%Qc (row ← m !! r; row !! c).

Definition identity : matrix :=
  [ [1; 0; 0; 0]; [0; 1; 0; 0]; [0; 0; 1; 0]; [0; 0; 0; 1] ]%Qc.

Definition build (f : nat -> nat -> Qc) : matrix :=
  map (fun r => map (f r) [0; 1; 2; 3]%nat) [0; 1; 2; 3]%nat.

Definition mul (a b : matrix) : matrix :=
  build (fun r c =>
           at_ a r 0 * at_ b 0 c + at_ a r 1 * at_ b 1 c
           + at_ a r 2 * at_ b 2 c + at_ a r 3 * at_ b 3 c)%Qc.

Definition apply (m : matrix) (v : Qc * Qc * Qc) : Qc * Qc * Qc :=
  let '(x, y, z) := v in
  let row r := (at_ m r 0 * x + at_ m r 1 * y + at_ m r 2 * z + at_ m r 3)%Qc in
  (row 0%nat, row 1%nat, row 2%nat).

(** the inverse of an affine transform: the adjugate of the linear part
    over its determinant, and the translation carried back *)
Definition cofactor (m : matrix) (r c : nat) : Qc :=
  let r1 := ((r + 1) mod 3)%nat in
  let r2 := ((r + 2) mod 3)%nat in
  let c1 := ((c + 1) mod 3)%nat in
  let c2 := ((c + 2) mod 3)%nat in
  (at_ m r1 c1 * at_ m r2 c2 - at_ m r1 c2 * at_ m r2 c1)%Qc.

Definition determinant (m : matrix) : Qc :=
  (at_ m 0 0 * cofactor m 0 0 + at_ m 0 1 * cofactor m 0 1
   + at_ m 0 2 * cofactor m 0 2)%Qc.

Definition inverse_linear (m : matrix) (r c : nat) : Qc :=
  (cofactor m c r / determinant m)%Qc.

Definition inverse (m : matrix) : matrix :=
  build (fun r c =>
           if (r =? 3)%nat then (if (c =? 3)%nat then 1 else 0)%Qc
           else if (c =? 3)%nat then
             (- (inverse_linear m r 0 * at_ m 0 3 + inverse_linear m r 1 * at_ m 1 3
                 + inverse_linear m r 2 * at_ m 2 3))%Qc
           else inverse_linear m r c).

(** sixteen numbers separated by spaces, row after row *)
Definition matrix_of_string (s : string) : matrix :=
  let elements := split_compress_on " "%char s in
  if (length elements =? 16)%nat then
    build (fun r c => read_decimal (default "" (elements !! (4 * r + c)%nat)))
  else identity.

Inductive volume_type : Type :=
| model_part | parameter_modifier | support_enforcer | support_blocker.

Definition volume_type_of_string (s : string) : volume_type :=
  if String.eqb s "ParameterModifier" then parameter_modifier
  else if String.eqb s "SupportEnforcer" then support_enforcer
  else if String.eqb s "SupportBlocker" then support_blocker
  else model_part.

Definition volume_type_to_string (t : volume_type) : string :=
  match t with
  | model_part => "ModelPart"
  | parameter_modifier => "ParameterModifier"
  | support_enforcer => "SupportEnforcer"
  | support_blocker => "SupportBlocker"
  end.

Inductive points_status : Type :=
| no_points | generating | auto_generated | user_modified.

Definition configuration : Type := list (string * string).

Definition configuration_set (c : configuration) (key value : string) : configuration :=
  (key, value) :: filter (fun kv => fst kv ≠ key) c.

Definition configuration_get (c : configuration) (key : string) : string :=
  default "" (snd <$> head (filter (fun kv => fst kv = key) c)).

(** the name of the file without its last extension *)
Definition stem (s : string) : string :=
  let parts := split_compress_off "."%char s in
  match parts with
  | [] | [_] => s
  | first :: rest =>
      foldl (fun acc p => acc +:+ "." +:+ p) first (take (length rest - 1) rest)
  end.

#[export] Instance externals : Externals := {|
  float := Qc;
  double := Qc;
  float_lit := Q2Qc;
  double_lit := Q2Qc;
  fmul := Qcmult;
  to_float := fun x => x;
  to_double := fun x => x;
  atof := read_decimal;
  double_is_zero := fun x => bool_decide (x = 0%Qc);
  matrix_mul := mul;
  matrix_inverse := inverse;
  matrix_apply := apply;
  Transformation := matrix;
  Transformation_default := identity;
  Transformation_of_matrix := fun m => m;
  Transformation_set_from_string := fun _ s => matrix_of_string s;
  Transformation_get_matrix := fun m => m;
  Transformation_get_scaling_factor := fun m => (at_ m 0 0, at_ m 1 1, at_ m 2 2);
  DynamicPrintConfig := configuration;
  DynamicPrintConfig_default := [];
  set_deserialize := configuration_set;
  config_keys := map fst;
  opt_serialize := configuration_get;
  load_from_gcode_string := fun c _ => c;
  ModelVolumeType := volume_type;
  MODEL_PART := model_part;
  PARAMETER_MODIFIER := parameter_modifier;
  type_from_string := volume_type_of_string;
  type_to_string := volume_type_to_string;
  is_modifier_type := fun t => match t with parameter_modifier => true | _ => false end;
  t_layer_config_ranges := list (Qc * Qc * configuration);
  layer_config_ranges_default := [];
  layer_config_ranges_empty := fun r => bool_decide (r = []);
  layer_config_ranges_to_xml := fun id r =>
    "<object id=" +:+ pretty id +:+ " ranges=" +:+ pretty (Z.of_nat (length r)) +:+ "/>";
  SupportPoint := Qc * Qc * Qc * Qc * bool;
  SupportPoint_to_string := fun '(x, y, z, radius, island) =>
    fixed6 x +:+ " " +:+ fixed6 y +:+ " " +:+ fixed6 z +:+ " " +:+ fixed6 radius
      +:+ " " +:+ (if island : bool then "1.000000" else "0.000000");
  support_points_format_version := 1;
  PointsStatus := points_status;
  PointsStatus_default := no_points;
  UserModified := user_modified;
  repair := fun facets => facets;
  SLIC3R_APP_NAME := "PrusaSlicer";
  translate := fun s => s;
  XML_error_text := fun name => "Error while parsing '" +:+ name +:+ "'";
  XML_buffer_error_text := fun name => "Error while parsing xml file";
  path_stem := stem;
  xml_escape := fun s => s;
  header_slic3r_generated := "generated by PrusaSlicer";
  float_to_string := general;
  double_to_string := general;
  sprintf_f := fixed6;
|}.

End Exact.

(** * Properties *)

Import _3MF_Importer.

(** ** Reasoning in the monad *)

Lemma bind_returns {S A B} (m : M S A) (k : A -> M S B) (s s' : S) (a : A) :
  m s = Returns a s' -> bind m k s = k a s'.
Proof. intros Hm. unfold bind. now rewrite Hm. Qed.

Lemma bind_throws {S A B} (m : M S A) (k : A -> M S B) (s s' : S) (e : exception) :
  m s = Throws e s' -> bind m k s = Throws e s'.
Proof. intros Hm. unfold bind. now rewrite Hm. Qed.

Lemma bind_undefined {S A B} (m : M S A) (k : A -> M S B) (s : S) :
  m s = Undefined -> bind m k s = Undefined.
Proof. intros Hm. unfold bind. now rewrite Hm. Qed.

Lemma for_each_cons {S A} (body : A -> M S bool) (x : A) (l : list A) (s : S) :
  for_each body (x :: l) s
  = bind (body x) (fun ok => if ok then for_each body l else ret false) s.
Proof. reflexivity. Qed.


Lemma for_each_app_throws {S A} (body : A -> M S bool) (l1 l2 : list A) (s s' : S) e :
  for_each body l1 s = Throws e s' ->
  for_each body (l1 ++ l2) s = Throws e s'.
Proof.
  revert s. induction l1 as [|x l1 IH]; intros s Hrun; simpl in *.
  - unfold ret in Hrun. discriminate.
  - unfold bind in *. destruct (body x s) as [[|] s1|e1 s1|]; try discriminate.
    + now apply IH.
    + assumption.
Qed.

Lemma to_size_t_nonneg (z : Z) : 0 <= to_size_t z.
Proof. unfold to_size_t. apply Z.mod_pos_bound. lia. Qed.

Lemma to_unsigned_small (z : Z) : 0 <= z < 2 ^ 32 -> to_unsigned z = z.
Proof. intros Hz. unfold to_unsigned. now apply Z.mod_small. Qed.

Lemma to_unsigned_range (z : Z) : 0 <= to_unsigned z < 2 ^ 32.
Proof. unfold to_unsigned. apply Z.mod_pos_bound. lia. Qed.

Section Properties.
Context `{Externals}.

(** ** The model config file: metadata of a volume before any volume *)

(** C10.  A [metadata] element of type [volume] met while the object being
    read has no volume yet is accepted and dropped: the handler answers
    [true] and the importer is left as it was, so that the pair is stored
    nowhere and no error is recorded. *)
Theorem volume_metadata_before_any_volume_is_dropped
    (attributes : list string) (st : _3MF_Importer.t) (object : ObjectMetadata.t) :
  m_objects_metadata st !! CurrentConfig.object_id (m_curr_config st) = Some object ->
  ObjectMetadata.volumes object = [] ->
  get_attribute_value_string attributes TYPE_ATTR = VOLUME_TYPE ->
  _handle_start_config_metadata attributes st = Returns true st.
Proof.
  intros Hobject Hvolumes Htype.
  unfold _handle_start_config_metadata, bind, get.
  rewrite Hobject, Htype, Hvolumes. simpl.
  destruct (Z.ltb_spec (to_size_t (CurrentConfig.volume_id (m_curr_config st)))
                       (Z.of_nat 0)) as [Hlt|_].
  - pose proof (to_size_t_nonneg (CurrentConfig.volume_id (m_curr_config st))). lia.
  - reflexivity.
Qed.

(** ** Units *)

Lemma get_unit_factor_other (unit : string) :
  unit <> "micron" -> unit <> "centimeter" -> unit <> "inch" ->
  unit <> "foot" -> unit <> "meter" ->
  get_unit_factor unit = float_lit 1.
Proof.
  intros H1 H2 H3 H4 H5. unfold get_unit_factor.
  repeat match goal with
         | Hne : unit <> ?s |- context [String.eqb unit ?s] =>
             rewrite (proj2 (String.eqb_neq unit s) Hne)
         end.
  reflexivity.
Qed.

(** the coordinates of a [vertex] element as they are read *)
Definition source_coordinates (attributes : list string) : list float :=
  [get_attribute_value_float attributes X_ATTR;
   get_attribute_value_float attributes Y_ATTR;
   get_attribute_value_float attributes Z_ATTR].

Definition with_vertices (vertices : list float) (st : _3MF_Importer.t) : _3MF_Importer.t :=
  let c := m_curr_object st in
  set_m_curr_object
    (CurrentObject.mk (CurrentObject.id c) (CurrentObject.model_object_idx c)
       (Geometry.mk vertices (Geometry.triangles (CurrentObject.geometry c)))
       (CurrentObject.object c) (CurrentObject.components c)) st.

(** C7.  The factor of a unit is 0.001 for micron, 10 for centimeter, 25.4
    for inch, 304.8 for foot, 1000 for meter and 1 for every other string,
    millimeter among them; the [model] element stores the factor of its
    [unit] attribute, and every [vertex] element appends its three
    coordinates, each multiplied by the stored factor. *)
Theorem unit_factor_scales_every_vertex :
  get_unit_factor "micron" = float_lit 0.001 /\
  get_unit_factor "centimeter" = float_lit 10 /\
  get_unit_factor "inch" = float_lit 25.4 /\
  get_unit_factor "foot" = float_lit 304.8 /\
  get_unit_factor "meter" = float_lit 1000 /\
  get_unit_factor "millimeter" = float_lit 1 /\
  (forall unit : string,
     unit <> "micron" -> unit <> "centimeter" -> unit <> "inch" ->
     unit <> "foot" -> unit <> "meter" ->
     get_unit_factor unit = float_lit 1) /\
  (forall (attributes : list string) (st : _3MF_Importer.t),
     _handle_start_model attributes st =
       Returns true
         (set_m_unit_factor
            (get_unit_factor (get_attribute_value_string attributes UNIT_ATTR)) st)) /\
  (forall (attributes : list string) (st : _3MF_Importer.t),
     _handle_start_vertex attributes st =
       Returns true
         (with_vertices
            (Geometry.vertices (CurrentObject.geometry (m_curr_object st))
             ++ map (fmul (m_unit_factor st)) (source_coordinates attributes)) st)).
Proof.
  repeat split; try reflexivity.
  apply get_unit_factor_other.
Qed.

(** ** Transforms of the 3MF specification *)

Lemma get_transform_of_empty : get_transform_from_3mf_specs_string "" = Identity.
Proof. reflexivity. Qed.

Lemma get_transform_of_twelve (mat_str : string) :
  mat_str <> "" ->
  length (split_compress_on " "%char mat_str) = 12%nat ->
  get_transform_from_3mf_specs_string mat_str =
    fill_transform (split_compress_on " "%char mat_str) Identity.
Proof.
  intros Hne Hlen. unfold get_transform_from_3mf_specs_string.
  rewrite (proj2 (String.eqb_neq mat_str "") Hne), Hlen. reflexivity.
Qed.

(** the twelve elements fill the columns one after the other, three rows
    each, and the fourth row stays that of the identity *)
Lemma fill_transform_column_major (elements : list string) :
  length elements = 12%nat ->
  (forall r c : nat, (r < 3)%nat -> (c < 4)%nat ->
     coeff (fill_transform elements Identity) r c
     = Some (atof (default "" (elements !! (3 * c + r)%nat)))) /\
  fill_transform elements Identity !! 3%nat = Some [d0; d0; d0; d1].
Proof.
  intros Hlen.
  do 13 (destruct elements as [|? elements]; try discriminate Hlen).
  split.
  - intros r c Hr Hc.
    destruct r as [|[|[|r]]]; try lia;
      destruct c as [|[|[|[|c]]]]; try lia; reflexivity.
  - reflexivity.
Qed.

(** ** Instances *)

(** the importer after an instance of the object at position [idx] has
    been attached with the given transform *)
Definition attach_instance (idx : Z) (o : ModelObject.t) (printable : bool)
    (transform : Transform3d) (st : _3MF_Importer.t) : _3MF_Importer.t :=
  set_m_instances
    (m_instances st
     ++ [Instance.mk (Some (ModelObject.address o, length (ModelObject.instances o)))
                     transform])
    (set_m_model
       (Model.set_object (Z.to_nat idx)
          (ModelObject.with_instances
             (ModelObject.instances o
              ++ [Some (ModelInstance.mk printable Transformation_default)]) o)
          (m_model st))
       st).

Definition record_error (error : string) (st : _3MF_Importer.t) : _3MF_Importer.t :=
  set_m_errors (m_errors st ++ [error]) st.

Lemma set_printable_of_added (o : ModelObject.t) (printable : bool) :
  ModelObject.set_printable (length (ModelObject.instances o)) printable
    (fst (ModelObject.add_instance o))
  = ModelObject.with_instances
      (ModelObject.instances o
       ++ [Some (ModelInstance.mk printable Transformation_default)]) o.
Proof.
  unfold ModelObject.set_printable, ModelObject.add_instance, ModelObject.with_instances.
  simpl. f_equal. rewrite alter_app_r_alt by lia.
  replace (length (ModelObject.instances o) - length (ModelObject.instances o))%nat
    with 0%nat by lia.
  reflexivity.
Qed.

Lemma set_object_twice (i : nat) (a b : ModelObject.t) (m : Model.t) :
  Model.set_object i b (Model.set_object i a m) = Model.set_object i b m.
Proof.
  unfold Model.set_object. simpl. f_equal. apply list_insert_insert_eq.
Qed.

(** an object that aliases itself receives the instance *)
Lemma create_object_instance_leaf (levels_left : nat) (object_id : Z)
    (transform : Transform3d) (printable : bool) (st : _3MF_Importer.t)
    (c : Component.t) (idx : Z) (o : ModelObject.t) :
  m_objects_aliases st !! object_id = Some [c] ->
  Component.object_id c = object_id ->
  m_objects st !! object_id = Some idx ->
  0 <= idx ->
  Model.objects (m_model st) !! Z.to_nat idx = Some (Some o) ->
  create_object_instance_levels (S levels_left) object_id transform printable st
  = Returns true (attach_instance idx o printable transform st).
Proof.
  intros Haliases Hself Hobject Hidx Hat.
  simpl. unfold bind at 1. unfold get at 1. rewrite Haliases. simpl.
  rewrite Hself. rewrite bool_decide_eq_true_2 by reflexivity. simpl.
  rewrite Hobject.
  destruct (Z.eqb_spec idx (-1)) as [->|_]; [lia|].
  unfold objects_at, bind, get.
  destruct (Z.ltb_spec idx 0) as [?|_]; [lia|].
  rewrite Hat. unfold ret, modify. simpl.
  unfold attach_instance, set_m_instances, set_m_model. simpl.
  rewrite set_object_twice.
  rewrite <- (set_printable_of_added o printable). reflexivity.
Qed.

(** A chain of aliases from [object_id] down to a [leaf] that aliases
    itself; the list gives the transforms of the components on the way. *)
Inductive alias_chain (st : _3MF_Importer.t) : Z -> list Transform3d -> Z -> Prop :=
| alias_chain_leaf (object_id : Z) (c : Component.t) :
    m_objects_aliases st !! object_id = Some [c] ->
    Component.object_id c = object_id ->
    alias_chain st object_id [] object_id
| alias_chain_step (object_id : Z) (c : Component.t) (transforms : list Transform3d)
    (leaf : Z) :
    m_objects_aliases st !! object_id = Some [c] ->
    Component.object_id c <> object_id ->
    alias_chain st (Component.object_id c) transforms leaf ->
    alias_chain st object_id (Component.transform c :: transforms) leaf.

Lemma create_object_instance_step (levels_left : nat) (object_id : Z)
    (transform : Transform3d) (printable : bool) (st : _3MF_Importer.t)
    (c : Component.t) :
  m_objects_aliases st !! object_id = Some [c] ->
  Component.object_id c <> object_id ->
  create_object_instance_levels (S levels_left) object_id transform printable st
  = match create_object_instance_levels levels_left (Component.object_id c)
            (matrix_mul transform (Component.transform c)) printable st with
    | Returns ok st' => Returns ok st'
    | r => r
    end.
Proof.
  intros Haliases Hother.
  simpl. unfold bind at 1. unfold get at 1. rewrite Haliases. simpl.
  rewrite (bool_decide_eq_false_2 (Some (Component.object_id c) = Some object_id))
    by congruence.
  simpl. unfold bind.
  destruct (create_object_instance_levels levels_left _ _ _ st) as [[|] s|e s|];
    reflexivity.
Qed.

Lemma alias_chain_within_bound (st : _3MF_Importer.t) (object_id : Z)
    (transforms : list Transform3d) (leaf : Z) :
  alias_chain st object_id transforms leaf ->
  forall (levels_left : nat) (transform : Transform3d) (printable : bool)
         (idx : Z) (o : ModelObject.t),
    (length transforms < levels_left)%nat ->
    m_objects st !! leaf = Some idx ->
    0 <= idx ->
    Model.objects (m_model st) !! Z.to_nat idx = Some (Some o) ->
    create_object_instance_levels levels_left object_id transform printable st
    = Returns true
        (attach_instance idx o printable (foldl matrix_mul transform transforms) st).
Proof.
  induction 1 as [object_id c Haliases Hself
                 |object_id c transforms leaf Haliases Hother Hchain IH];
    intros levels_left transform printable idx o Hlevels Hobject Hidx Hat.
  - destruct levels_left as [|levels_left]; [simpl in Hlevels; lia|].
    now apply create_object_instance_leaf with (c := c).
  - destruct levels_left as [|levels_left]; [simpl in Hlevels; lia|].
    rewrite (create_object_instance_step _ _ _ _ _ c) by assumption.
    rewrite (IH levels_left _ printable idx o) by (simpl in Hlevels; lia || assumption).
    reflexivity.
Qed.

Lemma alias_chain_beyond_bound (st : _3MF_Importer.t) (object_id : Z)
    (transforms : list Transform3d) (leaf : Z) :
  alias_chain st object_id transforms leaf ->
  forall (levels_left : nat) (transform : Transform3d) (printable : bool),
    (levels_left <= length transforms)%nat ->
    create_object_instance_levels levels_left object_id transform printable st
    = Returns false (record_error "Too many recursions" st).
Proof.
  induction 1 as [object_id c Haliases Hself
                 |object_id c transforms leaf Haliases Hother Hchain IH];
    intros levels_left transform printable Hlevels.
  - destruct levels_left as [|levels_left]; [reflexivity|simpl in Hlevels; lia].
  - destruct levels_left as [|levels_left]; [reflexivity|].
    rewrite (create_object_instance_step _ _ _ _ _ c) by assumption.
    rewrite IH by (simpl in Hlevels; lia).
    reflexivity.
Qed.

(** The equation of the source: the test on the counter, then the body
    with the recursive calls made at [recur_counter + 1]. *)
Lemma _create_object_instance_unfold (object_id : Z) (transform : Transform3d)
    (printable : bool) (recur_counter : Z) (st : _3MF_Importer.t) :
  _create_object_instance object_id transform printable recur_counter st
  = if MAX_RECURSIONS <? recur_counter then
      (add_error "Too many recursions" ;; ret false) st
    else
      match m_objects_aliases st !! object_id with
      | None => (add_error "Found item with invalid object id" ;; ret false) st
      | Some aliases =>
          if bool_decide (length aliases = 1%nat)
             && bool_decide (Component.object_id <$> aliases !! 0%nat = Some object_id)
          then
            create_object_instance_levels 1 object_id transform printable st
          else
            for_each (fun component : Component.t =>
                        _create_object_instance (Component.object_id component)
                          (matrix_mul transform (Component.transform component))
                          printable (recur_counter + 1))
                     aliases st
      end.
Proof.
  unfold _create_object_instance, MAX_RECURSIONS.
  destruct (Z.ltb_spec 10 recur_counter) as [Hover|Hwithin].
  - replace (Z.to_nat (10 + 1 - recur_counter)) with 0%nat by lia. reflexivity.
  - replace (Z.to_nat (10 + 1 - (recur_counter + 1)))
      with (Nat.pred (Z.to_nat (10 + 1 - recur_counter))) by lia.
    destruct (Z.to_nat (10 + 1 - recur_counter)) as [|levels_left] eqn:Hlevels; [lia|].
    set (one := create_object_instance_levels 1 object_id transform printable st).
    simpl. unfold bind at 1. unfold get at 1.
    destruct (m_objects_aliases st !! object_id) as [aliases|] eqn:Haliases;
      [|reflexivity].
    destruct (bool_decide (length aliases = 1%nat)
              && bool_decide (Component.object_id <$> aliases !! 0%nat = Some object_id))
      eqn:Hself; [|reflexivity].
    symmetry. subst one. simpl. unfold bind at 1. unfold get at 1.
    rewrite Haliases, Hself. reflexivity.
Qed.

(** C5.  A build item is expanded with the counter at 1.  When the object
    it names heads a chain of aliases whose depth, the item counted, is at
    most 10, the expansion succeeds and attaches one instance to the leaf,
    its transform being that of the item multiplied by those of the
    components in order; when the depth is above 10, 11 in particular, the
    expansion records "Too many recursions" and answers [false], and since
    nothing else of the importer changes no instance is attached. *)
Theorem alias_chain_depth_bound
    (attributes : list string) (st : _3MF_Importer.t)
    (transforms : list Transform3d) (leaf : Z) :
  let object_id := get_attribute_value_int attributes OBJECTID_ATTR in
  let transform :=
    get_transform_from_3mf_specs_string
      (get_attribute_value_string attributes TRANSFORM_ATTR) in
  let printable := get_attribute_value_bool attributes PRINTABLE_ATTR in
  let depth := S (length transforms) in
  alias_chain st object_id transforms leaf ->
  _handle_start_item attributes st
    = _create_object_instance object_id transform printable 1 st /\
  (forall (idx : Z) (o : ModelObject.t),
     (depth <= 10)%nat ->
     m_objects st !! leaf = Some idx ->
     0 <= idx ->
     Model.objects (m_model st) !! Z.to_nat idx = Some (Some o) ->
     _handle_start_item attributes st
       = Returns true
           (attach_instance idx o printable (foldl matrix_mul transform transforms) st)) /\
  ((10 < depth)%nat ->
     _handle_start_item attributes st
       = Returns false (record_error "Too many recursions" st) /\
     m_instances (record_error "Too many recursions" st) = m_instances st /\
     m_model (record_error "Too many recursions" st) = m_model st).
Proof.
  intros object_id transform printable depth Hchain.
  split; [reflexivity|]. split.
  - intros idx o Hdepth Hobject Hidx Hat.
    unfold _handle_start_item, _create_object_instance.
    apply (alias_chain_within_bound st _ transforms leaf Hchain);
      first [assumption | unfold depth in Hdepth; unfold MAX_RECURSIONS; lia].
  - intros Hdepth. split; [|split; reflexivity].
    unfold _handle_start_item, _create_object_instance.
    apply (alias_chain_beyond_bound st _ transforms leaf Hchain).
    unfold depth in Hdepth. unfold MAX_RECURSIONS. lia.
Qed.

Definition with_components (components : list Component.t) (st : _3MF_Importer.t)
  : _3MF_Importer.t :=
  let c := m_curr_object st in
  set_m_curr_object
    (CurrentObject.mk (CurrentObject.id c) (CurrentObject.model_object_idx c)
       (CurrentObject.geometry c) (CurrentObject.object c) components) st.

Lemma get_attribute_value_string_missing (attributes : list string) (key : string) :
  get_attribute_value_charptr attributes key = None ->
  get_attribute_value_string attributes key = "".
Proof. intros Hmissing. unfold get_attribute_value_string. now rewrite Hmissing. Qed.

(** C8.  An [item] without a [transform] attribute is expanded with the
    identity, so that the instance of an object that carries a mesh is
    recorded with the identity as its transform; a [component] without the
    attribute is recorded with the identity; and a transform of exactly
    twelve elements separated by spaces fills the first three rows of the
    matrix column after column, the fourth row being 0 0 0 1. *)
Theorem missing_transform_is_identity_and_twelve_fill_columns :
  (forall (attributes : list string) (st : _3MF_Importer.t),
     get_attribute_value_charptr attributes TRANSFORM_ATTR = None ->
     _handle_start_item attributes st
     = _create_object_instance (get_attribute_value_int attributes OBJECTID_ATTR)
         Identity (get_attribute_value_bool attributes PRINTABLE_ATTR) 1 st) /\
  (forall (attributes : list string) (st : _3MF_Importer.t)
          (c : Component.t) (idx : Z) (o : ModelObject.t),
     let object_id := get_attribute_value_int attributes OBJECTID_ATTR in
     get_attribute_value_charptr attributes TRANSFORM_ATTR = None ->
     m_objects_aliases st !! object_id = Some [c] ->
     Component.object_id c = object_id ->
     m_objects st !! object_id = Some idx ->
     0 <= idx ->
     Model.objects (m_model st) !! Z.to_nat idx = Some (Some o) ->
     _handle_start_item attributes st
     = Returns true
         (attach_instance idx o (get_attribute_value_bool attributes PRINTABLE_ATTR)
            Identity st)) /\
  (forall (attributes : list string) (st : _3MF_Importer.t),
     let object_id := get_attribute_value_int attributes OBJECTID_ATTR in
     get_attribute_value_charptr attributes TRANSFORM_ATTR = None ->
     is_Some (m_objects st !! object_id) \/ is_Some (m_objects_aliases st !! object_id) ->
     _handle_start_component attributes st
     = Returns true
         (with_components
            (CurrentObject.components (m_curr_object st)
             ++ [Component.mk object_id Identity]) st)) /\
  (forall mat_str : string,
     let elements := split_compress_on " "%char mat_str in
     mat_str <> "" ->
     length elements = 12%nat ->
     (forall r c : nat, (r < 3)%nat -> (c < 4)%nat ->
        coeff (get_transform_from_3mf_specs_string mat_str) r c
        = Some (atof (default "" (elements !! (3 * c + r)%nat)))) /\
     get_transform_from_3mf_specs_string mat_str !! 3%nat = Some [d0; d0; d0; d1]).
Proof.
  repeat apply conj.
  - intros attributes st Hmissing. unfold _handle_start_item.
    now rewrite (get_attribute_value_string_missing _ _ Hmissing).
  - intros attributes st c idx o object_id Hmissing Haliases Hself Hobject Hidx Hat.
    unfold _handle_start_item.
    rewrite (get_attribute_value_string_missing _ _ Hmissing), get_transform_of_empty.
    unfold _create_object_instance. simpl Z.to_nat.
    now apply create_object_instance_leaf with (c := c).
  - intros attributes st object_id Hmissing Hknown.
    unfold _handle_start_component.
    rewrite (get_attribute_value_string_missing _ _ Hmissing), get_transform_of_empty.
    fold object_id. unfold bind at 1. unfold get at 1.
    destruct (m_objects st !! object_id) as [idx|] eqn:Hobject.
    + reflexivity.
    + destruct (m_objects_aliases st !! object_id) as [aliases|] eqn:Haliases.
      * reflexivity.
      * destruct Hknown as [[? ?]|[? ?]]; discriminate.
  - intros mat_str elements Hne Hlen.
    rewrite (get_transform_of_twelve mat_str Hne Hlen).
    apply (fill_transform_column_major elements Hlen).
Qed.

(** ** Volumes out of the triangles of an object *)

(** the number of triangles of a geometry, and of its vertices *)
Definition triangle_count (g : Geometry.t) : Z := Z.of_nat (length (Geometry.triangles g)) / 3.
Definition vertex_count (g : Geometry.t) : Z := Z.of_nat (length (Geometry.vertices g)) / 3.

(** An indexed triangle set: every index of a triangle is below the number
    of vertices, and the sizes fit the [unsigned int] on which the importer
    computes. *)
Definition indexed_triangle_set (g : Geometry.t) : Prop :=
  Z.of_nat (length (Geometry.triangles g)) < 2 ^ 32 /\
  Z.of_nat (length (Geometry.vertices g)) <= 2 ^ 32 /\
  Forall (fun t => 0 <= t < vertex_count g) (Geometry.triangles g).

(** The range of a volume is inside the triangles of the object. *)
Definition valid_range (N : Z) (v : VolumeMetadata.t) : Prop :=
  VolumeMetadata.first_triangle_id v <= VolumeMetadata.last_triangle_id v
  /\ 0 <= VolumeMetadata.first_triangle_id v
  /\ VolumeMetadata.last_triangle_id v < N.

Definition invalid_range (N : Z) (v : VolumeMetadata.t) : Prop :=
  VolumeMetadata.last_triangle_id v < VolumeMetadata.first_triangle_id v
  \/ N <= VolumeMetadata.first_triangle_id v
  \/ N <= VolumeMetadata.last_triangle_id v.

(** The ranges [(start, a), (a + 1, b), ..., (z + 1, N - 1)]. *)
Fixpoint covers (start : Z) (volumes : list VolumeMetadata.t) (N : Z) : Prop :=
  match volumes with
  | [] => start = N
  | v :: rest =>
      VolumeMetadata.first_triangle_id v = start
      /\ VolumeMetadata.first_triangle_id v <= VolumeMetadata.last_triangle_id v
      /\ VolumeMetadata.last_triangle_id v < N
      /\ covers (VolumeMetadata.last_triangle_id v + 1) rest N
  end.

Definition partition_of (N : Z) (volumes : list VolumeMetadata.t) : Prop :=
  covers 0 volumes N.

Definition range_size (v : VolumeMetadata.t) : Z :=
  VolumeMetadata.last_triangle_id v - VolumeMetadata.first_triangle_id v + 1.

(** the number of triangles the importer gives a volume *)
Definition volume_triangle_count (v : ModelVolume.t) : Z :=
  TriangleMesh.original_num_facets (ModelVolume.mesh v).

Definition total (l : list Z) : Z := foldr Z.add 0 l.

Lemma covers_total (volumes : list VolumeMetadata.t) (start N : Z) :
  covers start volumes N -> total (map range_size volumes) = N - start.
Proof.
  revert start. induction volumes as [|v rest IH]; intros start Hcovers; simpl in *.
  - lia.
  - destruct Hcovers as (Hfirst & Hle & Hlt & Hrest).
    rewrite (IH _ Hrest). unfold range_size. lia.
Qed.

Lemma covers_valid (volumes : list VolumeMetadata.t) (start N : Z) :
  0 <= start -> covers start volumes N -> Forall (valid_range N) volumes.
Proof.
  revert start. induction volumes as [|v rest IH]; intros start Hstart Hcovers.
  - constructor.
  - destruct Hcovers as (Hfirst & Hle & Hlt & Hrest). constructor.
    + unfold valid_range. lia.
    + apply (IH (VolumeMetadata.last_triangle_id v + 1)); [lia|assumption].
Qed.

Lemma read_vertex_is_Some (version : Z) (g : Geometry.t) (inv_matrix : Transform3d)
    (index : Z) :
  indexed_triangle_set g ->
  0 <= index < Z.of_nat (length (Geometry.triangles g)) ->
  is_Some (read_vertex version g inv_matrix index).
Proof.
  intros (Htriangles & Hvertices & Hindices) Hindex.
  unfold read_vertex.
  destruct (lookup_lt_is_Some_2 (Geometry.triangles g) (Z.to_nat index)) as [t Ht]; [lia|].
  rewrite Ht. simpl.
  pose proof (proj1 (Forall_lookup _ _) Hindices _ _ Ht) as Hbound.
  unfold vertex_count in Hbound. simpl in Hbound.
  assert (Hlen : 3 * t + 3 <= Z.of_nat (length (Geometry.vertices g))).
  { pose proof (Z.mul_div_le (Z.of_nat (length (Geometry.vertices g))) 3). lia. }
  rewrite (to_unsigned_small (t * 3)) by lia.
  rewrite !to_unsigned_small by lia.
  destruct (lookup_lt_is_Some_2 (Geometry.vertices g) (Z.to_nat (t * 3 + 0))) as [x Hx];
    [lia|].
  destruct (lookup_lt_is_Some_2 (Geometry.vertices g) (Z.to_nat (t * 3 + 1))) as [y Hy];
    [lia|].
  destruct (lookup_lt_is_Some_2 (Geometry.vertices g) (Z.to_nat (t * 3 + 2))) as [z Hz];
    [lia|].
  rewrite Hx, Hy, Hz. simpl. eauto.
Qed.

Lemma read_facets_valid (version : Z) (g : Geometry.t) (inv_matrix : Transform3d)
    (v : VolumeMetadata.t) :
  indexed_triangle_set g ->
  valid_range (triangle_count g) v ->
  exists facets : list (list Vec3f),
    read_facets version g inv_matrix
      (to_unsigned (VolumeMetadata.first_triangle_id v * 3))
      (to_unsigned (range_size v)) = Some facets
    /\ Z.of_nat (length facets) = range_size v.
Proof.
  intros Hits (Hle & Hfirst & Hlast).
  pose proof Hits as (Htriangles & _ & _).
  unfold triangle_count in Hlast. unfold range_size.
  set (first := VolumeMetadata.first_triangle_id v) in *.
  set (last := VolumeMetadata.last_triangle_id v) in *.
  assert (Hthree : 3 * last + 3 <= Z.of_nat (length (Geometry.triangles g))).
  { pose proof (Z.mul_div_le (Z.of_nat (length (Geometry.triangles g))) 3). lia. }
  rewrite (to_unsigned_small (first * 3)) by lia.
  rewrite (to_unsigned_small (last - first + 1)) by lia.
  assert (Hsome : is_Some (read_facets version g inv_matrix (first * 3) (last - first + 1))).
  { unfold read_facets. apply mapM_is_Some_2. apply Forall_forall. intros i Hi.
    apply elem_of_seqZ in Hi. unfold compose.
    apply mapM_is_Some_2. apply Forall_forall. intros k Hk. unfold compose.
    apply read_vertex_is_Some; [assumption|].
    rewrite (to_unsigned_small (i * 3)) by lia.
    assert (0 <= k <= 2).
    { repeat (apply elem_of_cons in Hk; destruct Hk as [->|Hk]; [lia|]).
      now apply elem_of_nil in Hk. }
    rewrite to_unsigned_small by lia. lia. }
  destruct Hsome as [facets Hfacets]. exists facets. split; [assumption|].
  unfold read_facets in Hfacets. apply length_mapM in Hfacets.
  rewrite <- Hfacets, length_seqZ. lia.
Qed.

Lemma apply_volume_metadata_mesh (volume : ModelVolume.t) (metadata : Metadata.t) :
  ModelVolume.mesh (apply_volume_metadata volume metadata) = ModelVolume.mesh volume.
Proof.
  destruct volume as [name mesh type transformation [input_file o_idx v_idx [[ox oy] oz]] config].
  unfold apply_volume_metadata. simpl.
  repeat match goal with
         | |- context [if ?b then _ else _] => destruct b
         end; reflexivity.
Qed.

Lemma foldl_apply_volume_metadata_mesh (metadata : list Metadata.t) (volume : ModelVolume.t) :
  ModelVolume.mesh (foldl apply_volume_metadata volume metadata) = ModelVolume.mesh volume.
Proof.
  revert volume. induction metadata as [|m metadata IH]; intros volume; simpl.
  - reflexivity.
  - now rewrite IH, apply_volume_metadata_mesh.
Qed.

Lemma to_int_small (z : Z) : - 2 ^ 31 <= z < 2 ^ 31 -> to_int z = z.
Proof.
  intros Hz. unfold to_int. rewrite Z.mod_small by lia. lia.
Qed.

(** what the importer produces for a range: a volume whose mesh is the
    repaired list of the facets cut out, as many as the range is long *)
Definition produced_for (range : VolumeMetadata.t) (volume : ModelVolume.t) : Prop :=
  volume_triangle_count volume = range_size range
  /\ exists facets : list (list Vec3f),
       Z.of_nat (length facets) = range_size range
       /\ TriangleMesh.facet_start (ModelVolume.mesh volume) = repair facets.

Definition unsigned_ids (v : VolumeMetadata.t) : Prop :=
  0 <= VolumeMetadata.first_triangle_id v /\ 0 <= VolumeMetadata.last_triangle_id v.

Lemma generate_volume_valid (g : Geometry.t) (object : ModelObject.t)
    (range : VolumeMetadata.t) (st : _3MF_Importer.t) :
  indexed_triangle_set g ->
  valid_range (triangle_count g) range ->
  exists volume : ModelVolume.t,
    generate_volume g (triangle_count g) object range st
    = Returns (true,
               ModelObject.with_volumes (ModelObject.volumes object ++ [Some volume]) object)
              st
    /\ produced_for range volume.
Proof.
  intros Hits Hvalid.
  destruct (read_facets_valid (m_version st) g
              (matrix_inverse
                 (Transformation_get_matrix
                    (volume_transformation (m_version st)
                       (VolumeMetadata.metadata range))))
              range Hits Hvalid) as (facets & Hfacets & Hlength).
  pose proof Hvalid as (Hle & Hfirst & Hlast).
  pose proof Hits as (Htriangles & _ & _).
  assert (Hsize : 0 < range_size range < 2 ^ 31).
  { unfold range_size. unfold triangle_count in Hlast.
    assert (Z.of_nat (length (Geometry.triangles g)) / 3 < 2 ^ 31)
      by (apply Z.div_lt_upper_bound; lia).
    lia. }
  unfold generate_volume.
  destruct (Z.leb_spec (triangle_count g) (VolumeMetadata.first_triangle_id range));
    [lia|].
  destruct (Z.leb_spec (triangle_count g) (VolumeMetadata.last_triangle_id range));
    [lia|].
  destruct (Z.ltb_spec (VolumeMetadata.last_triangle_id range)
                       (VolumeMetadata.first_triangle_id range)); [lia|].
  simpl. unfold bind at 1. unfold get at 1.
  fold (range_size range). rewrite Hfacets.
  eexists. split; [reflexivity|].
  split.
  - unfold volume_triangle_count.
    rewrite foldl_apply_volume_metadata_mesh.
    destruct (1 <? m_version st); simpl;
      rewrite (to_unsigned_small (to_unsigned (range_size range)))
        by apply to_unsigned_range;
      rewrite to_unsigned_small by lia; apply to_int_small; lia.
  - exists facets. split; [assumption|].
    rewrite foldl_apply_volume_metadata_mesh.
    destruct (1 <? m_version st); reflexivity.
Qed.

Lemma generate_volume_invalid (g : Geometry.t) (N : Z) (object : ModelObject.t)
    (range : VolumeMetadata.t) (st : _3MF_Importer.t) :
  invalid_range N range ->
  generate_volume g N object range st
  = Returns (false, object) (record_error "Found invalid triangle id" st).
Proof.
  intros Hinvalid. unfold generate_volume.
  destruct (Z.leb_spec N (VolumeMetadata.first_triangle_id range)); [reflexivity|].
  destruct (Z.leb_spec N (VolumeMetadata.last_triangle_id range)); [reflexivity|].
  destruct (Z.ltb_spec (VolumeMetadata.last_triangle_id range)
                       (VolumeMetadata.first_triangle_id range)); [reflexivity|].
  unfold invalid_range in Hinvalid. lia.
Qed.

Lemma with_volumes_twice (a b : list (option ModelVolume.t)) (o : ModelObject.t) :
  ModelObject.with_volumes a (ModelObject.with_volumes b o) = ModelObject.with_volumes a o.
Proof. reflexivity. Qed.

Lemma generate_volumes_loop_valid (g : Geometry.t) (volumes : list VolumeMetadata.t)
    (object : ModelObject.t) (st : _3MF_Importer.t) :
  indexed_triangle_set g ->
  Forall (valid_range (triangle_count g)) volumes ->
  exists produced : list ModelVolume.t,
    generate_volumes_loop g (triangle_count g) object volumes st
    = Returns (true,
               ModelObject.with_volumes
                 (ModelObject.volumes object ++ map Some produced) object)
              st
    /\ Forall2 produced_for volumes produced.
Proof.
  intros Hits Hvalid. revert object.
  induction Hvalid as [|range volumes Hrange Hvalid IH]; intros object.
  - exists []. split; [|constructor]. simpl. unfold ret.
    rewrite app_nil_r. reflexivity.
  - destruct (generate_volume_valid g object range st Hits Hrange)
      as (volume & Hrun & Hproduced).
    destruct (IH (ModelObject.with_volumes
                    (ModelObject.volumes object ++ [Some volume]) object))
      as (produced & Hloop & Hall).
    exists (volume :: produced). split; [|now constructor].
    simpl. unfold bind. rewrite Hrun. simpl. rewrite Hloop.
    simpl. rewrite <- app_assoc. reflexivity.
Qed.

Lemma generate_volumes_loop_invalid (g : Geometry.t) (volumes : list VolumeMetadata.t)
    (object : ModelObject.t) (st : _3MF_Importer.t) :
  indexed_triangle_set g ->
  Forall unsigned_ids volumes ->
  Exists (invalid_range (triangle_count g)) volumes ->
  exists object' : ModelObject.t,
    generate_volumes_loop g (triangle_count g) object volumes st
    = Returns (false, object') (record_error "Found invalid triangle id" st).
Proof.
  intros Hits Hunsigned. revert object.
  induction Hunsigned as [|range volumes Hrange Hunsigned IH]; intros object Hexists.
  - inversion Hexists.
  - assert (Hcase : invalid_range (triangle_count g) range
                    \/ valid_range (triangle_count g) range).
    { unfold invalid_range, valid_range. destruct Hrange. lia. }
    destruct Hcase as [Hinvalid|Hvalid].
    + exists object. simpl. unfold bind.
      now rewrite (generate_volume_invalid g _ object range st Hinvalid).
    + destruct (generate_volume_valid g object range st Hits Hvalid)
        as (volume & Hrun & _).
      assert (Htail : Exists (invalid_range (triangle_count g)) volumes).
      { inversion Hexists as [? ? Hhead|]; [|assumption].
        unfold invalid_range, valid_range in *. lia. }
      destruct (IH (ModelObject.with_volumes
                      (ModelObject.volumes object ++ [Some volume]) object) Htail)
        as (object' & Hloop).
      exists object'. simpl. unfold bind. rewrite Hrun. simpl. exact Hloop.
Qed.

Lemma geo_tri_count_is_triangle_count (g : Geometry.t) :
  indexed_triangle_set g ->
  to_unsigned (Z.of_nat (length (Geometry.triangles g))) / 3 = triangle_count g.
Proof.
  intros (Htriangles & _). unfold triangle_count.
  rewrite to_unsigned_small by lia. reflexivity.
Qed.

(** C4, as the code has it.  On an object that has no volume yet and whose
    triangles form an indexed triangle set of N triangles, every corner
    naming a vertex that the object has: when the ranges of the volume list
    partition [0, N - 1], volume generation succeeds without recording an
    error, produces one volume per range, of [last - first + 1] triangles
    each, and these counts sum to N; when some range has [first > last], or
    [first] or [last] not below N, it records an error and answers
    [false]. *)
Theorem triangle_ranges_are_sliced_or_refused
    (object : ModelObject.t) (g : Geometry.t) (volumes : list VolumeMetadata.t)
    (st : _3MF_Importer.t) :
  indexed_triangle_set g ->
  ModelObject.volumes object = [] ->
  let N := triangle_count g in
  (partition_of N volumes ->
   exists produced : list ModelVolume.t,
     _generate_volumes object g volumes st
     = Returns (true, ModelObject.with_volumes (map Some produced) object) st
     /\ Forall2 produced_for volumes produced
     /\ total (map volume_triangle_count produced) = N) /\
  (Forall unsigned_ids volumes ->
   Exists (invalid_range N) volumes ->
   exists object' : ModelObject.t,
     _generate_volumes object g volumes st
     = Returns (false, object') (record_error "Found invalid triangle id" st)).
Proof.
  intros Hits Hfresh N. unfold _generate_volumes.
  rewrite Hfresh. simpl negb. cbv iota.
  rewrite (geo_tri_count_is_triangle_count g Hits). fold N.
  split.
  - intros Hpartition.
    destruct (generate_volumes_loop_valid g volumes object st Hits)
      as (produced & Hloop & Hall).
    { apply (covers_valid volumes 0 N); [lia|assumption]. }
    exists produced. rewrite Hfresh in Hloop. simpl in Hloop.
    split; [exact Hloop|]. split; [exact Hall|].
    pose proof (covers_total volumes 0 N Hpartition) as Htotal.
    rewrite Z.sub_0_r in Htotal. rewrite <- Htotal.
    clear Hloop Hpartition Htotal. induction Hall as [|range volume ? ? [Hcount _] _ IH].
    + reflexivity.
    + simpl. now rewrite Hcount, IH.
  - intros Hunsigned Hexists.
    apply generate_volumes_loop_invalid; assumption.
Qed.

(** ** The layer heights profile *)

(** A line [object_id=<n>|<f>;<f>;...] whose [<n>] is the id of an object
    that has no profile yet: the profile is recorded when the list has an
    even length above 4, and otherwise, a list of exactly 4 values
    included, the line is skipped with an error.  In both cases the
    function returns and the loop over the lines goes on. *)
Lemma layer_heights_profile_line_outcome
    (object head key id_text profile_text : string) (st : _3MF_Importer.t) :
  split_compress_off "|"%char object = [head; profile_text] ->
  split_compress_off "="%char head = [key; id_text] ->
  atoi id_text <> 0 ->
  m_layer_heights_profiles st !! atoi id_text = None ->
  let values := split_compress_off ";"%char profile_text in
  layer_heights_profile_line object st
  = if (length values <=? 4)%nat || negb (length values mod 2 =? 0)%nat
    then Returns tt (record_error "Found invalid layer heights profile" st)
    else Returns tt
           (set_m_layer_heights_profiles
              (<[atoi id_text := map atof values]> (m_layer_heights_profiles st)) st).
Proof.
  intros Hdata Hid Hnonzero Hfresh values.
  unfold layer_heights_profile_line. rewrite Hdata. simpl. rewrite Hid. simpl.
  destruct (Z.eqb_spec (atoi id_text) 0) as [|_]; [contradiction|].
  unfold bind at 1. unfold get at 1. rewrite Hfresh. fold values.
  match goal with
  | |- (if ?b then _ else _) _ = _ => destruct b
  end; [reflexivity|].
  unfold modify, map_insert_new. now rewrite Hfresh.
Qed.

Local Arguments Nat.leb : simpl never.
Local Arguments Nat.modulo : simpl never.

(** the exporter writes the profile of an object when it has an even
    number of values, 4 or more *)
Lemma layer_height_profile_is_written_from_four
    (ENABLE_THUMBNAIL_GENERATOR : bool) (out : OutputFile.t) (o : ModelObject.t)
    (st : _3MF_Exporter.t) :
  OutputFile.add_ok out LAYER_HEIGHTS_PROFILE_FILE = true ->
  (4 <= length (ModelObject.layer_height_profile o))%nat ->
  (length (ModelObject.layer_height_profile o) mod 2 = 0)%nat ->
  _3MF_Exporter._add_layer_height_profile_file_to_archive out (Model.mk [Some o] 1) st
  = Returns true
      (_3MF_Exporter.set_archive
         (_3MF_Exporter.archive st
          ++ [(LAYER_HEIGHTS_PROFILE_FILE,
               text_part ("object_id=1|"
                          +:+ _3MF_Exporter.join ";"
                                (map sprintf_f (ModelObject.layer_height_profile o))
                          +:+ String "010"%char ""))])
         st).
Proof.
  intros Hadd Hfour Heven.
  unfold _3MF_Exporter._add_layer_height_profile_file_to_archive. simpl.
  rewrite (proj2 (Nat.leb_le _ _) Hfour), Heven. simpl.
  unfold _3MF_Exporter.mz_zip_writer_add_mem, bind. rewrite Hadd. reflexivity.
Qed.

(** ** The version of the archive *)


Section Steady.
Variable e0 : exception.









End Steady.












Definition archive_version (st : _3MF_Importer.t) : Z :=
  to_unsigned (atoi (m_curr_characters st)).

Lemma end_of_version_metadata (st : _3MF_Importer.t) :
  m_curr_metadata_name st = SLIC3RPE_3MF_VERSION ->
  model_xml_event (end_element METADATA_TAG) st
  = if m_check_version st && (VERSION_3MF <? archive_version st)
    then Throws (version_error version_error_message)
                (set_m_version (archive_version st) st)
    else Returns true (set_m_version (archive_version st) st).
Proof.
  intros Hname. simpl.
  change (_handle_end_model_xml_element METADATA_TAG st) with (_handle_end_metadata st).
  unfold _handle_end_metadata, bind, get. rewrite Hname. simpl.
  fold (archive_version st).
  destruct (m_check_version st && (VERSION_3MF <? archive_version st)); reflexivity.
Qed.


(** the functions that the embedding of [_load_model_from_file] leaves open *)
Variable extract_layer_config_ranges : ZipEntry.t -> M _3MF_Importer.t unit.
Variable extract_sla_support_points : ZipEntry.t -> M _3MF_Importer.t unit.
Variable adjust_min_z : Model.t -> Model.t.

Definition load (path : option ZipFile.t) (config : option DynamicPrintConfig)
    (model : option Model.t) (check_version : bool)
  : outcome (option _3MF_Importer.t) bool :=
  load_3mf extract_layer_config_ranges extract_sla_support_points adjust_min_z
    path config model check_version.





(** ** Storing *)

(** A computation keeps a component of the state when every outcome that
    has a state has it unchanged. *)
Definition keeps {S A B} (proj : S -> B) (m : M S A) : Prop :=
  forall st,
    match m st with
    | Returns _ st' | Throws _ st' => proj st' = proj st
    | Undefined => True
    end.

Section Keeps.
Context {S B : Type} (proj : S -> B).

Lemma keeps_ret {A} (a : A) : keeps proj (ret a).
Proof. intros st. reflexivity. Qed.

Lemma keeps_throw {A} (e : exception) : keeps proj (@throw S A e).
Proof. intros st. reflexivity. Qed.

Lemma keeps_undefined {A} : keeps proj (@undefined S A).
Proof. intros st. exact I. Qed.

Lemma keeps_get : keeps proj get.
Proof. intros st. reflexivity. Qed.

Lemma keeps_modify (f : S -> S) :
  (forall st, proj (f st) = proj st) -> keeps proj (modify f).
Proof. intros Hf st. simpl. apply Hf. Qed.

Lemma keeps_bind {A A'} (m : M S A) (k : A -> M S A') :
  keeps proj m -> (forall a, keeps proj (k a)) -> keeps proj (bind m k).
Proof.
  intros Hm Hk st. unfold bind. specialize (Hm st).
  destruct (m st) as [a st'|e st'|]; [|assumption|exact I].
  specialize (Hk a st'). destruct (k a st') as [b st''|e st''|]; congruence || exact I.
Qed.

End Keeps.

Ltac keeps_step :=
  first
    [ apply keeps_ret
    | apply keeps_throw
    | apply keeps_undefined
    | apply keeps_get
    | apply keeps_modify; intros; reflexivity
    | apply keeps_bind; [|intros ?]
    | match goal with
      | |- keeps _ (if ?b then _ else _) => destruct b
      | |- keeps _ (match ?x with _ => _ end) => destruct x
      end ].

Ltac keeps_auto := repeat keeps_step.

Import _3MF_Exporter.

Variable ENABLE_THUMBNAIL_GENERATOR : bool.

Definition store (path : option OutputFile.t) (model : option Model.t)
    (config : option DynamicPrintConfig) (thumbnail_data : option ThumbnailData.t)
    (on_disk : bool) : outcome _3MF_Exporter.t bool :=
  store_3mf ENABLE_THUMBNAIL_GENERATOR path model config thumbnail_data on_disk.

(** *** No step that writes a part touches the file on the disk *)

Lemma keeps_add_mem (out : OutputFile.t) (name : string) (content : part) :
  keeps file_on_disk (mz_zip_writer_add_mem out name content).
Proof. unfold mz_zip_writer_add_mem. keeps_auto. Qed.

Lemma keeps_add_mesh_vertices (curr_id vertices_count : Z)
    (volumes : list (nat * option ModelVolume.t)) :
  keeps file_on_disk (add_mesh_vertices curr_id vertices_count volumes).
Proof.
  revert vertices_count.
  induction volumes as [|[k [volume|]] volumes IH]; intros vertices_count; simpl.
  - keeps_auto.
  - unfold modify_offsets, _3MF_Exporter.add_error, emit. keeps_auto; apply IH.
  - apply IH.
Qed.

Lemma keeps_add_mesh_triangles (curr_id triangles_count : Z)
    (volumes : list (nat * option ModelVolume.t)) :
  keeps file_on_disk (add_mesh_triangles curr_id triangles_count volumes).
Proof.
  revert triangles_count.
  induction volumes as [|[k [volume|]] volumes IH]; intros triangles_count; simpl.
  - keeps_auto.
  - unfold modify_offsets, emit. keeps_auto; apply IH.
  - apply IH.
Qed.

Lemma keeps_add_mesh (object : ModelObject.t) (curr_id : Z) :
  keeps file_on_disk (_add_mesh_to_object_stream object curr_id).
Proof.
  unfold _add_mesh_to_object_stream, emit.
  keeps_auto; first [apply keeps_add_mesh_vertices | apply keeps_add_mesh_triangles].
Qed.

Lemma keeps_add_object_instances (object : ModelObject.t) (curr_id object_id id : Z)
    (instances : list (option ModelInstance.t)) :
  keeps file_on_disk (add_object_instances object curr_id object_id id instances).
Proof.
  revert id. induction instances as [|[instance|] instances IH]; intros id; simpl.
  - keeps_auto.
  - unfold emit, _3MF_Exporter.add_error.
    keeps_auto;
      first [apply keeps_add_mesh_vertices | apply keeps_add_mesh_triangles | apply IH].
  - apply IH.
Qed.

Lemma keeps_add_model_objects (object_id : Z) (objects : list (option ModelObject.t)) :
  keeps file_on_disk (add_model_objects object_id objects).
Proof.
  revert object_id. induction objects as [|[obj|] objects IH]; intros object_id; simpl.
  - keeps_auto.
  - unfold _add_object_to_model_stream, _3MF_Exporter.add_error.
    keeps_auto; first [apply keeps_add_object_instances | apply IH].
  - apply IH.
Qed.

Lemma keeps_add_model_file (out : OutputFile.t) (model : Model.t) :
  keeps file_on_disk (_add_model_file_to_archive out model).
Proof.
  unfold _add_model_file_to_archive, _add_build_to_model_stream, emit,
    _3MF_Exporter.add_error.
  keeps_auto; first [apply keeps_add_model_objects | apply keeps_add_mem].
Qed.

Lemma keeps_add_content_types (out : OutputFile.t) :
  keeps file_on_disk
    (_add_content_types_file_to_archive ENABLE_THUMBNAIL_GENERATOR out).
Proof.
  unfold _add_content_types_file_to_archive, _3MF_Exporter.add_error.
  keeps_auto; apply keeps_add_mem.
Qed.

Lemma keeps_add_relationships (out : OutputFile.t) :
  keeps file_on_disk
    (_add_relationships_file_to_archive ENABLE_THUMBNAIL_GENERATOR out).
Proof.
  unfold _add_relationships_file_to_archive, _3MF_Exporter.add_error.
  keeps_auto; apply keeps_add_mem.
Qed.

Lemma keeps_add_thumbnail (out : OutputFile.t) (data : ThumbnailData.t) :
  keeps file_on_disk (_add_thumbnail_file_to_archive out data).
Proof.
  unfold _add_thumbnail_file_to_archive, _3MF_Exporter.add_error.
  keeps_auto; apply keeps_add_mem.
Qed.

Lemma keeps_add_layer_height_profile (out : OutputFile.t) (model : Model.t) :
  keeps file_on_disk (_add_layer_height_profile_file_to_archive out model).
Proof.
  unfold _add_layer_height_profile_file_to_archive, _3MF_Exporter.add_error.
  keeps_auto; apply keeps_add_mem.
Qed.

Lemma keeps_add_layer_config_ranges (out : OutputFile.t) (model : Model.t) :
  keeps file_on_disk (_add_layer_config_ranges_file_to_archive out model).
Proof.
  unfold _add_layer_config_ranges_file_to_archive, _3MF_Exporter.add_error.
  keeps_auto; apply keeps_add_mem.
Qed.

Lemma keeps_add_sla_support_points (out : OutputFile.t) (model : Model.t) :
  keeps file_on_disk (_add_sla_support_points_file_to_archive out model).
Proof.
  unfold _add_sla_support_points_file_to_archive, _3MF_Exporter.add_error.
  keeps_auto; apply keeps_add_mem.
Qed.

Lemma keeps_add_print_config (out : OutputFile.t) (config : DynamicPrintConfig) :
  keeps file_on_disk (_add_print_config_file_to_archive out config).
Proof.
  unfold _add_print_config_file_to_archive, _3MF_Exporter.add_error.
  keeps_auto; apply keeps_add_mem.
Qed.

Lemma keeps_add_model_config (out : OutputFile.t) (model : Model.t) :
  keeps file_on_disk (_add_model_config_file_to_archive out model).
Proof.
  unfold _add_model_config_file_to_archive, _3MF_Exporter.add_error.
  keeps_auto; apply keeps_add_mem.
Qed.

(** *** The chain of steps of [_save_model_to_file] *)

(** Started with the file on the disk, a computation settles it: the file
    is there after [true] and after an exception, and gone after
    [false]. *)
Definition settles (m : M _3MF_Exporter.t bool) : Prop :=
  forall st, file_on_disk st = true ->
    match m st with
    | Returns true st' => file_on_disk st' = true
    | Returns false st' => file_on_disk st' = false
    | Throws _ st' => file_on_disk st' = true
    | Undefined => True
    end.

Lemma settles_or_remove (step rest : M _3MF_Exporter.t bool) :
  keeps file_on_disk step -> settles rest -> settles (or_remove step rest).
Proof.
  intros Hstep Hrest st Hdisk. unfold or_remove, bind. specialize (Hstep st).
  destruct (step st) as [[|] st'|e st'|]; [| |congruence|exact I].
  - apply Hrest. congruence.
  - reflexivity.
Qed.

(** A computation needs [P] when it answers [true] only if [P] holds. *)
Definition needs (P : Prop) (m : M _3MF_Exporter.t bool) : Prop :=
  forall st st', m st = Returns true st' -> P.

Lemma needs_ret_false (P : Prop) : needs P (ret false).
Proof. intros st st' Hrun. discriminate. Qed.

Lemma needs_bind {A} (P : Prop) (m : M _3MF_Exporter.t A)
    (k : A -> M _3MF_Exporter.t bool) :
  (forall a, needs P (k a)) -> needs P (bind m k).
Proof.
  intros Hk st st' Hrun. unfold bind in Hrun.
  destruct (m st) as [a st1|e st1|]; try discriminate. now apply (Hk a st1 st').
Qed.

Lemma needs_add_mem (out : OutputFile.t) (name error : string) (content : part) :
  needs (OutputFile.add_ok out name = true)
    (ok <- mz_zip_writer_add_mem out name content ;;
     if ok then ret true else _3MF_Exporter.add_error error ;; ret false).
Proof.
  intros st st' Hrun. unfold mz_zip_writer_add_mem, bind in Hrun.
  destruct (OutputFile.add_ok out name); [reflexivity|discriminate].
Qed.

Lemma needs_or_remove_step (P : Prop) (step rest : M _3MF_Exporter.t bool) :
  needs P step -> needs P (or_remove step rest).
Proof.
  intros Hstep st st' Hrun. unfold or_remove, bind in Hrun.
  destruct (step st) as [[|] st1|e st1|] eqn:Hs; try discriminate.
  now apply (Hstep st st1).
Qed.

Lemma needs_or_remove_rest (P : Prop) (step rest : M _3MF_Exporter.t bool) :
  needs P rest -> needs P (or_remove step rest).
Proof.
  intros Hrest st st' Hrun. unfold or_remove, bind in Hrun.
  destruct (step st) as [[|] st1|e st1|] eqn:Hs; try discriminate.
  now apply (Hrest st1 st').
Qed.

Ltac needs_step :=
  first
    [ apply needs_ret_false
    | apply needs_add_mem
    | apply needs_bind; intros ?
    | match goal with
      | |- needs _ (if ?b then _ else _) => destruct b
      | |- needs _ (match ?x with _ => _ end) => destruct x
      end ].

Lemma needs_model_file (out : OutputFile.t) (model : Model.t) :
  needs (OutputFile.add_ok out MODEL_FILE = true) (_add_model_file_to_archive out model).
Proof. unfold _add_model_file_to_archive. repeat needs_step. Qed.

(** the steps after the archive has been opened *)
Definition steps (out : OutputFile.t) (model : Model.t)
    (config : option DynamicPrintConfig) (thumbnail_data : option ThumbnailData.t)
  : M _3MF_Exporter.t bool :=
  or_remove (_add_content_types_file_to_archive ENABLE_THUMBNAIL_GENERATOR out)
 (or_remove (match thumbnail_data with
             | Some data =>
                 if ENABLE_THUMBNAIL_GENERATOR && ThumbnailData.is_valid data
                 then _add_thumbnail_file_to_archive out data
                 else ret true
             | None => ret true
             end)
 (or_remove (_add_relationships_file_to_archive ENABLE_THUMBNAIL_GENERATOR out)
 (or_remove (_add_model_file_to_archive out model)
 (or_remove (_add_layer_height_profile_file_to_archive out model)
 (or_remove (_add_layer_config_ranges_file_to_archive out model)
 (or_remove (_add_sla_support_points_file_to_archive out model)
 (or_remove (match config with
             | Some config => _add_print_config_file_to_archive out config
             | None => ret true
             end)
 (or_remove (_add_model_config_file_to_archive out model)
 (if negb (OutputFile.finalize_ok out) then
    close_and_remove ;;
    _3MF_Exporter.add_error "Unable to finalize the archive" ;;
    ret false
  else ret true))))))))).

Lemma store_of_open_file (out : OutputFile.t) (model : Model.t)
    (config : option DynamicPrintConfig) (thumbnail_data : option ThumbnailData.t)
    (on_disk : bool) :
  store (Some out) (Some model) config thumbnail_data on_disk
  = if OutputFile.open_ok out then
      steps out model config thumbnail_data (_3MF_Exporter.mk [] [] [] ∅ [] true)
    else
      Returns false (_3MF_Exporter.mk ["Unable to open the file"] [] [] ∅ [] on_disk).
Proof.
  unfold store, store_3mf, save_model_to_file, _save_model_to_file.
  destruct (OutputFile.open_ok out); reflexivity.
Qed.

Lemma settles_steps (out : OutputFile.t) (model : Model.t)
    (config : option DynamicPrintConfig) (thumbnail_data : option ThumbnailData.t) :
  settles (steps out model config thumbnail_data).
Proof.
  unfold steps.
  repeat (apply settles_or_remove;
          [first [ apply keeps_add_content_types | apply keeps_add_relationships
                 | apply keeps_add_model_file | apply keeps_add_layer_height_profile
                 | apply keeps_add_layer_config_ranges
                 | apply keeps_add_sla_support_points | apply keeps_add_model_config
                 | idtac ]|]).
  - destruct thumbnail_data as [data|]; [|apply keeps_ret].
    destruct (_ && _); [apply keeps_add_thumbnail|apply keeps_ret].
  - destruct config as [config|]; [apply keeps_add_print_config|apply keeps_ret].
  - intros st Hdisk. destruct (OutputFile.finalize_ok out); simpl; [assumption|reflexivity].
Qed.

Lemma needs_steps (out : OutputFile.t) (model : Model.t)
    (config : option DynamicPrintConfig) (thumbnail_data : option ThumbnailData.t) :
  needs (OutputFile.add_ok out CONTENT_TYPES_FILE = true
         /\ OutputFile.add_ok out RELATIONSHIPS_FILE = true
         /\ OutputFile.add_ok out MODEL_FILE = true
         /\ OutputFile.add_ok out MODEL_CONFIG_FILE = true
         /\ OutputFile.finalize_ok out = true)
    (steps out model config thumbnail_data).
Proof.
  intros st st' Hrun. repeat split.
  - revert st st' Hrun. apply needs_or_remove_step.
    unfold _add_content_types_file_to_archive. apply needs_add_mem.
  - revert st st' Hrun. do 2 apply needs_or_remove_rest. apply needs_or_remove_step.
    unfold _add_relationships_file_to_archive. apply needs_add_mem.
  - revert st st' Hrun. do 3 apply needs_or_remove_rest. apply needs_or_remove_step.
    apply needs_model_file.
  - revert st st' Hrun. do 8 apply needs_or_remove_rest. apply needs_or_remove_step.
    unfold _add_model_config_file_to_archive. repeat needs_step.
  - revert st st' Hrun. do 9 apply needs_or_remove_rest.
    intros st st' Hrun. destruct (OutputFile.finalize_ok out); [reflexivity|discriminate].
Qed.

(** Every [return false] of [_save_model_to_file] that follows the opening
    of the archive comes after [close_zip_writer] and [boost::filesystem::remove]:
    a store that returns [false] once the archive is open has removed the
    output file, whichever part could not be added and also when the
    finalization failed.  It returns [true] only when the parts it always
    writes were added and the archive was finalized, and the file is then
    on the disk.  When the archive cannot be opened it returns [false] and
    has created no file. *)
Lemma store_that_returns_false_has_removed_the_file
    (out : OutputFile.t) (model : Model.t) (config : option DynamicPrintConfig)
    (thumbnail_data : option ThumbnailData.t) (on_disk : bool) :
  match store (Some out) (Some model) config thumbnail_data on_disk with
  | Returns true st =>
      file_on_disk st = true
      /\ OutputFile.open_ok out = true
      /\ OutputFile.add_ok out CONTENT_TYPES_FILE = true
      /\ OutputFile.add_ok out RELATIONSHIPS_FILE = true
      /\ OutputFile.add_ok out MODEL_FILE = true
      /\ OutputFile.add_ok out MODEL_CONFIG_FILE = true
      /\ OutputFile.finalize_ok out = true
  | Returns false st =>
      if OutputFile.open_ok out then file_on_disk st = false
      else file_on_disk st = on_disk
           /\ _3MF_Exporter.m_errors st = ["Unable to open the file"]
  | Throws _ _ | Undefined => True
  end.
Proof.
  rewrite store_of_open_file.
  destruct (OutputFile.open_ok out); [|split; reflexivity].
  pose proof (settles_steps out model config thumbnail_data
                (_3MF_Exporter.mk [] [] [] ∅ [] true) eq_refl) as Hsettles.
  pose proof (needs_steps out model config thumbnail_data
                (_3MF_Exporter.mk [] [] [] ∅ [] true)) as Hneeds.
  destruct (steps out model config thumbnail_data (_3MF_Exporter.mk [] [] [] ∅ [] true))
    as [[|] st|e st|]; auto.
  split; [assumption|]. split; [reflexivity|]. now apply (Hneeds st).
Qed.

(** *** A scene without instances *)

(** no object of the scene has an instance: every entry of [objects] is
    null or has only null instances *)
Definition no_instance (model : Model.t) : Prop :=
  Forall (fun o : option ModelObject.t =>
            match o with
            | Some o => Forall (fun i => i = None) (ModelObject.instances o)
            | None => True
            end)
         (Model.objects model).

Lemma add_object_instances_none (object : ModelObject.t) (curr_id object_id id : Z)
    (instances : list (option ModelInstance.t)) (st : _3MF_Exporter.t) :
  Forall (fun i => i = None) instances ->
  add_object_instances object curr_id object_id id instances st = Returns (true, id) st.
Proof.
  induction 1 as [|i instances -> _ IH]; simpl; [reflexivity|exact IH].
Qed.

Lemma add_model_objects_none (objects : list (option ModelObject.t)) :
  Forall (fun o : option ModelObject.t =>
            match o with
            | Some o => Forall (fun i => i = None) (ModelObject.instances o)
            | None => True
            end) objects ->
  forall (object_id : Z) (st : _3MF_Exporter.t),
  exists data,
    add_model_objects object_id objects st = Returns true (set_objects_data data st).
Proof.
  induction 1 as [|[obj|] objects Hobj _ IH]; intros object_id st; simpl.
  - exists (objects_data st). reflexivity.
  - unfold bind, modify, _add_object_to_model_stream, bind.
    rewrite (add_object_instances_none obj _ _ _ _ _ Hobj). simpl.
    destruct (IH (to_unsigned (object_id + 0))
                 (set_objects_data
                    (map_insert_new (to_int object_id) (ObjectData.mk obj ∅)
                                    (objects_data st)) st)) as [data Hrun].
    exists data. rewrite Hrun. reflexivity.
  - apply IH.
Qed.

Lemma build_section_without_items (st : _3MF_Exporter.t) :
  build_items st = [] ->
  _add_build_to_model_stream st
  = Returns false (set_m_errors (_3MF_Exporter.m_errors st ++ ["No build item found"]) st).
Proof.
  intros Hempty. unfold _add_build_to_model_stream, bind, get. rewrite Hempty. reflexivity.
Qed.

Lemma add_model_file_none (out : OutputFile.t) (model : Model.t) (st : _3MF_Exporter.t) :
  no_instance model ->
  exists st',
    _add_model_file_to_archive out model st = Returns false st'
    /\ _3MF_Exporter.m_errors st'
       = _3MF_Exporter.m_errors st
         ++ ["No build item found"; "Unable to add build to archive"]
    /\ file_on_disk st' = file_on_disk st.
Proof.
  intros Hnone. unfold _add_model_file_to_archive, bind, emit, modify.
  match goal with
  | |- context [add_model_objects 1 ?objects ?s] =>
      destruct (add_model_objects_none objects Hnone 1 s) as [data Hrun]; rewrite Hrun
  end.
  cbv beta iota delta [negb].
  rewrite build_section_without_items by reflexivity.
  cbv beta iota delta [negb _3MF_Exporter.add_error modify ret].
  eexists. split; [reflexivity|]. split; [|reflexivity].
  simpl. rewrite <- app_assoc. reflexivity.
Qed.

Lemma or_remove_true (step rest : M _3MF_Exporter.t bool) (st st' : _3MF_Exporter.t) :
  step st = Returns true st' -> or_remove step rest st = rest st'.
Proof. intros Hstep. unfold or_remove, bind. now rewrite Hstep. Qed.

Lemma or_remove_false (step rest : M _3MF_Exporter.t bool) (st st' : _3MF_Exporter.t) :
  step st = Returns false st' ->
  or_remove step rest st = Returns false (set_file_on_disk false st').
Proof. intros Hstep. unfold or_remove, bind. now rewrite Hstep. Qed.

(** the parts written before the geometry are added to the archive *)
Definition preamble_ok (out : OutputFile.t) (thumbnail_data : option ThumbnailData.t)
  : bool :=
  OutputFile.add_ok out CONTENT_TYPES_FILE
  && match thumbnail_data with
     | Some data =>
         if ENABLE_THUMBNAIL_GENERATOR && ThumbnailData.is_valid data
         then ThumbnailData.png_encodes data && OutputFile.add_ok out THUMBNAIL_FILE
         else true
     | None => true
     end
  && OutputFile.add_ok out RELATIONSHIPS_FILE.

(** a step that adds one part and records an error when it cannot *)
Definition quiet_step (step : M _3MF_Exporter.t bool) (ok : bool) : Prop :=
  forall st,
    exists st',
      step st = Returns ok st'
      /\ file_on_disk st' = file_on_disk st
      /\ (ok = true -> _3MF_Exporter.m_errors st' = _3MF_Exporter.m_errors st).

Lemma content_types_step (out : OutputFile.t) :
  quiet_step (_add_content_types_file_to_archive ENABLE_THUMBNAIL_GENERATOR out)
             (OutputFile.add_ok out CONTENT_TYPES_FILE).
Proof.
  intros st. unfold _add_content_types_file_to_archive, mz_zip_writer_add_mem, bind.
  destruct (OutputFile.add_ok out CONTENT_TYPES_FILE); simpl; eexists;
    (split; [reflexivity|split; [reflexivity|]]); [reflexivity|discriminate].
Qed.

Lemma relationships_step (out : OutputFile.t) :
  quiet_step (_add_relationships_file_to_archive ENABLE_THUMBNAIL_GENERATOR out)
             (OutputFile.add_ok out RELATIONSHIPS_FILE).
Proof.
  intros st. unfold _add_relationships_file_to_archive, mz_zip_writer_add_mem, bind.
  destruct (OutputFile.add_ok out RELATIONSHIPS_FILE); simpl; eexists;
    (split; [reflexivity|split; [reflexivity|]]); [reflexivity|discriminate].
Qed.

Lemma thumbnail_step (out : OutputFile.t) (thumbnail_data : option ThumbnailData.t) :
  quiet_step
    (match thumbnail_data with
     | Some data =>
         if ENABLE_THUMBNAIL_GENERATOR && ThumbnailData.is_valid data
         then _add_thumbnail_file_to_archive out data
         else ret true
     | None => ret true
     end)
    (match thumbnail_data with
     | Some data =>
         if ENABLE_THUMBNAIL_GENERATOR && ThumbnailData.is_valid data
         then ThumbnailData.png_encodes data && OutputFile.add_ok out THUMBNAIL_FILE
         else true
     | None => true
     end).
Proof.
  intros st. destruct thumbnail_data as [data|]; [|eexists; repeat split].
  destruct (ENABLE_THUMBNAIL_GENERATOR && ThumbnailData.is_valid data);
    [|eexists; repeat split].
  unfold _add_thumbnail_file_to_archive, mz_zip_writer_add_mem, bind.
  destruct (ThumbnailData.png_encodes data); simpl;
    [destruct (OutputFile.add_ok out THUMBNAIL_FILE); simpl|];
    eexists; (split; [reflexivity|split; [reflexivity|]]);
    first [reflexivity | discriminate].
Qed.

(** C9.  When no object of the scene has an instance the list of build
    items is empty: the writer of the build section records "No build item
    found" and answers [false], the store answers [false], and once the
    archive has been opened the output file is removed.  When the archive
    opens and the parts that precede the geometry are added, the errors
    recorded are that of the build section and that of its caller. *)
Theorem store_without_instance_fails
    (out : OutputFile.t) (model : Model.t) (config : option DynamicPrintConfig)
    (thumbnail_data : option ThumbnailData.t) (on_disk : bool) :
  no_instance model ->
  (forall st : _3MF_Exporter.t,
     build_items st = [] ->
     _add_build_to_model_stream st
     = Returns false
         (set_m_errors (_3MF_Exporter.m_errors st ++ ["No build item found"]) st)) /\
  (exists st : _3MF_Exporter.t,
     store (Some out) (Some model) config thumbnail_data on_disk = Returns false st
     /\ (OutputFile.open_ok out = true -> file_on_disk st = false)) /\
  (OutputFile.open_ok out = true ->
   preamble_ok out thumbnail_data = true ->
   exists st : _3MF_Exporter.t,
     store (Some out) (Some model) config thumbnail_data on_disk = Returns false st
     /\ _3MF_Exporter.m_errors st
        = ["No build item found"; "Unable to add build to archive"]
     /\ file_on_disk st = false).
Proof.
  intros Hnone. split; [exact build_section_without_items|].
  rewrite store_of_open_file. unfold steps.
  set (s0 := _3MF_Exporter.mk [] [] [] ∅ [] true).
  destruct (content_types_step out s0) as (s1 & Hs1 & Hdisk1 & Herr1).
  destruct (thumbnail_step out thumbnail_data s1) as (s2 & Hs2 & Hdisk2 & Herr2).
  destruct (relationships_step out s2) as (s3 & Hs3 & Hdisk3 & Herr3).
  destruct (add_model_file_none out model s3 Hnone) as (s4 & Hs4 & Herr4 & Hdisk4).
  split.
  - destruct (OutputFile.open_ok out);
      [|eexists; split; [reflexivity|discriminate]].
    destruct (OutputFile.add_ok out CONTENT_TYPES_FILE);
      [rewrite (or_remove_true _ _ _ _ Hs1)
      |rewrite (or_remove_false _ _ _ _ Hs1); eexists; split; reflexivity].
    match type of Hs2 with
    | _ = Returns ?ok _ => destruct ok
    end;
      [rewrite (or_remove_true _ _ _ _ Hs2)
      |rewrite (or_remove_false _ _ _ _ Hs2); eexists; split; reflexivity].
    destruct (OutputFile.add_ok out RELATIONSHIPS_FILE);
      [rewrite (or_remove_true _ _ _ _ Hs3)
      |rewrite (or_remove_false _ _ _ _ Hs3); eexists; split; reflexivity].
    rewrite (or_remove_false _ _ _ _ Hs4). eexists; split; reflexivity.
  - intros -> Hpreamble. unfold preamble_ok in Hpreamble.
    apply andb_prop in Hpreamble as [Hpreamble Hrelationships].
    apply andb_prop in Hpreamble as [Hcontent Hthumbnail].
    rewrite Hcontent in Hs1, Herr1. rewrite Hthumbnail in Hs2, Herr2.
    rewrite Hrelationships in Hs3, Herr3.
    rewrite (or_remove_true _ _ _ _ Hs1), (or_remove_true _ _ _ _ Hs2),
      (or_remove_true _ _ _ _ Hs3), (or_remove_false _ _ _ _ Hs4).
    eexists. split; [reflexivity|]. split; [|reflexivity].
    specialize (Herr1 eq_refl). specialize (Herr2 eq_refl). specialize (Herr3 eq_refl).
    change (_3MF_Exporter.m_errors s4
            = ["No build item found"; "Unable to add build to archive"]).
    rewrite Herr4, Herr3, Herr2, Herr1. reflexivity.
Qed.

End Properties.

(** * The embedding at work on concrete archives and scenes *)

Existing Instance Exact.externals.

(** the state in which a call ends, when it has one *)
Definition final {S A} (r : outcome S A) (otherwise : S) : S :=
  match r with
  | Returns _ s | Throws _ s => s
  | Undefined => otherwise
  end.

Module Example.

(** an importer made by [load_3mf] on an empty scene *)
Definition no_config : DynamicPrintConfig := [].
Definition importer : _3MF_Importer.t :=
  _3MF_Importer.constructed (Model.mk [] 0) no_config.

(** the two functions left open and [adjust_min_z] when they do nothing *)
Definition nothing (stat : ZipEntry.t) : M _3MF_Importer.t unit := ret tt.
Definition same (model : Model.t) : Model.t := model.

(** one triangle, one object, one build item; saved by a version 99 *)
Definition geometry_part (version : string) : list xml_event :=
  [start_element "model" ["unit"; "inch"];
   start_element "metadata" ["name"; "slic3rpe:Version3mf"];
   characters version;
   end_element "metadata";
   start_element "resources" [];
   start_element "object" ["id"; "1"; "type"; "model"];
   start_element "mesh" [];
   start_element "vertices" [];
   start_element "vertex" ["x"; "1"; "y"; "0"; "z"; "0"]; end_element "vertex";
   start_element "vertex" ["x"; "0"; "y"; "1"; "z"; "0"]; end_element "vertex";
   start_element "vertex" ["x"; "0"; "y"; "0"; "z"; "1"]; end_element "vertex";
   end_element "vertices";
   start_element "triangles" [];
   start_element "triangle" ["v1"; "0"; "v2"; "1"; "v3"; "2"]; end_element "triangle";
   end_element "triangles";
   end_element "mesh";
   end_element "object";
   end_element "resources";
   start_element "build" [];
   start_element "item" ["objectid"; "1"]; end_element "item";
   end_element "build";
   end_element "model"].

Definition model_entry (version : string) : ZipEntry.t :=
  ZipEntry.mk true "3D/3dmodel.model" 1024 "" true (geometry_part version) true.

Definition archive (version : string) : ZipFile.t :=
  ZipFile.mk "triangle.3mf" true [model_entry version].





(** the sidecar has announced object 1 and no volume *)
Definition importer_in_object : _3MF_Importer.t :=
  _3MF_Importer.set_m_curr_config (CurrentConfig.mk 1 (-1))
    (_3MF_Importer.set_m_objects_metadata {[ 1 := ObjectMetadata.default ]} importer).

(** objects 2 to 11 each have one component, the object just below;
    object 1 carries a mesh and is the only object of the scene *)
Definition shift : Transform3d := get_transform_from_3mf_specs_string "1 0 0 0 1 0 0 0 1 10 0 0".

Definition mesh_object : ModelObject.t :=
  ModelObject.mk 0 "part" [] [] [] [] [] [] Exact.no_points.

Definition aliases : gmap Z (list Component.t) :=
  list_to_map
    ((1, [Component.of_id 1])
       :: map (fun k => (k, [Component.mk (k - 1) shift])) (seqZ 2 10)).

Definition importer_with_chain : _3MF_Importer.t :=
  _3MF_Importer.set_m_objects_aliases aliases
    (_3MF_Importer.set_m_objects {[ 1 := 0 ]}
       (_3MF_Importer.set_m_model (Model.mk [Some mesh_object] 1) importer)).

(** four vertices and two triangles, cut into two volumes *)
Definition two_triangles : Geometry.t :=
  Geometry.mk (map Q2Qc [0; 0; 0; 1; 0; 0; 0; 1; 0; 0; 0; 1]%Q) [0; 1; 2; 1; 2; 3].

Definition two_ranges : list VolumeMetadata.t :=
  [VolumeMetadata.make 0 0; VolumeMetadata.make 1 1].

(** an output file that miniz writes without any failure *)
Definition output : OutputFile.t := OutputFile.mk "out.3mf" true (fun _ => true) true.

(** a scene of one object without instance *)
Definition scene_without_instance : Model.t := Model.mk [Some mesh_object] 1.

(** a scene of one object, with an instance, whose only volume has a mesh
    that was not repaired *)
Definition raw_mesh : TriangleMesh.t := TriangleMesh.mk [] 0 0 false false [] [].

Definition scene_with_raw_mesh : Model.t :=
  Model.mk
    [Some (ModelObject.mk 0 "part" [Some ModelInstance.default]
             [Some (ModelObject.new_volume raw_mesh)] [] [] [] [] Exact.no_points)]
    1.

(** a scene of one object whose layer height profile has four values *)
Definition scene_with_profile : Model.t :=
  Model.mk
    [Some (ModelObject.mk 0 "part" [Some ModelInstance.default] [] []
             (map Q2Qc [0; 0.2; 10; 0.2]%Q) [] [] Exact.no_points)]
    1.

Definition profile_text : string :=
  "object_id=1|0.000000;0.200000;10.000000;0.200000" +:+ String "010"%char "".

Definition profile_entry : ZipEntry.t :=
  ZipEntry.mk true LAYER_HEIGHTS_PROFILE_FILE 49 profile_text true [] true.

(** three vertices, and a triangle whose last corner names a fourth *)
Definition dangling_triangle : Geometry.t :=
  Geometry.mk (map Q2Qc [0; 0; 0; 1; 0; 0; 0; 1; 0]%Q) [0; 1; 3].

(** a scene of one object, with an instance, whose only volume is one
    triangle, repaired and with shared vertices, stretched along x by
    1.0078125, that is 1 + 2^-7 *)
Definition corner : TriangleMesh.t :=
  TriangleMesh.mk [] 1 1 true true
    [(Q2Qc 1, Q2Qc 0, Q2Qc 0); (Q2Qc 0, Q2Qc 1, Q2Qc 0); (Q2Qc 0, Q2Qc 0, Q2Qc 1)]
    [[0; 1; 2]].

Definition stretch : Transform3d :=
  map (map Q2Qc) [[1.0078125; 0; 0; 0]; [0; 1; 0; 0]; [0; 0; 1; 0]; [0; 0; 0; 1]]%Q.

Definition stretched_volume : ModelVolume.t :=
  ModelVolume.mk "" corner Exact.model_part stretch Source.default [].

Definition stretched_scene : Model.t :=
  Model.mk
    [Some (ModelObject.mk 0 "part" [Some ModelInstance.default] [Some stretched_volume]
             [] [] [] [] Exact.no_points)]
    1.

(** the archive that a store has written, as miniz and expat give it to
    the importer *)
Definition as_entry (named : string * part) : ZipEntry.t :=
  match snd named with
  | xml_part document => ZipEntry.mk true (fst named) 1024 "" true document true
  | text_part text =>
      ZipEntry.mk true (fst named) (Z.of_nat (String.length text)) text true [] true
  | png_part => ZipEntry.mk true (fst named) 1024 "" true [] true
  end.

Definition as_written (out : OutputFile.t) (ex : _3MF_Exporter.t) : ZipFile.t :=
  ZipFile.mk (OutputFile.filename out) true (map as_entry (_3MF_Exporter.archive ex)).

(** the attributes of the elements of a name in a part of the archive *)
Definition elements_of (part_name name : string) (ex : _3MF_Exporter.t)
  : list (list string) :=
  match list_find (fun named => String.eqb (fst named) part_name)
                  (_3MF_Exporter.archive ex) with
  | Some (_, (_, xml_part document)) =>
      omap (fun e => match e with
                     | start_element n attributes =>
                         if String.eqb n name then Some attributes else None
                     | _ => None
                     end)
           document
  | _ => []
  end.

(** the three coordinates of a vertex, as fractions in lowest terms *)
Definition coordinates (vertex : Vec3f) : Q * Q * Q :=
  let '(x, y, z) := vertex in (this x, this y, this z).

(** the facets of the volumes of the objects of a scene, and those that
    the indexed triangle set of a mesh stands for *)
Definition facets (model : Model.t) : list (list (list (Q * Q * Q))) :=
  flat_map (fun object =>
              match object with
              | Some object =>
                  omap (fmap (fun volume =>
                                map (map coordinates)
                                    (TriangleMesh.facet_start (ModelVolume.mesh volume))))
                       (ModelObject.volumes object)
              | None => []
              end)
           (Model.objects model).

Definition facets_of_its (mesh : TriangleMesh.t) : list (list (Q * Q * Q)) :=
  map (omap (fun k => coordinates <$> TriangleMesh.its_vertices mesh !! Z.to_nat k))
      (TriangleMesh.its_indices mesh).

End Example.

(** C10 at work: object 1 of the sidecar has no volume yet, and a metadata
    of type [volume] leaves the importer as it was. *)
Lemma volume_metadata_before_any_volume_witness :
  _handle_start_config_metadata ["type"; "volume"; "key"; "name"; "value"; "lid"]
    Example.importer_in_object
  = Returns true Example.importer_in_object.
Proof.
  apply (volume_metadata_before_any_volume_is_dropped
           ["type"; "volume"; "key"; "name"; "value"; "lid"]
           Example.importer_in_object ObjectMetadata.default);
    reflexivity.
Defined.

(** C7 at work: a unit that the table does not name has the factor 1. *)
Lemma unit_factor_witness :
  "yard" <> "micron" /\ get_unit_factor "yard" = float_lit 1.
Proof.
  split; [discriminate|].
  apply (proj1 (proj2 (proj2 (proj2 (proj2 (proj2 (proj2
           unit_factor_scales_every_vertex)))))) "yard");
    discriminate.
Defined.

(** C8 at work: the tenth element of the string is the entry of row 0 and
    column 3, and an [item] without transform attaches an instance with
    the identity. *)
Lemma twelve_fill_columns_witness :
  length (split_compress_on " "%char "1 0 0 0 1 0 0 0 1 10 20 30") = 12%nat
  /\ coeff (get_transform_from_3mf_specs_string "1 0 0 0 1 0 0 0 1 10 20 30") 0 3
     = Some (atof "10")
  /\ _handle_start_item ["objectid"; "1"] Example.importer_with_chain
     = Returns true
         (attach_instance 0 Example.mesh_object true Identity Example.importer_with_chain).
Proof.
  split; [reflexivity|]. split.
  - apply (proj1 (proj2 (proj2 (proj2 missing_transform_is_identity_and_twelve_fill_columns))
                   "1 0 0 0 1 0 0 0 1 10 20 30" ltac:(discriminate) eq_refl) 0 3)%nat; lia.
  - apply (proj1 (proj2 missing_transform_is_identity_and_twelve_fill_columns)
                 ["objectid"; "1"] Example.importer_with_chain (Component.of_id 1) 0
                 Example.mesh_object);
      first [reflexivity | lia].
Defined.

Ltac alias_chain_down k :=
  apply (alias_chain_step _ _ (Component.mk k Example.shift));
  [reflexivity | intros Heq; discriminate Heq | ].

Lemma example_chain_of_ten :
  alias_chain Example.importer_with_chain 10 (replicate 9 Example.shift) 1.
Proof.
  alias_chain_down 9. alias_chain_down 8. alias_chain_down 7. alias_chain_down 6.
  alias_chain_down 5. alias_chain_down 4. alias_chain_down 3. alias_chain_down 2.
  alias_chain_down 1.
  apply (alias_chain_leaf _ 1 (Component.of_id 1)); reflexivity.
Defined.

(** C5 at work: objects 10 and 11 head chains of depth 10 and 11; the item
    on the first attaches an instance of object 1, moved nine times, the
    item on the second records the error and attaches nothing. *)
Lemma alias_chain_depth_bound_witness :
  alias_chain Example.importer_with_chain 11 (replicate 10 Example.shift) 1
  /\ _handle_start_item ["objectid"; "10"] Example.importer_with_chain
     = Returns true
         (attach_instance 0 Example.mesh_object true
            (foldl matrix_mul Identity (replicate 9 Example.shift))
            Example.importer_with_chain)
  /\ _handle_start_item ["objectid"; "11"] Example.importer_with_chain
     = Returns false (record_error "Too many recursions" Example.importer_with_chain).
Proof.
  assert (Heleven : alias_chain Example.importer_with_chain 11
                      (replicate 10 Example.shift) 1).
  { alias_chain_down 10. exact example_chain_of_ten. }
  split; [exact Heleven|]. split.
  - apply (proj1 (proj2 (alias_chain_depth_bound ["objectid"; "10"]
                           Example.importer_with_chain (replicate 9 Example.shift) 1
                           example_chain_of_ten))
                 0 Example.mesh_object);
      first [reflexivity | simpl; lia].
  - apply (proj2 (proj2 (alias_chain_depth_bound ["objectid"; "11"]
                           Example.importer_with_chain (replicate 10 Example.shift) 1
                           Heleven))).
    simpl. lia.
Defined.

Lemma example_two_triangles_indexed : indexed_triangle_set Example.two_triangles.
Proof.
  unfold indexed_triangle_set. simpl. repeat split; try lia.
  repeat constructor; unfold vertex_count; simpl; lia.
Defined.

(** C4 at work: two triangles cut into the ranges (0, 0) and (1, 1) give
    two volumes of one triangle each, and the range (1, 0) is refused. *)
Lemma triangle_ranges_witness :
  partition_of (triangle_count Example.two_triangles) Example.two_ranges
  /\ (exists produced : list ModelVolume.t,
        _generate_volumes Example.mesh_object Example.two_triangles Example.two_ranges
          Example.importer
        = Returns (true, ModelObject.with_volumes (map Some produced) Example.mesh_object)
                  Example.importer
        /\ Forall2 produced_for Example.two_ranges produced
        /\ total (map volume_triangle_count produced) = 2)
  /\ (exists object' : ModelObject.t,
        _generate_volumes Example.mesh_object Example.two_triangles
          [VolumeMetadata.make 1 0] Example.importer
        = Returns (false, object')
                  (record_error "Found invalid triangle id" Example.importer)).
Proof.
  assert (Hpartition : partition_of (triangle_count Example.two_triangles)
                         Example.two_ranges).
  { unfold partition_of, triangle_count. simpl. repeat split; lia. }
  split; [exact Hpartition|]. split.
  - apply (proj1 (triangle_ranges_are_sliced_or_refused Example.mesh_object
                    Example.two_triangles Example.two_ranges Example.importer
                    example_two_triangles_indexed eq_refl) Hpartition).
  - apply (proj2 (triangle_ranges_are_sliced_or_refused Example.mesh_object
                    Example.two_triangles [VolumeMetadata.make 1 0] Example.importer
                    example_two_triangles_indexed eq_refl)).
    + repeat constructor; simpl; lia.
    + constructor. unfold invalid_range. simpl. lia.
Defined.

(** C4 refuted as stated: the object has one triangle, whose last corner
    names a vertex that the object does not have.  The range (0, 0) alone
    partitions its triangles, and the ranges (0, 0) and (1, 0) hold one
    with [first > last]; in both cases volume generation reads the vertices
    outside their vector: it neither succeeds nor records an error and
    answers [false]. *)
Lemma triangle_of_a_missing_vertex_is_neither_sliced_nor_refused :
  partition_of (triangle_count Example.dangling_triangle) [VolumeMetadata.make 0 0]
  /\ _generate_volumes Example.mesh_object Example.dangling_triangle
       [VolumeMetadata.make 0 0] Example.importer
     = Undefined
  /\ Exists (invalid_range (triangle_count Example.dangling_triangle))
            [VolumeMetadata.make 0 0; VolumeMetadata.make 1 0]
  /\ _generate_volumes Example.mesh_object Example.dangling_triangle
       [VolumeMetadata.make 0 0; VolumeMetadata.make 1 0] Example.importer
     = Undefined.
Proof.
  split; [|split; [|split]].
  - unfold partition_of, triangle_count. simpl. repeat split; lia.
  - reflexivity.
  - apply Exists_cons_tl, Exists_cons_hd. unfold invalid_range. simpl. lia.
  - reflexivity.
Qed.

(** C9 at work: a scene of one object without instance, written to a file
    that miniz handles without failure. *)
Lemma store_without_instance_witness :
  no_instance Example.scene_without_instance
  /\ exists st : _3MF_Exporter.t,
       store true (Some Example.output) (Some Example.scene_without_instance) None None
             false
       = Returns false st
       /\ _3MF_Exporter.m_errors st
          = ["No build item found"; "Unable to add build to archive"]
       /\ _3MF_Exporter.file_on_disk st = false.
Proof.
  assert (Hnone : no_instance Example.scene_without_instance)
    by (repeat constructor).
  split; [exact Hnone|].
  apply (proj2 (proj2 (store_without_instance_fails true Example.output
                         Example.scene_without_instance None None false Hnone))
               eq_refl eq_refl).
Defined.

(** C6 on the code: the only volume of the scene has a mesh that was not
    repaired, and no file of the name of the output exists.  The store
    opens the output file, writes the content types and the relationships
    and leaves by the exception of [_add_mesh_to_object_stream], which
    nothing catches: it does not return [false], and the file it has begun
    is still on the disk. *)
Theorem store_of_an_unrepaired_mesh_leaves_the_file :
  exists st : _3MF_Exporter.t,
    store true (Some Example.output) (Some Example.scene_with_raw_mesh) None None false
    = Throws (runtime_error "store_3mf() requires repair()") st
    /\ _3MF_Exporter.file_on_disk st = true
    /\ map fst (_3MF_Exporter.archive st) = [CONTENT_TYPES_FILE; RELATIONSHIPS_FILE].
Proof.
  exists (final (store true (Some Example.output) (Some Example.scene_with_raw_mesh)
                       None None false)
                (_3MF_Exporter.constructed false)).
  split; [reflexivity|]. split; reflexivity.
Qed.

(** C1 on the code: the exporter writes the profile of four values of an
    object as a line of the layer heights profile file, and the importer,
    given that very line, skips it with the error "Found invalid layer
    heights profile" and records no profile. *)
Theorem layer_height_profile_of_four_values_is_written_and_refused :
  _3MF_Exporter._add_layer_height_profile_file_to_archive Example.output
    Example.scene_with_profile (_3MF_Exporter.constructed true)
  = Returns true
      (_3MF_Exporter.set_archive
         [(LAYER_HEIGHTS_PROFILE_FILE, text_part Example.profile_text)]
         (_3MF_Exporter.constructed true))
  /\ exists st : _3MF_Importer.t,
       _extract_layer_heights_profile_config_from_archive Example.profile_entry
         Example.importer
       = Returns tt st
       /\ m_errors st = ["Found invalid layer heights profile"]
       /\ m_layer_heights_profiles st = ∅.
Proof.
  split; [reflexivity|].
  exists (final (_extract_layer_heights_profile_config_from_archive Example.profile_entry
                   Example.importer)
                Example.importer).
  split; [reflexivity|]. split; reflexivity.
Qed.



(** C3 on the code: the only volume of the scene is stretched along x by
    1.0078125 and its first vertex is (1, 0, 0).  The store writes the
    vertex moved by the matrix on the stream of the .model file, with nine
    digits: "1.0078125", the number itself.  It writes the matrix on the
    stream of the model config file, with six digits: "1.00781".  The load
    of the archive written, of version 2, inverts the matrix it reads, and
    the vertex of the volume it makes is 1.0078125 / 1.00781, that is
    403125 / 403124, along x: it is not the vertex 1 that was stored. *)
Theorem stored_vertex_is_not_loaded_back :
  exists (ex : _3MF_Exporter.t) (st : _3MF_Importer.t),
    store true (Some Example.output) (Some Example.stretched_scene) None None false
    = Returns true ex
    /\ Example.elements_of MODEL_FILE VERTEX_TAG ex
       = [["x"; "1.0078125"; "y"; "0"; "z"; "0"]; ["x"; "0"; "y"; "1"; "z"; "0"];
          ["x"; "0"; "y"; "0"; "z"; "1"]]
    /\ Example.elements_of MODEL_CONFIG_FILE METADATA_TAG ex
       = [["type"; "object"; "key"; "name"; "value"; "part"];
          ["type"; "volume"; "key"; "volume_type"; "value"; "ModelPart"];
          ["type"; "volume"; "key"; "matrix"; "value";
           "1.00781 0 0 0 0 1 0 0 0 0 1 0 0 0 0 1"]]
    /\ load Example.nothing Example.nothing Example.same
            (Some (Example.as_written Example.output ex)) (Some Example.no_config)
            (Some (Model.mk [] 0)) true
       = Returns true (Some st)
    /\ m_version st = 2
    /\ m_errors st = []
    /\ Example.facets_of_its Example.corner = [[(1, 0, 0); (0, 1, 0); (0, 0, 1)]]%Q
    /\ Example.facets (m_model st)
       = [[[(403125 # 403124, 0, 0); (0, 1, 0); (0, 0, 1)]]]%Q.
Proof.
  set (stored := store true (Some Example.output) (Some Example.stretched_scene)
                       None None false).
  set (ex := final stored (_3MF_Exporter.constructed false)).
  assert (Hstored : stored = Returns true ex) by reflexivity.
  exists ex.
  exists (final (load_model_from_file Example.nothing Example.nothing Example.same
                   (Example.as_written Example.output ex) true Example.importer)
                Example.importer).
  split; [exact Hstored|]. split; [reflexivity|]. split; [reflexivity|].
  split; [reflexivity|]. split; [reflexivity|]. split; [reflexivity|].
  split; reflexivity.
Qed.

(** * Further properties of the importer and of the exporter *)

(** ** Texts: what is printed is read back *)

Lemma append_cons (x : ascii) (a b : string) : String x a +:+ b = String x (a +:+ b).
Proof. reflexivity. Qed.

Lemma append_assoc (a b c : string) : (a +:+ b) +:+ c = a +:+ (b +:+ c).
Proof.
  induction a as [|x a IH]; [reflexivity|]. rewrite !append_cons. now f_equal.
Qed.

Lemma append_nil_r (a : string) : a +:+ "" = a.
Proof. induction a as [|x a IH]; [reflexivity|]. rewrite append_cons. now f_equal. Qed.

(** the characters of a text *)
Fixpoint chars (s : string) : list ascii :=
  match s with
  | EmptyString => []
  | String c s' => c :: chars s'
  end.

Lemma chars_append (a b : string) : chars (a +:+ b) = chars a ++ chars b.
Proof.
  induction a as [|x a IH]; [reflexivity|]. rewrite append_cons. simpl. now f_equal.
Qed.

Definition is_digit (c : ascii) : Prop := is_Some (digit_value c).

Lemma digit_value_pretty_N_char (d : N) :
  (d < 10)%N -> digit_value (pretty_N_char d) = Some (Z.of_N d).
Proof.
  intros Hd.
  assert (d = 0 \/ d = 1 \/ d = 2 \/ d = 3 \/ d = 4 \/ d = 5 \/ d = 6 \/ d = 7
          \/ d = 8 \/ d = 9)%N as Hcases by lia.
  repeat (destruct Hcases as [->|Hcases]; [reflexivity|]). now subst.
Qed.

(** reading the digits that [pretty] writes for a positive number *)
Lemma digits_value_pretty_N_go (x : N) (s : string) :
  (0 < x)%N ->
  digits_value 0 (pretty_N_go x s) = digits_value (Z.of_N x) s.
Proof.
  revert s. induction (N.lt_wf_0 x) as [x _ IH]. intros s Hx.
  rewrite pretty_N_go_step by assumption.
  pose proof (N.Div0.div_mod x 10) as Hdm.
  pose proof (N.mod_lt x 10 ltac:(lia)) as Hmod.
  destruct (decide (x `div` 10 = 0)%N) as [Hzero|Hpos].
  - rewrite Hzero, pretty_N_go_0. simpl digits_value.
    rewrite (digit_value_pretty_N_char _ Hmod). f_equal. lia.
  - rewrite IH; [|apply N.div_lt; lia|now apply N.neq_0_lt_0].
    simpl digits_value. rewrite (digit_value_pretty_N_char _ Hmod). f_equal. lia.
Qed.

Lemma pretty_N_go_head (x : N) (s : string) :
  (0 < x)%N ->
  exists (d : N) (s' : string), (d < 10)%N /\ pretty_N_go x s = String (pretty_N_char d) s'.
Proof.
  revert s. induction (N.lt_wf_0 x) as [x _ IH]. intros s Hx.
  rewrite pretty_N_go_step by assumption.
  pose proof (N.mod_lt x 10 ltac:(lia)) as Hmod.
  destruct (decide (x `div` 10 = 0)%N) as [Hzero|Hpos].
  - rewrite Hzero, pretty_N_go_0. eauto.
  - apply IH; [apply N.div_lt; lia|now apply N.neq_0_lt_0].
Qed.

Lemma skip_spaces_digit (d : N) (s : string) :
  (d < 10)%N -> skip_spaces (String (pretty_N_char d) s) = String (pretty_N_char d) s.
Proof.
  intros Hd.
  assert (d = 0 \/ d = 1 \/ d = 2 \/ d = 3 \/ d = 4 \/ d = 5 \/ d = 6 \/ d = 7
          \/ d = 8 \/ d = 9)%N as Hcases by lia.
  repeat (destruct Hcases as [->|Hcases]; [reflexivity|]). now subst.
Qed.

Lemma atoi_digits (d : N) (s : string) :
  (d < 10)%N ->
  atoi (String (pretty_N_char d) s) = digits_value 0 (String (pretty_N_char d) s).
Proof.
  intros Hd. unfold atoi. rewrite (skip_spaces_digit d s Hd).
  assert (d = 0 \/ d = 1 \/ d = 2 \/ d = 3 \/ d = 4 \/ d = 5 \/ d = 6 \/ d = 7
          \/ d = 8 \/ d = 9)%N as Hcases by lia.
  repeat (destruct Hcases as [->|Hcases]; [reflexivity|]). now subst.
Qed.

Lemma atoi_pretty_pos (p : positive) : atoi (pretty (N.pos p)) = Z.pos p.
Proof.
  unfold pretty, pretty_N. destruct (decide (N.pos p = 0%N)) as [|_]; [discriminate|].
  destruct (pretty_N_go_head (N.pos p) "" ltac:(lia)) as (d & s' & Hd & Heq).
  rewrite Heq, (atoi_digits d s' Hd), <- Heq.
  rewrite digits_value_pretty_N_go by lia. reflexivity.
Qed.

(** [atoi] reads back the decimal text of an integer *)
Lemma atoi_pretty (z : Z) : atoi (pretty z) = z.
Proof.
  destruct z as [|p|p].
  - reflexivity.
  - apply atoi_pretty_pos.
  - change (pretty (Z.neg p)) with ("-" +:+ pretty (N.pos p)).
    unfold atoi. simpl skip_spaces. cbv iota beta.
    change (- digits_value 0 (pretty (N.pos p)) = Z.neg p).
    pose proof (atoi_pretty_pos p) as Hpos.
    unfold pretty, pretty_N in *. destruct (decide (N.pos p = 0%N)) as [|_]; [discriminate|].
    destruct (pretty_N_go_head (N.pos p) "" ltac:(lia)) as (d & s' & Hd & Heq).
    rewrite Heq, (atoi_digits d s' Hd), <- Heq in Hpos. rewrite Hpos. reflexivity.
Qed.

(** ** Splitting what was joined *)

Fixpoint has_char (c : ascii) (s : string) : bool :=
  match s with
  | EmptyString => false
  | String x s' => Ascii.eqb x c || has_char c s'
  end.

(** a token of a list separated by [sep]: not empty and without [sep] *)
Definition is_token (sep : ascii) (s : string) : bool :=
  negb (String.eqb s "") && negb (has_char sep s).

(** the tokens with one separator between two of them *)
Fixpoint separated (sep : ascii) (tokens : list string) : string :=
  match tokens with
  | [] => ""
  | [t] => t
  | t :: rest => t +:+ String sep (separated sep rest)
  end.

Lemma split_compress_off_free (sep : ascii) (a : string) :
  has_char sep a = false -> split_compress_off sep a = [a].
Proof.
  induction a as [|x a IH]; simpl; [reflexivity|]. intros Hfree.
  apply orb_false_iff in Hfree as [Hx Ha]. rewrite Hx, (IH Ha). reflexivity.
Qed.

Lemma split_compress_off_app (sep : ascii) (a b : string) :
  has_char sep a = false ->
  split_compress_off sep (a +:+ String sep b) = a :: split_compress_off sep b.
Proof.
  induction a as [|x a IH]; intros Hfree.
  - simpl. now rewrite Ascii.eqb_refl.
  - rewrite append_cons. simpl in *. apply orb_false_iff in Hfree as [Hx Ha].
    rewrite Hx, (IH Ha). reflexivity.
Qed.

Lemma split_compress_off_separated (sep : ascii) (tokens : list string) :
  tokens <> [] ->
  Forall (fun t => has_char sep t = false) tokens ->
  split_compress_off sep (separated sep tokens) = tokens.
Proof.
  intros Hne Hall. induction Hall as [|t rest Ht Hrest IH]; [contradiction|].
  destruct rest as [|t' rest].
  - simpl. now apply split_compress_off_free.
  - change (separated sep (t :: t' :: rest))
      with (t +:+ String sep (separated sep (t' :: rest))).
    rewrite (split_compress_off_app _ _ _ Ht), IH by discriminate. reflexivity.
Qed.

Lemma split_compress_on_free (sep : ascii) (in_run : bool) (a : string) :
  has_char sep a = false -> split_compress_on_from sep in_run a = [a].
Proof.
  revert in_run. induction a as [|x a IH]; intros in_run Hfree; simpl; [reflexivity|].
  simpl in Hfree. apply orb_false_iff in Hfree as [Hx Ha]. rewrite Hx, (IH _ Ha).
  reflexivity.
Qed.

Lemma split_compress_on_app (sep : ascii) (a b : string) :
  has_char sep a = false ->
  split_compress_on_from sep false (a +:+ String sep b)
  = a :: split_compress_on_from sep true b.
Proof.
  induction a as [|x a IH]; intros Hfree.
  - simpl. now rewrite Ascii.eqb_refl.
  - rewrite append_cons. simpl in *. apply orb_false_iff in Hfree as [Hx Ha].
    rewrite Hx, (IH Ha). reflexivity.
Qed.

Lemma split_compress_on_token (sep : ascii) (in_run : bool) (a b : string) :
  is_token sep a = true ->
  split_compress_on_from sep in_run (a +:+ String sep b)
  = a :: split_compress_on_from sep true b.
Proof.
  unfold is_token. intros Htoken. apply andb_true_iff in Htoken as [Hne Hfree].
  apply negb_true_iff in Hfree. destruct a as [|x a]; [discriminate|]. clear Hne.
  simpl in Hfree. apply orb_false_iff in Hfree as [Hx Ha].
  rewrite append_cons. simpl. rewrite Hx, (split_compress_on_app _ _ _ Ha). reflexivity.
Qed.

Lemma split_compress_on_separated (sep : ascii) (in_run : bool) (tokens : list string) :
  tokens <> [] ->
  Forall (fun t => is_token sep t = true) tokens ->
  split_compress_on_from sep in_run (separated sep tokens) = tokens.
Proof.
  intros Hne Hall. revert in_run.
  induction Hall as [|t rest Ht Hrest IH]; intros in_run; [contradiction|].
  destruct rest as [|t' rest].
  - simpl. apply split_compress_on_free. unfold is_token in Ht.
    apply andb_true_iff in Ht as [_ Ht]. now apply negb_true_iff in Ht.
  - change (separated sep (t :: t' :: rest))
      with (t +:+ String sep (separated sep (t' :: rest))).
    rewrite (split_compress_on_token _ _ _ _ Ht), IH by discriminate. reflexivity.
Qed.

Lemma join_step (sep x y : string) (l : list string) :
  _3MF_Exporter.join sep (x :: y :: l) = x +:+ sep +:+ _3MF_Exporter.join sep (y :: l).
Proof.
  unfold _3MF_Exporter.join. simpl. revert x y.
  induction l as [|z l IH]; intros x y; simpl; [reflexivity|].
  rewrite IH, (IH y z). now rewrite !append_assoc.
Qed.

Lemma join_separated (sep : ascii) (tokens : list string) :
  _3MF_Exporter.join (String sep "") tokens = separated sep tokens.
Proof.
  induction tokens as [|t tokens IH]; [reflexivity|].
  destruct tokens as [|t' rest]; [reflexivity|].
  rewrite join_step, IH. reflexivity.
Qed.

Section RoundTrips.
Context `{Externals}.

(** ** The transform of a build item, written and read *)

(** a coefficient as the importer reads what the exporter printed for it *)
Definition read_back (x : double) : double := atof (double_to_string max_digits10 x).

Lemma transform_attribute_separated
    (m00 m01 m02 m03 m10 m11 m12 m13 m20 m21 m22 m23 : double) (rows : list (list double)) :
  _3MF_Exporter.transform_attribute
    ([m00; m01; m02; m03] :: [m10; m11; m12; m13] :: [m20; m21; m22; m23] :: rows)
  = separated " "
      (map (double_to_string max_digits10)
           [m00; m10; m20; m01; m11; m21; m02; m12; m22; m03; m13; m23]).
Proof.
  unfold _3MF_Exporter.transform_attribute, coeff. simpl.
  rewrite !append_assoc, !append_nil_r. reflexivity.
Qed.

Lemma token_not_empty (sep : ascii) (t rest : string) :
  is_token sep t = true -> String.eqb (t +:+ rest) "" = false.
Proof.
  unfold is_token. intros Htoken. apply andb_true_iff in Htoken as [Hne _].
  destruct t; [discriminate|reflexivity].
Qed.

(** X1.  A transform that the exporter writes as the [transform] attribute
    of a build item is read back by the importer coefficient by
    coefficient: every entry of the first three rows is the number that
    [atof] reads in what was printed for it, and the fourth row is
    0 0 0 1.  This holds as long as every number is printed as a text
    that is not empty and holds no space. *)
Theorem transform_is_read_back
    (m00 m01 m02 m03 m10 m11 m12 m13 m20 m21 m22 m23 : double) (rows : list (list double)) :
  Forall (fun x => is_token " " (double_to_string max_digits10 x) = true)
         [m00; m10; m20; m01; m11; m21; m02; m12; m22; m03; m13; m23] ->
  get_transform_from_3mf_specs_string
    (_3MF_Exporter.transform_attribute
       ([m00; m01; m02; m03] :: [m10; m11; m12; m13] :: [m20; m21; m22; m23] :: rows))
  = [ [read_back m00; read_back m01; read_back m02; read_back m03];
      [read_back m10; read_back m11; read_back m12; read_back m13];
      [read_back m20; read_back m21; read_back m22; read_back m23];
      [d0; d0; d0; d1] ].
Proof.
  intros Htokens. rewrite transform_attribute_separated.
  unfold get_transform_from_3mf_specs_string.
  assert (Hsplit : split_compress_on " "%char
                     (separated " "
                        (map (double_to_string max_digits10)
                           [m00; m10; m20; m01; m11; m21; m02; m12; m22; m03; m13; m23]))
                   = map (double_to_string max_digits10)
                       [m00; m10; m20; m01; m11; m21; m02; m12; m22; m03; m13; m23]).
  { apply split_compress_on_separated; [discriminate|].
    now apply Forall_map. }
  rewrite Hsplit.
  assert (Hne : String.eqb
                  (separated " "
                     (map (double_to_string max_digits10)
                        [m00; m10; m20; m01; m11; m21; m02; m12; m22; m03; m13; m23]))
                  "" = false).
  { apply (token_not_empty " "). now inversion Htokens. }
  rewrite Hne. reflexivity.
Qed.

End RoundTrips.

Lemma has_char_append (c : ascii) (a b : string) :
  has_char c (a +:+ b) = has_char c a || has_char c b.
Proof.
  induction a as [|x a IH]; [reflexivity|]. rewrite append_cons. simpl.
  rewrite IH. now rewrite orb_assoc.
Qed.

(** [pretty] writes digits, and a [-] in front of a negative number *)
Lemma has_char_pretty_N_go (c : ascii) (x : N) (s : string) :
  digit_value c = None ->
  has_char c s = false -> has_char c (pretty_N_go x s) = false.
Proof.
  intros Hc. revert s. induction (N.lt_wf_0 x) as [x _ IH]. intros s Hs.
  destruct (decide (x = 0)%N) as [->|Hx]; [now rewrite pretty_N_go_0|].
  rewrite pretty_N_go_step by now apply N.neq_0_lt_0.
  apply IH; [apply N.div_lt; [now apply N.neq_0_lt_0|reflexivity]|].
  simpl. rewrite Hs, orb_false_r.
  pose proof (digit_value_pretty_N_char (x `mod` 10)
                (N.mod_lt x 10 ltac:(discriminate))) as Hdigit.
  destruct (Ascii.eqb_spec (pretty_N_char (x `mod` 10)) c) as [Heq|]; [|reflexivity].
  rewrite Heq, Hc in Hdigit. discriminate.
Qed.

Lemma has_char_pretty (c : ascii) (z : Z) :
  digit_value c = None -> c <> "-"%char -> has_char c (pretty z) = false.
Proof.
  intros Hc Hdash.
  assert (Hpos : forall p, has_char c (pretty (N.pos p)) = false).
  { intros p. unfold pretty, pretty_N.
    destruct (decide (N.pos p = 0%N)) as [|_]; [discriminate|].
    now apply has_char_pretty_N_go. }
  destruct z as [|p|p].
  - change (has_char c (pretty 0)) with (Ascii.eqb "0"%char c || false).
    destruct (Ascii.eqb_spec "0"%char c) as [<-|]; [discriminate|reflexivity].
  - apply Hpos.
  - change (pretty (Z.neg p)) with ("-" +:+ pretty (N.pos p)).
    rewrite has_char_append, Hpos, orb_false_r.
    change (has_char c "-") with (Ascii.eqb "-"%char c || false).
    destruct (Ascii.eqb_spec "-"%char c) as [<-|]; [contradiction|reflexivity].
Qed.

Lemma drop_final_newline_append (s : string) :
  drop_final_newline (s +:+ String "010"%char "") = s.
Proof.
  induction s as [|c s IH]; [reflexivity|]. rewrite append_cons.
  destruct s as [|c' s]; [reflexivity|].
  rewrite append_cons in *. simpl in *. now rewrite IH.
Qed.

Section Written.
Context `{Externals}.

(** ** The build items, written and read *)

(** the [item] element of a build item, as the exporter writes it *)
Definition written_item (item : BuildItem.t) : list xml_event :=
  [start_element ITEM_TAG
     [OBJECTID_ATTR; pretty (BuildItem.id item);
      TRANSFORM_ATTR; _3MF_Exporter.transform_attribute (BuildItem.transform item);
      PRINTABLE_ATTR; if BuildItem.printable item then "1" else "0"];
   end_element ITEM_TAG].

(** X2.  With at least one build item, the exporter writes a [build]
    element that holds one [item] per build item, in their order, with
    the id, the transform and the printable flag of the item; and the
    importer, reading such an [item], creates the instance of the object
    of that id, with the transform read back from the attribute and the
    same printable flag. *)
Theorem build_items_are_written_and_read_back (ex : _3MF_Exporter.t) :
  _3MF_Exporter.build_items ex <> [] ->
  _3MF_Exporter._add_build_to_model_stream ex
  = Returns true
      (_3MF_Exporter.set_stream
         (_3MF_Exporter.stream ex
          ++ start_element BUILD_TAG []
             :: flat_map written_item (_3MF_Exporter.build_items ex)
             ++ [end_element BUILD_TAG])
         ex)
  /\ forall (item : BuildItem.t) (st : _3MF_Importer.t),
       for_each model_xml_event (written_item item) st
       = _create_object_instance (BuildItem.id item)
           (get_transform_from_3mf_specs_string
              (_3MF_Exporter.transform_attribute (BuildItem.transform item)))
           (BuildItem.printable item) 1 st.
Proof.
  intros Hitems. split.
  - unfold _3MF_Exporter._add_build_to_model_stream, bind, get.
    destruct (_3MF_Exporter.build_items ex) as [|item items] eqn:Heq; [contradiction|].
    destruct ex as [errors stream items' data archive disk]. simpl in *. subst items'.
    unfold _3MF_Exporter.emit, modify. simpl.
    rewrite <- !app_assoc. reflexivity.
  - intros item st. unfold written_item. rewrite for_each_cons.
    change (model_xml_event (start_element ITEM_TAG ?a))
      with (_handle_start_item a).
    unfold _handle_start_item.
    assert (Hid : get_attribute_value_int
                    [OBJECTID_ATTR; pretty (BuildItem.id item); TRANSFORM_ATTR;
                     _3MF_Exporter.transform_attribute (BuildItem.transform item);
                     PRINTABLE_ATTR; if BuildItem.printable item then "1" else "0"]
                    OBJECTID_ATTR = BuildItem.id item).
    { unfold get_attribute_value_int. simpl. apply atoi_pretty. }
    assert (Hprintable : get_attribute_value_bool
                    [OBJECTID_ATTR; pretty (BuildItem.id item); TRANSFORM_ATTR;
                     _3MF_Exporter.transform_attribute (BuildItem.transform item);
                     PRINTABLE_ATTR; if BuildItem.printable item then "1" else "0"]
                    PRINTABLE_ATTR = BuildItem.printable item).
    { unfold get_attribute_value_bool. simpl. now destruct (BuildItem.printable item). }
    rewrite Hid, Hprintable.
    change (get_attribute_value_string _ TRANSFORM_ATTR)
      with (_3MF_Exporter.transform_attribute (BuildItem.transform item)).
    unfold bind.
    destruct (_create_object_instance _ _ _ 1 st) as [[|] st'|e st'|]; reflexivity.
Qed.

End Written.

Lemma has_char_separated (c sep : ascii) (tokens : list string) :
  Ascii.eqb sep c = false ->
  Forall (fun t => has_char c t = false) tokens ->
  has_char c (separated sep tokens) = false.
Proof.
  intros Hsep Hall. induction Hall as [|t rest Ht Hrest IH]; [reflexivity|].
  destruct rest as [|t' rest]; [exact Ht|].
  change (separated sep (t :: t' :: rest))
    with (t +:+ String sep (separated sep (t' :: rest))).
  rewrite has_char_append, Ht. simpl has_char. rewrite Hsep. exact IH.
Qed.

(** the text of a number holds none of the separators of the text parts *)
Definition plain_number (s : string) : bool :=
  negb (has_char ";" s) && negb (has_char "|" s) && negb (has_char "010" s).

Lemma plain_number_free (s : string) :
  plain_number s = true ->
  has_char ";" s = false /\ has_char "|" s = false /\ has_char "010" s = false.
Proof.
  unfold plain_number. intros Hplain.
  apply andb_true_iff in Hplain as [Hplain Hnl].
  apply andb_true_iff in Hplain as [Hsemi Hbar].
  now rewrite !negb_true_iff in *.
Qed.

Section Profiles.
Context `{Externals}.

Local Arguments Nat.leb : simpl never.
Local Arguments Nat.modulo : simpl never.

(** ** The layer height profile, written and read *)

(** X3.  The layer height profile of the only object of a scene, of an
    even number of values that is at least six, is written as the line
    object_id=1 followed by a bar and the values separated by semicolons;
    the importer that reads this text records for object 1 the values
    that [atof] reads in what was printed, in their order.  This holds as
    long as no printed value holds a semicolon, a bar or a line feed. *)
Theorem layer_height_profile_is_read_back
    (out : OutputFile.t) (o : ModelObject.t) (next_address : nat)
    (ex : _3MF_Exporter.t) :
  let profile := ModelObject.layer_height_profile o in
  let text :=
    "object_id=1|" +:+ _3MF_Exporter.join ";" (map sprintf_f profile)
    +:+ String "010"%char "" in
  OutputFile.add_ok out LAYER_HEIGHTS_PROFILE_FILE = true ->
  (6 <= length profile)%nat ->
  (length profile mod 2 = 0)%nat ->
  Forall (fun x => plain_number (sprintf_f x) = true) profile ->
  _3MF_Exporter._add_layer_height_profile_file_to_archive out
    (Model.mk [Some o] next_address) ex
  = Returns true
      (_3MF_Exporter.set_archive
         (_3MF_Exporter.archive ex ++ [(LAYER_HEIGHTS_PROFILE_FILE, text_part text)]) ex)
  /\ forall (stat : ZipEntry.t) (st : _3MF_Importer.t),
       ZipEntry.data stat = text ->
       0 < ZipEntry.m_uncomp_size stat ->
       ZipEntry.extract_ok stat = true ->
       m_layer_heights_profiles st !! 1 = None ->
       _extract_layer_heights_profile_config_from_archive stat st
       = Returns tt
           (set_m_layer_heights_profiles
              (<[1 := map (fun x => atof (sprintf_f x)) profile]>
                 (m_layer_heights_profiles st)) st).
Proof.
  intros profile text Hadd Hsix Heven Hplain. split.
  - unfold _3MF_Exporter._add_layer_height_profile_file_to_archive. simpl.
    fold profile.
    assert (Hfour : (4 <=? length profile)%nat = true) by (apply Nat.leb_le; lia).
    rewrite Hfour, Heven. simpl.
    unfold _3MF_Exporter.mz_zip_writer_add_mem, bind. rewrite Hadd. reflexivity.
  - intros stat st Hdata Hsize Hextract Hfresh.
    set (numbers := map sprintf_f profile).
    assert (Hnumbers : numbers <> []).
    { unfold numbers. destruct profile; [simpl in Hsix; lia|discriminate]. }
    assert (Hsemi : Forall (fun t => has_char ";" t = false) numbers).
    { apply Forall_map. eapply Forall_impl; [exact Hplain|].
      intros x Hx. apply (plain_number_free _ Hx). }
    assert (Hbar : Forall (fun t => has_char "|" t = false) numbers).
    { apply Forall_map. eapply Forall_impl; [exact Hplain|].
      intros x Hx. apply (plain_number_free _ Hx). }
    assert (Hnl : Forall (fun t => has_char "010" t = false) numbers).
    { apply Forall_map. eapply Forall_impl; [exact Hplain|].
      intros x Hx. apply (plain_number_free _ Hx). }
    set (joined := separated ";" numbers).
    assert (Htext : text = ("object_id=1" +:+ String "|" joined) +:+ String "010"%char "").
    { unfold text, joined, numbers. now rewrite join_separated. }
    unfold _extract_layer_heights_profile_config_from_archive.
    rewrite (proj2 (Z.ltb_lt _ _) Hsize), Hextract, Hdata, Htext. simpl negb. cbv iota.
    rewrite drop_final_newline_append.
    assert (Hline : has_char "010" ("object_id=1" +:+ String "|" joined) = false).
    { rewrite has_char_append. simpl.
      now apply (has_char_separated "010" ";" numbers eq_refl). }
    rewrite (split_compress_off_free _ _ Hline).
    change (negb true) with false. cbv iota. simpl for_all. unfold bind at 1.
    assert (Hvalues : split_compress_off ";" joined = numbers)
      by now apply split_compress_off_separated.
    pose proof (layer_heights_profile_line_outcome
                  ("object_id=1" +:+ String "|" joined) "object_id=1" "object_id" "1"
                  joined st) as Houtcome.
    rewrite Houtcome; clear Houtcome.
    + rewrite Hvalues. unfold numbers at 1 2. rewrite length_map.
      assert (Hlong : (length profile <=? 4)%nat = false) by (apply Nat.leb_gt; lia).
      rewrite Hlong, Heven. simpl. unfold numbers. rewrite map_map. reflexivity.
    + rewrite split_compress_off_app by reflexivity. f_equal.
      apply split_compress_off_free.
      now apply (has_char_separated "|" ";" numbers eq_refl).
    + reflexivity.
    + discriminate.
    + exact Hfresh.
Qed.

End Profiles.

(** ** A failure is always reported *)

Lemma snoc_not_nil {A} (l : list A) (x : A) : l ++ [x] <> [].
Proof. destruct l; discriminate. Qed.

(** A computation reports its failures when every answer that is not [ok]
    comes with a list of errors that is not empty. *)
Definition reports {S A} (errors : S -> list string) (ok : A -> bool) (m : M S A) : Prop :=
  forall st a st', m st = Returns a st' -> ok a = false -> errors st' <> [].

Section Reports.
Context {S : Type} (errors : S -> list string).

Lemma reports_ret {A} (ok : A -> bool) (a : A) : ok a = true -> reports errors ok (ret a).
Proof. intros Hok st a' st' Hrun Hfail. inversion Hrun; subst. congruence. Qed.

Lemma reports_undefined {A} (ok : A -> bool) : reports errors ok undefined.
Proof. intros st a st' Hrun. discriminate. Qed.

Lemma reports_throw {A} (ok : A -> bool) (e : exception) : reports errors ok (throw e).
Proof. intros st a st' Hrun. discriminate. Qed.

Lemma reports_bind {A B} (ok : B -> bool) (m : M S A) (k : A -> M S B) :
  (forall a, reports errors ok (k a)) -> reports errors ok (bind m k).
Proof.
  intros Hk st b st' Hrun. unfold bind in Hrun.
  destruct (m st) as [a st1|e st1|]; try discriminate. now apply (Hk a st1).
Qed.

(** [add_error(...); return false;] *)
Lemma reports_error {A} (ok : A -> bool) (f : S -> S) (a : A) :
  (forall st, errors (f st) <> []) -> reports errors ok (modify f ;; ret a).
Proof. intros Hf st a' st' Hrun _. inversion Hrun; subst. apply Hf. Qed.

(** [if (!m) return false;] before the rest of a function *)
Lemma reports_guard (m k : M S bool) :
  reports errors id m -> reports errors id k ->
  reports errors id (ok <- m ;; if negb ok then ret false else k).
Proof.
  intros Hm Hk st b st' Hrun Hfail. unfold bind in Hrun.
  destruct (m st) as [[|] st1|e st1|] eqn:Hfirst; try discriminate; simpl in Hrun.
  - now apply (Hk st1 b st').
  - inversion Hrun; subst. now apply (Hm st false st').
Qed.

Lemma reports_for_each {A} (body : A -> M S bool) (l : list A) :
  (forall x, reports errors id (body x)) -> reports errors id (for_each body l).
Proof.
  intros Hbody. induction l as [|x l IH]; simpl.
  - now apply reports_ret.
  - intros st b st' Hrun Hfail. unfold bind in Hrun.
    destruct (body x st) as [[|] st1|e st1|] eqn:Hfirst; try discriminate.
    + now apply (IH st1 b st').
    + inversion Hrun; subst. now apply (Hbody x st false st').
Qed.

Lemma reports_try_catch {A} (ok : A -> bool) (m : M S A) (handler : exception -> M S A) :
  reports errors ok m -> (forall e, reports errors ok (handler e)) ->
  reports errors ok (try_catch m handler).
Proof.
  intros Hm Hhandler st a st' Hrun. unfold try_catch in Hrun.
  destruct (m st) as [a1 st1|e st1|] eqn:Hfirst; try discriminate.
  - inversion Hrun; subst. now apply (Hm st a st').
  - now apply (Hhandler e st1).
Qed.

End Reports.

Ltac reports_step :=
  first
    [ apply reports_ret; reflexivity
    | apply reports_undefined
    | apply reports_throw
    | apply reports_error; intros ?; simpl; apply snoc_not_nil
    | apply reports_bind; intros ?
    | match goal with
      | |- reports _ _ (if ?b then _ else _) => destruct b
      | |- reports _ _ (match ?x with _ => _ end) => destruct x
      end ].

Ltac reports_auto := repeat reports_step.

Section ImporterReports.
Context `{Externals}.
Variable extract_layer_config_ranges extract_sla_support_points : ZipEntry.t -> M t unit.
Variable adjust_min_z : Model.t -> Model.t.

Lemma reports_generate_volume (g : Geometry.t) (n : Z) (object : ModelObject.t)
    (volume_data : VolumeMetadata.t) :
  reports m_errors fst (generate_volume g n object volume_data).
Proof. unfold generate_volume, add_error. reports_auto. Qed.

Lemma reports_generate_volumes_loop (g : Geometry.t) (n : Z)
    (volumes : list VolumeMetadata.t) (object : ModelObject.t) :
  reports m_errors fst (generate_volumes_loop g n object volumes).
Proof.
  revert object. induction volumes as [|v volumes IH]; intros object; simpl.
  - now apply reports_ret.
  - intros st r st' Hrun Hfail. unfold bind in Hrun.
    destruct (generate_volume g n object v st) as [[[|] o1] st1|e st1|] eqn:Hfirst;
      try discriminate; simpl in Hrun.
    + now apply (IH o1 st1 r st').
    + inversion Hrun; subst.
      now apply (reports_generate_volume g n object v st (false, o1) st').
Qed.

Lemma reports_generate_volumes (object : ModelObject.t) (g : Geometry.t)
    (volumes : list VolumeMetadata.t) :
  reports m_errors fst (_generate_volumes object g volumes).
Proof.
  unfold _generate_volumes, add_error.
  destruct (negb _); [reports_auto|apply reports_generate_volumes_loop].
Qed.

Lemma reports_load_object (object : Z * Z) : reports m_errors id (load_object object).
Proof.
  unfold load_object. apply reports_bind. intros model_object.
  apply reports_bind. intros st0.
  destruct (m_geometries st0 !! fst object) as [g|]; [|unfold add_error; reports_auto].
  destruct model_object as [o|]; [|apply reports_undefined].
  match goal with
  | |- reports _ _ (let '(o, volumes) := ?p in _) => destruct p as [o' volumes]
  end.
  intros st b st' Hrun Hfail. unfold bind, modify, ret in Hrun.
  destruct (_generate_volumes o' g volumes st) as [r st1|e st1|] eqn:Hfirst;
    try discriminate.
  inversion Hrun; subst. simpl in Hfail.
  now apply (reports_generate_volumes o' g volumes st r st1).
Qed.

Lemma reports_load_model_entry (stat : ZipEntry.t) :
  reports m_errors id (load_model_entry stat).
Proof.
  unfold load_model_entry, add_error.
  destruct (ZipEntry.stat_ok stat); [|now apply reports_ret].
  destruct (_ && _); [|now apply reports_ret].
  apply reports_try_catch; [|intros e]; reports_auto.
Qed.

Lemma reports_load_other_entry (stat : ZipEntry.t) :
  reports m_errors id
    (load_other_entry extract_layer_config_ranges extract_sla_support_points stat).
Proof. unfold load_other_entry, add_error. reports_auto. Qed.

Lemma reports_load_model_from_file (filename : ZipFile.t) (check_version : bool) :
  reports m_errors id
    (load_model_from_file extract_layer_config_ranges extract_sla_support_points
       adjust_min_z filename check_version).
Proof.
  unfold load_model_from_file, _load_model_from_file, clear_errors.
  repeat (apply reports_bind; intros ?).
  destruct (negb (ZipFile.open_ok filename)); [unfold add_error; reports_auto|].
  apply reports_bind; intros ?.
  apply reports_guard; [apply reports_for_each, reports_load_model_entry|].
  apply reports_guard; [apply reports_for_each, reports_load_other_entry|].
  apply reports_bind; intros st0.
  apply reports_guard; [apply reports_for_each, reports_load_object|].
  reports_auto.
Qed.

(** X4.  A load that answers [false] has recorded at least one error, so
    that the caller is never left without the reason; the one exception
    is the call on a null pointer, which makes no importer at all. *)
Theorem failed_load_reports_an_error
    (path : option ZipFile.t) (config : option DynamicPrintConfig)
    (model : option Model.t) (check_version : bool) :
  match load extract_layer_config_ranges extract_sla_support_points adjust_min_z
             path config model check_version with
  | Returns false (Some importer) => m_errors importer <> []
  | Returns false None => path = None \/ config = None \/ model = None
  | _ => True
  end.
Proof.
  unfold load, load_3mf.
  destruct path as [path|]; [|auto].
  destruct config as [config|]; [|auto].
  destruct model as [model|]; [|auto].
  pose proof (reports_load_model_from_file path check_version
                (_3MF_Importer.constructed model config)) as Hreports.
  destruct (load_model_from_file _ _ _ path check_version _) as [[|] st'|e st'|];
    try exact I.
  now apply (Hreports false st').
Qed.

End ImporterReports.

Section Metadata.
Context `{Externals}.

(** ** The text of a metadata element *)

(** the chunks of text that expat delivers, put together *)
Definition whole_text (chunks : list string) : string := foldr String.append "" chunks.

(** the name a [metadata] element goes by: its [name] attribute, or the
    name left by the element before when it has none *)
Definition named (attributes : list string) (st : _3MF_Importer.t) : _3MF_Importer.t :=
  let name := get_attribute_value_string attributes NAME_ATTR in
  if String.eqb name "" then st else set_m_curr_metadata_name name st.

Lemma characters_accumulate (chunks : list string) (rest : list xml_event)
    (st : _3MF_Importer.t) :
  for_each model_xml_event (map characters chunks ++ rest) st
  = for_each model_xml_event rest
      (set_m_curr_characters (m_curr_characters st +:+ whole_text chunks) st).
Proof.
  revert st. induction chunks as [|chunk chunks IH]; intros st.
  - simpl. rewrite append_nil_r. now destruct st.
  - simpl map. rewrite <- app_comm_cons, for_each_cons. simpl model_xml_event.
    unfold _handle_model_xml_characters, bind, modify, ret.
    rewrite IH. simpl. now rewrite append_assoc.
Qed.

(** X5.  The text of a [metadata] element is what expat delivers between
    its start and its end, however it is cut into chunks, and the element
    goes by its [name] attribute or, when it has none, by the name of the
    [metadata] element before it.  When that name is slic3rpe:Version3mf
    the text, read as an unsigned integer, becomes the version, and the
    handler raises when the check is on and the version is above 2; under
    any other name the element changes nothing else. *)
Theorem metadata_text_is_reassembled
    (attributes : list string) (chunks : list string) (st : _3MF_Importer.t) :
  let st1 := set_m_curr_characters (whole_text chunks) (named attributes st) in
  let version := to_unsigned (atoi (whole_text chunks)) in
  for_each model_xml_event
    (start_element METADATA_TAG attributes
     :: map characters chunks ++ [end_element METADATA_TAG]) st
  = if String.eqb (m_curr_metadata_name st1) SLIC3RPE_3MF_VERSION then
      if m_check_version st && (VERSION_3MF <? version)
      then Throws (version_error version_error_message) (set_m_version version st1)
      else Returns true (set_m_version version st1)
    else Returns true st1.
Proof.
  intros st1 version. rewrite for_each_cons.
  change (model_xml_event (start_element METADATA_TAG attributes))
    with (_handle_start_metadata attributes).
  assert (Hstart : _handle_start_metadata attributes st
                   = Returns true (named attributes (set_m_curr_characters "" st))).
  { unfold _handle_start_metadata, named, bind, modify, ret.
    now destruct (String.eqb (get_attribute_value_string attributes NAME_ATTR) ""). }
  unfold bind at 1. rewrite Hstart. cbv iota beta.
  rewrite characters_accumulate.
  assert (Hst1 : set_m_curr_characters
                   (m_curr_characters (named attributes (set_m_curr_characters "" st))
                    +:+ whole_text chunks)
                   (named attributes (set_m_curr_characters "" st)) = st1).
  { unfold st1, named.
    destruct (String.eqb (get_attribute_value_string attributes NAME_ATTR) "");
      now destruct st. }
  rewrite Hst1. rewrite for_each_cons.
  assert (Hcheck : m_check_version st1 = m_check_version st).
  { unfold st1, named.
    destruct (String.eqb (get_attribute_value_string attributes NAME_ATTR) "");
      now destruct st. }
  destruct (String.eqb (m_curr_metadata_name st1) SLIC3RPE_3MF_VERSION) eqn:Hname.
  - unfold bind. rewrite (end_of_version_metadata st1) by now apply String.eqb_eq.
    rewrite Hcheck. change (archive_version st1) with version.
    destruct (m_check_version st && (VERSION_3MF <? version)); reflexivity.
  - change (model_xml_event (end_element METADATA_TAG)) with _handle_end_metadata.
    unfold _handle_end_metadata, bind, get. rewrite Hname. reflexivity.
Qed.

End Metadata.

Section SkippedObjects.
Context `{Externals}.

(** ** Objects of a type the importer does not take *)

(** what an [object] element may hold besides components: the elements of
    a mesh, and text *)
Definition mesh_event (e : xml_event) : bool :=
  match e with
  | start_element name _ | end_element name =>
      existsb (String.eqb name)
        [MESH_TAG; VERTICES_TAG; VERTEX_TAG; TRIANGLES_TAG; TRIANGLE_TAG]
  | characters _ => true
  end.

(** the scene, the objects and geometries read so far, the instances and
    the errors are the same in both states *)
Definition same_scene (st st' : _3MF_Importer.t) : Prop :=
  m_model st' = m_model st /\ m_objects st' = m_objects st
  /\ m_objects_aliases st' = m_objects_aliases st
  /\ m_geometries st' = m_geometries st /\ m_instances st' = m_instances st
  /\ m_errors st' = m_errors st.

Lemma same_scene_refl (st : _3MF_Importer.t) : same_scene st st.
Proof. repeat split. Qed.

Lemma same_scene_trans (st1 st2 st3 : _3MF_Importer.t) :
  same_scene st1 st2 -> same_scene st2 st3 -> same_scene st1 st3.
Proof.
  intros (? & ? & ? & ? & ? & ?) (? & ? & ? & ? & ? & ?).
  repeat split; congruence.
Qed.

Lemma mesh_event_keeps_scene (e : xml_event) (st : _3MF_Importer.t) :
  mesh_event e = true ->
  exists st' : _3MF_Importer.t,
    model_xml_event e st = Returns true st'
    /\ same_scene st st'
    /\ CurrentObject.object (m_curr_object st') = CurrentObject.object (m_curr_object st).
Proof.
  destruct e as [name attributes|name|text]; simpl mesh_event; intros Hevent.
  - repeat (apply orb_true_iff in Hevent as [Hname|Hevent];
            [apply String.eqb_eq in Hname; subst name; eexists;
             split; [reflexivity|split; [repeat split|reflexivity]]|]).
    discriminate.
  - repeat (apply orb_true_iff in Hevent as [Hname|Hevent];
            [apply String.eqb_eq in Hname; subst name; eexists;
             split; [reflexivity|split; [repeat split|reflexivity]]|]).
    discriminate.
  - eexists. split; [reflexivity|]. split; [repeat split|reflexivity].
Qed.

Lemma mesh_events_keep_scene (events rest : list xml_event) (st : _3MF_Importer.t) :
  forallb mesh_event events = true ->
  exists st' : _3MF_Importer.t,
    for_each model_xml_event (events ++ rest) st = for_each model_xml_event rest st'
    /\ same_scene st st'
    /\ CurrentObject.object (m_curr_object st') = CurrentObject.object (m_curr_object st).
Proof.
  revert st. induction events as [|e events IH]; intros st Hevents.
  - exists st. split; [reflexivity|]. split; [apply same_scene_refl|reflexivity].
  - simpl in Hevents. apply andb_true_iff in Hevents as [He Hevents].
    destruct (mesh_event_keeps_scene e st He) as (s1 & Hrun & Hscene & Hobject).
    destruct (IH s1 Hevents) as (st' & Hrest & Hscene' & Hobject').
    exists st'. split; [|split].
    + rewrite <- app_comm_cons, for_each_cons. unfold bind. rewrite Hrun. exact Hrest.
    + now apply (same_scene_trans st s1 st').
    + congruence.
Qed.

(** X6.  An [object] element whose [type] is neither absent nor [model] is
    skipped: no object is created for it, and the mesh it encloses is read
    and dropped at its end.  The scene, the objects and geometries
    recorded, the instances and the errors are left as they were, and the
    parse goes on. *)
Theorem object_of_another_type_is_skipped
    (attributes : list string) (events : list xml_event) (st : _3MF_Importer.t) :
  is_valid_object_type (get_attribute_value_string attributes TYPE_ATTR) = false ->
  forallb mesh_event events = true ->
  exists st' : _3MF_Importer.t,
    for_each model_xml_event
      (start_element OBJECT_TAG attributes :: events ++ [end_element OBJECT_TAG]) st
    = Returns true st'
    /\ same_scene st st'.
Proof.
  intros Htype Hevents. rewrite for_each_cons.
  change (model_xml_event (start_element OBJECT_TAG attributes))
    with (_handle_start_object attributes).
  assert (Hstart : _handle_start_object attributes st
                   = Returns true (set_m_curr_object CurrentObject.reset st)).
  { unfold _handle_start_object, bind, modify. now rewrite Htype. }
  unfold bind at 1. rewrite Hstart. cbv iota beta.
  destruct (mesh_events_keep_scene events [end_element OBJECT_TAG]
              (set_m_curr_object CurrentObject.reset st) Hevents)
    as (s1 & Hrun & Hscene & Hobject).
  rewrite Hrun. exists s1. split.
  - rewrite for_each_cons.
    change (model_xml_event (end_element OBJECT_TAG)) with _handle_end_object.
    unfold _handle_end_object, bind, get. rewrite Hobject. reflexivity.
  - apply (same_scene_trans st (set_m_curr_object CurrentObject.reset st) s1);
      [|exact Hscene].
    repeat split.
Qed.

End SkippedObjects.

Section Volumes.
Context `{Externals}.

(** ** Triangles that name a vertex the object does not have *)

Lemma read_vertex_outside (version : Z) (g : Geometry.t) (inv_matrix : Transform3d)
    (index t : Z) :
  Geometry.triangles g !! Z.to_nat index = Some t ->
  0 <= t -> 3 * t + 2 < 2 ^ 32 ->
  Z.of_nat (length (Geometry.vertices g)) <= 3 * t + 2 ->
  read_vertex version g inv_matrix index = None.
Proof.
  intros Ht Hpos Hfit Hshort. unfold read_vertex. rewrite Ht. simpl.
  rewrite (to_unsigned_small (t * 3)) by lia.
  rewrite !to_unsigned_small by lia.
  assert (Hz : Geometry.vertices g !! Z.to_nat (t * 3 + 2) = None)
    by (apply lookup_ge_None; lia).
  rewrite Hz.
  destruct (Geometry.vertices g !! Z.to_nat (t * 3 + 0)); simpl; [|reflexivity].
  destruct (Geometry.vertices g !! Z.to_nat (t * 3 + 1)); reflexivity.
Qed.

Lemma mapM_None_of_element {A B} (f : A -> option B) (l : list A) (x : A) :
  x ∈ l -> f x = None -> mapM f l = None.
Proof.
  intros Hin Hx. destruct (mapM f l) as [k|] eqn:Hrun; [|reflexivity].
  assert (Hsome : is_Some (mapM f l)) by eauto.
  apply mapM_is_Some in Hsome.
  pose proof (proj1 (Forall_forall _ _) Hsome x Hin) as [y Hy]. congruence.
Qed.

(** X7.  The importer takes the three indices of a triangle as they are
    written and never compares them with the number of vertices.  When a
    volume holds a triangle one index of which is beyond the vertices of
    the object, cutting that volume out reads outside the array of
    vertices: the behaviour of volume generation is then not defined, no
    error is recorded and nothing is returned. *)
Theorem vertex_index_is_never_checked
    (object : ModelObject.t) (g : Geometry.t) (range : VolumeMetadata.t)
    (rest : list VolumeMetadata.t) (st : _3MF_Importer.t) (i corner t : Z) :
  let first := VolumeMetadata.first_triangle_id range in
  let last := VolumeMetadata.last_triangle_id range in
  ModelObject.volumes object = [] ->
  Z.of_nat (length (Geometry.triangles g)) < 2 ^ 32 ->
  0 <= first -> first <= last ->
  last < Z.of_nat (length (Geometry.triangles g)) / 3 ->
  0 <= i <= last - first -> 0 <= corner <= 2 ->
  Geometry.triangles g !! Z.to_nat (3 * (first + i) + corner) = Some t ->
  0 <= t -> 3 * t + 2 < 2 ^ 32 ->
  Z.of_nat (length (Geometry.vertices g)) <= 3 * t + 2 ->
  _generate_volumes object g (range :: rest) st = Undefined.
Proof.
  intros first last Hfresh Hfit Hfirst Hle Hlast Hi Hcorner Ht Hpos Htfit Hshort.
  unfold _generate_volumes. rewrite Hfresh.
  rewrite (bool_decide_eq_true_2 (length [] = 0%nat) eq_refl).
  change (negb true) with false. cbv iota.
  rewrite to_unsigned_small by lia.
  simpl generate_volumes_loop. unfold bind at 1. unfold generate_volume.
  change (VolumeMetadata.first_triangle_id range) with first.
  change (VolumeMetadata.last_triangle_id range) with last.
  clearbody first last.
  pose proof (Z.mul_div_le (Z.of_nat (length (Geometry.triangles g))) 3 ltac:(lia))
    as Hthree.
  destruct (Z.leb_spec (Z.of_nat (length (Geometry.triangles g)) / 3) first); [lia|].
  destruct (Z.leb_spec (Z.of_nat (length (Geometry.triangles g)) / 3) last); [lia|].
  destruct (Z.ltb_spec last first); [lia|].
  change (false || false || false) with false. cbv iota. unfold bind, get.
  rewrite (to_unsigned_small (last - first + 1)) by lia.
  rewrite (to_unsigned_small (first * 3)) by lia.
  assert (Hfacets : forall version inv_matrix,
            read_facets version g inv_matrix (first * 3) (last - first + 1) = None).
  { intros version inv_matrix. unfold read_facets.
    apply (mapM_None_of_element _ _ i); [apply elem_of_seqZ; lia|].
    apply (mapM_None_of_element _ _ corner).
    { assert (Hc : corner = 0 \/ corner = 1 \/ corner = 2) by lia.
      destruct Hc as [Hc|[Hc|Hc]]; rewrite Hc; repeat constructor. }
    rewrite (to_unsigned_small (i * 3)) by lia.
    rewrite to_unsigned_small by lia.
    apply (read_vertex_outside version g inv_matrix _ t); try assumption.
    replace (first * 3 + i * 3 + corner) with (3 * (first + i) + corner) by lia.
    exact Ht. }
  rewrite Hfacets. reflexivity.
Qed.

(** ** An object the model config file does not mention *)

Lemma volumes_with_layer_height_profile (p : list double) (o : ModelObject.t) :
  ModelObject.volumes (ModelObject.with_layer_height_profile p o) = ModelObject.volumes o.
Proof. now destruct o. Qed.

Lemma volumes_with_layer_config_ranges (r : t_layer_config_ranges) (o : ModelObject.t) :
  ModelObject.volumes (ModelObject.with_layer_config_ranges r o) = ModelObject.volumes o.
Proof. now destruct o. Qed.

Lemma volumes_with_sla (p : list SupportPoint) (s : PointsStatus) (o : ModelObject.t) :
  ModelObject.volumes
    (ModelObject.with_sla_points_status s (ModelObject.with_sla_support_points p o))
  = ModelObject.volumes o.
Proof. now destruct o. Qed.

(** X8.  An object for which the model config file has no entry is given
    one volume that holds all its triangles: the range the importer makes
    up, from 0 to the number of triangles less one, passes the checks of
    volume generation, provided the triangles are an indexed triangle
    set, at least one, and their indices fit an [int]. *)
Theorem object_without_config_gets_one_volume
    (id idx : Z) (g : Geometry.t) (o : ModelObject.t) (st : _3MF_Importer.t) :
  m_geometries st !! id = Some g ->
  m_objects_metadata st !! id = None ->
  0 <= idx ->
  Model.objects (m_model st) !! Z.to_nat idx = Some (Some o) ->
  ModelObject.volumes o = [] ->
  indexed_triangle_set g ->
  0 < triangle_count g ->
  Z.of_nat (length (Geometry.triangles g)) < 2 ^ 31 ->
  exists (volume : ModelVolume.t) (o' : ModelObject.t),
    load_object (id, idx) st
    = Returns true (set_m_model (Model.set_object (Z.to_nat idx) o' (m_model st)) st)
    /\ ModelObject.volumes o' = [Some volume]
    /\ volume_triangle_count volume = triangle_count g.
Proof.
  intros Hgeometry Hmetadata Hidx Hobject Hfresh Hits Hsome Hint.
  unfold load_object. simpl fst. simpl snd.
  unfold bind at 1. unfold objects_at. unfold bind at 1, get at 1.
  destruct (Z.ltb_spec idx 0) as [|_]; [lia|]. rewrite Hobject.
  unfold ret at 1. unfold bind at 1, get at 1. rewrite Hgeometry, Hmetadata.
  set (o1 := match m_layer_heights_profiles st !! (idx + 1) with
             | Some profile => ModelObject.with_layer_height_profile profile o
             | None => o
             end).
  set (o2 := match m_layer_config_ranges st !! (idx + 1) with
             | Some ranges => ModelObject.with_layer_config_ranges ranges o1
             | None => o1
             end).
  set (o3 := match m_sla_support_points st !! (idx + 1) with
             | Some points =>
                 if negb (bool_decide (length points = 0%nat)) then
                   ModelObject.with_sla_points_status UserModified
                     (ModelObject.with_sla_support_points points o2)
                 else o2
             | None => o2
             end).
  assert (Hfresh3 : ModelObject.volumes o3 = []).
  { unfold o3, o2, o1.
    destruct (m_sla_support_points st !! (idx + 1)) as [points|];
      [destruct (negb (bool_decide (length points = 0%nat)))|];
      rewrite ?volumes_with_sla;
      (destruct (m_layer_config_ranges st !! (idx + 1));
       rewrite ?volumes_with_layer_config_ranges;
       destruct (m_layer_heights_profiles st !! (idx + 1));
       rewrite ?volumes_with_layer_height_profile; exact Hfresh). }
  clearbody o3. clear o1 o2.
  pose proof Hits as (Htriangles & _ & _).
  assert (Hlast : to_unsigned (to_int (Z.of_nat (length (Geometry.triangles g))) ÷ 3 - 1)
                  = triangle_count g - 1).
  { rewrite to_int_small by lia. rewrite Z.quot_div_nonneg by lia.
    unfold triangle_count in *. apply to_unsigned_small.
    assert (Z.of_nat (length (Geometry.triangles g)) / 3 < 2 ^ 31)
      by (apply Z.div_lt_upper_bound; lia).
    lia. }
  rewrite Hlast. change (to_unsigned 0) with 0.
  set (range := VolumeMetadata.make 0 (triangle_count g - 1)).
  destruct (generate_volume_valid g o3 range st Hits) as (volume & Hrun & Hcount & _).
  { unfold valid_range, range. simpl. lia. }
  unfold bind at 1. unfold _generate_volumes. rewrite Hfresh3.
  rewrite (bool_decide_eq_true_2 (length [] = 0%nat) eq_refl).
  change (negb true) with false. cbv iota.
  rewrite (geo_tri_count_is_triangle_count g Hits).
  simpl generate_volumes_loop. unfold bind at 1. rewrite Hrun.
  rewrite Hfresh3. simpl.
  exists volume, (ModelObject.with_volumes [Some volume] o3).
  split; [reflexivity|]. split; [now destruct o3|].
  rewrite Hcount. unfold range_size, range. simpl. lia.
Qed.

End Volumes.

Section ConfigVolumes.
Context `{Externals}.

(** ** The volumes of the model config file, written and read *)

(** the keys and values that the exporter writes for a volume, in the
    order of the file *)
Definition written_volume_metadata (volume : ModelVolume.t) : list Metadata.t :=
  (if negb (String.eqb (ModelVolume.name volume) "")
   then [Metadata.mk NAME_KEY (xml_escape (ModelVolume.name volume))] else [])
  ++ (if ModelVolume.is_modifier volume then [Metadata.mk MODIFIER_KEY "1"] else [])
  ++ [Metadata.mk VOLUME_TYPE_KEY (type_to_string (ModelVolume.type volume));
      Metadata.mk MATRIX_KEY
        (_3MF_Exporter.matrix_attribute (ModelVolume.get_matrix volume))]
  ++ (let source := ModelVolume.source volume in
      let '(ox, oy, oz) := Source.mesh_offset source in
      if negb (String.eqb (Source.input_file source) "") then
        [Metadata.mk SOURCE_FILE_KEY (xml_escape (Source.input_file source));
         Metadata.mk SOURCE_OBJECT_ID_KEY (pretty (Source.object_idx source));
         Metadata.mk SOURCE_VOLUME_ID_KEY (pretty (Source.volume_idx source));
         Metadata.mk SOURCE_OFFSET_X_KEY (double_to_string default_precision ox);
         Metadata.mk SOURCE_OFFSET_Y_KEY (double_to_string default_precision oy);
         Metadata.mk SOURCE_OFFSET_Z_KEY (double_to_string default_precision oz)]
      else [])
  ++ map (fun key => Metadata.mk key (opt_serialize (ModelVolume.config volume) key))
         (config_keys (ModelVolume.config volume)).

Definition metadata_elements (metadata : list Metadata.t) : list xml_event :=
  flat_map (fun m => _3MF_Exporter.metadata_element VOLUME_TYPE
                       (Metadata.key m) (Metadata.value m))
           metadata.

Lemma metadata_elements_of_keys {A} (f : A -> Metadata.t) (l : list A) :
  metadata_elements (map f l)
  = flat_map (fun x => _3MF_Exporter.metadata_element VOLUME_TYPE
                         (Metadata.key (f x)) (Metadata.value (f x))) l.
Proof.
  unfold metadata_elements. induction l as [|x l IH]; [reflexivity|].
  simpl. now rewrite IH.
Qed.

Lemma metadata_elements_app (l1 l2 : list Metadata.t) :
  metadata_elements (l1 ++ l2) = metadata_elements l1 ++ metadata_elements l2.
Proof. apply flat_map_app. Qed.

Lemma volume_config_elements_written (offsets : gmap nat Offsets.t) (k : nat)
    (volume : ModelVolume.t) (it : Offsets.t) :
  offsets !! k = Some it ->
  _3MF_Exporter.volume_config_elements offsets (k, Some volume)
  = start_element VOLUME_TAG
      [FIRST_TRIANGLE_ID_ATTR; pretty (Offsets.first_triangle_id it);
       LAST_TRIANGLE_ID_ATTR; pretty (Offsets.last_triangle_id it)]
    :: metadata_elements (written_volume_metadata volume) ++ [end_element VOLUME_TAG].
Proof.
  intros Hit. unfold _3MF_Exporter.volume_config_elements. rewrite Hit.
  unfold written_volume_metadata.
  destruct (Source.mesh_offset (ModelVolume.source volume)) as [[ox oy] oz].
  destruct (negb (String.eqb (ModelVolume.name volume) ""));
    destruct (ModelVolume.is_modifier volume);
    destruct (negb (String.eqb (Source.input_file (ModelVolume.source volume)) ""));
    rewrite ?metadata_elements_app; unfold metadata_elements at 1 2 3 4;
    simpl; repeat f_equal;
    rewrite metadata_elements_of_keys; reflexivity.
Qed.

Lemma alter_last {A} (f : A -> A) (prefix : list A) (x : A) :
  alter f (length prefix) (prefix ++ [x]) = prefix ++ [f x].
Proof.
  induction prefix as [|y prefix IH]; [reflexivity|].
  change (y :: alter f (length prefix) (prefix ++ [x]) = y :: prefix ++ [f x]).
  now f_equal.
Qed.

(** the importer after the volume metadata [metadata] have been added to
    the volume [v], the last of those of the current object *)
Definition volume_read (md : list Metadata.t) (prefix : list VolumeMetadata.t)
    (v : VolumeMetadata.t) (metadata : list Metadata.t) (st : _3MF_Importer.t)
  : _3MF_Importer.t :=
  set_m_objects_metadata
    (<[CurrentConfig.object_id (m_curr_config st) :=
         ObjectMetadata.mk md
           (prefix ++ [VolumeMetadata.mk (VolumeMetadata.first_triangle_id v)
                         (VolumeMetadata.last_triangle_id v)
                         (VolumeMetadata.metadata v ++ metadata)])]>
       (m_objects_metadata st)) st.

Lemma metadata_elements_are_read (metadata : list Metadata.t) (rest : list xml_event)
    (md : list Metadata.t) (prefix : list VolumeMetadata.t) (v : VolumeMetadata.t)
    (st : _3MF_Importer.t) :
  m_objects_metadata st !! CurrentConfig.object_id (m_curr_config st)
    = Some (ObjectMetadata.mk md (prefix ++ [v])) ->
  to_size_t (CurrentConfig.volume_id (m_curr_config st)) = Z.of_nat (length prefix) ->
  for_each config_xml_event (metadata_elements metadata ++ rest) st
  = for_each config_xml_event rest (volume_read md prefix v metadata st).
Proof.
  revert v st. induction metadata as [|m metadata IH]; intros v st Hobject Hvolume.
  - simpl. f_equal. unfold volume_read. rewrite app_nil_r.
    destruct v as [first last mv]. simpl.
    rewrite insert_id by exact Hobject. now destruct st.
  - change (metadata_elements (m :: metadata) ++ rest)
      with (start_element METADATA_TAG
              [TYPE_ATTR; VOLUME_TYPE; KEY_ATTR; Metadata.key m;
               VALUE_ATTR; Metadata.value m]
            :: end_element METADATA_TAG :: metadata_elements metadata ++ rest).
    rewrite for_each_cons.
    change (config_xml_event (start_element METADATA_TAG ?a))
      with (_handle_start_config_metadata a).
    assert (Hstart : _handle_start_config_metadata
                       [TYPE_ATTR; VOLUME_TYPE; KEY_ATTR; Metadata.key m;
                        VALUE_ATTR; Metadata.value m] st
                     = Returns true (volume_read md prefix v [m] st)).
    { unfold _handle_start_config_metadata, bind, get. rewrite Hobject.
      change (get_attribute_value_string _ TYPE_ATTR) with VOLUME_TYPE.
      change (get_attribute_value_string _ KEY_ATTR) with (Metadata.key m).
      change (get_attribute_value_string _ VALUE_ATTR) with (Metadata.value m).
      change (String.eqb VOLUME_TYPE OBJECT_TYPE) with false.
      change (String.eqb VOLUME_TYPE VOLUME_TYPE) with true. cbv iota.
      rewrite Hvolume.
      change (ObjectMetadata.volumes (ObjectMetadata.mk md (prefix ++ [v])))
        with (prefix ++ [v]).
      change (ObjectMetadata.metadata (ObjectMetadata.mk md (prefix ++ [v]))) with md.
      rewrite length_app. change (length [v]) with 1%nat.
      assert (Hlt : (Z.of_nat (length prefix) <? Z.of_nat (length prefix + 1)) = true)
        by (apply Z.ltb_lt; lia).
      rewrite Hlt.
      unfold modify, ret, volume_read. rewrite Nat2Z.id, alter_last. reflexivity. }
    unfold bind at 1. rewrite Hstart. cbv iota beta.
    rewrite for_each_cons.
    change (config_xml_event (end_element METADATA_TAG)) with _handle_end_config_metadata.
    unfold bind at 1. unfold _handle_end_config_metadata, ret at 1. cbv iota beta.
    rewrite (IH (VolumeMetadata.mk (VolumeMetadata.first_triangle_id v)
                   (VolumeMetadata.last_triangle_id v)
                   (VolumeMetadata.metadata v ++ [m]))
                (volume_read md prefix v [m] st)).
    + f_equal. unfold volume_read. simpl.
      rewrite insert_insert_eq, <- app_assoc. reflexivity.
    + unfold volume_read. simpl. now rewrite lookup_insert_eq.
    + exact Hvolume.
Qed.

(** X9.  A [volume] element of the model config file as the exporter
    writes it, read by the importer for the object the file is at, adds
    one volume to that object when the object has fewer than 2^31 volumes
    (the index of the new volume is kept in an [int]): its range is the
    one written, and its metadata are the keys and values written, in
    their order. *)
Theorem written_volume_is_read_back
    (offsets : gmap nat Offsets.t) (k : nat) (volume : ModelVolume.t) (it : Offsets.t)
    (object : ObjectMetadata.t) (st : _3MF_Importer.t) :
  offsets !! k = Some it ->
  0 <= Offsets.first_triangle_id it < 2 ^ 32 ->
  0 <= Offsets.last_triangle_id it < 2 ^ 32 ->
  m_objects_metadata st !! CurrentConfig.object_id (m_curr_config st) = Some object ->
  Z.of_nat (length (ObjectMetadata.volumes object)) < 2 ^ 31 ->
  for_each config_xml_event (_3MF_Exporter.volume_config_elements offsets (k, Some volume))
    st
  = Returns true
      (set_m_objects_metadata
         (<[CurrentConfig.object_id (m_curr_config st) :=
              ObjectMetadata.mk (ObjectMetadata.metadata object)
                (ObjectMetadata.volumes object
                 ++ [VolumeMetadata.mk (Offsets.first_triangle_id it)
                       (Offsets.last_triangle_id it)
                       (written_volume_metadata volume)])]>
            (m_objects_metadata st))
         (set_m_curr_config
            (CurrentConfig.mk (CurrentConfig.object_id (m_curr_config st))
               (Z.of_nat (length (ObjectMetadata.volumes object))))
            st)).
Proof.
  intros Hit Hfirst Hlast Hobject Hlength.
  rewrite (volume_config_elements_written offsets k volume it Hit).
  rewrite for_each_cons.
  change (config_xml_event (start_element VOLUME_TAG ?a))
    with (_handle_start_config_volume a).
  set (s1 := set_m_objects_metadata
               (<[CurrentConfig.object_id (m_curr_config st) :=
                    ObjectMetadata.mk (ObjectMetadata.metadata object)
                      (ObjectMetadata.volumes object
                       ++ [VolumeMetadata.make (Offsets.first_triangle_id it)
                             (Offsets.last_triangle_id it)])]>
                  (m_objects_metadata st))
               (set_m_curr_config
                  (CurrentConfig.mk (CurrentConfig.object_id (m_curr_config st))
                     (Z.of_nat (length (ObjectMetadata.volumes object))))
                  st)).
  assert (Hstart : _handle_start_config_volume
                     [FIRST_TRIANGLE_ID_ATTR; pretty (Offsets.first_triangle_id it);
                      LAST_TRIANGLE_ID_ATTR; pretty (Offsets.last_triangle_id it)] st
                   = Returns true s1).
  { unfold _handle_start_config_volume, bind, get. rewrite Hobject.
    assert (Hf : get_attribute_value_int
                   [FIRST_TRIANGLE_ID_ATTR; pretty (Offsets.first_triangle_id it);
                    LAST_TRIANGLE_ID_ATTR; pretty (Offsets.last_triangle_id it)]
                   FIRST_TRIANGLE_ID_ATTR = Offsets.first_triangle_id it)
      by apply atoi_pretty.
    assert (Hl : get_attribute_value_int
                   [FIRST_TRIANGLE_ID_ATTR; pretty (Offsets.first_triangle_id it);
                    LAST_TRIANGLE_ID_ATTR; pretty (Offsets.last_triangle_id it)]
                   LAST_TRIANGLE_ID_ATTR = Offsets.last_triangle_id it)
      by apply atoi_pretty.
    rewrite Hf, Hl, !to_unsigned_small by assumption.
    rewrite to_int_small by lia. reflexivity. }
  unfold bind at 1. rewrite Hstart. cbv iota beta.
  rewrite (metadata_elements_are_read (written_volume_metadata volume)
             [end_element VOLUME_TAG] (ObjectMetadata.metadata object)
             (ObjectMetadata.volumes object)
             (VolumeMetadata.make (Offsets.first_triangle_id it)
                (Offsets.last_triangle_id it)) s1).
  - rewrite for_each_cons.
    change (config_xml_event (end_element VOLUME_TAG)) with _handle_end_config_volume.
    unfold _handle_end_config_volume, bind, ret, for_each. f_equal.
    unfold volume_read, s1. simpl. rewrite insert_insert_eq. reflexivity.
  - unfold s1. simpl. now rewrite lookup_insert_eq.
  - unfold s1. simpl. unfold to_size_t. apply Z.mod_small. lia.
Qed.

End ConfigVolumes.

Section ProfileLines.
Context `{Externals}.

(** ** The lines of the layer heights profile file *)

(** the importer with more errors and other profiles *)
Definition with_profiles (errors : list string) (profiles : gmap Z (list double))
    (st : _3MF_Importer.t) : _3MF_Importer.t :=
  set_m_errors (m_errors st ++ errors) (set_m_layer_heights_profiles profiles st).

Lemma profile_line_accounted (line : string) (st : _3MF_Importer.t) :
  exists (errors : list string) (profiles : gmap Z (list double)),
    layer_heights_profile_line line st = Returns tt (with_profiles errors profiles st)
    /\ m_layer_heights_profiles st ⊆ profiles
    /\ (length errors + size profiles = 1 + size (m_layer_heights_profiles st))%nat.
Proof.
  assert (Herror : forall e,
            add_error e st = Returns tt (with_profiles [e] (m_layer_heights_profiles st) st))
    by (intros e; now destruct st).
  unfold layer_heights_profile_line.
  destruct (negb (length (split_compress_off "|" line) =? 2)%nat);
    [exists ["Error while reading object data"], (m_layer_heights_profiles st); auto|].
  match goal with
  | |- context [negb (length ?l =? 2)%nat] => destruct (negb (length l =? 2)%nat)
  end; [exists ["Error while reading object id"], (m_layer_heights_profiles st); auto|].
  match goal with
  | |- context [atoi ?s =? 0] => set (object_id := atoi s)
  end.
  destruct (object_id =? 0);
    [exists ["Found invalid object id"], (m_layer_heights_profiles st); auto|].
  unfold bind, get.
  destruct (m_layer_heights_profiles st !! object_id) as [p|] eqn:Hlookup;
    [exists ["Found duplicated layer heights profile"], (m_layer_heights_profiles st);
     auto|].
  match goal with
  | |- context [if ?b then add_error _ else _] => destruct b
  end; [exists ["Found invalid layer heights profile"], (m_layer_heights_profiles st);
        auto|].
  match goal with
  | |- context [map_insert_new object_id ?p] =>
      exists [], (<[object_id := p]> (m_layer_heights_profiles st))
  end.
  split; [|split].
  - unfold modify, map_insert_new, with_profiles. rewrite Hlookup, app_nil_r.
    now destruct st.
  - now apply insert_subseteq.
  - rewrite map_size_insert_None by assumption. reflexivity.
Qed.

Lemma profile_lines_accounted (lines : list string) (st : _3MF_Importer.t) :
  exists (errors : list string) (profiles : gmap Z (list double)),
    for_all layer_heights_profile_line lines st
    = Returns tt (with_profiles errors profiles st)
    /\ m_layer_heights_profiles st ⊆ profiles
    /\ (length errors + size profiles
        = length lines + size (m_layer_heights_profiles st))%nat.
Proof.
  revert st. induction lines as [|line lines IH]; intros st.
  - exists [], (m_layer_heights_profiles st). split; [|split; reflexivity].
    unfold with_profiles. rewrite app_nil_r. now destruct st.
  - destruct (profile_line_accounted line st) as (e1 & p1 & Hline & Hsub1 & Hcount1).
    destruct (IH (with_profiles e1 p1 st)) as (e2 & p2 & Hrest & Hsub2 & Hcount2).
    exists (e1 ++ e2), p2. split; [|split].
    + simpl. unfold bind. rewrite Hline, Hrest. unfold with_profiles. simpl.
      rewrite app_assoc. reflexivity.
    + simpl in Hsub2. now transitivity p1.
    + simpl in Hcount2. rewrite length_app. simpl length. lia.
Qed.

(** X10.  The layer heights profile file is read to its end whatever it
    holds: every line either records the profile of one more object or
    adds one error, a profile recorded before is never replaced or
    removed, and nothing else of the importer changes. *)
Theorem every_profile_line_is_accounted_for (stat : ZipEntry.t) (st : _3MF_Importer.t) :
  0 < ZipEntry.m_uncomp_size stat ->
  ZipEntry.extract_ok stat = true ->
  let lines := split_compress_off "010" (drop_final_newline (ZipEntry.data stat)) in
  exists (errors : list string) (profiles : gmap Z (list double)),
    _extract_layer_heights_profile_config_from_archive stat st
    = Returns tt (with_profiles errors profiles st)
    /\ m_layer_heights_profiles st ⊆ profiles
    /\ (length errors + size profiles
        = length lines + size (m_layer_heights_profiles st))%nat.
Proof.
  intros Hsize Hextract lines.
  unfold _extract_layer_heights_profile_config_from_archive.
  rewrite (proj2 (Z.ltb_lt _ _) Hsize), Hextract.
  apply profile_lines_accounted.
Qed.

End ProfileLines.

(** ** Errors are only added *)

(** A computation of the importer grows the list of errors when the
    errors it starts with are still there when it ends, in their place. *)
Definition grows {A} `{Externals} (m : M _3MF_Importer.t A) : Prop :=
  forall st,
    match m st with
    | Returns _ st' | Throws _ st' => m_errors st `prefix_of` m_errors st'
    | Undefined => True
    end.

Section Grows.
Context `{Externals}.

Lemma grows_ret {A} (a : A) : grows (ret a).
Proof. intros st. unfold ret. reflexivity. Qed.

Lemma grows_undefined {A} : grows (@undefined _3MF_Importer.t A).
Proof. intros st. exact I. Qed.

Lemma grows_throw {A} (e : exception) : grows (@throw _3MF_Importer.t A e).
Proof. intros st. unfold throw. reflexivity. Qed.

Lemma grows_get : grows get.
Proof. intros st. unfold get. reflexivity. Qed.

Lemma grows_modify (f : _3MF_Importer.t -> _3MF_Importer.t) :
  (forall st, m_errors st `prefix_of` m_errors (f st)) -> grows (modify f).
Proof. intros Hf st. apply Hf. Qed.

Lemma grows_add_error (error : string) : grows (add_error error).
Proof. apply grows_modify. intros st. now apply prefix_app_r. Qed.

Lemma grows_bind {A B} (m : M _3MF_Importer.t A) (k : A -> M _3MF_Importer.t B) :
  grows m -> (forall a, grows (k a)) -> grows (bind m k).
Proof.
  intros Hm Hk st. unfold bind. specialize (Hm st).
  destruct (m st) as [a st'|e st'|]; [|assumption|exact I].
  specialize (Hk a st').
  destruct (k a st') as [b st''|e st''|]; [| |exact I]; now transitivity (m_errors st').
Qed.

Lemma grows_for_each {A} (body : A -> M _3MF_Importer.t bool) (l : list A) :
  (forall x, grows (body x)) -> grows (for_each body l).
Proof.
  intros Hbody. induction l as [|x l IH]; simpl.
  - apply grows_ret.
  - apply grows_bind; [apply Hbody|]. intros [|]; [exact IH|apply grows_ret].
Qed.

Lemma grows_for_all {A} (body : A -> M _3MF_Importer.t unit) (l : list A) :
  (forall x, grows (body x)) -> grows (for_all body l).
Proof.
  intros Hbody. induction l as [|x l IH]; simpl.
  - apply grows_ret.
  - apply grows_bind; [apply Hbody|]. intros _. exact IH.
Qed.

Lemma grows_try_catch {A} (m : M _3MF_Importer.t A)
    (handler : exception -> M _3MF_Importer.t A) :
  grows m -> (forall e, grows (handler e)) -> grows (try_catch m handler).
Proof.
  intros Hm Hhandler st. unfold try_catch. specialize (Hm st).
  destruct (m st) as [a st'|e st'|]; [assumption| |exact I].
  specialize (Hhandler e st').
  destruct (handler e st') as [b st''|e' st''|]; [| |exact I];
    now transitivity (m_errors st').
Qed.

End Grows.

Ltac grows_step :=
  first
    [ apply grows_ret
    | apply grows_undefined
    | apply grows_throw
    | apply grows_get
    | apply grows_add_error
    | apply grows_modify; intros; reflexivity
    | apply grows_for_each; intros ?
    | apply grows_for_all; intros ?
    | apply grows_bind; [|intros ?]
    | match goal with
      | |- grows (if ?b then _ else _) => destruct b
      | |- grows (match ?x with _ => _ end) => destruct x
      end ].

Ltac grows_auto := repeat grows_step.

Section GrowsHandlers.
Context `{Externals}.

Lemma grows_create_object_instance_levels (levels_left : nat) (object_id : Z)
    (transform : Transform3d) (printable : bool) :
  grows (create_object_instance_levels levels_left object_id transform printable).
Proof.
  revert object_id transform.
  induction levels_left as [|levels_left IH]; intros object_id transform; simpl.
  - grows_auto.
  - unfold objects_at. grows_auto; apply IH.
Qed.

Lemma grows_model_xml_event (e : xml_event) : grows (model_xml_event e).
Proof.
  destruct e as [name attributes|name|text]; simpl.
  - unfold _handle_start_model_xml_element.
    unfold _handle_start_model, _handle_start_resources, _handle_start_object,
      _handle_start_mesh, _handle_start_vertices, _handle_start_vertex,
      _handle_start_triangles, _handle_start_triangle, _handle_start_components,
      _handle_start_component, _handle_start_build, _handle_start_item,
      _handle_start_metadata, _create_object_instance, modify_geometry,
      modify_components.
    grows_auto; apply grows_create_object_instance_levels.
  - unfold _handle_end_model_xml_element.
    unfold _handle_end_model, _handle_end_resources, _handle_end_object,
      _handle_end_mesh, _handle_end_vertices, _handle_end_vertex,
      _handle_end_triangles, _handle_end_triangle, _handle_end_components,
      _handle_end_component, _handle_end_build, _handle_end_item,
      _handle_end_metadata, _apply_transform, update_instance, instance_at,
      update_object, objects_at.
    grows_auto.
  - unfold _handle_model_xml_characters. grows_auto.
Qed.

Lemma grows_config_xml_event (e : xml_event) : grows (config_xml_event e).
Proof.
  destruct e as [name attributes|name|text]; simpl;
    unfold _handle_start_config_xml_element, _handle_end_config_xml_element,
      _handle_start_config, _handle_start_config_object, _handle_start_config_volume,
      _handle_start_config_metadata, _handle_end_config, _handle_end_config_object,
      _handle_end_config_volume, _handle_end_config_metadata;
    grows_auto.
Qed.

(** X11.  No part of an archive makes the importer forget an error: when
    the model, the model config file, the print config or the layer
    heights profile file has been read, with whatever outcome, the errors
    recorded before are still there, in their place, before those of the
    part. *)
Theorem reading_a_part_keeps_the_errors (stat : ZipEntry.t) :
  grows (_extract_model_from_archive stat)
  /\ grows (_extract_model_config_from_archive stat)
  /\ grows (_extract_print_config_from_archive stat)
  /\ grows (_extract_layer_heights_profile_config_from_archive stat).
Proof.
  repeat split.
  - unfold _extract_model_from_archive, XML_Parse.
    destruct (ZipEntry.m_uncomp_size stat =? 0); [grows_auto|].
    apply grows_bind; [|intros [[|]|]; grows_auto].
    apply grows_try_catch; [|intros e; grows_auto].
    grows_auto. apply grows_model_xml_event.
  - unfold _extract_model_config_from_archive, XML_Parse.
    grows_auto. apply grows_config_xml_event.
  - unfold _extract_print_config_from_archive. grows_auto.
  - unfold _extract_layer_heights_profile_config_from_archive,
      layer_heights_profile_line.
    grows_auto.
Qed.

End GrowsHandlers.

Section Spaces.
Context `{Externals}.

(** ** A transform with a space at one end *)

Lemma split_compress_on_trailing (sep : ascii) (in_run : bool) (tokens : list string) :
  tokens <> [] ->
  Forall (fun t => is_token sep t = true) tokens ->
  split_compress_on_from sep in_run (separated sep tokens +:+ String sep "")
  = tokens ++ [""].
Proof.
  intros Hne Hall. revert in_run.
  induction Hall as [|t rest Ht Hrest IH]; intros in_run; [contradiction|].
  destruct rest as [|t' rest].
  - simpl separated. rewrite (split_compress_on_token _ _ _ _ Ht). reflexivity.
  - change (separated sep (t :: t' :: rest))
      with (t +:+ String sep (separated sep (t' :: rest))).
    rewrite append_assoc. rewrite append_cons.
    rewrite (split_compress_on_token _ _ _ _ Ht), IH by discriminate. reflexivity.
Qed.

(** X12.  The twelve numbers of a transform are cut at runs of spaces, and
    a space before the first number or after the last one leaves an empty
    element at that end: the elements are then thirteen, and the
    transform is taken for the identity although it is well formed. *)
Theorem transform_with_a_space_at_one_end_is_the_identity (numbers : list string) :
  length numbers = 12%nat ->
  Forall (fun t => is_token " " t = true) numbers ->
  get_transform_from_3mf_specs_string (separated " " numbers)
    = fill_transform numbers Identity
  /\ get_transform_from_3mf_specs_string (String " " (separated " " numbers)) = Identity
  /\ get_transform_from_3mf_specs_string (separated " " numbers +:+ " ") = Identity.
Proof.
  intros Hlength Htokens.
  assert (Hne : numbers <> []) by (destruct numbers; [discriminate|discriminate]).
  unfold get_transform_from_3mf_specs_string, split_compress_on. repeat split.
  - rewrite (split_compress_on_separated " " false numbers Hne Htokens), Hlength.
    destruct numbers as [|t rest]; [contradiction|].
    inversion Htokens as [|? ? Ht _]; subst.
    assert (Hfirst : String.eqb (separated " " (t :: rest)) "" = false).
    { unfold is_token in Ht. apply andb_true_iff in Ht as [Ht _].
      destruct t; [discriminate|]. now destruct rest. }
    rewrite Hfirst. reflexivity.
  - change (String.eqb (String " " (separated " " numbers)) "") with false. cbv iota.
    simpl split_compress_on_from.
    rewrite (split_compress_on_separated " " true numbers Hne Htokens).
    simpl length. rewrite Hlength. reflexivity.
  - rewrite (split_compress_on_trailing " " false numbers Hne Htokens).
    rewrite length_app, Hlength.
    destruct (String.eqb (separated " " numbers +:+ " ") ""); reflexivity.
Qed.

End Spaces.

(** ** The answer of a store and its errors *)

(** A computation is silent when an answer that is [ok] comes with the
    errors that were there before; it gives up when an answer that is not
    [ok] is never turned into one that is. *)
Definition silent {S A} (errors : S -> list string) (ok : A -> bool) (m : M S A) : Prop :=
  forall st a st', m st = Returns a st' -> ok a = true -> errors st' = errors st.

Definition gives_up {S A} (ok : A -> bool) (m : M S A) : Prop :=
  forall st a st', m st = Returns a st' -> ok a = false.

Definition always {A} (a : A) : bool := true.

Section Silent.
Context {S : Type} (errors : S -> list string).

Lemma silent_ret {A} (ok : A -> bool) (a : A) : silent errors ok (ret a).
Proof. intros st a' st' Hrun _. now inversion Hrun. Qed.

Lemma silent_undefined {A} (ok : A -> bool) : silent errors ok undefined.
Proof. intros st a st' Hrun. discriminate. Qed.

Lemma silent_throw {A} (ok : A -> bool) (e : exception) : silent errors ok (throw e).
Proof. intros st a st' Hrun. discriminate. Qed.

Lemma silent_get (ok : S -> bool) : silent errors ok get.
Proof. intros st a st' Hrun _. now inversion Hrun. Qed.

Lemma silent_modify (ok : unit -> bool) (f : S -> S) :
  (forall st, errors (f st) = errors st) -> silent errors ok (modify f).
Proof. intros Hf st a st' Hrun _. inversion Hrun; subst. apply Hf. Qed.

Lemma silent_gives_up {A} (ok : A -> bool) (m : M S A) :
  gives_up ok m -> silent errors ok m.
Proof. intros Hm st a st' Hrun Hok. rewrite (Hm st a st' Hrun) in Hok. discriminate. Qed.

Lemma silent_bind {A B} (okA : A -> bool) (okB : B -> bool) (m : M S A)
    (k : A -> M S B) :
  silent errors okA m ->
  (forall a, okA a = true -> silent errors okB (k a)) ->
  (forall a, okA a = false -> gives_up okB (k a)) ->
  silent errors okB (bind m k).
Proof.
  intros Hm Hk Hfail st b st' Hrun Hok. unfold bind in Hrun.
  destruct (m st) as [a st1|e st1|] eqn:Hfirst; try discriminate.
  destruct (okA a) eqn:Ha.
  - rewrite (Hk a Ha st1 b st' Hrun Hok). now apply (Hm st a st1).
  - rewrite (Hfail a Ha st1 b st' Hrun) in Hok. discriminate.
Qed.

Lemma gives_up_ret {A} (ok : A -> bool) (a : A) :
  ok a = false -> gives_up ok (@ret S A a).
Proof. intros Hok st a' st' Hrun. now inversion Hrun; subst. Qed.

Lemma gives_up_bind {A B} (ok : B -> bool) (m : M S A) (k : A -> M S B) :
  (forall a, gives_up ok (k a)) -> gives_up ok (bind m k).
Proof.
  intros Hk st b st' Hrun. unfold bind in Hrun.
  destruct (m st) as [a st1|e st1|]; try discriminate. now apply (Hk a st1 b st').
Qed.

End Silent.

Ltac gives_up_auto :=
  repeat first
    [ apply gives_up_ret; reflexivity
    | apply gives_up_bind; intros ? ].

(** the first step of a [bind] whose answer is a flag, a flag with a
    counter, or anything else *)
Ltac silent_bind_step :=
  match goal with
  | |- silent _ _ (@bind _ bool _ _ _) => apply (silent_bind _ id)
  | |- silent _ _ (@bind _ (bool * _)%type _ _ _) => apply (silent_bind _ fst)
  | |- silent _ _ (@bind _ _ _ _ _) => apply (silent_bind _ always)
  end.

Ltac silent_step :=
  first
    [ apply silent_ret
    | apply silent_undefined
    | apply silent_throw
    | apply silent_get
    | apply silent_modify; intros; reflexivity
    | match goal with
      | |- silent _ _ (if ?b then _ else _) => destruct b
      | |- silent _ _ (match ?x with _ => _ end) => destruct x
      end ].

Ltac silent_case a Ha :=
  unfold always, id in Ha;
  lazymatch type of a with
  | bool => destruct a; simpl in Ha; try discriminate Ha
  | (bool * _)%type => destruct a as [[|] ?]; simpl in Ha; try discriminate Ha
  | _ => try discriminate Ha
  end;
  clear Ha; cbv beta iota; simpl negb; simpl fst; simpl snd; cbv beta iota.

Ltac silent_auto :=
  repeat first
    [ silent_step
    | apply silent_gives_up; solve [gives_up_auto]
    | silent_bind_step;
      [ | let a := fresh "a" in let Ha := fresh "Ha" in intros a Ha; silent_case a Ha
        | let a := fresh "a" in let Ha := fresh "Ha" in
          intros a Ha; silent_case a Ha; solve [gives_up_auto] ] ].

Section ExporterReports.
Import _3MF_Exporter.
Context `{Externals}.
Variable ENABLE_THUMBNAIL_GENERATOR : bool.

Lemma reports_add_mem_or_error (out : OutputFile.t) (name error : string) (content : part) :
  reports m_errors id
    (ok <- mz_zip_writer_add_mem out name content ;;
     if ok then ret true else _3MF_Exporter.add_error error ;; ret false).
Proof. unfold _3MF_Exporter.add_error. reports_auto. Qed.

Lemma reports_add_model_objects (objects : list (option ModelObject.t)) (object_id : Z) :
  reports m_errors id (add_model_objects object_id objects).
Proof.
  revert object_id. induction objects as [|[obj|] objects IH]; intros object_id; simpl.
  - now apply reports_ret.
  - unfold _3MF_Exporter.add_error. reports_auto. apply IH.
  - apply IH.
Qed.

Lemma reports_add_model_file (out : OutputFile.t) (model : Model.t) :
  reports m_errors id (_add_model_file_to_archive out model).
Proof.
  unfold _add_model_file_to_archive.
  do 3 (apply reports_bind; intros ?).
  apply reports_guard; [apply reports_add_model_objects|].
  apply reports_bind; intros ?.
  unfold _3MF_Exporter.add_error. reports_auto.
Qed.

Lemma reports_or_remove (step rest : M _3MF_Exporter.t bool) :
  reports m_errors id step -> reports m_errors id rest ->
  reports m_errors id (or_remove step rest).
Proof.
  intros Hstep Hrest st b st' Hrun Hfail. unfold or_remove, bind in Hrun.
  destruct (step st) as [[|] st1|e st1|] eqn:Hfirst; try discriminate.
  - now apply (Hrest st1 b st').
  - inversion Hrun; subst. simpl. now apply (Hstep st false st1).
Qed.

Lemma reports_steps (out : OutputFile.t) (model : Model.t)
    (config : option DynamicPrintConfig) (thumbnail_data : option ThumbnailData.t) :
  reports m_errors id (steps ENABLE_THUMBNAIL_GENERATOR out model config thumbnail_data).
Proof.
  unfold steps.
  repeat (apply reports_or_remove;
          [first [ apply reports_add_mem_or_error | apply reports_add_model_file
                 | idtac ]|]).
  - destruct thumbnail_data as [data|]; [|now apply reports_ret].
    destruct (_ && _); [|now apply reports_ret].
    unfold _add_thumbnail_file_to_archive. apply reports_bind. intros [|]; simpl.
    + reports_auto.
    + unfold _3MF_Exporter.add_error. reports_auto.
  - unfold _add_layer_height_profile_file_to_archive, _3MF_Exporter.add_error.
    reports_auto.
  - unfold _add_layer_config_ranges_file_to_archive, _3MF_Exporter.add_error.
    reports_auto.
  - unfold _add_sla_support_points_file_to_archive, _3MF_Exporter.add_error.
    reports_auto.
  - destruct config as [config|]; [|now apply reports_ret].
    unfold _add_print_config_file_to_archive, _3MF_Exporter.add_error. reports_auto.
  - unfold _add_model_config_file_to_archive, _3MF_Exporter.add_error. reports_auto.
  - unfold close_and_remove, _3MF_Exporter.add_error.
    destruct (negb _); [|now apply reports_ret].
    intros st b st' Hrun _. inversion Hrun; subst. simpl. apply snoc_not_nil.
Qed.

Lemma silent_add_mem (out : OutputFile.t) (name : string) (content : part) :
  silent m_errors id (mz_zip_writer_add_mem out name content).
Proof. unfold mz_zip_writer_add_mem. silent_auto. Qed.

Lemma silent_add_mesh_vertices (curr_id : Z) (volumes : list (nat * option ModelVolume.t))
    (vertices_count : Z) :
  silent m_errors fst (add_mesh_vertices curr_id vertices_count volumes).
Proof.
  revert vertices_count.
  induction volumes as [|[k [volume|]] volumes IH]; intros vertices_count; simpl.
  - silent_auto.
  - unfold modify_offsets, _3MF_Exporter.add_error, emit. silent_auto. apply IH.
  - apply IH.
Qed.

Lemma silent_add_mesh_triangles (curr_id : Z) (volumes : list (nat * option ModelVolume.t))
    (triangles_count : Z) :
  silent m_errors always (add_mesh_triangles curr_id triangles_count volumes).
Proof.
  revert triangles_count.
  induction volumes as [|[k [volume|]] volumes IH]; intros triangles_count; simpl.
  - silent_auto.
  - unfold modify_offsets, emit. silent_auto. apply IH.
  - apply IH.
Qed.

Lemma silent_add_mesh (object : ModelObject.t) (curr_id : Z) :
  silent m_errors id (_add_mesh_to_object_stream object curr_id).
Proof.
  unfold _add_mesh_to_object_stream, emit.
  silent_auto; first [apply silent_add_mesh_vertices | apply silent_add_mesh_triangles].
Qed.

Lemma silent_add_object_instances (object : ModelObject.t) (curr_id object_id : Z)
    (instances : list (option ModelInstance.t)) (id : Z) :
  silent m_errors fst (add_object_instances object curr_id object_id id instances).
Proof.
  revert id. induction instances as [|[instance|] instances IH]; intros id; simpl.
  - silent_auto.
  - unfold emit, _3MF_Exporter.add_error.
    silent_auto; first [apply silent_add_mesh | apply IH].
  - apply IH.
Qed.

Lemma silent_add_model_objects (objects : list (option ModelObject.t)) (object_id : Z) :
  silent m_errors id (add_model_objects object_id objects).
Proof.
  revert object_id. induction objects as [|[obj|] objects IH]; intros object_id; simpl.
  - silent_auto.
  - unfold _add_object_to_model_stream, _3MF_Exporter.add_error.
    silent_auto; first [apply silent_add_object_instances | apply IH].
  - apply IH.
Qed.

Lemma silent_add_model_file (out : OutputFile.t) (model : Model.t) :
  silent m_errors id (_add_model_file_to_archive out model).
Proof.
  unfold _add_model_file_to_archive, _add_build_to_model_stream, emit,
    _3MF_Exporter.add_error.
  silent_auto; first [apply silent_add_model_objects | apply silent_add_mem].
Qed.

Lemma silent_or_remove (step rest : M _3MF_Exporter.t bool) :
  silent m_errors id step -> silent m_errors id rest ->
  silent m_errors id (or_remove step rest).
Proof.
  intros Hstep Hrest. unfold or_remove, close_and_remove.
  silent_auto; assumption.
Qed.

Lemma silent_steps (out : OutputFile.t) (model : Model.t)
    (config : option DynamicPrintConfig) (thumbnail_data : option ThumbnailData.t) :
  silent m_errors id (steps ENABLE_THUMBNAIL_GENERATOR out model config thumbnail_data).
Proof.
  unfold steps.
  repeat (apply silent_or_remove; [first [apply silent_add_model_file | idtac]|]);
    unfold _add_content_types_file_to_archive, _add_thumbnail_file_to_archive,
      _add_relationships_file_to_archive, _add_layer_height_profile_file_to_archive,
      _add_layer_config_ranges_file_to_archive, _add_sla_support_points_file_to_archive,
      _add_print_config_file_to_archive, _add_model_config_file_to_archive,
      close_and_remove, _3MF_Exporter.add_error;
    silent_auto; apply silent_add_mem.
Qed.

(** X13.  A store on an output file and a scene answers [true] only with an
    empty list of errors and [false] only with an error recorded: the
    caller who prints the errors learns why a store failed, and sees none
    when it succeeded. *)
Theorem store_answer_matches_its_errors
    (out : OutputFile.t) (model : Model.t) (config : option DynamicPrintConfig)
    (thumbnail_data : option ThumbnailData.t) (on_disk : bool) :
  match store ENABLE_THUMBNAIL_GENERATOR (Some out) (Some model) config thumbnail_data
              on_disk with
  | Returns true exporter => m_errors exporter = []
  | Returns false exporter => m_errors exporter <> []
  | _ => True
  end.
Proof.
  rewrite store_of_open_file.
  destruct (OutputFile.open_ok out); [|discriminate].
  pose proof (silent_steps out model config thumbnail_data
                (_3MF_Exporter.mk [] [] [] ∅ [] true)) as Hsilent.
  pose proof (reports_steps out model config thumbnail_data
                (_3MF_Exporter.mk [] [] [] ∅ [] true)) as Hreports.
  destruct (steps _ out model config thumbnail_data _) as [[|] st'|e st'|];
    try exact I.
  - now apply (Hsilent true st').
  - now apply (Hreports false st').
Qed.

End ExporterReports.

Lemma to_unsigned_add_l (a b : Z) : to_unsigned (to_unsigned a + b) = to_unsigned (a + b).
Proof. unfold to_unsigned. apply Z.add_mod_idemp_l. lia. Qed.

Lemma to_unsigned_add_r (a b : Z) : to_unsigned (a + to_unsigned b) = to_unsigned (a + b).
Proof. unfold to_unsigned. apply Z.add_mod_idemp_r. lia. Qed.

Ltac kept_step :=
  first
    [ apply keeps_ret
    | apply keeps_throw
    | apply keeps_undefined
    | apply keeps_get
    | apply keeps_modify; intros; reflexivity
    | apply keeps_bind; [|intros ?]
    | match goal with
      | |- keeps _ (if ?b then _ else _) => destruct b
      | |- keeps _ (match ?x with _ => _ end) => destruct x
      end ].

Ltac kept_auto := repeat kept_step.

Section BuildItems.
Import _3MF_Exporter.
Context `{Externals}.

(** ** One build item for every instance *)

(** the instances of a list of objects, null pointers left out *)
Definition live_instances (instances : list (option ModelInstance.t))
  : list ModelInstance.t := omap (fun i => i) instances.

Definition scene_instances (objects : list (option ModelObject.t))
  : list ModelInstance.t :=
  flat_map (fun o => match o with
                     | Some o => live_instances (ModelObject.instances o)
                     | None => []
                     end) objects.

(** the build items of instances numbered from [first] *)
Definition numbered_items (first : Z) (instances : list ModelInstance.t)
  : list BuildItem.t :=
  imap (fun k instance =>
          BuildItem.mk (to_unsigned (first + Z.of_nat k))
            (Transformation_get_matrix (ModelInstance.transformation instance))
            (ModelInstance.printable instance))
       instances.

Lemma numbered_items_cons (first : Z) (i : ModelInstance.t) (l : list ModelInstance.t) :
  numbered_items first (i :: l)
  = BuildItem.mk (to_unsigned first)
      (Transformation_get_matrix (ModelInstance.transformation i))
      (ModelInstance.printable i)
    :: numbered_items (first + 1) l.
Proof.
  unfold numbered_items. simpl. rewrite Z.add_0_r. f_equal.
  apply imap_ext. intros k x _. simpl. do 2 f_equal. lia.
Qed.

Lemma numbered_items_app (first : Z) (l1 l2 : list ModelInstance.t) :
  numbered_items first (l1 ++ l2)
  = numbered_items first l1 ++ numbered_items (first + Z.of_nat (length l1)) l2.
Proof.
  revert first. induction l1 as [|i l1 IH]; intros first.
  - simpl. now rewrite Z.add_0_r.
  - rewrite <- app_comm_cons, !numbered_items_cons, IH. simpl length.
    rewrite <- app_comm_cons. do 3 f_equal. lia.
Qed.

Lemma numbered_items_unsigned (first : Z) (l : list ModelInstance.t) :
  numbered_items (to_unsigned first) l = numbered_items first l.
Proof.
  unfold numbered_items. apply imap_ext. intros k x _. simpl.
  now rewrite to_unsigned_add_l.
Qed.

Lemma keeps_items_add_mesh_vertices (curr_id : Z)
    (volumes : list (nat * option ModelVolume.t)) (vertices_count : Z) :
  keeps build_items (add_mesh_vertices curr_id vertices_count volumes).
Proof.
  revert vertices_count.
  induction volumes as [|[k [volume|]] volumes IH]; intros vertices_count; simpl.
  - kept_auto.
  - unfold modify_offsets, _3MF_Exporter.add_error, emit. kept_auto; apply IH.
  - apply IH.
Qed.

Lemma keeps_items_add_mesh_triangles (curr_id : Z)
    (volumes : list (nat * option ModelVolume.t)) (triangles_count : Z) :
  keeps build_items (add_mesh_triangles curr_id triangles_count volumes).
Proof.
  revert triangles_count.
  induction volumes as [|[k [volume|]] volumes IH]; intros triangles_count; simpl.
  - kept_auto.
  - unfold modify_offsets, emit. kept_auto; apply IH.
  - apply IH.
Qed.

Lemma keeps_items_add_mesh (object : ModelObject.t) (curr_id : Z) :
  keeps build_items (_add_mesh_to_object_stream object curr_id).
Proof.
  unfold _add_mesh_to_object_stream, emit.
  kept_auto;
    first [apply keeps_items_add_mesh_vertices | apply keeps_items_add_mesh_triangles].
Qed.

Lemma items_of_object_instances (object : ModelObject.t) (curr_id object_id : Z)
    (instances : list (option ModelInstance.t)) (id id' : Z)
    (st st' : _3MF_Exporter.t) :
  add_object_instances object curr_id object_id id instances st
  = Returns (true, id') st' ->
  build_items st'
  = build_items st ++ numbered_items (object_id + id) (live_instances instances)
  /\ id' = (if bool_decide (live_instances instances = []) then id
            else to_unsigned (id + Z.of_nat (length (live_instances instances)))).
Proof.
  revert id st. induction instances as [|[instance|] instances IH]; intros id st Hrun.
  - inversion Hrun; subst. simpl. now rewrite app_nil_r.
  - simpl in Hrun. unfold bind at 1 in Hrun. unfold emit at 1, modify at 1 in Hrun.
    unfold bind at 1 in Hrun.
    match type of Hrun with
    | match ?first ?s1 with _ => _ end = _ =>
        assert (Hkeeps : keeps build_items first);
        [|specialize (Hkeeps s1); destruct (first s1) as [[|] s2|e s2|]; try discriminate]
    end.
    { unfold emit, _3MF_Exporter.add_error.
      kept_auto;
        first [apply keeps_items_add_mesh_vertices | apply keeps_items_add_mesh_triangles]. }
    simpl in Hrun. unfold bind, modify, emit in Hrun. simpl in Hrun.
    apply IH in Hrun as [Hitems Hid]. simpl in Hitems, Hkeeps.
    change (live_instances (Some instance :: instances))
      with (instance :: live_instances instances).
    rewrite numbered_items_cons. split.
    + rewrite Hitems, <- app_assoc. simpl. f_equal; [exact Hkeeps|]. f_equal.
      rewrite <- (numbered_items_unsigned (object_id + id + 1)).
      rewrite <- (numbered_items_unsigned (object_id + to_unsigned (id + 1))).
      now rewrite to_unsigned_add_r, Z.add_assoc.
    + rewrite bool_decide_eq_false_2 by discriminate. rewrite Hid.
      case_bool_decide as Hnil.
      * rewrite Hnil. simpl. reflexivity.
      * simpl length. rewrite to_unsigned_add_l. f_equal. lia.
  - apply IH in Hrun. exact Hrun.
Qed.

Lemma items_of_model_objects (objects : list (option ModelObject.t)) (object_id : Z)
    (st st' : _3MF_Exporter.t) :
  add_model_objects object_id objects st = Returns true st' ->
  build_items st'
  = build_items st ++ numbered_items object_id (scene_instances objects).
Proof.
  revert object_id st. induction objects as [|[obj|] objects IH]; intros object_id st Hrun.
  - inversion Hrun; subst. simpl. now rewrite app_nil_r.
  - simpl in Hrun. unfold bind at 1 in Hrun. unfold modify at 1 in Hrun.
    unfold bind at 1 in Hrun. unfold _add_object_to_model_stream in Hrun.
    unfold bind at 1 in Hrun.
    match type of Hrun with
    | context [add_object_instances ?o ?c ?i 0 ?l ?s] =>
        destruct (add_object_instances o c i 0 l s) as [[[|] id'] s1|e s1|] eqn:Hobject
    end; try discriminate; simpl in Hrun.
    apply items_of_object_instances in Hobject as [Hitems Hid].
    apply IH in Hrun. simpl in Hitems.
    change (scene_instances (Some obj :: objects))
      with (live_instances (ModelObject.instances obj) ++ scene_instances objects).
    rewrite numbered_items_app, app_assoc, Hrun. f_equal.
    + rewrite Hitems. now rewrite Z.add_0_r.
    + rewrite numbered_items_unsigned. subst id'. case_bool_decide as Hnil.
      * rewrite Hnil. reflexivity.
      * rewrite <- (numbered_items_unsigned (object_id + _)), to_unsigned_add_r.
        rewrite numbered_items_unsigned. reflexivity.
  - apply IH in Hrun. exact Hrun.
Qed.

(** X14.  When the model file is added, the build items are those of the
    instances of the scene, null pointers left out: one item per instance,
    in the order of the objects and of their instances, numbered from 1
    on, with the matrix and the printable flag of the instance. *)
Theorem every_instance_is_a_build_item
    (out : OutputFile.t) (model : Model.t) (st st' : _3MF_Exporter.t) :
  _add_model_file_to_archive out model st = Returns true st' ->
  build_items st' = numbered_items 1 (scene_instances (Model.objects model)).
Proof.
  intros Hrun. unfold _add_model_file_to_archive in Hrun.
  unfold bind at 1 2 3 in Hrun. unfold modify at 1 2, emit at 1 in Hrun.
  unfold modify at 1 in Hrun. unfold bind at 1 in Hrun.
  match type of Hrun with
  | context [add_model_objects 1 ?l ?s] =>
      destruct (add_model_objects 1 l s) as [[|] s1|e s1|] eqn:Hobjects
  end; try discriminate; simpl in Hrun.
  apply items_of_model_objects in Hobjects. simpl in Hobjects.
  assert (Hrest : keeps build_items
            (emit [end_element RESOURCES_TAG] ;;
             ok <- _add_build_to_model_stream ;;
             if negb ok then _3MF_Exporter.add_error "Unable to add build to archive" ;; ret false
             else
               emit [end_element MODEL_TAG] ;;
               st <- get ;;
               ok <- mz_zip_writer_add_mem out MODEL_FILE (xml_part (stream st)) ;;
               if ok then ret true
               else _3MF_Exporter.add_error "Unable to add model file to archive" ;; ret false)).
  { unfold _add_build_to_model_stream, mz_zip_writer_add_mem, emit,
      _3MF_Exporter.add_error. kept_auto. }
  specialize (Hrest s1). rewrite Hrun in Hrest. exact (eq_trans Hrest Hobjects).
Qed.

End BuildItems.

Section Ranges.
Import _3MF_Exporter.
Context `{Externals}.

(** ** The ranges of triangles that the exporter records *)

Definition facet_count (v : ModelVolume.t) : Z :=
  Z.of_nat (length (TriangleMesh.its_indices (ModelVolume.mesh v))).

Fixpoint total_facets (volumes : list (option ModelVolume.t)) : Z :=
  match volumes with
  | [] => 0
  | None :: rest => total_facets rest
  | Some v :: rest => facet_count v + total_facets rest
  end.

Definition with_facets (v : option ModelVolume.t) : Prop :=
  match v with
  | Some v => 0 < facet_count v
  | None => True
  end.

(** the volumes with their positions, from position [j] on *)
Fixpoint numbered (j : nat) (volumes : list (option ModelVolume.t))
  : list (nat * option ModelVolume.t) :=
  match volumes with
  | [] => []
  | v :: rest => (j, v) :: numbered (S j) rest
  end.

Lemma imap_pair_numbered (volumes : list (option ModelVolume.t)) :
  imap pair volumes = numbered 0 volumes.
Proof.
  assert (Hshift : forall j l, imap (fun k => pair (j + k)%nat) l = numbered j l).
  { intros j l. revert j. induction l as [|v l IH]; intros j; [reflexivity|].
    simpl. rewrite Nat.add_0_r. f_equal. rewrite <- IH.
    apply imap_ext. intros k x _. simpl. f_equal. lia. }
  apply (Hshift 0%nat).
Qed.

(** the ranges that the model config file gives for the volumes of an
    object: [firstid] and [lastid] of every volume that has offsets *)
Definition written_ranges (offsets : gmap nat Offsets.t)
    (volumes : list (nat * option ModelVolume.t)) : list VolumeMetadata.t :=
  omap (fun entry : nat * option ModelVolume.t =>
          match entry with
          | (k, Some _) =>
              (fun it => VolumeMetadata.make (Offsets.first_triangle_id it)
                                             (Offsets.last_triangle_id it))
                <$> offsets !! k
          | (_, None) => None
          end)
       volumes.

(** one range after the other, each as long as its volume has triangles *)
Fixpoint ranges_from (start : Z) (volumes : list (option ModelVolume.t))
  : list VolumeMetadata.t :=
  match volumes with
  | [] => []
  | None :: rest => ranges_from start rest
  | Some v :: rest =>
      VolumeMetadata.make start (start + facet_count v - 1)
        :: ranges_from (start + facet_count v) rest
  end.

Lemma ranges_from_cover (volumes : list (option ModelVolume.t)) (start : Z) :
  Forall with_facets volumes ->
  covers start (ranges_from start volumes) (start + total_facets volumes).
Proof.
  intros Hall. revert start.
  induction Hall as [|[v|] rest Hv Hrest IH]; intros start; simpl.
  - lia.
  - simpl in Hv.
    assert (0 <= total_facets rest).
    { clear. induction rest as [|[v'|] rest IH]; simpl; unfold facet_count in *; lia. }
    repeat split; try lia.
    replace (start + facet_count v - 1 + 1) with (start + facet_count v) by lia.
    replace (start + (facet_count v + total_facets rest))
      with (start + facet_count v + total_facets rest) by lia.
    apply IH.
  - apply IH.
Qed.

Lemma total_facets_nonneg (volumes : list (option ModelVolume.t)) :
  0 <= total_facets volumes.
Proof. induction volumes as [|[v|] rest IH]; simpl; unfold facet_count in *; lia. Qed.

(** what [modify_offsets] does to the offsets of the object *)
Lemma offsets_of_modified (curr_id : Z) (f : gmap nat Offsets.t -> gmap nat Offsets.t)
    (st : _3MF_Exporter.t) :
  is_Some (objects_data st !! curr_id) ->
  forall st', modify_offsets curr_id f st = Returns tt st' ->
  is_Some (objects_data st' !! curr_id)
  /\ offsets_of curr_id st' = f (offsets_of curr_id st).
Proof.
  intros [d Hd] st' Hrun. unfold modify_offsets, modify in Hrun.
  inversion Hrun; subst; clear Hrun. unfold offsets_of. simpl.
  rewrite lookup_alter_eq, Hd. simpl. split; [eauto|reflexivity].
Qed.

Lemma vertices_give_offsets (curr_id : Z) (volumes : list (nat * option ModelVolume.t))
    (vertices_count vertices_count' : Z) (st st' : _3MF_Exporter.t) :
  add_mesh_vertices curr_id vertices_count volumes st = Returns (true, vertices_count') st' ->
  is_Some (objects_data st !! curr_id) ->
  is_Some (objects_data st' !! curr_id)
  /\ forall k,
       is_Some (offsets_of curr_id st !! k) \/ (exists v, (k, Some v) ∈ volumes) ->
       is_Some (offsets_of curr_id st' !! k).
Proof.
  revert vertices_count st.
  induction volumes as [|[k [volume|]] volumes IH]; intros vertices_count st Hrun Hdata.
  - inversion Hrun; subst. split; [assumption|].
    intros k [Hk|[v Hv]]; [assumption|]. now apply elem_of_nil in Hv.
  - simpl in Hrun.
    destruct (negb (TriangleMesh.repaired (ModelVolume.mesh volume))); [discriminate|].
    destruct (negb (TriangleMesh.has_shared_vertices (ModelVolume.mesh volume)));
      [discriminate|].
    unfold bind at 1 in Hrun.
    match type of Hrun with
    | context [modify_offsets curr_id ?f st] =>
        destruct (modify_offsets curr_id f st) as [[] s1|e s1|] eqn:Hmodify;
        try discriminate;
        destruct (offsets_of_modified curr_id f st Hdata s1 Hmodify) as [Hdata1 Hoffsets1]
    end.
    destruct (bool_decide _); [discriminate|].
    unfold bind at 1, emit at 1, modify at 1 in Hrun.
    apply IH in Hrun as [Hdata' Hkeys]; [|exact Hdata1].
    split; [exact Hdata'|]. intros k' Hk'. apply Hkeys.
    change (offsets_of curr_id (set_stream _ s1)) with (offsets_of curr_id s1).
    rewrite Hoffsets1.
    destruct (decide (k' = k)) as [->|Hne].
    + left. destruct (offsets_of curr_id st !! k) as [o|] eqn:Ho.
      * rewrite Ho. eauto.
      * rewrite lookup_insert_eq. eauto.
    + destruct Hk' as [Hk'|[v Hv]].
      * left. destruct (offsets_of curr_id st !! k) as [o|] eqn:Ho; [assumption|].
        now rewrite lookup_insert_ne.
      * right. exists v. apply elem_of_cons in Hv as [Heq|Hv]; [congruence|assumption].
  - simpl in Hrun. apply IH in Hrun as [Hdata' Hkeys]; [|assumption].
    split; [assumption|]. intros k' [Hk'|[v Hv]]; apply Hkeys; [now left|].
    right. exists v. apply elem_of_cons in Hv as [Heq|Hv]; [congruence|assumption].
Qed.

Lemma triangles_give_ranges (curr_id : Z) (volumes : list (option ModelVolume.t))
    (j : nat) (triangles_count : Z) (st st' : _3MF_Exporter.t) :
  add_mesh_triangles curr_id triangles_count (numbered j volumes) st = Returns tt st' ->
  is_Some (objects_data st !! curr_id) ->
  (forall k v, (k, Some v) ∈ numbered j volumes -> is_Some (offsets_of curr_id st !! k)) ->
  Forall with_facets volumes ->
  0 <= triangles_count ->
  triangles_count + total_facets volumes < 2 ^ 31 ->
  (forall k, (k < j)%nat -> offsets_of curr_id st' !! k = offsets_of curr_id st !! k)
  /\ written_ranges (offsets_of curr_id st') (numbered j volumes)
     = ranges_from triangles_count volumes.
Proof.
  revert j triangles_count st.
  induction volumes as [|[volume|] volumes IH];
    intros j triangles_count st Hrun Hdata Hkeys Hfacets Hstart Hfit.
  - inversion Hrun; subst. split; reflexivity.
  - simpl in Hrun. unfold bind at 1, get at 1 in Hrun. unfold bind at 1 in Hrun.
    match type of Hrun with
    | context [modify_offsets curr_id ?f st] =>
        destruct (modify_offsets curr_id f st) as [[] s1|e s1|] eqn:Hmodify;
        try discriminate;
        destruct (offsets_of_modified curr_id f st Hdata s1 Hmodify) as [Hdata1 Hoffsets1]
    end.
    unfold bind at 1, emit at 1, modify at 1 in Hrun.
    inversion Hfacets as [|? ? Hvolume Hrest]; subst. simpl in Hvolume, Hfit.
    pose proof (total_facets_nonneg volumes) as Hnonneg.
    fold (facet_count volume) in Hrun, Hoffsets1.
    rewrite (to_int_small (facet_count volume)) in Hrun, Hoffsets1 by lia.
    rewrite (to_unsigned_small (triangles_count + facet_count volume)) in Hrun, Hoffsets1
      by lia.
    rewrite (to_unsigned_small (triangles_count + facet_count volume - 1)) in Hoffsets1
      by lia.
    apply IH in Hrun as [Hbelow Hranges]; try assumption; try lia.
    + change (offsets_of curr_id (set_stream _ s1)) with (offsets_of curr_id s1)
        in Hbelow.
      destruct (Hkeys j volume) as [o Ho]; [apply list_elem_of_here|].
      split.
      * intros k Hk. rewrite Hbelow by lia. rewrite Hoffsets1.
        apply lookup_alter_ne. lia.
      * simpl. rewrite Hranges, (Hbelow j) by lia.
        rewrite Hoffsets1, lookup_alter_eq, Ho. reflexivity.
    + intros k v Hin.
      change (offsets_of curr_id (set_stream _ s1)) with (offsets_of curr_id s1).
      rewrite Hoffsets1.
      destruct (Hkeys k v) as [o Ho]; [now apply list_elem_of_further|].
      destruct (decide (j = k)) as [->|Hne].
      * rewrite lookup_alter_eq, Ho. eauto.
      * rewrite lookup_alter_ne, Ho by assumption. eauto.
  - simpl in Hrun. inversion Hfacets as [|? ? _ Hrest]; subst.
    apply IH in Hrun as [Hbelow Hranges]; try assumption.
    + split; [|exact Hranges]. intros k Hk. apply Hbelow. lia.
    + intros k v Hin. apply (Hkeys k v). now apply list_elem_of_further.
Qed.

(** X15.  When the mesh of an object is written, the ranges of triangles
    recorded for its volumes, which the model config file gives as
    [firstid] and [lastid], start at 0, follow one another without a gap
    and end at the last triangle written: they partition the triangles of
    the object, provided every volume has a triangle and the count fits
    an [int]. *)
Theorem written_ranges_partition_the_triangles
    (object : ModelObject.t) (curr_id : Z) (st st' : _3MF_Exporter.t) :
  let volumes := ModelObject.volumes object in
  _add_mesh_to_object_stream object curr_id st = Returns true st' ->
  is_Some (objects_data st !! curr_id) ->
  Forall with_facets volumes ->
  total_facets volumes < 2 ^ 31 ->
  written_ranges (offsets_of curr_id st') (imap pair volumes) = ranges_from 0 volumes
  /\ partition_of (total_facets volumes)
       (written_ranges (offsets_of curr_id st') (imap pair volumes)).
Proof.
  intros volumes Hrun Hdata Hfacets Hfit.
  unfold _add_mesh_to_object_stream in Hrun. fold volumes in Hrun.
  rewrite imap_pair_numbered in *.
  unfold bind at 1, emit at 1, modify at 1 in Hrun. unfold bind at 1 in Hrun.
  match type of Hrun with
  | context [add_mesh_vertices curr_id 0 ?l ?s] =>
      destruct (add_mesh_vertices curr_id 0 l s) as [[[|] n] s1|e s1|] eqn:Hvertices
  end; try discriminate; simpl in Hrun.
  apply vertices_give_offsets in Hvertices as [Hdata1 Hkeys]; [|exact Hdata].
  unfold bind at 1, emit at 1, modify at 1 in Hrun. unfold bind at 1 in Hrun.
  match type of Hrun with
  | context [add_mesh_triangles curr_id 0 ?l ?s] =>
      destruct (add_mesh_triangles curr_id 0 l s) as [[] s2|e s2|] eqn:Htriangles
  end; try discriminate.
  unfold bind, emit, modify, ret in Hrun. inversion Hrun; subst; clear Hrun.
  apply triangles_give_ranges in Htriangles as [_ Hranges];
    try assumption; try lia.
  - change (offsets_of curr_id (set_stream _ s2)) with (offsets_of curr_id s2).
    rewrite Hranges. split; [reflexivity|].
    apply (ranges_from_cover volumes 0 Hfacets).
  - intros k v Hin.
    change (offsets_of curr_id (set_stream _ s1)) with (offsets_of curr_id s1).
    apply Hkeys. right. now exists v.
Qed.

End Ranges.

Section Meshes.
Context `{Externals}.

(** ** The mesh of an object, written and read *)

(** the count of vertices once those of a volume have been written *)
Definition vertex_count_after (n : Z) (v : ModelVolume.t) : Z :=
  to_unsigned (n + to_int (Z.of_nat (length (TriangleMesh.its_vertices (ModelVolume.mesh v))))).

(** the volumes that are not null, each with the count of the vertices
    written before its own, from the count [n] on *)
Fixpoint with_first_vertex (n : Z) (volumes : list (option ModelVolume.t))
  : list (Z * ModelVolume.t) :=
  match volumes with
  | [] => []
  | None :: rest => with_first_vertex n rest
  | Some v :: rest => (n, v) :: with_first_vertex (vertex_count_after n v) rest
  end.

Definition written_vertex (matrix : Transform3d) (vertex : Vec3f) : list xml_event :=
  let '(x, y, z) := to_float3 (matrix_apply matrix (to_double3 vertex)) in
  [start_element VERTEX_TAG
     ["x"; float_to_string max_digits10 x; "y"; float_to_string max_digits10 y;
      "z"; float_to_string max_digits10 z];
   end_element VERTEX_TAG].

Definition written_vertices (volumes : list (option ModelVolume.t)) : list xml_event :=
  flat_map (fun v : option ModelVolume.t =>
              match v with
              | Some v =>
                  flat_map (written_vertex (ModelVolume.get_matrix v))
                           (TriangleMesh.its_vertices (ModelVolume.mesh v))
              | None => []
              end)
           volumes.

Definition written_triangle (first_vertex_id : Z) (triangle : list Z) : list xml_event :=
  [start_element TRIANGLE_TAG
     (flat_map (fun j : nat =>
                  ["v" +:+ pretty (Z.of_nat j + 1);
                   pretty (to_unsigned (default 0 (triangle !! j) + first_vertex_id))])
               [0; 1; 2]%nat);
   end_element TRIANGLE_TAG].

Definition written_triangles (n : Z) (volumes : list (option ModelVolume.t))
  : list xml_event :=
  flat_map (fun '(first_vertex_id, v) =>
              flat_map (written_triangle first_vertex_id)
                       (TriangleMesh.its_indices (ModelVolume.mesh v)))
           (with_first_vertex n volumes).

Definition written_mesh (volumes : list (option ModelVolume.t)) : list xml_event :=
  [start_element MESH_TAG []; start_element VERTICES_TAG []]
  ++ written_vertices volumes
  ++ [end_element VERTICES_TAG; start_element TRIANGLES_TAG []]
  ++ written_triangles 0 volumes
  ++ [end_element TRIANGLES_TAG; end_element MESH_TAG].

(** what the importer keeps of a vertex and of a triangle written so *)
Definition vertex_as_read (unit_factor : float) (matrix : Transform3d) (vertex : Vec3f)
  : list float :=
  let '(x, y, z) := to_float3 (matrix_apply matrix (to_double3 vertex)) in
  [fmul unit_factor (to_float (atof (float_to_string max_digits10 x)));
   fmul unit_factor (to_float (atof (float_to_string max_digits10 y)));
   fmul unit_factor (to_float (atof (float_to_string max_digits10 z)))].

Definition vertices_as_read (unit_factor : float) (volumes : list (option ModelVolume.t))
  : list float :=
  flat_map (fun v : option ModelVolume.t =>
              match v with
              | Some v =>
                  flat_map (vertex_as_read unit_factor (ModelVolume.get_matrix v))
                           (TriangleMesh.its_vertices (ModelVolume.mesh v))
              | None => []
              end)
           volumes.

Definition triangle_as_read (first_vertex_id : Z) (triangle : list Z) : list Z :=
  map (fun j : nat => to_unsigned (default 0 (triangle !! j) + first_vertex_id))
      [0; 1; 2]%nat.

Definition triangles_as_read (n : Z) (volumes : list (option ModelVolume.t)) : list Z :=
  flat_map (fun '(first_vertex_id, v) =>
              flat_map (triangle_as_read first_vertex_id)
                       (TriangleMesh.its_indices (ModelVolume.mesh v)))
           (with_first_vertex n volumes).

(** the importer with another geometry for the object being read *)
Definition with_geometry (g : Geometry.t) (st : _3MF_Importer.t) : _3MF_Importer.t :=
  let c := m_curr_object st in
  set_m_curr_object
    (CurrentObject.mk (CurrentObject.id c) (CurrentObject.model_object_idx c) g
       (CurrentObject.object c) (CurrentObject.components c)) st.

Definition push_vertices (l : list float) (st : _3MF_Importer.t) : _3MF_Importer.t :=
  let g := CurrentObject.geometry (m_curr_object st) in
  with_geometry (Geometry.mk (Geometry.vertices g ++ l) (Geometry.triangles g)) st.

Definition push_triangles (l : list Z) (st : _3MF_Importer.t) : _3MF_Importer.t :=
  let g := CurrentObject.geometry (m_curr_object st) in
  with_geometry (Geometry.mk (Geometry.vertices g) (Geometry.triangles g ++ l)) st.

Lemma push_vertices_nil (st : _3MF_Importer.t) : push_vertices [] st = st.
Proof. unfold push_vertices, with_geometry. simpl. rewrite app_nil_r. reflexivity. Qed.

Lemma push_vertices_app (l1 l2 : list float) (st : _3MF_Importer.t) :
  push_vertices l2 (push_vertices l1 st) = push_vertices (l1 ++ l2) st.
Proof. unfold push_vertices, with_geometry. simpl. rewrite app_assoc. reflexivity. Qed.

Lemma push_triangles_nil (st : _3MF_Importer.t) : push_triangles [] st = st.
Proof. unfold push_triangles, with_geometry. simpl. rewrite app_nil_r. reflexivity. Qed.

Lemma push_triangles_app (l1 l2 : list Z) (st : _3MF_Importer.t) :
  push_triangles l2 (push_triangles l1 st) = push_triangles (l1 ++ l2) st.
Proof. unfold push_triangles, with_geometry. simpl. rewrite app_assoc. reflexivity. Qed.

Lemma unit_factor_push_vertices (l : list float) (st : _3MF_Importer.t) :
  m_unit_factor (push_vertices l st) = m_unit_factor st.
Proof. reflexivity. Qed.

Lemma written_vertex_is_read (matrix : Transform3d) (vertex : Vec3f)
    (rest : list xml_event) (st : _3MF_Importer.t) :
  for_each model_xml_event (written_vertex matrix vertex ++ rest) st
  = for_each model_xml_event rest
      (push_vertices (vertex_as_read (m_unit_factor st) matrix vertex) st).
Proof.
  unfold written_vertex, vertex_as_read.
  destruct (to_float3 (matrix_apply matrix (to_double3 vertex))) as [[x y] z].
  reflexivity.
Qed.

Lemma written_vertices_of_volume_are_read (matrix : Transform3d) (vertices : list Vec3f)
    (rest : list xml_event) (st : _3MF_Importer.t) :
  for_each model_xml_event (flat_map (written_vertex matrix) vertices ++ rest) st
  = for_each model_xml_event rest
      (push_vertices (flat_map (vertex_as_read (m_unit_factor st) matrix) vertices) st).
Proof.
  revert st. induction vertices as [|vertex vertices IH]; intros st.
  - simpl. now rewrite push_vertices_nil.
  - simpl flat_map. rewrite <- app_assoc, written_vertex_is_read, IH.
    rewrite unit_factor_push_vertices, push_vertices_app. reflexivity.
Qed.

Lemma written_vertices_are_read (volumes : list (option ModelVolume.t))
    (rest : list xml_event) (st : _3MF_Importer.t) :
  for_each model_xml_event (written_vertices volumes ++ rest) st
  = for_each model_xml_event rest
      (push_vertices (vertices_as_read (m_unit_factor st) volumes) st).
Proof.
  revert st. induction volumes as [|[v|] volumes IH]; intros st.
  - simpl. now rewrite push_vertices_nil.
  - change (written_vertices (Some v :: volumes))
      with (flat_map (written_vertex (ModelVolume.get_matrix v))
                     (TriangleMesh.its_vertices (ModelVolume.mesh v))
            ++ written_vertices volumes).
    change (vertices_as_read (m_unit_factor st) (Some v :: volumes))
      with (flat_map (vertex_as_read (m_unit_factor st) (ModelVolume.get_matrix v))
                     (TriangleMesh.its_vertices (ModelVolume.mesh v))
            ++ vertices_as_read (m_unit_factor st) volumes).
    rewrite <- app_assoc, written_vertices_of_volume_are_read, IH.
    rewrite unit_factor_push_vertices, push_vertices_app. reflexivity.
  - apply IH.
Qed.

Lemma written_triangle_is_read (first_vertex_id : Z) (triangle : list Z)
    (rest : list xml_event) (st : _3MF_Importer.t) :
  for_each model_xml_event (written_triangle first_vertex_id triangle ++ rest) st
  = for_each model_xml_event rest
      (push_triangles (triangle_as_read first_vertex_id triangle) st).
Proof.
  unfold written_triangle, triangle_as_read.
  change (for_each model_xml_event (?a :: end_element TRIANGLE_TAG :: rest) st)
    with (for_each model_xml_event ([a; end_element TRIANGLE_TAG] ++ rest) st).
  simpl app. rewrite for_each_cons.
  change (model_xml_event (start_element TRIANGLE_TAG ?a)) with (_handle_start_triangle a).
  unfold _handle_start_triangle, modify_geometry, bind, modify, ret.
  rewrite for_each_cons.
  change (model_xml_event (end_element TRIANGLE_TAG)) with _handle_end_triangle.
  unfold _handle_end_triangle, bind, ret. f_equal.
  unfold push_triangles, with_geometry. simpl flat_map. simpl map.
  unfold get_attribute_value_int.
  change (get_attribute_value_charptr ?l V1_ATTR)
    with (Some (pretty (to_unsigned (default 0 (triangle !! 0%nat) + first_vertex_id)))).
  change (get_attribute_value_charptr ?l V2_ATTR)
    with (Some (pretty (to_unsigned (default 0 (triangle !! 1%nat) + first_vertex_id)))).
  change (get_attribute_value_charptr ?l V3_ATTR)
    with (Some (pretty (to_unsigned (default 0 (triangle !! 2%nat) + first_vertex_id)))).
  cbv iota. rewrite !atoi_pretty.
  assert (Hidem : forall z, to_unsigned (to_unsigned z) = to_unsigned z).
  { intros z. unfold to_unsigned. apply Z.mod_mod. lia. }
  rewrite !Hidem. reflexivity.
Qed.

Lemma written_triangles_of_volume_are_read (first_vertex_id : Z)
    (triangles : list (list Z)) (rest : list xml_event) (st : _3MF_Importer.t) :
  for_each model_xml_event
    (flat_map (written_triangle first_vertex_id) triangles ++ rest) st
  = for_each model_xml_event rest
      (push_triangles (flat_map (triangle_as_read first_vertex_id) triangles) st).
Proof.
  revert st. induction triangles as [|triangle triangles IH]; intros st.
  - simpl. now rewrite push_triangles_nil.
  - change (flat_map (written_triangle first_vertex_id) (triangle :: triangles))
      with (written_triangle first_vertex_id triangle
            ++ flat_map (written_triangle first_vertex_id) triangles).
    change (flat_map (triangle_as_read first_vertex_id) (triangle :: triangles))
      with (triangle_as_read first_vertex_id triangle
            ++ flat_map (triangle_as_read first_vertex_id) triangles).
    rewrite <- app_assoc, written_triangle_is_read, IH.
    rewrite push_triangles_app. reflexivity.
Qed.

Lemma written_triangles_are_read (n : Z) (volumes : list (option ModelVolume.t))
    (rest : list xml_event) (st : _3MF_Importer.t) :
  for_each model_xml_event (written_triangles n volumes ++ rest) st
  = for_each model_xml_event rest (push_triangles (triangles_as_read n volumes) st).
Proof.
  revert n st. induction volumes as [|[v|] volumes IH]; intros n st.
  - simpl. now rewrite push_triangles_nil.
  - change (written_triangles n (Some v :: volumes))
      with (flat_map (written_triangle n) (TriangleMesh.its_indices (ModelVolume.mesh v))
            ++ written_triangles (vertex_count_after n v) volumes).
    change (triangles_as_read n (Some v :: volumes))
      with (flat_map (triangle_as_read n) (TriangleMesh.its_indices (ModelVolume.mesh v))
            ++ triangles_as_read (vertex_count_after n v) volumes).
    rewrite <- app_assoc, written_triangles_of_volume_are_read, IH.
    rewrite push_triangles_app. reflexivity.
  - apply IH.
Qed.

Lemma written_mesh_is_read (volumes : list (option ModelVolume.t))
    (st : _3MF_Importer.t) :
  for_each model_xml_event (written_mesh volumes) st
  = Returns true
      (with_geometry
         (Geometry.mk (vertices_as_read (m_unit_factor st) volumes)
                      (triangles_as_read 0 volumes))
         st).
Proof.
  assert (Hstart : forall rest s,
            for_each model_xml_event
              ([start_element MESH_TAG []; start_element VERTICES_TAG []] ++ rest) s
            = for_each model_xml_event rest (with_geometry Geometry.reset s))
    by reflexivity.
  assert (Hmiddle : forall rest s,
            for_each model_xml_event
              ([end_element VERTICES_TAG; start_element TRIANGLES_TAG []] ++ rest) s
            = for_each model_xml_event rest
                (with_geometry
                   (Geometry.mk
                      (Geometry.vertices (CurrentObject.geometry (m_curr_object s))) [])
                   s))
    by reflexivity.
  unfold written_mesh.
  rewrite Hstart, written_vertices_are_read, Hmiddle, written_triangles_are_read.
  reflexivity.
Qed.

End Meshes.

Section MeshesWritten.
Import _3MF_Exporter.
Context `{Externals}.

(** the offsets hold, for every volume from position [j] on that is not
    null, the count of the vertices written before it *)
Fixpoint first_ids_at (j : nat) (n : Z) (volumes : list (option ModelVolume.t))
    (m : gmap nat Offsets.t) : Prop :=
  match volumes with
  | [] => True
  | None :: rest => first_ids_at (S j) n rest m
  | Some v :: rest =>
      Offsets.first_vertex_id <$> m !! j = Some n
      /\ first_ids_at (S j) (vertex_count_after n v) rest m
  end.

Lemma first_ids_at_ext (volumes : list (option ModelVolume.t)) (j : nat) (n : Z)
    (m m' : gmap nat Offsets.t) :
  (forall k, (j <= k)%nat ->
     Offsets.first_vertex_id <$> m' !! k = Offsets.first_vertex_id <$> m !! k) ->
  first_ids_at j n volumes m -> first_ids_at j n volumes m'.
Proof.
  revert j n. induction volumes as [|[v|] volumes IH]; intros j n Hsame Hids; simpl in *.
  - exact I.
  - destruct Hids as [Hj Hrest]. split.
    + rewrite Hsame by lia. exact Hj.
    + apply IH; [|exact Hrest]. intros k Hk. apply Hsame. lia.
  - apply IH; [|exact Hids]. intros k Hk. apply Hsame. lia.
Qed.

Lemma offsets_of_set_stream (curr_id : Z) (events : list xml_event)
    (st : _3MF_Exporter.t) :
  offsets_of curr_id (set_stream events st) = offsets_of curr_id st.
Proof. reflexivity. Qed.

Lemma offsets_of_altered (curr_id : Z) (f : gmap nat Offsets.t -> gmap nat Offsets.t)
    (st : _3MF_Exporter.t) :
  is_Some (objects_data st !! curr_id) ->
  offsets_of curr_id
    (set_objects_data
       (alter (fun d => ObjectData.mk (ObjectData.object d)
                                      (f (ObjectData.volumes_offsets d)))
              curr_id (objects_data st)) st)
  = f (offsets_of curr_id st).
Proof.
  intros [d Hd]. unfold offsets_of. simpl. rewrite lookup_alter_eq, Hd. reflexivity.
Qed.

Lemma data_of_altered (curr_id : Z) (g : ObjectData.t -> ObjectData.t)
    (st : _3MF_Exporter.t) :
  is_Some (objects_data st !! curr_id) ->
  is_Some (objects_data (set_objects_data (alter g curr_id (objects_data st)) st)
           !! curr_id).
Proof. intros [d Hd]. simpl. rewrite lookup_alter_eq, Hd. simpl. eauto. Qed.

Lemma vertices_written (curr_id : Z) (volumes : list (option ModelVolume.t)) (j : nat)
    (n n' : Z) (ex ex' : _3MF_Exporter.t) :
  add_mesh_vertices curr_id n (numbered j volumes) ex = Returns (true, n') ex' ->
  is_Some (objects_data ex !! curr_id) ->
  (forall k, (j <= k)%nat -> offsets_of curr_id ex !! k = None) ->
  stream ex' = stream ex ++ written_vertices volumes
  /\ is_Some (objects_data ex' !! curr_id)
  /\ (forall k, (k < j)%nat -> offsets_of curr_id ex' !! k = offsets_of curr_id ex !! k)
  /\ first_ids_at j n volumes (offsets_of curr_id ex').
Proof.
  revert j n ex. induction volumes as [|[v|] volumes IH]; intros j n ex Hrun Hdata Hnone.
  - inversion Hrun; subst. rewrite app_nil_r. repeat split; auto.
  - simpl in Hrun.
    destruct (negb (TriangleMesh.repaired (ModelVolume.mesh v))); [discriminate|].
    destruct (negb (TriangleMesh.has_shared_vertices (ModelVolume.mesh v)));
      [discriminate|].
    unfold bind at 1, modify_offsets at 1, modify at 1 in Hrun.
    destruct (bool_decide _); [discriminate|].
    unfold bind at 1, emit at 1, modify at 1 in Hrun.
    match type of Hrun with
    | add_mesh_vertices _ _ _ (set_stream _ ?s) = _ => set (s1 := s) in *
    end.
    assert (Hdata1 : is_Some (objects_data s1 !! curr_id))
      by (apply data_of_altered; exact Hdata).
    assert (Hoffsets1 : offsets_of curr_id s1
                        = <[j := Offsets.make n]> (offsets_of curr_id ex)).
    { pose proof (Hnone j (Nat.le_refl j)) as Hj.
      destruct Hdata as [d Hd]. unfold offsets_of in *. unfold s1. simpl.
      rewrite lookup_alter_eq, Hd in *. simpl. now rewrite Hj. }
    apply IH in Hrun as (Hstream & Hdata' & Hbelow & Hids).
    + split; [|split; [exact Hdata'|split]].
      * rewrite Hstream. simpl stream. rewrite <- app_assoc. reflexivity.
      * intros k Hk. rewrite Hbelow by lia. rewrite offsets_of_set_stream, Hoffsets1.
        apply lookup_insert_ne. lia.
      * simpl. split; [|exact Hids].
        rewrite Hbelow by lia. rewrite offsets_of_set_stream, Hoffsets1.
        now rewrite lookup_insert_eq.
    + exact Hdata1.
    + intros k Hk. rewrite offsets_of_set_stream, Hoffsets1.
      rewrite lookup_insert_ne by lia. apply Hnone. lia.
  - simpl in Hrun. apply IH in Hrun as (Hstream & Hdata' & Hbelow & Hids).
    + split; [exact Hstream|]. split; [exact Hdata'|]. split; [|exact Hids].
      intros k Hk. apply Hbelow. lia.
    + exact Hdata.
    + intros k Hk. apply Hnone. lia.
Qed.

Lemma triangles_written (curr_id : Z) (volumes : list (option ModelVolume.t)) (j : nat)
    (n triangles_count : Z) (st st' : _3MF_Exporter.t) :
  add_mesh_triangles curr_id triangles_count (numbered j volumes) st = Returns tt st' ->
  is_Some (objects_data st !! curr_id) ->
  first_ids_at j n volumes (offsets_of curr_id st) ->
  stream st' = stream st ++ written_triangles n volumes.
Proof.
  revert j n triangles_count st.
  induction volumes as [|[v|] volumes IH]; intros j n triangles_count st Hrun Hdata Hids.
  - inversion Hrun; subst. now rewrite app_nil_r.
  - simpl in Hrun, Hids. destruct Hids as [Hj Hids].
    unfold bind at 1, get at 1 in Hrun.
    unfold bind at 1, modify_offsets at 1, modify at 1 in Hrun.
    unfold bind at 1, emit at 1, modify at 1 in Hrun.
    destruct (offsets_of curr_id st !! j) as [o|] eqn:Ho; [|discriminate].
    simpl in Hj. injection Hj as Hj. subst n.
    apply (IH (S j) (vertex_count_after (Offsets.first_vertex_id o) v)) in Hrun.
    + rewrite Hrun. simpl stream. rewrite <- app_assoc. reflexivity.
    + apply data_of_altered. exact Hdata.
    + apply (first_ids_at_ext volumes (S j) _ (offsets_of curr_id st)); [|exact Hids].
      intros k Hk. destruct Hdata as [d Hd]. unfold offsets_of. simpl.
      rewrite lookup_alter_eq, Hd. simpl. rewrite lookup_alter_ne by lia. reflexivity.
  - simpl in Hrun, Hids. apply (IH (S j) n) in Hrun; assumption.
Qed.

(** X16.  The mesh that the exporter writes for an object is read back by
    the importer as one geometry: the vertices are those of the volumes,
    one volume after the other, each moved by the matrix of its volume,
    printed, read by [atof] and multiplied by the unit factor; the
    triangles are those of the volumes with every index raised by the
    count of the vertices written before the volume. *)
Theorem written_mesh_is_read_back
    (object : ModelObject.t) (curr_id : Z) (data : ObjectData.t)
    (ex ex' : _3MF_Exporter.t) :
  let volumes := ModelObject.volumes object in
  _add_mesh_to_object_stream object curr_id ex = Returns true ex' ->
  objects_data ex !! curr_id = Some data ->
  ObjectData.volumes_offsets data = ∅ ->
  stream ex' = stream ex ++ written_mesh volumes
  /\ forall st : _3MF_Importer.t,
       for_each model_xml_event (written_mesh volumes) st
       = Returns true
           (with_geometry
              (Geometry.mk (vertices_as_read (m_unit_factor st) volumes)
                           (triangles_as_read 0 volumes))
              st).
Proof.
  intros volumes Hrun Hdata Hfresh. split; [|intros st; apply written_mesh_is_read].
  unfold _add_mesh_to_object_stream in Hrun. fold volumes in Hrun.
  rewrite imap_pair_numbered in Hrun.
  unfold bind at 1, emit at 1, modify at 1 in Hrun. unfold bind at 1 in Hrun.
  match type of Hrun with
  | context [add_mesh_vertices curr_id 0 ?l ?s] =>
      destruct (add_mesh_vertices curr_id 0 l s) as [[[|] n] s1|e s1|] eqn:Hvertices
  end; try discriminate; simpl in Hrun.
  apply vertices_written in Hvertices as (Hstream1 & Hdata1 & _ & Hids).
  - unfold bind at 1, emit at 1, modify at 1 in Hrun. unfold bind at 1 in Hrun.
    match type of Hrun with
    | context [add_mesh_triangles curr_id 0 ?l ?s] =>
        destruct (add_mesh_triangles curr_id 0 l s) as [[] s2|e s2|] eqn:Htriangles
    end; try discriminate.
    unfold bind, emit, modify, ret in Hrun. inversion Hrun; subst; clear Hrun.
    apply (triangles_written curr_id volumes 0 0) in Htriangles.
    + simpl stream. rewrite Htriangles. simpl stream. rewrite Hstream1. simpl stream.
      unfold written_mesh. rewrite <- !app_assoc. reflexivity.
    + exact Hdata1.
    + exact Hids.
  - exists data. exact Hdata.
  - intros k _. change (offsets_of curr_id ex !! k = None).
    unfold offsets_of. rewrite Hdata, Hfresh. apply lookup_empty.
Qed.

End MeshesWritten.

Section VolumeAttributes.
Context `{Externals}.

(** ** The attributes of a volume, written and applied *)

(** the keys that the last loop of [_generate_volumes] takes for itself *)
Definition reserved_key (key : string) : bool :=
  existsb (String.eqb key)
    [NAME_KEY; MODIFIER_KEY; VOLUME_TYPE_KEY; SOURCE_FILE_KEY; SOURCE_OBJECT_ID_KEY;
     SOURCE_VOLUME_ID_KEY; SOURCE_OFFSET_X_KEY; SOURCE_OFFSET_Y_KEY; SOURCE_OFFSET_Z_KEY].

(** the options that a volume written by the exporter leaves in the
    configuration of the volume made for it: the matrix first, under the
    key [matrix], then the options of the volume *)
Definition options_applied (config : DynamicPrintConfig) (volume : ModelVolume.t)
  : DynamicPrintConfig :=
  foldl (fun c key => set_deserialize c key (opt_serialize (ModelVolume.config volume) key))
        (set_deserialize config MATRIX_KEY
           (_3MF_Exporter.matrix_attribute (ModelVolume.get_matrix volume)))
        (config_keys (ModelVolume.config volume)).

Definition source_applied (source : Source.t) (volume : ModelVolume.t) : Source.t :=
  let written := ModelVolume.source volume in
  let '(ox, oy, oz) := Source.mesh_offset written in
  if String.eqb (Source.input_file written) "" then source
  else Source.mk (xml_escape (Source.input_file written)) (Source.object_idx written)
         (Source.volume_idx written)
         (atof (double_to_string default_precision ox),
          atof (double_to_string default_precision oy),
          atof (double_to_string default_precision oz)).

Lemma apply_option (v : ModelVolume.t) (key value : string) :
  reserved_key key = false ->
  apply_volume_metadata v (Metadata.mk key value)
  = ModelVolume.mk (ModelVolume.name v) (ModelVolume.mesh v) (ModelVolume.type v)
      (ModelVolume.transformation v) (ModelVolume.source v)
      (set_deserialize (ModelVolume.config v) key value).
Proof.
  unfold reserved_key. simpl existsb. intros Hkey.
  repeat (apply orb_false_iff in Hkey as [? Hkey]).
  destruct v as [name mesh type transformation [file oi vi [[ox oy] oz]] config].
  unfold apply_volume_metadata. simpl.
  repeat match goal with
         | Heq : String.eqb key _ = false |- _ => rewrite Heq; clear Heq
         end.
  reflexivity.
Qed.

Lemma apply_options (config : DynamicPrintConfig) (keys : list string) (v : ModelVolume.t) :
  Forall (fun key => reserved_key key = false) keys ->
  foldl apply_volume_metadata v (map (fun key => Metadata.mk key (opt_serialize config key)) keys)
  = ModelVolume.mk (ModelVolume.name v) (ModelVolume.mesh v) (ModelVolume.type v)
      (ModelVolume.transformation v) (ModelVolume.source v)
      (foldl (fun c key => set_deserialize c key (opt_serialize config key))
             (ModelVolume.config v) keys).
Proof.
  intros Hkeys. revert v. induction Hkeys as [|key keys Hkey Hkeys IH]; intros v.
  - now destruct v.
  - simpl. rewrite (apply_option v key _ Hkey), IH. reflexivity.
Qed.

(** X17.  The metadata that the exporter writes for a volume, applied in
    their order by the last loop of [_generate_volumes] to the volume
    made for them, give it the name written, if one was written; the type
    that [type_from_string] reads in the type written, whatever the
    modifier flag; the source written, if a source file was written, the
    offsets being read by [atof]; and they hand to [set_deserialize], as
    options of the volume, the matrix under the key [matrix] and then the
    options written.  The mesh and the transformation are not touched.
    This holds as long as no option of the volume goes by one of the nine
    keys the loop takes for itself. *)
Theorem written_volume_attributes_are_applied (volume made : ModelVolume.t) :
  Forall (fun key => reserved_key key = false) (config_keys (ModelVolume.config volume)) ->
  foldl apply_volume_metadata made (written_volume_metadata volume)
  = ModelVolume.mk
      (if String.eqb (ModelVolume.name volume) "" then ModelVolume.name made
       else xml_escape (ModelVolume.name volume))
      (ModelVolume.mesh made)
      (type_from_string (type_to_string (ModelVolume.type volume)))
      (ModelVolume.transformation made)
      (source_applied (ModelVolume.source made) volume)
      (options_applied (ModelVolume.config made) volume).
Proof.
  intros Hkeys. unfold written_volume_metadata, source_applied, options_applied.
  rewrite !foldl_app, (apply_options _ _ _ Hkeys).
  destruct made as [name mesh type transformation [file oi vi [[mx my] mz]] config].
  destruct (Source.mesh_offset (ModelVolume.source volume)) as [[ox oy] oz].
  destruct (String.eqb (ModelVolume.name volume) "");
    destruct (ModelVolume.is_modifier volume);
    destruct (String.eqb (Source.input_file (ModelVolume.source volume)) "");
    simpl; rewrite ?atoi_pretty; reflexivity.
Qed.

End VolumeAttributes.

Section ConfigObjects.
Context `{Externals}.

(** ** The objects of the model config file, written and read *)

(** the keys and values that the exporter writes for an object *)
Definition written_object_metadata (obj : ModelObject.t) : list Metadata.t :=
  (if negb (String.eqb (ModelObject.name obj) "")
   then [Metadata.mk "name" (xml_escape (ModelObject.name obj))] else [])
  ++ map (fun key => Metadata.mk key (opt_serialize (ModelObject.config obj) key))
         (config_keys (ModelObject.config obj)).

(** the volumes that the exporter writes for an object: those that are
    not null and have offsets, from position [j] on *)
Fixpoint written_volumes (offsets : gmap nat Offsets.t) (j : nat)
    (volumes : list (option ModelVolume.t)) : list VolumeMetadata.t :=
  match volumes with
  | [] => []
  | v :: rest =>
      match v, offsets !! j with
      | Some v, Some it =>
          [VolumeMetadata.mk (to_unsigned (Offsets.first_triangle_id it))
             (to_unsigned (Offsets.last_triangle_id it)) (written_volume_metadata v)]
      | _, _ => []
      end ++ written_volumes offsets (S j) rest
  end.

(** the importer while it reads the object [CurrentConfig.object_id]:
    its metadata and volumes, and the position of the last volume *)
Definition in_object (md : list Metadata.t) (volumes : list VolumeMetadata.t)
    (volume_id : Z) (st : _3MF_Importer.t) : _3MF_Importer.t :=
  let object_id := CurrentConfig.object_id (m_curr_config st) in
  set_m_objects_metadata
    (<[object_id := ObjectMetadata.mk md volumes]> (m_objects_metadata st))
    (set_m_curr_config (CurrentConfig.mk object_id volume_id) st).

Lemma in_object_again (md md' : list Metadata.t) (volumes volumes' : list VolumeMetadata.t)
    (volume_id volume_id' : Z) (st : _3MF_Importer.t) :
  in_object md' volumes' volume_id' (in_object md volumes volume_id st)
  = in_object md' volumes' volume_id' st.
Proof. unfold in_object. simpl. now rewrite insert_insert_eq. Qed.

Lemma in_object_lookup (md : list Metadata.t) (volumes : list VolumeMetadata.t)
    (volume_id : Z) (st : _3MF_Importer.t) :
  m_objects_metadata (in_object md volumes volume_id st)
    !! CurrentConfig.object_id (m_curr_config (in_object md volumes volume_id st))
  = Some (ObjectMetadata.mk md volumes).
Proof. unfold in_object. simpl. now rewrite lookup_insert_eq. Qed.

Lemma object_metadata_are_read (metadata : list Metadata.t) (rest : list xml_event)
    (md : list Metadata.t) (volumes : list VolumeMetadata.t) (volume_id : Z)
    (st : _3MF_Importer.t) :
  for_each config_xml_event
    (flat_map (fun m => _3MF_Exporter.metadata_element OBJECT_TYPE
                          (Metadata.key m) (Metadata.value m)) metadata ++ rest)
    (in_object md volumes volume_id st)
  = for_each config_xml_event rest (in_object (md ++ metadata) volumes volume_id st).
Proof.
  revert md. induction metadata as [|m metadata IH]; intros md.
  - simpl. now rewrite app_nil_r.
  - change (flat_map _ (m :: metadata) ++ rest)
      with (start_element METADATA_TAG
              [TYPE_ATTR; OBJECT_TYPE; KEY_ATTR; Metadata.key m;
               VALUE_ATTR; Metadata.value m]
            :: end_element METADATA_TAG
            :: flat_map (fun m => _3MF_Exporter.metadata_element OBJECT_TYPE
                                    (Metadata.key m) (Metadata.value m)) metadata
               ++ rest).
    rewrite for_each_cons.
    change (config_xml_event (start_element METADATA_TAG ?a))
      with (_handle_start_config_metadata a).
    assert (Hstart : _handle_start_config_metadata
                       [TYPE_ATTR; OBJECT_TYPE; KEY_ATTR; Metadata.key m;
                        VALUE_ATTR; Metadata.value m]
                       (in_object md volumes volume_id st)
                     = Returns true (in_object (md ++ [m]) volumes volume_id st)).
    { unfold _handle_start_config_metadata, bind, get. rewrite in_object_lookup.
      change (get_attribute_value_string _ TYPE_ATTR) with OBJECT_TYPE.
      change (get_attribute_value_string _ KEY_ATTR) with (Metadata.key m).
      change (get_attribute_value_string _ VALUE_ATTR) with (Metadata.value m).
      change (String.eqb OBJECT_TYPE OBJECT_TYPE) with true. cbv iota.
      unfold modify, ret, in_object. simpl. now rewrite insert_insert_eq. }
    unfold bind at 1. rewrite Hstart. cbv iota beta.
    rewrite for_each_cons.
    change (config_xml_event (end_element METADATA_TAG)) with _handle_end_config_metadata.
    unfold bind at 1. unfold _handle_end_config_metadata, ret at 1. cbv iota beta.
    rewrite IH, <- app_assoc. reflexivity.
Qed.

Lemma volume_element_is_read (offsets : gmap nat Offsets.t) (k : nat)
    (volume : ModelVolume.t) (it : Offsets.t) (rest : list xml_event)
    (md : list Metadata.t) (volumes : list VolumeMetadata.t) (volume_id : Z)
    (st : _3MF_Importer.t) :
  offsets !! k = Some it ->
  Z.of_nat (length volumes) < 2 ^ 31 ->
  for_each config_xml_event
    (_3MF_Exporter.volume_config_elements offsets (k, Some volume) ++ rest)
    (in_object md volumes volume_id st)
  = for_each config_xml_event rest
      (in_object md
         (volumes ++ [VolumeMetadata.mk (to_unsigned (Offsets.first_triangle_id it))
                        (to_unsigned (Offsets.last_triangle_id it))
                        (written_volume_metadata volume)])
         (Z.of_nat (length volumes)) st).
Proof.
  intros Hit Hlength.
  rewrite (volume_config_elements_written offsets k volume it Hit).
  rewrite <- app_comm_cons, for_each_cons.
  change (config_xml_event (start_element VOLUME_TAG ?a))
    with (_handle_start_config_volume a).
  set (s1 := in_object md
               (volumes ++ [VolumeMetadata.make
                              (to_unsigned (Offsets.first_triangle_id it))
                              (to_unsigned (Offsets.last_triangle_id it))])
               (Z.of_nat (length volumes)) st).
  assert (Hstart : _handle_start_config_volume
                     [FIRST_TRIANGLE_ID_ATTR; pretty (Offsets.first_triangle_id it);
                      LAST_TRIANGLE_ID_ATTR; pretty (Offsets.last_triangle_id it)]
                     (in_object md volumes volume_id st)
                   = Returns true s1).
  { unfold _handle_start_config_volume, bind, get. rewrite in_object_lookup.
    assert (Hf : get_attribute_value_int
                   [FIRST_TRIANGLE_ID_ATTR; pretty (Offsets.first_triangle_id it);
                    LAST_TRIANGLE_ID_ATTR; pretty (Offsets.last_triangle_id it)]
                   FIRST_TRIANGLE_ID_ATTR = Offsets.first_triangle_id it)
      by apply atoi_pretty.
    assert (Hl : get_attribute_value_int
                   [FIRST_TRIANGLE_ID_ATTR; pretty (Offsets.first_triangle_id it);
                    LAST_TRIANGLE_ID_ATTR; pretty (Offsets.last_triangle_id it)]
                   LAST_TRIANGLE_ID_ATTR = Offsets.last_triangle_id it)
      by apply atoi_pretty.
    rewrite Hf, Hl.
    change (ObjectMetadata.volumes (ObjectMetadata.mk md volumes)) with volumes.
    rewrite to_int_small by lia.
    unfold modify, ret, s1, in_object. simpl.
    now rewrite insert_insert_eq. }
  unfold bind at 1. rewrite Hstart. cbv iota beta.
  rewrite <- app_assoc.
  rewrite (metadata_elements_are_read (written_volume_metadata volume)
             ([end_element VOLUME_TAG] ++ rest) md volumes
             (VolumeMetadata.make (to_unsigned (Offsets.first_triangle_id it))
                (to_unsigned (Offsets.last_triangle_id it))) s1).
  - change ([end_element VOLUME_TAG] ++ rest) with (end_element VOLUME_TAG :: rest).
    rewrite for_each_cons.
    change (config_xml_event (end_element VOLUME_TAG)) with _handle_end_config_volume.
    unfold _handle_end_config_volume, bind at 1, ret at 1. cbv iota beta. f_equal.
    unfold volume_read, s1, in_object. simpl. now rewrite insert_insert_eq.
  - unfold s1. apply in_object_lookup.
  - unfold s1, in_object. simpl. unfold to_size_t. apply Z.mod_small. lia.
Qed.

(** the position of the last volume read, if any *)
Definition last_volume_id (volume_id : Z) (before : nat) (volumes : list VolumeMetadata.t)
  : Z :=
  match volumes with
  | [] => volume_id
  | _ => Z.of_nat (before + length volumes) - 1
  end.

Lemma volume_elements_are_read (offsets : gmap nat Offsets.t)
    (volumes : list (option ModelVolume.t)) (j : nat) (rest : list xml_event)
    (md : list Metadata.t) (before : list VolumeMetadata.t) (volume_id : Z)
    (st : _3MF_Importer.t) :
  Z.of_nat (length before + length volumes) < 2 ^ 31 ->
  for_each config_xml_event
    (flat_map (_3MF_Exporter.volume_config_elements offsets) (numbered j volumes) ++ rest)
    (in_object md before volume_id st)
  = for_each config_xml_event rest
      (in_object md (before ++ written_volumes offsets j volumes)
         (last_volume_id volume_id (length before) (written_volumes offsets j volumes))
         st).
Proof.
  revert j before volume_id.
  induction volumes as [|v volumes IH]; intros j before volume_id Hlength.
  - simpl. now rewrite app_nil_r.
  - simpl length in Hlength.
    change (flat_map (_3MF_Exporter.volume_config_elements offsets)
                     (numbered j (v :: volumes)) ++ rest)
      with ((_3MF_Exporter.volume_config_elements offsets (j, v)
             ++ flat_map (_3MF_Exporter.volume_config_elements offsets)
                         (numbered (S j) volumes))
            ++ rest).
    rewrite <- app_assoc. simpl written_volumes.
    destruct v as [v|]; [destruct (offsets !! j) as [it|] eqn:Hit|].
    + rewrite (volume_element_is_read offsets j v it _ md before volume_id st Hit)
        by lia.
      rewrite IH by (rewrite length_app; simpl length; lia).
      rewrite <- app_assoc. f_equal. f_equal.
      unfold last_volume_id. simpl app.
      destruct (written_volumes offsets (S j) volumes) as [|w ws].
      * simpl. lia.
      * rewrite length_app. simpl length. lia.
    + unfold _3MF_Exporter.volume_config_elements at 1. rewrite Hit.
      simpl app. apply IH. lia.
    + simpl app. apply IH. lia.
Qed.

(** X18.  An [object] element of the model config file as the exporter
    writes it for an object of fewer than 2^31 volumes (the index of the
    volume being read is kept in an [int]), read by the importer that has
    no metadata for that id yet, records for the id the metadata of the
    object, its name first when it has one and then its options, and one
    range with its metadata for every volume that is not null and has
    offsets, in the order of the volumes; no error is added. *)
Theorem written_object_config_is_read_back
    (id : Z) (data : ObjectData.t) (st : _3MF_Importer.t) :
  let obj := ObjectData.object data in
  let volumes := written_volumes (ObjectData.volumes_offsets data) 0 (ModelObject.volumes obj) in
  m_objects_metadata st !! id = None ->
  Z.of_nat (length (ModelObject.volumes obj)) < 2 ^ 31 ->
  for_each config_xml_event (_3MF_Exporter.object_config_elements (id, data)) st
  = Returns true
      (set_m_objects_metadata
         (<[id := ObjectMetadata.mk (written_object_metadata obj) volumes]>
            (m_objects_metadata st))
         (set_m_curr_config
            (CurrentConfig.mk id
               (last_volume_id (CurrentConfig.volume_id (m_curr_config st)) 0 volumes))
            st)).
Proof.
  intros obj volumes Hfresh Hlength.
  unfold _3MF_Exporter.object_config_elements. simpl fst. simpl snd. fold obj.
  change ([start_element OBJECT_TAG [ID_ATTR; pretty id]] ++ ?l)
    with (start_element OBJECT_TAG [ID_ATTR; pretty id] :: l).
  rewrite for_each_cons.
  change (config_xml_event (start_element OBJECT_TAG ?a))
    with (_handle_start_config_object a).
  set (s0 := set_m_curr_config
               (CurrentConfig.mk id (CurrentConfig.volume_id (m_curr_config st))) st).
  assert (Hstart : _handle_start_config_object [ID_ATTR; pretty id] st
                   = Returns true
                       (in_object [] [] (CurrentConfig.volume_id (m_curr_config st)) s0)).
  { unfold _handle_start_config_object, bind, get.
    assert (Hid : get_attribute_value_int [ID_ATTR; pretty id] ID_ATTR = id)
      by apply atoi_pretty.
    rewrite Hid, Hfresh. unfold modify, ret, map_insert_new. simpl. rewrite Hfresh.
    reflexivity. }
  unfold bind at 1. rewrite Hstart. cbv iota beta.
  assert (Hmetadata :
            (if negb (String.eqb (ModelObject.name obj) "")
             then _3MF_Exporter.metadata_element OBJECT_TYPE "name"
                    (xml_escape (ModelObject.name obj))
             else [])
            ++ flat_map (fun key => _3MF_Exporter.metadata_element OBJECT_TYPE key
                                      (opt_serialize (ModelObject.config obj) key))
                        (config_keys (ModelObject.config obj))
            = flat_map (fun m => _3MF_Exporter.metadata_element OBJECT_TYPE
                                   (Metadata.key m) (Metadata.value m))
                       (written_object_metadata obj)).
  { unfold written_object_metadata. rewrite flat_map_app. f_equal.
    - now destruct (negb (String.eqb (ModelObject.name obj) "")).
    - induction (config_keys (ModelObject.config obj)) as [|key keys IH];
        [reflexivity|]. simpl. now rewrite IH. }
  rewrite !app_assoc, Hmetadata, <- !app_assoc.
  rewrite object_metadata_are_read. simpl app at 1.
  rewrite imap_pair_numbered.
  rewrite volume_elements_are_read by (simpl length; lia).
  change (for_each config_xml_event [end_element OBJECT_TAG] ?s) with (Returns true s).
  f_equal.
Qed.

End ConfigObjects.

(** ** The parts of an archive that was stored *)

Section Parts.
Import _3MF_Exporter.
Context `{Externals}.
Variable ENABLE_THUMBNAIL_GENERATOR : bool.

(** the names of the parts added so far *)
Definition part_names (st : _3MF_Exporter.t) : list string := map fst (archive st).

(** A step adds parts when an answer [true] comes with the parts that
    were there before followed by a list of names that [names] accepts. *)
Definition adds (names : list string -> Prop) (m : M _3MF_Exporter.t bool) : Prop :=
  forall st st', m st = Returns true st' ->
    exists l, names l /\ part_names st' = part_names st ++ l.

Definition at_most (name : string) (l : list string) : Prop := l = [] \/ l = [name].

Definition followed_by (P Q : list string -> Prop) (l : list string) : Prop :=
  exists l1 l2, P l1 /\ Q l2 /\ l = l1 ++ l2.

Lemma adds_or_remove (P Q : list string -> Prop) (step rest : M _3MF_Exporter.t bool) :
  adds P step -> adds Q rest -> adds (followed_by P Q) (or_remove step rest).
Proof.
  intros Hstep Hrest st st' Hrun. unfold or_remove, bind in Hrun.
  destruct (step st) as [[|] s1|e s1|] eqn:Hfirst; try discriminate.
  destruct (Hstep st s1 Hfirst) as (l1 & Hl1 & Hparts1).
  destruct (Hrest s1 st' Hrun) as (l2 & Hl2 & Hparts2).
  exists (l1 ++ l2). split; [now exists l1, l2|].
  rewrite Hparts2, Hparts1, app_assoc. reflexivity.
Qed.

Lemma adds_nothing (P : list string -> Prop) (m : M _3MF_Exporter.t bool) :
  P [] -> keeps part_names m -> adds P m.
Proof.
  intros HP Hkeeps st st' Hrun. specialize (Hkeeps st). rewrite Hrun in Hkeeps.
  exists []. split; [exact HP|]. now rewrite app_nil_r.
Qed.

Lemma adds_add_mem (P : list string -> Prop) (out : OutputFile.t) (name error : string)
    (content : part) :
  P [name] ->
  adds P (ok <- mz_zip_writer_add_mem out name content ;;
          if ok then ret true else _3MF_Exporter.add_error error ;; ret false).
Proof.
  intros HP st st' Hrun. unfold mz_zip_writer_add_mem, bind in Hrun.
  destruct (OutputFile.add_ok out name); [|discriminate].
  inversion Hrun; subst. exists [name]. split; [exact HP|].
  unfold part_names. simpl. now rewrite map_app.
Qed.

Lemma adds_after (P : list string -> Prop) {A} (m : M _3MF_Exporter.t A)
    (k : A -> M _3MF_Exporter.t bool) :
  keeps part_names m -> (forall a, adds P (k a)) -> adds P (bind m k).
Proof.
  intros Hm Hk st st' Hrun. unfold bind in Hrun. specialize (Hm st).
  destruct (m st) as [a s1|e s1|]; try discriminate.
  destruct (Hk a s1 st' Hrun) as (l & Hl & Hparts).
  exists l. split; [exact Hl|]. now rewrite Hparts, Hm.
Qed.

Lemma keeps_parts_add_mesh_vertices (curr_id : Z)
    (volumes : list (nat * option ModelVolume.t)) (vertices_count : Z) :
  keeps part_names (add_mesh_vertices curr_id vertices_count volumes).
Proof.
  revert vertices_count.
  induction volumes as [|[k [volume|]] volumes IH]; intros vertices_count; simpl.
  - kept_auto.
  - unfold modify_offsets, _3MF_Exporter.add_error, emit. kept_auto; apply IH.
  - apply IH.
Qed.

Lemma keeps_parts_add_mesh_triangles (curr_id : Z)
    (volumes : list (nat * option ModelVolume.t)) (triangles_count : Z) :
  keeps part_names (add_mesh_triangles curr_id triangles_count volumes).
Proof.
  revert triangles_count.
  induction volumes as [|[k [volume|]] volumes IH]; intros triangles_count; simpl.
  - kept_auto.
  - unfold modify_offsets, emit. kept_auto; apply IH.
  - apply IH.
Qed.

Lemma keeps_parts_add_object_instances (object : ModelObject.t) (curr_id object_id : Z)
    (instances : list (option ModelInstance.t)) (id : Z) :
  keeps part_names (add_object_instances object curr_id object_id id instances).
Proof.
  revert id. induction instances as [|[instance|] instances IH]; intros id; simpl.
  - kept_auto.
  - unfold _add_mesh_to_object_stream, emit, _3MF_Exporter.add_error.
    kept_auto;
      first [ apply keeps_parts_add_mesh_vertices | apply keeps_parts_add_mesh_triangles
            | apply IH ].
  - apply IH.
Qed.

Lemma keeps_parts_add_model_objects (objects : list (option ModelObject.t))
    (object_id : Z) :
  keeps part_names (add_model_objects object_id objects).
Proof.
  revert object_id. induction objects as [|[obj|] objects IH]; intros object_id; simpl.
  - kept_auto.
  - unfold _add_object_to_model_stream, _3MF_Exporter.add_error.
    kept_auto; first [apply keeps_parts_add_object_instances | apply IH].
  - apply IH.
Qed.

Lemma adds_model_file (out : OutputFile.t) (model : Model.t) :
  adds (eq [MODEL_FILE]) (_add_model_file_to_archive out model).
Proof.
  unfold _add_model_file_to_archive.
  do 3 (apply adds_after; [unfold emit; kept_auto|intros _]).
  apply adds_after; [apply keeps_parts_add_model_objects|intros ok].
  destruct (negb ok); [intros st st' Hrun; discriminate|].
  apply adds_after; [unfold emit; kept_auto|intros _].
  apply adds_after;
    [unfold _add_build_to_model_stream, emit, _3MF_Exporter.add_error; kept_auto
    |intros ok'].
  destruct (negb ok');
    [intros st st' Hrun; unfold bind, _3MF_Exporter.add_error, modify in Hrun;
     discriminate|].
  apply adds_after; [unfold emit; kept_auto|intros _].
  apply adds_after; [kept_auto|intros st0].
  now apply adds_add_mem.
Qed.

(** a text that starts with a character still does after more text has
    been put behind it *)
Lemma text_grown_is_not_empty {A} (f : string -> A -> string) (l : list A) (text : string) :
  (forall t a, String.eqb t "" = false -> String.eqb (f t a) "" = false) ->
  String.eqb text "" = false ->
  String.eqb (foldl f text l) "" = false.
Proof.
  intros Hf. revert text. induction l as [|a l IH]; intros text Htext; [exact Htext|].
  simpl. apply IH. now apply Hf.
Qed.

Lemma adds_print_config (out : OutputFile.t) (config : DynamicPrintConfig) :
  adds (eq [PRINT_CONFIG_FILE]) (_add_print_config_file_to_archive out config).
Proof.
  unfold _add_print_config_file_to_archive.
  match goal with
  | |- adds _ (if negb (String.eqb ?text "") then _ else _) =>
      assert (Htext : String.eqb text "" = false)
  end.
  { apply text_grown_is_not_empty; [|reflexivity].
    intros t key Ht. destruct (negb (String.eqb key "compatible_printers")); [|exact Ht].
    destruct t; [discriminate|reflexivity]. }
  rewrite Htext. simpl negb. cbv iota. now apply adds_add_mem.
Qed.

Lemma adds_text_part (out : OutputFile.t) (name error text : string) :
  adds (at_most name)
    (if negb (String.eqb text "") then
       ok <- mz_zip_writer_add_mem out name (text_part text) ;;
       if ok then ret true else _3MF_Exporter.add_error error ;; ret false
     else ret true).
Proof.
  destruct (negb (String.eqb text "")).
  - apply adds_add_mem. now right.
  - apply adds_nothing; [now left|kept_auto].
Qed.

(** the names that the steps of a store add, one step after the other *)
Definition thumbnail_part (thumbnail_data : option ThumbnailData.t) : list string :=
  match thumbnail_data with
  | Some data =>
      if ENABLE_THUMBNAIL_GENERATOR && ThumbnailData.is_valid data
      then [THUMBNAIL_FILE] else []
  | None => []
  end.

Definition print_config_part (config : option DynamicPrintConfig) : list string :=
  match config with Some _ => [PRINT_CONFIG_FILE] | None => [] end.

Definition parts_of (config : option DynamicPrintConfig)
    (thumbnail_data : option ThumbnailData.t) : list string -> Prop :=
  followed_by (eq [CONTENT_TYPES_FILE])
 (followed_by (eq (thumbnail_part thumbnail_data))
 (followed_by (eq [RELATIONSHIPS_FILE])
 (followed_by (eq [MODEL_FILE])
 (followed_by (at_most LAYER_HEIGHTS_PROFILE_FILE)
 (followed_by (at_most LAYER_CONFIG_RANGES_FILE)
 (followed_by (at_most SLA_SUPPORT_POINTS_FILE)
 (followed_by (eq (print_config_part config))
 (followed_by (eq [MODEL_CONFIG_FILE]) (eq []))))))))).

Lemma adds_thumbnail (out : OutputFile.t) (thumbnail_data : option ThumbnailData.t) :
  adds (eq (thumbnail_part thumbnail_data))
    (match thumbnail_data with
     | Some data =>
         if ENABLE_THUMBNAIL_GENERATOR && ThumbnailData.is_valid data
         then _add_thumbnail_file_to_archive out data
         else ret true
     | None => ret true
     end).
Proof.
  unfold thumbnail_part. destruct thumbnail_data as [data|];
    [destruct (ENABLE_THUMBNAIL_GENERATOR && ThumbnailData.is_valid data)|];
    [|apply adds_nothing; [reflexivity|kept_auto]..].
  unfold _add_thumbnail_file_to_archive.
  intros st st' Hrun. unfold bind, mz_zip_writer_add_mem in Hrun.
  destruct (ThumbnailData.png_encodes data); [|discriminate].
  destruct (OutputFile.add_ok out THUMBNAIL_FILE); [|discriminate].
  inversion Hrun; subst. exists [THUMBNAIL_FILE]. split; [reflexivity|].
  unfold part_names. simpl. now rewrite map_app.
Qed.

Lemma adds_steps (out : OutputFile.t) (model : Model.t)
    (config : option DynamicPrintConfig) (thumbnail_data : option ThumbnailData.t) :
  adds (parts_of config thumbnail_data)
       (steps ENABLE_THUMBNAIL_GENERATOR out model config thumbnail_data).
Proof.
  unfold steps, parts_of.
  apply adds_or_remove;
    [unfold _add_content_types_file_to_archive; now apply adds_add_mem|].
  apply adds_or_remove; [apply adds_thumbnail|].
  apply adds_or_remove;
    [unfold _add_relationships_file_to_archive; now apply adds_add_mem|].
  apply adds_or_remove; [apply adds_model_file|].
  apply adds_or_remove.
  { unfold _add_layer_height_profile_file_to_archive.
    destruct (counted_objects model); [apply adds_text_part|].
    intros st st' Hrun. discriminate. }
  apply adds_or_remove.
  { unfold _add_layer_config_ranges_file_to_archive.
    destruct (counted_objects model); [|intros st st' Hrun; discriminate].
    destruct (negb (bool_decide _)).
    - apply adds_add_mem. now right.
    - apply adds_nothing; [now left|kept_auto]. }
  apply adds_or_remove.
  { unfold _add_sla_support_points_file_to_archive.
    destruct (counted_objects model); [|intros st st' Hrun; discriminate].
    destruct (negb (String.eqb _ "")).
    - apply adds_add_mem. now right.
    - apply adds_nothing; [now left|kept_auto]. }
  apply adds_or_remove.
  { unfold print_config_part. destruct config as [config|].
    - apply adds_print_config.
    - apply adds_nothing; [reflexivity|kept_auto]. }
  apply adds_or_remove.
  { unfold _add_model_config_file_to_archive.
    apply adds_after; [kept_auto|intros st0]. now apply adds_add_mem. }
  apply adds_nothing; [reflexivity|].
  unfold close_and_remove, _3MF_Exporter.add_error. kept_auto.
Qed.

(** X19.  The archive of a store that answers [true] holds, in this order:
    the content types, the thumbnail exactly when thumbnails are compiled
    in and valid thumbnail data were given, the relationships, the model,
    then at most one part each for the layer height profiles, the layer
    config ranges and the SLA support points, the print config exactly
    when a config was given, and the model config; and the file is on the
    disk. *)
Theorem stored_archive_has_its_parts
    (out : OutputFile.t) (model : Model.t) (config : option DynamicPrintConfig)
    (thumbnail_data : option ThumbnailData.t) (on_disk : bool) (ex : _3MF_Exporter.t) :
  store ENABLE_THUMBNAIL_GENERATOR (Some out) (Some model) config thumbnail_data on_disk
  = Returns true ex ->
  exists profile ranges points : list string,
    at_most LAYER_HEIGHTS_PROFILE_FILE profile
    /\ at_most LAYER_CONFIG_RANGES_FILE ranges
    /\ at_most SLA_SUPPORT_POINTS_FILE points
    /\ part_names ex
       = [CONTENT_TYPES_FILE] ++ thumbnail_part thumbnail_data
         ++ [RELATIONSHIPS_FILE; MODEL_FILE]
         ++ profile ++ ranges ++ points
         ++ print_config_part config ++ [MODEL_CONFIG_FILE]
    /\ file_on_disk ex = true.
Proof.
  intros Hrun. rewrite store_of_open_file in Hrun.
  destruct (OutputFile.open_ok out); [|discriminate].
  assert (Hdisk : file_on_disk ex = true).
  { pose proof (settles_steps ENABLE_THUMBNAIL_GENERATOR out model config thumbnail_data
                  (_3MF_Exporter.mk [] [] [] ∅ [] true)) as Hsettles.
    rewrite Hrun in Hsettles. exact (Hsettles eq_refl). }
  apply adds_steps in Hrun as (l & Hl & Hparts).
  destruct Hl as (l1 & r1 & <- & Hr1 & ->).
  destruct Hr1 as (l2 & r2 & <- & Hr2 & ->).
  destruct Hr2 as (l3 & r3 & <- & Hr3 & ->).
  destruct Hr3 as (l4 & r4 & <- & Hr4 & ->).
  destruct Hr4 as (profile & r5 & Hprofile & Hr5 & ->).
  destruct Hr5 as (ranges & r6 & Hranges & Hr6 & ->).
  destruct Hr6 as (points & r7 & Hpoints & Hr7 & ->).
  destruct Hr7 as (l8 & r8 & <- & Hr8 & ->).
  destruct Hr8 as (l9 & r9 & <- & <- & ->).
  exists profile, ranges, points. repeat split; assumption.
Qed.

End Parts.

(** ** The SLA support points file *)

(** [std::string::find(needle) != npos] *)
Fixpoint contains (needle s : string) : bool :=
  String.prefix needle s
  || match s with
     | String _ s' => contains needle s'
     | EmptyString => false
     end.

(** [s.erase(s.begin(), s.begin() + n)] on a string of [n] characters at
    least *)
Fixpoint erase_front (n : nat) (s : string) : string :=
  match n, s with
  | S n', String _ s' => erase_front n' s'
  | _, _ => s
  end.

Section SupportPoints.
Context `{Externals}.

(** The constructor [sla::SupportPoint(x, y, z, head_front_radius,
    is_new_island)] and the constant [EPSILON] of the test
    [std::abs(v - 1.) < EPSILON] are not of this file, and neither are the
    texts that the exceptions of [std::stoi] carry. *)
Variable support_point : float -> float -> float -> float -> bool -> SupportPoint.
Variable near_one : double -> bool.
Variable stoi_invalid_argument stoi_out_of_range : string.

(** [std::stoi]: white space, an optional sign and decimal digits, as
    [strtol] reads them; [std::invalid_argument] when there is no digit,
    [std::out_of_range] when the number does not fit [int] *)
Definition stoi (s : string) : exception + Z :=
  let digits :=
    match skip_spaces s with
    | String "-"%char s' | String "+"%char s' => s'
    | s' => s'
    end in
  match digits with
  | String c _ =>
      match digit_value c with
      | Some _ =>
          let value := atoi s in
          if (- 2 ^ 31 <=? value) && (value <? 2 ^ 31) then inr value
          else inl (other_exception stoi_out_of_range)
      | None => inl (other_exception stoi_invalid_argument)
      end
  | EmptyString => inl (other_exception stoi_invalid_argument)
  end.

(** the loop of version 0: three values a point; a read past the end of
    [object_data_points] gives [None] *)
Fixpoint points_of_version_0 (object_data_points : list string)
  : option (list SupportPoint) :=
  match object_data_points with
  | [] => Some []
  | x :: y :: z :: rest =>
      cons (support_point (to_float (atof x)) (to_float (atof y)) (to_float (atof z))
              (float_lit 0.4) false)
        <$> points_of_version_0 rest
  | _ => None
  end.

(** the loop of version 1: five values a point *)
Fixpoint points_of_version_1 (object_data_points : list string)
  : option (list SupportPoint) :=
  match object_data_points with
  | [] => Some []
  | x :: y :: z :: radius :: island :: rest =>
      cons (support_point (to_float (atof x)) (to_float (atof y)) (to_float (atof z))
              (to_float (atof radius)) (near_one (atof island)))
        <$> points_of_version_1 rest
  | _ => None
  end.

(** One line of the file; the body of the loop over [objects], each
    [continue] being the end of the function. *)
Definition sla_support_points_line (version : Z) (object : string) : M t unit :=
  let object_data := split_compress_off "|"%char object in
  if negb (length object_data =? 2)%nat then
    add_error "Error while reading object data"
  else
    let object_data_id :=
      split_compress_off "="%char (default "" (object_data !! 0%nat)) in
    if negb (length object_data_id =? 2)%nat then
      add_error "Error while reading object id"
    else
      let object_id := atoi (default "" (object_data_id !! 1%nat)) in
      if object_id =? 0 then add_error "Found invalid object id"
      else
        st <- get ;;
        match m_sla_support_points st !! object_id with
        | Some _ => add_error "Found duplicated SLA support points"
        | None =>
            let object_data_points :=
              split_compress_off " "%char (default "" (object_data !! 1%nat)) in
            match (if version =? 0 then points_of_version_0 object_data_points
                   else Some []) with
            | None => undefined
            | Some points_0 =>
                match (if version =? 1 then points_of_version_1 object_data_points
                       else Some []) with
                | None => undefined
                | Some points_1 =>
                    let sla_support_points := points_0 ++ points_1 in
                    if negb (bool_decide (length sla_support_points = 0%nat)) then
                      modify (fun st => set_m_sla_support_points
                                (map_insert_new object_id sla_support_points
                                                (m_sla_support_points st)) st)
                    else ret tt
                end
            end
        end.

Definition _extract_sla_support_points_from_archive (stat : ZipEntry.t) : M t unit :=
  if 0 <? ZipEntry.m_uncomp_size stat then
    if negb (ZipEntry.extract_ok stat) then
      add_error "Error while reading sla support points data to buffer"
    else
      let buffer := drop_final_newline (ZipEntry.data stat) in
      let objects := split_compress_off "010"%char buffer in
      (* Info on format versioning - see 3mf.hpp *)
      match objects with
      | first :: others =>
          if contains "support_points_format_version=" first then
            (* removes the string, reads the version, pops the header *)
            match stoi (erase_front 30 first) with
            | inl e => throw e
            | inr version => for_all (sla_support_points_line version) others
            end
          else for_all (sla_support_points_line 0) objects
      | [] => ret tt
      end
  else ret tt.

(** *** A format version the importer does not know *)







(** *** A line whose values do not make whole points *)

Lemma three_more (k : nat) : (S (S (S k)) mod 3 = k mod 3)%nat.
Proof.
  replace (S (S (S k))) with (k + 1 * 3)%nat by lia. apply Nat.Div0.mod_add.
Qed.

Lemma points_of_version_0_whole (l : list string) :
  (length l mod 3 <> 0)%nat -> points_of_version_0 l = None.
Proof.
  assert (Hall : forall (n : nat) (l : list string),
            (length l < n)%nat -> (length l mod 3 <> 0)%nat ->
            points_of_version_0 l = None).
  { clear l. induction n as [|n IH]; intros l Hlt Hmod; [lia|].
    destruct l as [|x [|y [|z rest]]]; try reflexivity.
    - exfalso. apply Hmod. reflexivity.
    - simpl in Hlt.
      change (length (x :: y :: z :: rest)) with (S (S (S (length rest)))) in Hmod.
      rewrite three_more in Hmod.
      simpl. rewrite (IH rest); [reflexivity|lia|exact Hmod]. }
  apply (Hall (S (length l))). lia.
Qed.

(** X21.  The count of the values of a line is never compared with the
    size of a point.  In a file without header, which is read as of
    version 0, a first line that is well formed, names an object without
    support points yet, and holds a count of values that is not a
    multiple of three makes the importer read past the end of the values:
    the behaviour is not defined.  A line that ends at its bar is such a
    line, its single value being the empty text. *)
Theorem support_point_values_are_not_counted
    (stat : ZipEntry.t) (st : _3MF_Importer.t) (object : string) (objects : list string)
    (head name id values : string) :
  0 < ZipEntry.m_uncomp_size stat ->
  ZipEntry.extract_ok stat = true ->
  split_compress_off "010"%char (drop_final_newline (ZipEntry.data stat))
  = object :: objects ->
  contains "support_points_format_version=" object = false ->
  split_compress_off "|"%char object = [head; values] ->
  split_compress_off "="%char head = [name; id] ->
  atoi id <> 0 ->
  m_sla_support_points st !! atoi id = None ->
  (length (split_compress_off " "%char values) mod 3 <> 0)%nat ->
  _extract_sla_support_points_from_archive stat st = Undefined.
Proof.
  intros Hsize Hextract Hlines Hheader Hdata Hid Hnonzero Hfresh Hcount.
  unfold _extract_sla_support_points_from_archive.
  rewrite (proj2 (Z.ltb_lt _ _) Hsize), Hextract, Hlines, Hheader.
  change (negb true) with false. cbv iota.
  change (for_all (sla_support_points_line 0) (object :: objects))
    with (sla_support_points_line 0 object ;;
          for_all (sla_support_points_line 0) objects).
  unfold bind at 1. unfold sla_support_points_line.
  rewrite Hdata.
  change (negb (length [head; values] =? 2)%nat) with false. cbv iota.
  change (default "" ([head; values] !! 0%nat)) with head.
  change (default "" ([head; values] !! 1%nat)) with values.
  rewrite Hid.
  change (negb (length [name; id] =? 2)%nat) with false. cbv iota.
  change (default "" ([name; id] !! 1%nat)) with id.
  rewrite (proj2 (Z.eqb_neq _ _) Hnonzero). unfold bind, get. cbv beta. rewrite Hfresh.
  change (0 =? 0) with true. cbv iota.
  rewrite (points_of_version_0_whole _ Hcount). reflexivity.
Qed.

End SupportPoints.

Section Attributes.
Context `{Externals}.

(** ** The attributes of an element *)

(** the array that expat hands over for a list of names and values *)
Definition attribute_array (pairs : list (string * string)) : list string :=
  flat_map (fun p : string * string => [fst p; snd p]) pairs.

Lemma length_attribute_array (pairs : list (string * string)) :
  length (attribute_array pairs) = (2 * length pairs)%nat.
Proof. induction pairs as [|p pairs IH]; simpl; [reflexivity|]. rewrite IH. lia. Qed.

Lemma find_attribute_after (before : list (string * string)) (rest : list string)
    (key : string) :
  key ∉ map fst before ->
  find_attribute (attribute_array before ++ rest) key = find_attribute rest key.
Proof.
  induction before as [|[k v] before IH]; intros Hnot; [reflexivity|].
  simpl in *. apply not_elem_of_cons in Hnot as [Hne Hnot].
  rewrite (proj2 (String.eqb_neq k key)) by congruence. now apply IH.
Qed.

Lemma charptr_of_attribute_array (pairs : list (string * string)) (key : string) :
  get_attribute_value_charptr (attribute_array pairs) key
  = find_attribute (attribute_array pairs) key.
Proof.
  unfold get_attribute_value_charptr. rewrite length_attribute_array.
  destruct pairs as [|p pairs]; [reflexivity|].
  assert (Heven : ((2 * length (p :: pairs)) mod 2 =? 0)%nat = true).
  { apply Nat.eqb_eq. rewrite Nat.mul_comm. apply Nat.Div0.mod_mul. }
  rewrite Heven. reflexivity.
Qed.

Lemma charptr_of_odd_array (attributes : list string) (key : string) :
  (length attributes mod 2 = 1)%nat ->
  get_attribute_value_charptr attributes key = None.
Proof.
  intros Hodd. unfold get_attribute_value_charptr. rewrite Hodd.
  now destruct (length attributes =? 0)%nat.
Qed.

(** X22.  An attribute is looked up by its name among the names of the
    array, and the first of that name counts.  An attribute that is not
    there reads as the empty text, as 0, and as [true] when a flag is
    asked for; an attribute that is there reads as its text, as what
    [atoi] or [atof] finds in it, and, as a flag, as [false] exactly when
    [atoi] finds 0.  An array of an odd count of entries is taken to hold
    no attribute at all. *)
Theorem attribute_is_the_first_of_its_name :
  (forall (pairs : list (string * string)) (key : string),
     key ∉ map fst pairs ->
     get_attribute_value_string (attribute_array pairs) key = ""
     /\ get_attribute_value_float (attribute_array pairs) key = float_lit 0
     /\ get_attribute_value_int (attribute_array pairs) key = 0
     /\ get_attribute_value_bool (attribute_array pairs) key = true)
  /\ (forall (before after : list (string * string)) (key value : string),
        key ∉ map fst before ->
        let attributes := attribute_array (before ++ (key, value) :: after) in
        get_attribute_value_string attributes key = value
        /\ get_attribute_value_float attributes key = to_float (atof value)
        /\ get_attribute_value_int attributes key = atoi value
        /\ get_attribute_value_bool attributes key = negb (atoi value =? 0))
  /\ (forall (attributes : list string) (key : string),
        (length attributes mod 2 = 1)%nat ->
        get_attribute_value_string attributes key = ""
        /\ get_attribute_value_float attributes key = float_lit 0
        /\ get_attribute_value_int attributes key = 0
        /\ get_attribute_value_bool attributes key = true).
Proof.
  split; [|split].
  - intros pairs key Hnot.
    assert (Hnone : get_attribute_value_charptr (attribute_array pairs) key = None).
    { rewrite charptr_of_attribute_array.
      rewrite <- (app_nil_r (attribute_array pairs)).
      now rewrite find_attribute_after. }
    unfold get_attribute_value_string, get_attribute_value_float,
      get_attribute_value_int, get_attribute_value_bool.
    rewrite Hnone. repeat split.
  - intros before after key value Hnot attributes.
    assert (Hsome : get_attribute_value_charptr attributes key = Some value).
    { unfold attributes. rewrite charptr_of_attribute_array.
      unfold attribute_array. rewrite flat_map_app.
      fold (attribute_array before). rewrite find_attribute_after by exact Hnot.
      simpl. now rewrite String.eqb_refl. }
    unfold get_attribute_value_string, get_attribute_value_float,
      get_attribute_value_int, get_attribute_value_bool.
    rewrite Hsome. repeat split.
  - intros attributes key Hodd.
    unfold get_attribute_value_string, get_attribute_value_float,
      get_attribute_value_int, get_attribute_value_bool.
    rewrite (charptr_of_odd_array attributes key Hodd). repeat split.
Qed.

End Attributes.

Section CutOut.
Context `{Externals}.

(** ** The triangles of a volume, written, read and cut out again *)

Definition vertices_of (v : option ModelVolume.t) : list Vec3f :=
  match v with
  | Some v => TriangleMesh.its_vertices (ModelVolume.mesh v)
  | None => []
  end.

Definition facets_of (v : option ModelVolume.t) : list (list Z) :=
  match v with
  | Some v => TriangleMesh.its_indices (ModelVolume.mesh v)
  | None => []
  end.

Definition n_vertices (volumes : list (option ModelVolume.t)) : nat :=
  length (flat_map vertices_of volumes).

Definition n_facets (volumes : list (option ModelVolume.t)) : nat :=
  length (flat_map facets_of volumes).

(** a vertex as the importer holds it once written and read *)
Definition vertex_kept (unit_factor : float) (matrix : Transform3d) (vertex : Vec3f)
  : Vec3f :=
  let '(x, y, z) := to_float3 (matrix_apply matrix (to_double3 vertex)) in
  (fmul unit_factor (to_float (atof (float_to_string max_digits10 x))),
   fmul unit_factor (to_float (atof (float_to_string max_digits10 y))),
   fmul unit_factor (to_float (atof (float_to_string max_digits10 z)))).

Lemma vertex_as_read_kept (unit_factor : float) (matrix : Transform3d) (vertex : Vec3f) :
  vertex_as_read unit_factor matrix vertex
  = let '(x, y, z) := vertex_kept unit_factor matrix vertex in [x; y; z].
Proof.
  unfold vertex_as_read, vertex_kept.
  now destruct (to_float3 (matrix_apply matrix (to_double3 vertex))) as [[x y] z].
Qed.

Lemma length_vertex_as_read (unit_factor : float) (matrix : Transform3d) (vertex : Vec3f) :
  length (vertex_as_read unit_factor matrix vertex) = 3%nat.
Proof.
  rewrite vertex_as_read_kept.
  now destruct (vertex_kept unit_factor matrix vertex) as [[x y] z].
Qed.

(** a list made of chunks of three *)
Lemma lookup_chunks {A B} (f : A -> list B) (l : list A) (i c : nat) (x : A) :
  (forall a, length (f a) = 3%nat) ->
  l !! i = Some x -> (c < 3)%nat ->
  flat_map f l !! (3 * i + c)%nat = f x !! c.
Proof.
  intros Hthree. revert i. induction l as [|a l IH]; intros i Hx Hc; [discriminate|].
  destruct i as [|i].
  - injection Hx as ->. simpl. rewrite lookup_app_l by (rewrite Hthree; lia).
    reflexivity.
  - simpl flat_map. rewrite lookup_app_r by (rewrite Hthree; lia).
    rewrite Hthree. replace (3 * S i + c - 3)%nat with (3 * i + c)%nat by lia.
    now apply IH.
Qed.

Lemma length_chunks {A B} (f : A -> list B) (l : list A) :
  (forall a, length (f a) = 3%nat) -> length (flat_map f l) = (3 * length l)%nat.
Proof.
  intros Hthree. induction l as [|a l IH]; [reflexivity|].
  simpl flat_map. rewrite length_app, Hthree, IH. simpl length. lia.
Qed.

Lemma vertices_as_read_app (unit_factor : float) (a b : list (option ModelVolume.t)) :
  vertices_as_read unit_factor (a ++ b)
  = vertices_as_read unit_factor a ++ vertices_as_read unit_factor b.
Proof. apply flat_map_app. Qed.

Lemma length_vertices_as_read (unit_factor : float)
    (volumes : list (option ModelVolume.t)) :
  length (vertices_as_read unit_factor volumes) = (3 * n_vertices volumes)%nat.
Proof.
  unfold n_vertices. induction volumes as [|[v|] volumes IH]; [reflexivity| |exact IH].
  change (vertices_as_read unit_factor (Some v :: volumes))
    with (flat_map (vertex_as_read unit_factor (ModelVolume.get_matrix v))
                   (TriangleMesh.its_vertices (ModelVolume.mesh v))
          ++ vertices_as_read unit_factor volumes).
  simpl flat_map. rewrite !length_app, IH.
  rewrite (length_chunks _ _ (length_vertex_as_read unit_factor _)).
  simpl vertices_of. lia.
Qed.

(** the count of vertices after a list of volumes *)
Definition count_after (n : Z) (volumes : list (option ModelVolume.t)) : Z :=
  foldl (fun n v => match v with Some v => vertex_count_after n v | None => n end)
        n volumes.

Lemma with_first_vertex_app (n : Z) (a b : list (option ModelVolume.t)) :
  with_first_vertex n (a ++ b)
  = with_first_vertex n a ++ with_first_vertex (count_after n a) b.
Proof.
  revert n. induction a as [|[v|] a IH]; intros n; [reflexivity| |apply IH].
  simpl. now rewrite IH.
Qed.

Lemma triangles_as_read_app (n : Z) (a b : list (option ModelVolume.t)) :
  triangles_as_read n (a ++ b)
  = triangles_as_read n a ++ triangles_as_read (count_after n a) b.
Proof. unfold triangles_as_read. now rewrite with_first_vertex_app, flat_map_app. Qed.

Lemma length_triangles_as_read (n : Z) (volumes : list (option ModelVolume.t)) :
  length (triangles_as_read n volumes) = (3 * n_facets volumes)%nat.
Proof.
  unfold n_facets. revert n.
  induction volumes as [|[v|] volumes IH]; intros n; [reflexivity| |apply IH].
  change (triangles_as_read n (Some v :: volumes))
    with (flat_map (triangle_as_read n) (TriangleMesh.its_indices (ModelVolume.mesh v))
          ++ triangles_as_read (vertex_count_after n v) volumes).
  simpl flat_map. rewrite !length_app, IH.
  rewrite (length_chunks (triangle_as_read n)) by reflexivity.
  simpl facets_of. lia.
Qed.

Lemma count_after_small (n : Z) (volumes : list (option ModelVolume.t)) :
  0 <= n -> n + Z.of_nat (n_vertices volumes) < 2 ^ 31 ->
  count_after n volumes = n + Z.of_nat (n_vertices volumes).
Proof.
  unfold n_vertices. revert n.
  induction volumes as [|[v|] volumes IH]; intros n Hn Hfit; simpl in *.
  - lia.
  - rewrite length_app in Hfit.
    assert (Hstep : vertex_count_after n v
                    = n + Z.of_nat (length (TriangleMesh.its_vertices (ModelVolume.mesh v)))).
    { unfold vertex_count_after. rewrite to_int_small by lia.
      apply to_unsigned_small. lia. }
    rewrite Hstep, IH by lia. rewrite length_app. lia.
  - now apply IH.
Qed.

Lemma triangle_as_read_corner (n : Z) (triangle : list Z) (c : nat) :
  (c < 3)%nat ->
  triangle_as_read n triangle !! c = Some (to_unsigned (default 0 (triangle !! c) + n)).
Proof. intros Hc. destruct c as [|[|[|c]]]; try lia; reflexivity. Qed.

Lemma mapM_map {A B} (f : A -> option B) (g : A -> B) (l : list A) :
  (forall x, x ∈ l -> f x = Some (g x)) -> mapM f l = Some (map g l).
Proof.
  induction l as [|a l IH]; intros Hall; [reflexivity|].
  simpl. rewrite (Hall a) by apply list_elem_of_here. simpl.
  rewrite IH by (intros x Hx; apply Hall; now apply list_elem_of_further).
  reflexivity.
Qed.

Lemma map_by_position {A B} (h : A -> B) (d : A) (l : list A) :
  map (fun i : Z => h (default d (l !! Z.to_nat i))) (seqZ 0 (Z.of_nat (length l)))
  = map h l.
Proof.
  apply list_eq. intros i. rewrite !list_lookup_fmap.
  destruct (l !! i) as [x|] eqn:Hx.
  - assert (Hlt : (i < length l)%nat) by (apply lookup_lt_is_Some; eauto).
    rewrite lookup_seqZ_lt by lia. simpl. rewrite Z.add_0_l, Nat2Z.id, Hx. reflexivity.
  - assert (Hge : (length l <= i)%nat) by now apply lookup_ge_None.
    rewrite lookup_seqZ_ge by lia. reflexivity.
Qed.

(** what [_generate_volumes] makes of a vertex it has found *)
Definition cut_out (version : Z) (inv_matrix : Transform3d) (vertex : Vec3f) : Vec3f :=
  if 1 <? version then to_float3 (matrix_apply inv_matrix (to_double3 vertex))
  else vertex.

Definition origin : Vec3f := (float_lit 0, float_lit 0, float_lit 0).

Section OneVolume.
Variable unit_factor : float.
Variable version : Z.
Variable inv_matrix : Transform3d.
Variable prefix suffix : list (option ModelVolume.t).
Variable v : ModelVolume.t.

Let volumes : list (option ModelVolume.t) := prefix ++ Some v :: suffix.
Let vertices : list Vec3f := TriangleMesh.its_vertices (ModelVolume.mesh v).
Let indices : list (list Z) := TriangleMesh.its_indices (ModelVolume.mesh v).
Let g : Geometry.t :=
  Geometry.mk (vertices_as_read unit_factor volumes) (triangles_as_read 0 volumes).

Hypothesis vertices_fit : 3 * Z.of_nat (n_vertices volumes) < 2 ^ 32.

Lemma n_vertices_split :
  n_vertices volumes = (n_vertices prefix + length vertices + n_vertices suffix)%nat.
Proof.
  unfold n_vertices, volumes. rewrite flat_map_app. simpl flat_map.
  rewrite !length_app. simpl vertices_of. fold vertices. lia.
Qed.

Lemma n_facets_split :
  n_facets volumes = (n_facets prefix + length indices + n_facets suffix)%nat.
Proof.
  unfold n_facets, volumes. rewrite flat_map_app. simpl flat_map.
  rewrite !length_app. simpl facets_of. fold indices. lia.
Qed.

Lemma first_vertex_of_volume : count_after 0 prefix = Z.of_nat (n_vertices prefix).
Proof.
  pose proof n_vertices_split. rewrite count_after_small; lia.
Qed.

Lemma written_index (j c : nat) (triangle : list Z) :
  indices !! j = Some triangle -> (c < 3)%nat ->
  Geometry.triangles g !! (3 * (n_facets prefix + j) + c)%nat
  = Some (to_unsigned (default 0 (triangle !! c) + Z.of_nat (n_vertices prefix))).
Proof.
  intros Hj Hc. unfold g, volumes. simpl Geometry.triangles.
  rewrite triangles_as_read_app.
  rewrite lookup_app_r by (rewrite length_triangles_as_read; lia).
  rewrite length_triangles_as_read, first_vertex_of_volume.
  replace (3 * (n_facets prefix + j) + c - 3 * n_facets prefix)%nat
    with (3 * j + c)%nat by lia.
  change (triangles_as_read ?n (Some v :: suffix))
    with (flat_map (triangle_as_read n) indices
          ++ triangles_as_read (vertex_count_after n v) suffix).
  assert (Hlt : (j < length indices)%nat) by (apply lookup_lt_is_Some; eauto).
  rewrite lookup_app_l
    by (rewrite (length_chunks (triangle_as_read _)) by reflexivity; lia).
  rewrite (lookup_chunks _ _ j c triangle) by (reflexivity || assumption).
  now apply triangle_as_read_corner.
Qed.

Lemma written_coordinate (i c : nat) (vertex : Vec3f) :
  vertices !! i = Some vertex -> (c < 3)%nat ->
  Geometry.vertices g !! (3 * (n_vertices prefix + i) + c)%nat
  = vertex_as_read unit_factor (ModelVolume.get_matrix v) vertex !! c.
Proof.
  intros Hi Hc. unfold g, volumes. simpl Geometry.vertices.
  rewrite vertices_as_read_app.
  rewrite lookup_app_r by (rewrite length_vertices_as_read; lia).
  rewrite length_vertices_as_read.
  replace (3 * (n_vertices prefix + i) + c - 3 * n_vertices prefix)%nat
    with (3 * i + c)%nat by lia.
  change (vertices_as_read unit_factor (Some v :: suffix))
    with (flat_map (vertex_as_read unit_factor (ModelVolume.get_matrix v)) vertices
          ++ vertices_as_read unit_factor suffix).
  assert (Hlt : (i < length vertices)%nat) by (apply lookup_lt_is_Some; eauto).
  rewrite lookup_app_l
    by (rewrite (length_chunks _ _ (length_vertex_as_read unit_factor _)); lia).
  apply lookup_chunks; [apply length_vertex_as_read|assumption..].
Qed.

Lemma written_vertex_is_found (j c : nat) (triangle : list Z) (idx : Z) (vertex : Vec3f) :
  indices !! j = Some triangle -> (c < 3)%nat ->
  triangle !! c = Some idx -> 0 <= idx ->
  vertices !! Z.to_nat idx = Some vertex ->
  read_vertex version g inv_matrix (Z.of_nat (3 * (n_facets prefix + j) + c))
  = Some (cut_out version inv_matrix
            (vertex_kept unit_factor (ModelVolume.get_matrix v) vertex)).
Proof.
  intros Hj Hc Hidx Hpos Hvertex.
  assert (Hlt : (Z.to_nat idx < length vertices)%nat)
    by (apply lookup_lt_is_Some; eauto).
  pose proof n_vertices_split as Hsplit.
  unfold read_vertex. rewrite Nat2Z.id, (written_index j c triangle Hj Hc), Hidx.
  simpl default. simpl.
  rewrite (to_unsigned_small (idx + Z.of_nat (n_vertices prefix))) by lia.
  rewrite (to_unsigned_small ((idx + Z.of_nat (n_vertices prefix)) * 3)) by lia.
  rewrite !to_unsigned_small by lia.
  replace (Z.to_nat ((idx + Z.of_nat (n_vertices prefix)) * 3 + 0))
    with (3 * (n_vertices prefix + Z.to_nat idx) + 0)%nat by lia.
  replace (Z.to_nat ((idx + Z.of_nat (n_vertices prefix)) * 3 + 1))
    with (3 * (n_vertices prefix + Z.to_nat idx) + 1)%nat by lia.
  replace (Z.to_nat ((idx + Z.of_nat (n_vertices prefix)) * 3 + 2))
    with (3 * (n_vertices prefix + Z.to_nat idx) + 2)%nat by lia.
  rewrite !(written_coordinate _ _ vertex Hvertex) by lia.
  rewrite vertex_as_read_kept.
  destruct (vertex_kept unit_factor (ModelVolume.get_matrix v) vertex) as [[x y] z].
  reflexivity.
Qed.

End OneVolume.

(** X23.  The triangles that the exporter writes for a volume are those
    that the importer cuts out of the geometry it has read for the range
    of that volume: with the triangles of the volumes before it counted
    as [first], the facets read from [first] on are the triangles of the
    volume, in their order, every corner being the vertex of the volume
    that the triangle names, as it was written and read, and moved back
    by the inverse matrix when the version is above 1.  This holds as
    long as every triangle has three indices, each within the vertices
    of its volume, and three times the vertices and three times the
    triangles of the object are below 2^32. *)
Theorem written_volume_is_cut_out_again
    (unit_factor : float) (version : Z) (inv_matrix : Transform3d)
    (prefix suffix : list (option ModelVolume.t)) (v : ModelVolume.t) :
  let volumes := prefix ++ Some v :: suffix in
  let vertices := TriangleMesh.its_vertices (ModelVolume.mesh v) in
  let indices := TriangleMesh.its_indices (ModelVolume.mesh v) in
  let g := Geometry.mk (vertices_as_read unit_factor volumes)
                       (triangles_as_read 0 volumes) in
  let first := Z.of_nat (n_facets prefix) in
  let last := first + Z.of_nat (length indices) - 1 in
  3 * Z.of_nat (n_vertices volumes) < 2 ^ 32 ->
  3 * Z.of_nat (n_facets volumes) < 2 ^ 32 ->
  Forall (fun triangle : list Z =>
            length triangle = 3%nat
            /\ Forall (fun idx => 0 <= idx < Z.of_nat (length vertices)) triangle)
         indices ->
  read_facets version g inv_matrix (to_unsigned (first * 3))
              (to_unsigned (last - first + 1))
  = Some (map (fun triangle : list Z =>
                 map (fun idx : Z =>
                        cut_out version inv_matrix
                          (vertex_kept unit_factor (ModelVolume.get_matrix v)
                             (default origin (vertices !! Z.to_nat idx))))
                     triangle)
              indices).
Proof.
  intros volumes vertices indices g first last Hvertices Hfacets Hvalid.
  pose proof (n_facets_split prefix suffix v) as Hsplit. fold volumes indices in Hsplit.
  unfold read_facets.
  replace (last - first + 1) with (Z.of_nat (length indices)) by (unfold last; lia).
  rewrite (to_unsigned_small (first * 3)) by (unfold first; lia).
  rewrite (to_unsigned_small (Z.of_nat (length indices))) by lia.
  rewrite <- (map_by_position
                (fun triangle : list Z =>
                   map (fun idx : Z =>
                          cut_out version inv_matrix
                            (vertex_kept unit_factor (ModelVolume.get_matrix v)
                               (default origin (vertices !! Z.to_nat idx))))
                       triangle)
                [] indices).
  apply mapM_map. intros i Hi. apply elem_of_seqZ in Hi.
  destruct (indices !! Z.to_nat i) as [triangle|] eqn:Htriangle;
    [|apply lookup_ge_None in Htriangle; lia].
  simpl default.
  pose proof (proj1 (Forall_forall _ _) Hvalid triangle
                (list_elem_of_lookup_2 _ _ _ Htriangle)) as [Hthree Hcorners].
  destruct triangle as [|a [|b [|c [|d triangle]]]]; try discriminate Hthree.
  inversion Hcorners as [|? ? Ha Hrest]; subst.
  inversion Hrest as [|? ? Hb Hrest']; subst.
  inversion Hrest' as [|? ? Hc _]; subst.
  assert (Hcorner : forall (k idx : Z),
            0 <= k < 3 -> [a; b; c] !! Z.to_nat k = Some idx ->
            0 <= idx < Z.of_nat (length vertices) ->
            read_vertex version g inv_matrix
              (to_unsigned (first * 3 + to_unsigned (i * 3) + k))
            = Some (cut_out version inv_matrix
                      (vertex_kept unit_factor (ModelVolume.get_matrix v)
                         (default origin (vertices !! Z.to_nat idx))))).
  { intros k idx Hk Hidx Hrange.
    destruct (vertices !! Z.to_nat idx) as [vertex|] eqn:Hvertex;
      [|apply lookup_ge_None in Hvertex; fold vertices in Hvertex; lia].
    simpl default.
    rewrite (to_unsigned_small (i * 3)) by lia.
    rewrite to_unsigned_small by (unfold first; lia).
    replace (first * 3 + i * 3 + k)
      with (Z.of_nat (3 * (n_facets prefix + Z.to_nat i) + Z.to_nat k))
      by (unfold first; lia).
    apply (written_vertex_is_found unit_factor version inv_matrix prefix suffix v
             Hvertices (Z.to_nat i) (Z.to_nat k) [a; b; c] idx vertex);
      try assumption; lia. }
  simpl mapM.
  rewrite (Hcorner 0 a) by (try reflexivity; lia || assumption).
  rewrite (Hcorner 1 b) by (try reflexivity; lia || assumption).
  rewrite (Hcorner 2 c) by (try reflexivity; lia || assumption).
  reflexivity.
Qed.

End CutOut.

(** * The further properties at work on concrete archives and scenes *)

Module Sample.

(** a placement: no rotation, moved by (10, 20, 30) *)
Definition placement : Transform3d :=
  map (map Q2Qc) [[1; 0; 0; 10]; [0; 1; 0; 20]; [0; 0; 1; 30]; [0; 0; 0; 1]]%Q.

Definition item : BuildItem.t := BuildItem.mk 1 placement true.

(** an exporter that has recorded one build item *)
Definition exporter_with_item : _3MF_Exporter.t :=
  _3MF_Exporter.mk [] [] [item] ∅ [] true.

(** an object whose layer height profile has six values *)
Definition profiled_object : ModelObject.t :=
  ModelObject.mk 0 "part" [Some ModelInstance.default] [] []
    (map Q2Qc [0; 0.2; 5; 0.3; 10; 0.2]%Q) [] [] Exact.no_points.

Definition profile_text : string :=
  "object_id=1|"
    +:+ _3MF_Exporter.join ";"
          (map sprintf_f (ModelObject.layer_height_profile profiled_object))
    +:+ String "010"%char "".

Definition profile_entry : ZipEntry.t :=
  ZipEntry.mk true LAYER_HEIGHTS_PROFILE_FILE 66 profile_text true [] true.

(** three lines: a profile, the same object again, and a line without bar *)
Definition profile_lines_entry : ZipEntry.t :=
  ZipEntry.mk true LAYER_HEIGHTS_PROFILE_FILE 80
    ("object_id=1|0;0.2;5;0.3;10;0.2" +:+ String "010"%char ""
     +:+ "object_id=1|0;0.2;5;0.3;10;0.2" +:+ String "010"%char ""
     +:+ "nonsense" +:+ String "010"%char "")
    true [] true.

(** the mesh of an object, as the [object] element encloses it *)
Definition mesh_events : list xml_event :=
  [start_element "mesh" [];
   start_element "vertices" [];
   start_element "vertex" ["x"; "1"; "y"; "0"; "z"; "0"]; end_element "vertex";
   end_element "vertices";
   start_element "triangles" [];
   start_element "triangle" ["v1"; "0"; "v2"; "0"; "v3"; "0"]; end_element "triangle";
   end_element "triangles";
   end_element "mesh"].

(** three vertices, and a triangle that names a sixth *)
Definition short_geometry : Geometry.t :=
  Geometry.mk (map Q2Qc [0; 0; 0; 1; 0; 0; 0; 1; 0]%Q) [0; 1; 5].

(** the importer at the end of the parts: object 1 of the model file is
    the first object of the scene, and no part has given it volumes *)
Definition importer_with_geometry : _3MF_Importer.t :=
  _3MF_Importer.set_m_geometries {[ 1 := Example.two_triangles ]}
    (_3MF_Importer.set_m_model (Model.mk [Some Example.mesh_object] 1) Example.importer).

(** a tetrahedron, repaired, with shared vertices *)
Definition tetrahedron : TriangleMesh.t :=
  TriangleMesh.mk [] 4 4 true true
    [(Q2Qc 0, Q2Qc 0, Q2Qc 0); (Q2Qc 1, Q2Qc 0, Q2Qc 0);
     (Q2Qc 0, Q2Qc 1, Q2Qc 0); (Q2Qc 0, Q2Qc 0, Q2Qc 1)]
    [[0; 1; 2]; [0; 1; 3]; [0; 2; 3]; [1; 2; 3]].

Definition lid : ModelVolume.t :=
  ModelVolume.mk "lid" tetrahedron Exact.parameter_modifier Exact.identity
    (Source.mk "lid.stl" 0 0 (Q2Qc 0, Q2Qc 0, Q2Qc 0)) [("fill_density", "20%")].

Definition lid_offsets : gmap nat Offsets.t := {[ 0%nat := Offsets.mk 0 0 3 ]}.

(** an object of two instances, the second one moved and not printable,
    and of two volumes *)
Definition two_volume_object : ModelObject.t :=
  ModelObject.mk 0 "box"
    [Some ModelInstance.default; None; Some (ModelInstance.mk false placement)]
    [Some (ModelObject.new_volume tetrahedron); Some lid] [] [] [] [] Exact.no_points.

Definition scene : Model.t := Model.mk [Some two_volume_object] 1.

(** the exporter when it writes the mesh of its first object *)
Definition exporter_at_object : _3MF_Exporter.t :=
  _3MF_Exporter.mk [] [] [] {[ 1 := ObjectData.mk two_volume_object ∅ ]} [] true.

Definition numbers : list string :=
  ["1"; "0"; "0"; "0"; "1"; "0"; "0"; "0"; "1"; "10"; "20"; "30"].

(** the exporter when both volumes of the object have their offsets *)
Definition box_offsets : gmap nat Offsets.t :=
  {[ 0%nat := Offsets.mk 0 0 3; 1%nat := Offsets.mk 4 4 7 ]}.

Definition box_data : ObjectData.t := ObjectData.mk two_volume_object box_offsets.

(** the constructor of a support point and the test on its last value *)
Definition support_point (x y z radius : float) (island : bool) : SupportPoint :=
  (x, y, z, radius, island).
Definition near_one (x : double) : bool := bool_decide (x = Q2Qc 1).


(** a support points file without header, whose line holds two values *)
Definition short_points_entry : ZipEntry.t :=
  ZipEntry.mk true SLA_SUPPORT_POINTS_FILE 16
    ("object_id=1|1 2" +:+ String "010"%char "") true [] true.

End Sample.

(** X1 at work on a placement. *)
Lemma transform_is_read_back_witness :
  get_transform_from_3mf_specs_string (_3MF_Exporter.transform_attribute Sample.placement)
  = map (map read_back) (firstn 3 Sample.placement) ++ [[d0; d0; d0; d1]].
Proof.
  apply (@transform_is_read_back Exact.externals
           (Q2Qc 1%Q) (Q2Qc 0%Q) (Q2Qc 0%Q) (Q2Qc 10%Q)
           (Q2Qc 0%Q) (Q2Qc 1%Q) (Q2Qc 0%Q) (Q2Qc 20%Q)
           (Q2Qc 0%Q) (Q2Qc 0%Q) (Q2Qc 1%Q) (Q2Qc 30%Q)
           [map Q2Qc [0; 0; 0; 1]%Q]).
  repeat (constructor; [reflexivity|]). constructor.
Defined.

(** X2 at work: the one build item is written, and read back on a scene
    that has object 1. *)
Lemma build_items_are_written_and_read_back_witness :
  _3MF_Exporter._add_build_to_model_stream Sample.exporter_with_item
  = Returns true
      (_3MF_Exporter.set_stream
         (start_element BUILD_TAG [] :: written_item Sample.item ++ [end_element BUILD_TAG])
         Sample.exporter_with_item)
  /\ for_each model_xml_event (written_item Sample.item) Example.importer_with_chain
     = _create_object_instance 1
         (get_transform_from_3mf_specs_string
            (_3MF_Exporter.transform_attribute Sample.placement))
         true 1 Example.importer_with_chain.
Proof.
  destruct (build_items_are_written_and_read_back Sample.exporter_with_item
              ltac:(discriminate)) as [Hwritten Hread].
  split; [exact Hwritten|exact (Hread Sample.item Example.importer_with_chain)].
Defined.

(** X3 at work: a profile of six values. *)
Lemma layer_height_profile_is_read_back_witness :
  Sample.profile_text
  = "object_id=1|0.000000;0.200000;5.000000;0.300000;10.000000;0.200000"
      +:+ String "010"%char ""
  /\ _3MF_Exporter._add_layer_height_profile_file_to_archive Example.output
       (Model.mk [Some Sample.profiled_object] 1) (_3MF_Exporter.constructed true)
     = Returns true
         (_3MF_Exporter.set_archive
            [(LAYER_HEIGHTS_PROFILE_FILE, text_part Sample.profile_text)]
            (_3MF_Exporter.constructed true))
  /\ _extract_layer_heights_profile_config_from_archive Sample.profile_entry
       Example.importer
     = Returns tt
         (set_m_layer_heights_profiles
            (<[1 := map (fun x => atof (sprintf_f x))
                        (ModelObject.layer_height_profile Sample.profiled_object)]>
               (m_layer_heights_profiles Example.importer))
            Example.importer).
Proof.
  split; [reflexivity|].
  destruct (layer_height_profile_is_read_back Example.output Sample.profiled_object 1%nat
              (_3MF_Exporter.constructed true))
    as [Hwritten Hread].
  - reflexivity.
  - simpl. lia.
  - reflexivity.
  - repeat (constructor; [reflexivity|]). constructor.
  - split; [exact Hwritten|].
    apply (Hread Sample.profile_entry Example.importer); reflexivity.
Defined.

(** X6 at work: an object of type [support] with a mesh. *)
Lemma object_of_another_type_is_skipped_witness :
  exists st' : _3MF_Importer.t,
    for_each model_xml_event
      (start_element "object" ["id"; "5"; "type"; "support"]
       :: Sample.mesh_events ++ [end_element "object"])
      Example.importer
    = Returns true st'
    /\ same_scene Example.importer st'.
Proof.
  apply (object_of_another_type_is_skipped ["id"; "5"; "type"; "support"]
           Sample.mesh_events Example.importer);
    reflexivity.
Defined.

(** X7 at work: the third corner of the only triangle is vertex 5 of an
    object of three vertices. *)
Lemma vertex_index_is_never_checked_witness :
  _generate_volumes Example.mesh_object Sample.short_geometry [VolumeMetadata.make 0 0]
    Example.importer
  = Undefined.
Proof.
  apply (vertex_index_is_never_checked Example.mesh_object Sample.short_geometry
           (VolumeMetadata.make 0 0) [] Example.importer 0 2 5);
    first [reflexivity | simpl; lia].
Defined.

(** X8 at work: the two triangles of object 1 end in one volume. *)
Lemma object_without_config_gets_one_volume_witness :
  exists (volume : ModelVolume.t) (o' : ModelObject.t),
    load_object (1, 0) Sample.importer_with_geometry
    = Returns true
        (set_m_model (Model.set_object 0 o' (m_model Sample.importer_with_geometry))
           Sample.importer_with_geometry)
    /\ ModelObject.volumes o' = [Some volume]
    /\ volume_triangle_count volume = triangle_count Example.two_triangles.
Proof.
  apply (object_without_config_gets_one_volume 1 0 Example.two_triangles
           Example.mesh_object Sample.importer_with_geometry);
    first [reflexivity | exact example_two_triangles_indexed | simpl; lia].
Defined.

(** X9 at work: a modifier with a name, a source file and one option. *)
Lemma written_volume_is_read_back_witness :
  for_each config_xml_event
    (_3MF_Exporter.volume_config_elements Sample.lid_offsets (0%nat, Some Sample.lid))
    Example.importer_in_object
  = Returns true
      (set_m_objects_metadata
         (<[1 := ObjectMetadata.mk []
                   [VolumeMetadata.mk 0 3 (written_volume_metadata Sample.lid)]]>
            (m_objects_metadata Example.importer_in_object))
         (set_m_curr_config (CurrentConfig.mk 1 0) Example.importer_in_object)).
Proof.
  apply (written_volume_is_read_back Sample.lid_offsets 0%nat Sample.lid (Offsets.mk 0 0 3)
           ObjectMetadata.default Example.importer_in_object);
    first [reflexivity | simpl; lia].
Defined.

(** X10 at work: three lines give one profile and two errors. *)
Lemma every_profile_line_is_accounted_for_witness :
  exists (errors : list string) (profiles : gmap Z (list double)),
    _extract_layer_heights_profile_config_from_archive Sample.profile_lines_entry
      Example.importer
    = Returns tt (with_profiles errors profiles Example.importer)
    /\ m_layer_heights_profiles Example.importer ⊆ profiles
    /\ (length errors + size profiles
        = 3 + size (m_layer_heights_profiles Example.importer))%nat.
Proof.
  apply (every_profile_line_is_accounted_for Sample.profile_lines_entry Example.importer);
    reflexivity.
Defined.

(** X12 at work on the twelve numbers of a placement. *)
Lemma transform_with_a_space_at_one_end_witness :
  get_transform_from_3mf_specs_string "1 0 0 0 1 0 0 0 1 10 20 30"
  = fill_transform Sample.numbers Identity
  /\ get_transform_from_3mf_specs_string " 1 0 0 0 1 0 0 0 1 10 20 30" = Identity
  /\ get_transform_from_3mf_specs_string "1 0 0 0 1 0 0 0 1 10 20 30 " = Identity.
Proof.
  apply (transform_with_a_space_at_one_end_is_the_identity Sample.numbers);
    [reflexivity|].
  repeat (constructor; [reflexivity|]). constructor.
Defined.

(** X14 at work: the two instances of the scene are build items 1 and 2. *)
Lemma every_instance_is_a_build_item_witness :
  exists st' : _3MF_Exporter.t,
    _3MF_Exporter._add_model_file_to_archive Example.output Sample.scene
      (_3MF_Exporter.constructed true)
    = Returns true st'
    /\ _3MF_Exporter.build_items st'
       = [BuildItem.mk 1 Exact.identity true; BuildItem.mk 2 Sample.placement false].
Proof.
  exists (final (_3MF_Exporter._add_model_file_to_archive Example.output Sample.scene
                   (_3MF_Exporter.constructed true))
                (_3MF_Exporter.constructed true)).
  assert (Hrun : _3MF_Exporter._add_model_file_to_archive Example.output Sample.scene
                   (_3MF_Exporter.constructed true)
                 = Returns true
                     (final (_3MF_Exporter._add_model_file_to_archive Example.output
                               Sample.scene (_3MF_Exporter.constructed true))
                            (_3MF_Exporter.constructed true)))
    by reflexivity.
  split; [exact Hrun|].
  exact (every_instance_is_a_build_item Example.output Sample.scene _ _ Hrun).
Defined.

(** X15 at work: two volumes of four triangles each. *)
Lemma written_ranges_partition_the_triangles_witness :
  exists st' : _3MF_Exporter.t,
    _3MF_Exporter._add_mesh_to_object_stream Sample.two_volume_object 1
      Sample.exporter_at_object
    = Returns true st'
    /\ written_ranges (_3MF_Exporter.offsets_of 1 st')
         (imap pair (ModelObject.volumes Sample.two_volume_object))
       = [VolumeMetadata.make 0 3; VolumeMetadata.make 4 7]
    /\ partition_of 8
         (written_ranges (_3MF_Exporter.offsets_of 1 st')
            (imap pair (ModelObject.volumes Sample.two_volume_object))).
Proof.
  exists (final (_3MF_Exporter._add_mesh_to_object_stream Sample.two_volume_object 1
                   Sample.exporter_at_object)
                Sample.exporter_at_object).
  assert (Hrun : _3MF_Exporter._add_mesh_to_object_stream Sample.two_volume_object 1
                   Sample.exporter_at_object
                 = Returns true
                     (final (_3MF_Exporter._add_mesh_to_object_stream
                               Sample.two_volume_object 1 Sample.exporter_at_object)
                            Sample.exporter_at_object))
    by reflexivity.
  split; [exact Hrun|].
  apply (written_ranges_partition_the_triangles Sample.two_volume_object 1
           Sample.exporter_at_object _ Hrun).
  - eexists. reflexivity.
  - repeat (constructor; [reflexivity|]). constructor.
  - reflexivity.
Defined.

(** X16 at work: the two tetrahedra of the object; the indices of the
    second one are raised by four. *)
Lemma written_mesh_is_read_back_witness :
  exists ex' : _3MF_Exporter.t,
    _3MF_Exporter._add_mesh_to_object_stream Sample.two_volume_object 1
      Sample.exporter_at_object
    = Returns true ex'
    /\ _3MF_Exporter.stream ex'
       = written_mesh (ModelObject.volumes Sample.two_volume_object)
    /\ for_each model_xml_event
         (written_mesh (ModelObject.volumes Sample.two_volume_object)) Example.importer
       = Returns true
           (with_geometry
              (Geometry.mk
                 (vertices_as_read (m_unit_factor Example.importer)
                    (ModelObject.volumes Sample.two_volume_object))
                 (triangles_as_read 0 (ModelObject.volumes Sample.two_volume_object)))
              Example.importer)
    /\ triangles_as_read 0 (ModelObject.volumes Sample.two_volume_object)
       = [0; 1; 2; 0; 1; 3; 0; 2; 3; 1; 2; 3; 4; 5; 6; 4; 5; 7; 4; 6; 7; 5; 6; 7].
Proof.
  exists (final (_3MF_Exporter._add_mesh_to_object_stream Sample.two_volume_object 1
                   Sample.exporter_at_object)
                Sample.exporter_at_object).
  assert (Hrun : _3MF_Exporter._add_mesh_to_object_stream Sample.two_volume_object 1
                   Sample.exporter_at_object
                 = Returns true
                     (final (_3MF_Exporter._add_mesh_to_object_stream
                               Sample.two_volume_object 1 Sample.exporter_at_object)
                            Sample.exporter_at_object))
    by reflexivity.
  destruct (written_mesh_is_read_back Sample.two_volume_object 1
              (ObjectData.mk Sample.two_volume_object ∅) Sample.exporter_at_object _
              Hrun eq_refl eq_refl)
    as [Hwritten Hread].
  split; [exact Hrun|]. split; [exact Hwritten|]. split; [apply Hread|reflexivity].
Defined.

(** X17 at work: the lid, a modifier with a source file and one option. *)
Lemma written_volume_attributes_are_applied_witness :
  foldl apply_volume_metadata (ModelObject.new_volume Sample.tetrahedron)
        (written_volume_metadata Sample.lid)
  = ModelVolume.mk "lid" Sample.tetrahedron
      (type_from_string (type_to_string (ModelVolume.type Sample.lid)))
      Transformation_default
      (source_applied Source.default Sample.lid)
      (options_applied DynamicPrintConfig_default Sample.lid).
Proof.
  apply (written_volume_attributes_are_applied Sample.lid
           (ModelObject.new_volume Sample.tetrahedron)).
  repeat (constructor; [reflexivity|]). constructor.
Defined.

(** X18 at work: the object of two volumes. *)
Lemma written_object_config_is_read_back_witness :
  for_each config_xml_event (_3MF_Exporter.object_config_elements (1, Sample.box_data))
    Example.importer
  = Returns true
      (set_m_objects_metadata
         (<[1 := ObjectMetadata.mk (written_object_metadata Sample.two_volume_object)
                   (written_volumes Sample.box_offsets 0
                      (ModelObject.volumes Sample.two_volume_object))]>
            (m_objects_metadata Example.importer))
         (set_m_curr_config (CurrentConfig.mk 1 1) Example.importer)).
Proof.
  apply (written_object_config_is_read_back 1 Sample.box_data Example.importer);
    first [reflexivity | simpl; lia].
Defined.

(** X19 at work: the scene stored with a config and without thumbnail. *)
Lemma stored_archive_has_its_parts_witness :
  exists (ex : _3MF_Exporter.t) (profile ranges points : list string),
    store true (Some Example.output) (Some Sample.scene) (Some Example.no_config) None
          false
    = Returns true ex
    /\ at_most LAYER_HEIGHTS_PROFILE_FILE profile
    /\ at_most LAYER_CONFIG_RANGES_FILE ranges
    /\ at_most SLA_SUPPORT_POINTS_FILE points
    /\ part_names ex
       = [CONTENT_TYPES_FILE] ++ thumbnail_part true None
         ++ [RELATIONSHIPS_FILE; MODEL_FILE]
         ++ profile ++ ranges ++ points
         ++ print_config_part (Some Example.no_config) ++ [MODEL_CONFIG_FILE]
    /\ _3MF_Exporter.file_on_disk ex = true.
Proof.
  exists (final (store true (Some Example.output) (Some Sample.scene)
                   (Some Example.no_config) None false)
                (_3MF_Exporter.constructed false)).
  assert (Hrun : store true (Some Example.output) (Some Sample.scene)
                   (Some Example.no_config) None false
                 = Returns true
                     (final (store true (Some Example.output) (Some Sample.scene)
                               (Some Example.no_config) None false)
                            (_3MF_Exporter.constructed false)))
    by reflexivity.
  destruct (stored_archive_has_its_parts true Example.output Sample.scene
              (Some Example.no_config) None false _ Hrun)
    as (profile & ranges & points & Hrest).
  exists profile, ranges, points. split; [exact Hrun|exact Hrest].
Defined.


(** X21 at work: a line of two values. *)
Lemma support_point_values_are_not_counted_witness :
  _extract_sla_support_points_from_archive Sample.support_point Sample.near_one
    "stoi" "stoi" Sample.short_points_entry Example.importer
  = Undefined.
Proof.
  apply (support_point_values_are_not_counted Sample.support_point Sample.near_one
           "stoi" "stoi" Sample.short_points_entry Example.importer
           "object_id=1|1 2" [] "object_id=1" "object_id" "1" "1 2");
    first [reflexivity | discriminate].
Defined.

(** X22 at work on the attributes of an [item]. *)
Lemma attribute_is_the_first_of_its_name_witness :
  get_attribute_value_bool ["objectid"; "1"; "printable"; "0"; "printable"; "1"]
    PRINTABLE_ATTR = false
  /\ get_attribute_value_bool ["objectid"; "1"] PRINTABLE_ATTR = true
  /\ get_attribute_value_int ["objectid"; "1"; "printable"] OBJECTID_ATTR = 0.
Proof.
  destruct attribute_is_the_first_of_its_name as (Habsent & Hfirst & Hodd).
  split; [|split].
  - apply (Hfirst [("objectid", "1")] [("printable", "1")] PRINTABLE_ATTR "0").
    intros Hin. apply list_elem_of_singleton in Hin. discriminate.
  - apply (Habsent [("objectid", "1")] PRINTABLE_ATTR).
    intros Hin. apply list_elem_of_singleton in Hin. discriminate.
  - apply (Hodd ["objectid"; "1"; "printable"] OBJECTID_ATTR). reflexivity.
Defined.

(** X23 at work: the second of two tetrahedra, read at version 2. *)
Lemma written_volume_is_cut_out_again_witness :
  let volumes := [Some (ModelObject.new_volume Sample.tetrahedron); Some Sample.lid] in
  let g := Geometry.mk (vertices_as_read (float_lit 1) volumes)
                       (triangles_as_read 0 volumes) in
  read_facets 2 g Identity (to_unsigned (4 * 3)) (to_unsigned (7 - 4 + 1))
  = Some (map (fun triangle : list Z =>
                 map (fun idx : Z =>
                        cut_out 2 Identity
                          (vertex_kept (float_lit 1) (ModelVolume.get_matrix Sample.lid)
                             (default origin
                                (TriangleMesh.its_vertices Sample.tetrahedron
                                 !! Z.to_nat idx))))
                     triangle)
              (TriangleMesh.its_indices Sample.tetrahedron)).
Proof.
  apply (written_volume_is_cut_out_again (float_lit 1) 2 Identity
           [Some (ModelObject.new_volume Sample.tetrahedron)] [] Sample.lid).
  - reflexivity.
  - reflexivity.
  - repeat (constructor;
            [split; [reflexivity|repeat (constructor; [simpl; lia|]); constructor]|]).
    constructor.
Defined.
